(** * DamageScan: the CSV cost-estimation pipeline of the API worker

    A shallow embedding of the row validator ([validateCSVRow]), the row
    loop of [parseCSVContent] and the [/api/csv/process] handler of the
    DamageScan worker (per-room calculation and project aggregation),
    together with the properties its specification states about them.

    JavaScript numbers are IEEE-754 binary64 values.  The pipeline is
    written once over an interface [JSNumber] of the arithmetic the source
    uses, and is instantiated twice:
    - at [float] (the kernel's binary64 numbers): what the worker computes,
      bit for bit;
    - at [Q] with reduced results: the same program read in exact rational
      arithmetic, in which the quantified numeric properties are proved. *)

From Stdlib Require Import ZArith QArith Qround Qreduction Lqa Lia Bool.
From Stdlib Require Import List String Ascii Permutation.
From Stdlib Require Import Floats Uint63.
From Stdlib Require Qcanon.
Import ListNotations.

Set Implicit Arguments.

(** ** Numbers *)

Declare Scope num_scope.
Delimit Scope num_scope with num.

(** The operations on numbers that the source uses.  [num_dec m d] is the
    decimal literal [m/d] ([0.15] is [num_dec 15 100]); [num_ltb a b] is
    [a < b] (so [a > b] is [num_ltb b a]); [num_truthy] is the conversion
    to boolean of [x && ...] and [x || ...]. *)
Class JSNumber (num : Type) : Type := {
  num_of_Z : Z -> num;
  num_dec : Z -> positive -> num;
  num_add : num -> num -> num;
  num_sub : num -> num -> num;
  num_mul : num -> num -> num;
  num_div : num -> num -> num;
  num_ltb : num -> num -> bool;
  num_leb : num -> num -> bool;
  num_ceil : num -> num;
  num_max : num -> num -> num;
  num_truthy : num -> bool
}.

Notation "x + y" := (num_add x y) : num_scope.
Notation "x - y" := (num_sub x y) : num_scope.
Notation "x * y" := (num_mul x y) : num_scope.
Notation "x / y" := (num_div x y) : num_scope.
Notation "x <? y" := (num_ltb x y) : num_scope.
Notation "x >? y" := (num_ltb y x) : num_scope.
Notation "x <=? y" := (num_leb x y) : num_scope.
Notation "x >=? y" := (num_leb y x) : num_scope.

(** *** Binary64 *)

Module F64.

(** Integers below [2^53] in magnitude are binary64 values. *)
Definition of_Z (z : Z) : float :=
  match z with
  | Z0 => PrimFloat.zero
  | Zpos _ => PrimFloat.of_uint63 (Uint63.of_Z z)
  | Zneg p => PrimFloat.opp (PrimFloat.of_uint63 (Uint63.of_Z (Zpos p)))
  end.

(** A decimal literal denotes the binary64 value nearest to it, which is
    what the correctly rounded quotient of its numerator and denominator
    is. *)
Definition dec (m : Z) (d : positive) : float :=
  PrimFloat.div (of_Z m) (of_Z (Zpos d)).

(** [Math.ceil]: NaN, the infinities and the zeros are returned as they
    are; a negative fraction above [-1] gives [-0]. *)
Definition ceil (x : float) : float :=
  match Prim2SF x with
  | S754_finite s m e =>
      if (0 <=? e)%Z then x
      else
        let d := Z.pow_pos 2 (Z.to_pos (- e)) in
        if s then PrimFloat.opp (of_Z (Zpos m / d))
        else of_Z ((Zpos m + d - 1) / d)
  | _ => x
  end.

(** [Math.max] of two numbers: NaN if either is, and [+0] above [-0]. *)
Definition max (a b : float) : float :=
  if PrimFloat.is_nan a || PrimFloat.is_nan b then PrimFloat.nan
  else if PrimFloat.ltb a b then b
  else if PrimFloat.ltb b a then a
  else if PrimFloat.is_zero a && PrimFloat.get_sign a then b
  else a.

(** A number is falsy when it is [+0], [-0] or NaN. *)
Definition truthy (x : float) : bool :=
  negb (PrimFloat.is_nan x || PrimFloat.is_zero x).

End F64.

#[export] Instance float_JSNumber : JSNumber float := {
  num_of_Z := F64.of_Z;
  num_dec := F64.dec;
  num_add := PrimFloat.add;
  num_sub := PrimFloat.sub;
  num_mul := PrimFloat.mul;
  num_div := PrimFloat.div;
  num_ltb := PrimFloat.ltb;
  num_leb := PrimFloat.leb;
  num_ceil := F64.ceil;
  num_max := F64.max;
  num_truthy := F64.truthy
}.

(** *** Exact rationals

    Every operation returns the reduced fraction, so that two results
    denoting the same number are the same term. *)

Module Exact.

Definition of_Z (z : Z) : Q := inject_Z z.
Definition dec (m : Z) (d : positive) : Q := Qred (m # d).
Definition add (a b : Q) : Q := Qred (a + b).
Definition sub (a b : Q) : Q := Qred (a - b).
Definition mul (a b : Q) : Q := Qred (a * b).
Definition div (a b : Q) : Q := Qred (a / b).
Definition ltb (a b : Q) : bool := negb (Qle_bool b a).
Definition leb (a b : Q) : bool := Qle_bool a b.
Definition ceil (x : Q) : Q := inject_Z (Qceiling x).
Definition max (a b : Q) : Q := if Qle_bool a b then b else a.
Definition truthy (x : Q) : bool := negb (Qeq_bool x 0).

End Exact.

#[export] Instance Q_JSNumber : JSNumber Q := {
  num_of_Z := Exact.of_Z;
  num_dec := Exact.dec;
  num_add := Exact.add;
  num_sub := Exact.sub;
  num_mul := Exact.mul;
  num_div := Exact.div;
  num_ltb := Exact.ltb;
  num_leb := Exact.leb;
  num_ceil := Exact.ceil;
  num_max := Exact.max;
  num_truthy := Exact.truthy
}.

(** ** Strings *)

(** The white space [String.prototype.trim] removes, within ASCII.  The
    strings of the model are sequences of bytes: on texts of ASCII
    characters [trim], [toLowerCase], the class [\s] and the length are
    those of JavaScript; they are not on other texts (a no-break space is
    white space there, and the length counts UTF-16 units). *)
Definition is_space (c : ascii) : bool :=
  let n := nat_of_ascii c in
  (Nat.leb 9 n && Nat.leb n 13) || Nat.eqb n 32.

Fixpoint trim_start (s : string) : string :=
  match s with
  | EmptyString => EmptyString
  | String c s' => if is_space c then trim_start s' else s
  end.

Definition string_rev (s : string) : string :=
  string_of_list_ascii (rev (list_ascii_of_string s)).

Definition trim (s : string) : string :=
  string_rev (trim_start (string_rev (trim_start s))).

(** [toLowerCase], on the ASCII letters. *)
Definition lower_ascii (c : ascii) : ascii :=
  let n := nat_of_ascii c in
  if Nat.leb 65 n && Nat.leb n 90 then ascii_of_nat (n + 32) else c.

Fixpoint toLowerCase (s : string) : string :=
  match s with
  | EmptyString => EmptyString
  | String c s' => String (lower_ascii c) (toLowerCase s')
  end.

(** [s.includes(pat)]. *)
Fixpoint includes (pat s : string) : bool :=
  String.prefix pat s
  || match s with
     | EmptyString => false
     | String _ s' => includes pat s'
     end.

(** [l.join(sep)]. *)
Definition join (sep : string) (l : list string) : string :=
  String.concat sep l.

(** A string is truthy when it is not empty. *)
Definition string_truthy (s : string) : bool :=
  negb (String.eqb s EmptyString).

(** ** Data model (the interfaces of the type definitions) *)

(** The columns of a CSV row that the validator and the handler read. *)
Module CSVRowData.
Record t (num : Type) : Type := mk {
  claim_id : string;
  generator_needed : string;
  water_category : num;
  water_class : num;
  room_id : string;
  room_name : string;
  room_temp_f : num;
  room_humidity : num;
  ceiling_materials : string;
  ceiling_damage_moisture : num;
  wall_materials : string;
  wall_damage_moisture_bottom : num;
  wall_damage_moisture_middle : num;
  wall_damage_moisture_top : num;
  wall_damage_sf : num;
  floor_materials : string;
  floor_materials_moisture : num;
  floor_damage_sf : num;
  room_sf : num;
  length_ft : num;
  width_ft : num
}.
End CSVRowData.

Module ValidationError.
Record t (num : Type) : Type := mk {
  row : nat;
  field : string;
  message : string;
  value : option num
}.
End ValidationError.

(** The labor and equipment rates of a user configuration. *)
Module UserConfiguration.
Record t (num : Type) : Type := mk {
  tech_base : num;
  supervisor_base : num;
  specialist_base : num;
  project_management_base : num;
  large_dehumidifier_daily : num;
  standard_dehumidifier_daily : num;
  air_mover_daily : num;
  heater_daily : num;
  air_scrubber_daily : num;
  injection_system_daily : num;
  generator_daily : num
}.
End UserConfiguration.

Module MaterialSpecification.
Record t (num : Type) : Type := mk {
  thickness : num;
  cost : num;
  target_mc : num
}.
End MaterialSpecification.

Module EquipmentRequirements.
Record t (num : Type) : Type := mk {
  large_units : num;
  standard_units : num;
  air_movers : num;
  heaters : num;
  air_scrubbers : num;
  injection_systems : num;
  generator_required : num;
  total_units : num;
  recommended_dehumidifier_type : string
}.
End EquipmentRequirements.

Module LaborCosts.
Record t (num : Type) : Type := mk {
  tech_hours : num;
  tech_cost : num;
  supervisor_hours : num;
  supervisor_cost : num;
  specialist_hours : num;
  specialist_cost : num;
  project_management : num;
  total_labor : num
}.
End LaborCosts.

Module EquipmentCosts.
Record t (num : Type) : Type := mk {
  daily_cost : num;
  total_days : num;
  total_equipment : num
}.
End EquipmentCosts.

Module MaterialCosts.
Record t (num : Type) : Type := mk {
  floor_treatment : num;
  wall_treatment : num;
  ceiling_treatment : num;
  disposal : num;
  antimicrobial : num;
  total_materials : num
}.
End MaterialCosts.

Module RoomCosts.
Record t (num : Type) : Type := mk {
  labor : LaborCosts.t num;
  equipment : EquipmentCosts.t num;
  materials : MaterialCosts.t num;
  subtotal : num;
  commercial_markup : num;
  total_room_cost : num;
  cost_per_sqft : num
}.
End RoomCosts.

Module RoomTimeline.
Record t (num : Type) : Type := mk {
  estimated_days : num;
  daily_monitoring_hours : num;
  base_days : num;
  class_multiplier : num;
  complexity_category : num;
  complexity_class : num
}.
End RoomTimeline.

Module ElectricalRequirements.
Record t (num : Type) : Type := mk {
  total_amperage : num;
  circuits_20a_required : num;
  circuits_15a_required : num;
  daily_kwh : num;
  voltage : string;
  generator_needed : num
}.
End ElectricalRequirements.

Module FloorMaterial.
Record t (num : Type) : Type := mk {
  material_type : string;
  material_specs : MaterialSpecification.t num;
  affected_sqft : num;
  moisture_content : num;
  volume_cuft : num;
  length_ft : num;
  width_ft : num
}.
End FloorMaterial.

Module WallMaterial.
Record t (num : Type) : Type := mk {
  material_type : string;
  material_specs : MaterialSpecification.t num;
  affected_sqft : num;
  moisture_weighted : num;
  removal_factor : num;
  volume_cuft : num
}.
End WallMaterial.

Module CeilingMaterial.
Record t (num : Type) : Type := mk {
  material_type : string;
  material_specs : MaterialSpecification.t num;
  affected_sqft : num;
  moisture_content : num;
  volume_cuft : num
}.
End CeilingMaterial.

Module RoomMaterials.
Record t (num : Type) : Type := mk {
  floor : FloorMaterial.t num;
  wall : WallMaterial.t num;
  ceiling : CeilingMaterial.t num;
  total_volume : num;
  disposal_volume : num
}.
End RoomMaterials.

Module RoomResult.
Record t (num : Type) : Type := mk {
  room_id : string;
  room_name : string;
  room_sf : num;
  equipment : EquipmentRequirements.t num;
  costs : RoomCosts.t num;
  timeline : RoomTimeline.t num;
  electrical : ElectricalRequirements.t num;
  materials : RoomMaterials.t num
}.
End RoomResult.

Module FleetRequirements.
Record t (num : Type) : Type := mk {
  large_dehumidifiers : num;
  standard_dehumidifiers : num;
  air_movers : num;
  heaters : num;
  air_scrubbers : num;
  injection_systems : num;
  generators : num;
  total_equipment_units : num
}.
End FleetRequirements.

Module ElectricalSummary.
Record t (num : Type) : Type := mk {
  total_circuits_20a : num;
  total_circuits_15a : num;
  daily_kwh : num;
  total_kwh_project : num;
  peak_amperage : num;
  voltage_standard : string
}.
End ElectricalSummary.

(** One entry of [labor_optimization.details]. *)
Module OptimizationDetail.
Record t (num : Type) : Type := mk {
  timeline : num;
  room_count : num;
  original_cost : num;
  optimized_cost : num;
  savings : num;
  room_names : string
}.
End OptimizationDetail.

Module LaborOptimization.
Record t (num : Type) : Type := mk {
  savings : num;
  supervision_savings : num;
  setup_breakdown_savings : num;
  details : list (OptimizationDetail.t num)
}.
End LaborOptimization.

Module ProjectSummary.
Record t (num : Type) : Type := mk {
  room_count : nat;
  total_cost : num;
  optimized_total_cost : num;
  total_affected_sf : num;
  total_equipment_units : num;
  total_amperage : num;
  longest_timeline : num;
  average_cost_per_sf : num;
  fleet_requirements : FleetRequirements.t num;
  electrical_summary : ElectricalSummary.t num;
  labor_optimization : LaborOptimization.t num
}.
End ProjectSummary.

Module CalculationResults.
Record t (num : Type) : Type := mk {
  rooms : list (RoomResult.t num);
  project : ProjectSummary.t num
}.
End CalculationResults.

Module CSVProcessResponse.
Record t (num : Type) : Type := mk {
  success : bool;
  results : CalculationResults.t num;
  errors : list (ValidationError.t num);
  skipped : nat
}.
End CSVProcessResponse.

(** What [createApiResponse] builds, without its time stamp. *)
Module ApiResponse.
Record t (A : Type) : Type := mk {
  success : bool;
  data : option A;
  error : option string;
  status : Z
}.
End ApiResponse.

(** ** The pipeline *)

Section Pipeline.

Context {num : Type} `{JSNumber num}.

Local Open Scope string_scope.
Local Open Scope num_scope.

Local Abbreviation int := num_of_Z.
Local Abbreviation dec := num_dec.
Local Abbreviation Row := (CSVRowData.t num).
Local Abbreviation Err := (ValidationError.t num).
Local Abbreviation Config := (UserConfiguration.t num).

(** *** validateCSVRow *)

(** [if (!row[field]?.trim()) errors.push(...)] for a required field. *)
Definition check_required (rowNumber : nat) (field v : string) : list Err :=
  if string_truthy (trim v) then []
  else [ValidationError.mk rowNumber field
          (field ++ " is required and cannot be empty") None].

(** [if (v < lo || v > hi) errors.push(...)] for a numeric field. *)
Definition check_range (rowNumber : nat) (field msg : string)
    (v lo hi : num) : list Err :=
  if (v <? lo) || (v >? hi)
  then [ValidationError.mk rowNumber field msg (Some v)]
  else [].

(** [if (row[field] && (row[field] < 0.05 || row[field] > 0.95))
    errors.push(...)] for a moisture field. *)
Definition check_moisture (rowNumber : nat) (field : string) (v : num)
    : list Err :=
  if num_truthy v && ((v <? dec 5 100) || (v >? dec 95 100))
  then [ValidationError.mk rowNumber field
          (field ++ " must be between 0.05-0.95 (5%-95%)") (Some v)]
  else [].

(** [requiredFields] and [moistureFields], each name with the value
    [row[field]] it selects. *)
Definition requiredFields (row : Row) : list (string * string) :=
  [ ("claim_id", CSVRowData.claim_id row);
    ("room_id", CSVRowData.room_id row);
    ("room_name", CSVRowData.room_name row) ].

Definition moistureFields (row : Row) : list (string * num) :=
  [ ("ceiling_damage_moisture", CSVRowData.ceiling_damage_moisture row);
    ("wall_damage_moisture_bottom",
     CSVRowData.wall_damage_moisture_bottom row);
    ("wall_damage_moisture_middle",
     CSVRowData.wall_damage_moisture_middle row);
    ("wall_damage_moisture_top", CSVRowData.wall_damage_moisture_top row);
    ("floor_materials_moisture", CSVRowData.floor_materials_moisture row) ].

(** The errors of a row, in the order the source pushes them. *)
Definition validateCSVRow (row : Row) (rowNumber : nat) : list Err :=
  (flat_map (fun fv => check_required rowNumber (fst fv) (snd fv))
     (requiredFields row)
   ++ check_range rowNumber "water_category"
        "water_category must be between 1-3 (Clean, Grey, Black)"
        (CSVRowData.water_category row) (int 1) (int 3)
   ++ check_range rowNumber "water_class"
        "water_class must be between 1-4 (Minimal, Significant, Major, Specialty)"
        (CSVRowData.water_class row) (int 1) (int 4)
   ++ check_range rowNumber "room_sf"
        "room_sf must be between 50-5000 square feet"
        (CSVRowData.room_sf row) (int 50) (int 5000)
   ++ check_range rowNumber "room_temp_f"
        "room_temp_f must be between 60-100°F"
        (CSVRowData.room_temp_f row) (int 60) (int 100)
   ++ check_range rowNumber "room_humidity"
        "room_humidity must be between 20-90%"
        (CSVRowData.room_humidity row) (int 20) (int 90)
   ++ flat_map (fun fv => check_moisture rowNumber (fst fv) (snd fv))
        (moistureFields row))%list.

(** *** parseCSVContent: the loop over the data rows

    [parseCSVContent] is taken from the point where the lines are split and
    the cells of each data line are converted ([parseFloat(value) || 0] for
    the measures, [parseInt(value) || 2] for category and class), so that its
    argument is the list of the rows built from the data lines.  The loop
    index [i] starts at 1 (line 0 is the header) and a row is validated
    under the number [i + 1]. *)

Record ParsedCSV : Type := mkParsed {
  valid : list Row;
  invalid : list Row;
  errors : list Err
}.

Fixpoint parseCSVContent_from (i : nat) (rows : list Row) : ParsedCSV :=
  match rows with
  | [] => mkParsed [] [] []
  | row :: rest =>
      let rowErrors := validateCSVRow row (i + 1)%nat in
      let p := parseCSVContent_from (S i) rest in
      if Nat.ltb 0 (List.length rowErrors)
      then mkParsed (valid p) (row :: invalid p) (rowErrors ++ errors p)%list
      else mkParsed (row :: valid p) (invalid p) (errors p)
  end.

Definition parseCSVContent (rows : list Row) : ParsedCSV :=
  parseCSVContent_from 1 rows.

(** *** The per-room calculation (the callback of [valid.map]) *)

Definition calculateRoom (cfg : Config) (row : Row) : RoomResult.t num :=
  let room_sf := CSVRowData.room_sf row in
  let water_category := CSVRowData.water_category row in
  let water_class := CSVRowData.water_class row in
  (* equipment totals *)
  let largeUnits :=
    if room_sf >? int 1500 then num_ceil (room_sf / int 2500) else int 0 in
  let standardUnits :=
    if room_sf <=? int 1500 then num_ceil (room_sf / int 1200) else int 0 in
  let airMovers := num_ceil (room_sf / int 400) in
  let heaters := if water_category >=? int 3 then int 1 else int 0 in
  let airScrubbers := if water_category >=? int 3 then int 1 else int 0 in
  let injectionSystems :=
    if includes "hardwood" (toLowerCase (CSVRowData.floor_materials row))
    then int 1 else int 0 in
  let generatorRequired :=
    if String.eqb (toLowerCase (CSVRowData.generator_needed row)) "yes"
    then int 1 else int 0 in
  let totalUnits :=
    largeUnits + standardUnits + airMovers + heaters + airScrubbers
    + injectionSystems in
  (* labor costs *)
  let techHours := totalUnits * dec 125 100 in
  let techCost := techHours * UserConfiguration.tech_base cfg in
  let supervisorHours := int 2 * (int 3 + (water_class - int 1)) in
  let supervisorCost :=
    supervisorHours * UserConfiguration.supervisor_base cfg in
  let specialistHours := if water_category >=? int 3 then int 4 else int 0 in
  let specialistCost :=
    specialistHours * UserConfiguration.specialist_base cfg in
  let projectManagement := UserConfiguration.project_management_base cfg in
  let totalLabor :=
    techCost + supervisorCost + specialistCost + projectManagement in
  (* equipment costs *)
  let dailyEquipmentCost :=
    (largeUnits * UserConfiguration.large_dehumidifier_daily cfg)
    + (standardUnits * UserConfiguration.standard_dehumidifier_daily cfg)
    + (airMovers * UserConfiguration.air_mover_daily cfg)
    + (heaters * UserConfiguration.heater_daily cfg)
    + (airScrubbers * UserConfiguration.air_scrubber_daily cfg)
    + (injectionSystems * UserConfiguration.injection_system_daily cfg)
    + (generatorRequired * UserConfiguration.generator_daily cfg) in
  let totalDays := int 3 + (water_class - int 1) in
  let totalEquipment := dailyEquipmentCost * totalDays in
  (* material costs *)
  let floorTreatment := CSVRowData.floor_damage_sf row * dec 25 10 in
  let wallTreatment := CSVRowData.wall_damage_sf row * int 2 in
  let ceilingTreatment := int 0 in
  let disposal := int 100 in
  let antimicrobial :=
    if water_category >=? int 3 then int 200 else int 0 in
  let totalMaterials :=
    floorTreatment + wallTreatment + ceilingTreatment + disposal
    + antimicrobial in
  (* final costs *)
  let subtotal := totalLabor + totalEquipment + totalMaterials in
  let commercialMarkup := subtotal * dec 15 100 in
  let totalRoomCost := subtotal + commercialMarkup in
  let costPerSqft := totalRoomCost / room_sf in
  RoomResult.mk
    (CSVRowData.room_id row)
    (CSVRowData.room_name row)
    room_sf
    (EquipmentRequirements.mk largeUnits standardUnits airMovers heaters
       airScrubbers injectionSystems generatorRequired totalUnits
       "Standard")
    (RoomCosts.mk
       (LaborCosts.mk techHours techCost supervisorHours supervisorCost
          specialistHours specialistCost projectManagement totalLabor)
       (EquipmentCosts.mk dailyEquipmentCost totalDays totalEquipment)
       (MaterialCosts.mk floorTreatment wallTreatment ceilingTreatment
          disposal antimicrobial totalMaterials)
       subtotal commercialMarkup totalRoomCost costPerSqft)
    (RoomTimeline.mk
       (int 3 + (water_class - int 1))
       (int 2)
       (int 3)
       (int 1 + (water_class - int 1) * dec 3 10)
       water_category
       water_class)
    (ElectricalRequirements.mk
       (int 45) (int 1) (int 2) (int 24) "120V"
       (if String.eqb (toLowerCase (CSVRowData.generator_needed row)) "yes"
        then int 1 else int 0))
    (RoomMaterials.mk
       (FloorMaterial.mk
          (CSVRowData.floor_materials row)
          (MaterialSpecification.mk (dec 75 100) (dec 25 10) (int 8))
          (CSVRowData.floor_damage_sf row)
          (CSVRowData.floor_materials_moisture row)
          (CSVRowData.floor_damage_sf row * dec 75 100 / int 12)
          (CSVRowData.length_ft row)
          (CSVRowData.width_ft row))
       (WallMaterial.mk
          (CSVRowData.wall_materials row)
          (MaterialSpecification.mk (dec 5 10) (dec 225 100) (int 12))
          (CSVRowData.wall_damage_sf row)
          (CSVRowData.wall_damage_moisture_bottom row * dec 5 10
           + CSVRowData.wall_damage_moisture_middle row * dec 3 10
           + CSVRowData.wall_damage_moisture_top row * dec 2 10)
          (int 1)
          (CSVRowData.wall_damage_sf row * dec 5 10 / int 12))
       (CeilingMaterial.mk
          (if string_truthy (CSVRowData.ceiling_materials row)
           then CSVRowData.ceiling_materials row else "")
          (MaterialSpecification.mk (dec 5 10) (dec 225 100) (int 12))
          (int 0)
          (if num_truthy (CSVRowData.ceiling_damage_moisture row)
           then CSVRowData.ceiling_damage_moisture row else int 0)
          (int 0))
       (int 0)
       (int 0)).

(** *** Project-level aggregation *)

(** [l.reduce((sum, x) => sum + f(x), 0)]. *)
Definition sum_by {A : Type} (f : A -> num) (l : list A) : num :=
  fold_left (fun sum x => sum + f x) l (int 0).

(** [Math.max(x, ...xs)]. *)
Definition math_max (x : num) (xs : list num) : num :=
  fold_left num_max xs x.

(** The project summary of the rows [valid] and of their results
    [room :: rooms] (there is one, the handler has returned otherwise). *)
Definition projectSummary (valid : list Row)
    (room : RoomResult.t num) (rooms : list (RoomResult.t num))
    : ProjectSummary.t num :=
  let all := room :: rooms in
  let projectTotalCost :=
    sum_by (fun r => RoomCosts.total_room_cost (RoomResult.costs r)) all in
  let projectTotalUnits :=
    sum_by (fun r =>
      EquipmentRequirements.total_units (RoomResult.equipment r)) all in
  let projectTotalAmperage := sum_by (fun _ => int 45) all in
  let longestTimeline :=
    math_max
      (RoomTimeline.estimated_days (RoomResult.timeline room))
      (map (fun r => RoomTimeline.estimated_days (RoomResult.timeline r))
         rooms) in
  let averageCostPerSf :=
    projectTotalCost / sum_by (fun r => RoomResult.room_sf r) all in
  ProjectSummary.mk
    (List.length valid)
    projectTotalCost
    (projectTotalCost * dec 95 100)
    (sum_by (fun row => CSVRowData.room_sf row) valid)
    projectTotalUnits
    projectTotalAmperage
    longestTimeline
    averageCostPerSf
    (FleetRequirements.mk
       (sum_by (fun r =>
          EquipmentRequirements.large_units (RoomResult.equipment r)) all)
       (sum_by (fun r =>
          EquipmentRequirements.standard_units (RoomResult.equipment r)) all)
       (sum_by (fun r =>
          EquipmentRequirements.air_movers (RoomResult.equipment r)) all)
       (sum_by (fun r =>
          EquipmentRequirements.heaters (RoomResult.equipment r)) all)
       (sum_by (fun r =>
          EquipmentRequirements.air_scrubbers (RoomResult.equipment r)) all)
       (sum_by (fun r =>
          EquipmentRequirements.injection_systems (RoomResult.equipment r))
          all)
       (sum_by (fun r =>
          EquipmentRequirements.generator_required (RoomResult.equipment r))
          all)
       projectTotalUnits)
    (ElectricalSummary.mk
       (sum_by (fun r =>
          ElectricalRequirements.circuits_20a_required
            (RoomResult.electrical r)) all)
       (sum_by (fun r =>
          ElectricalRequirements.circuits_15a_required
            (RoomResult.electrical r)) all)
       (sum_by (fun r =>
          ElectricalRequirements.daily_kwh (RoomResult.electrical r)) all)
       (sum_by (fun r =>
          ElectricalRequirements.daily_kwh (RoomResult.electrical r)
          * RoomTimeline.estimated_days (RoomResult.timeline r)) all)
       projectTotalAmperage
       "120V")
    (LaborOptimization.mk
       (projectTotalCost * dec 5 100)
       (projectTotalCost * dec 3 100)
       (projectTotalCost * dec 2 100)
       []).

(** *** The handler of [/api/csv/process], from the parsed rows on *)

Definition createApiResponse {A : Type} (success : bool) (data : option A)
    (error : option string) (statusCode : Z) : ApiResponse.t A :=
  ApiResponse.mk success data error statusCode.

(** [configResult] is [Some cfg] when the configuration of the user was
    retrieved. *)
Definition processCSV (rows : list Row) (configResult : option Config)
    : ApiResponse.t (CSVProcessResponse.t num) :=
  let p := parseCSVContent rows in
  match valid p with
  | [] =>
      createApiResponse false None
        (Some ("No valid rows found. Errors: "
               ++ join "; " (map (@ValidationError.message num) (errors p))))
        400
  | row :: rest =>
      match configResult with
      | None =>
          createApiResponse false None
            (Some "Failed to retrieve user configuration") 500
      | Some cfg =>
          let room := calculateRoom cfg row in
          let rooms := map (calculateRoom cfg) rest in
          let project := projectSummary (valid p) room rooms in
          let mockResults := CalculationResults.mk (room :: rooms) project in
          createApiResponse true
            (Some (CSVProcessResponse.mk true mockResults (errors p)
                     (List.length (invalid p))))
            None 200
      end
  end.

(** *** validateConfigurationData: the rates

    The checks of the database client on the labor and equipment rates, for
    a configuration in which every rate is present (the source skips an
    absent field); the checks on the moisture targets and on the name are
    left out, the calculation does not read them. *)

(** [if (value < min || value > max) errors.push(message)]. *)
Definition check_rate (message : string) (v lo hi : num) : list string :=
  if (v <? lo) || (v >? hi) then [message] else [].

Definition validateConfigurationData (cfg : Config) : list string :=
  (check_rate "tech_base must be between $25-150"
     (UserConfiguration.tech_base cfg) (int 25) (int 150)
   ++ check_rate "supervisor_base must be between $35-200"
        (UserConfiguration.supervisor_base cfg) (int 35) (int 200)
   ++ check_rate "specialist_base must be between $75-300"
        (UserConfiguration.specialist_base cfg) (int 75) (int 300)
   ++ check_rate "project_management_base must be between $100-500"
        (UserConfiguration.project_management_base cfg) (int 100) (int 500)
   ++ check_rate "large_dehumidifier_daily must be between $15-50"
        (UserConfiguration.large_dehumidifier_daily cfg) (int 15) (int 50)
   ++ check_rate "standard_dehumidifier_daily must be between $8-30"
        (UserConfiguration.standard_dehumidifier_daily cfg) (int 8) (int 30)
   ++ check_rate "air_mover_daily must be between $4-15"
        (UserConfiguration.air_mover_daily cfg) (int 4) (int 15)
   ++ check_rate "heater_daily must be between $6-25"
        (UserConfiguration.heater_daily cfg) (int 6) (int 25)
   ++ check_rate "air_scrubber_daily must be between $20-75"
        (UserConfiguration.air_scrubber_daily cfg) (int 20) (int 75)
   ++ check_rate "injection_system_daily must be between $15-50"
        (UserConfiguration.injection_system_daily cfg) (int 15) (int 50)
   ++ check_rate "generator_daily must be between $25-100"
        (UserConfiguration.generator_daily cfg) (int 25) (int 100))%list.

End Pipeline.

Arguments Exact.of_Z : simpl never.
Arguments Exact.dec : simpl never.
Arguments Exact.add : simpl never.
Arguments Exact.sub : simpl never.
Arguments Exact.mul : simpl never.
Arguments Exact.div : simpl never.
Arguments Exact.ltb : simpl never.
Arguments Exact.leb : simpl never.
Arguments Exact.ceil : simpl never.
Arguments Exact.max : simpl never.
Arguments Exact.truthy : simpl never.

(** ** Inputs and predicates of the statements *)

Section Samples.

Context {num : Type} `{JSNumber num}.

Local Open Scope string_scope.

(** [DEFAULT_CONFIGURATION] of the type definitions. *)
Definition DEFAULT_CONFIGURATION : UserConfiguration.t num :=
  UserConfiguration.mk
    (num_of_Z 55) (num_of_Z 75) (num_of_Z 120) (num_of_Z 200)
    (num_of_Z 25) (num_of_Z 15) (num_of_Z 8) (num_of_Z 12)
    (num_of_Z 35) (num_of_Z 25) (num_of_Z 45).

(** The sample data row of the README (claim CLM001, room R001), as
    [parseCSVContent] converts its cells. *)
Definition readme_row : CSVRowData.t num :=
  CSVRowData.mk "CLM001" "No" (num_of_Z 2) (num_of_Z 2) "R001"
    "Main Office" (num_of_Z 72) (num_of_Z 55) "" (num_of_Z 0) "drywall"
    (num_dec 45 100) (num_dec 25 100) (num_dec 15 100) (num_of_Z 120)
    "hardwood" (num_dec 35 100) (num_of_Z 200) (num_of_Z 400)
    (num_of_Z 20) (num_of_Z 20).

Definition with_water_class (v : num) (r : CSVRowData.t num)
    : CSVRowData.t num :=
  CSVRowData.mk (CSVRowData.claim_id r) (CSVRowData.generator_needed r)
    (CSVRowData.water_category r) v (CSVRowData.room_id r)
    (CSVRowData.room_name r) (CSVRowData.room_temp_f r)
    (CSVRowData.room_humidity r) (CSVRowData.ceiling_materials r)
    (CSVRowData.ceiling_damage_moisture r) (CSVRowData.wall_materials r)
    (CSVRowData.wall_damage_moisture_bottom r)
    (CSVRowData.wall_damage_moisture_middle r)
    (CSVRowData.wall_damage_moisture_top r) (CSVRowData.wall_damage_sf r)
    (CSVRowData.floor_materials r) (CSVRowData.floor_materials_moisture r)
    (CSVRowData.floor_damage_sf r) (CSVRowData.room_sf r)
    (CSVRowData.length_ft r) (CSVRowData.width_ft r).

Definition with_room_sf (v : num) (r : CSVRowData.t num)
    : CSVRowData.t num :=
  CSVRowData.mk (CSVRowData.claim_id r) (CSVRowData.generator_needed r)
    (CSVRowData.water_category r) (CSVRowData.water_class r)
    (CSVRowData.room_id r) (CSVRowData.room_name r)
    (CSVRowData.room_temp_f r) (CSVRowData.room_humidity r)
    (CSVRowData.ceiling_materials r) (CSVRowData.ceiling_damage_moisture r)
    (CSVRowData.wall_materials r)
    (CSVRowData.wall_damage_moisture_bottom r)
    (CSVRowData.wall_damage_moisture_middle r)
    (CSVRowData.wall_damage_moisture_top r) (CSVRowData.wall_damage_sf r)
    (CSVRowData.floor_materials r) (CSVRowData.floor_materials_moisture r)
    (CSVRowData.floor_damage_sf r) v
    (CSVRowData.length_ft r) (CSVRowData.width_ft r).

Definition with_floor_damage_sf (v : num) (r : CSVRowData.t num)
    : CSVRowData.t num :=
  CSVRowData.mk (CSVRowData.claim_id r) (CSVRowData.generator_needed r)
    (CSVRowData.water_category r) (CSVRowData.water_class r)
    (CSVRowData.room_id r) (CSVRowData.room_name r)
    (CSVRowData.room_temp_f r) (CSVRowData.room_humidity r)
    (CSVRowData.ceiling_materials r) (CSVRowData.ceiling_damage_moisture r)
    (CSVRowData.wall_materials r)
    (CSVRowData.wall_damage_moisture_bottom r)
    (CSVRowData.wall_damage_moisture_middle r)
    (CSVRowData.wall_damage_moisture_top r) (CSVRowData.wall_damage_sf r)
    (CSVRowData.floor_materials r) (CSVRowData.floor_materials_moisture r)
    v (CSVRowData.room_sf r)
    (CSVRowData.length_ft r) (CSVRowData.width_ft r).

Definition with_floor_materials_moisture (v : num) (r : CSVRowData.t num)
    : CSVRowData.t num :=
  CSVRowData.mk (CSVRowData.claim_id r) (CSVRowData.generator_needed r)
    (CSVRowData.water_category r) (CSVRowData.water_class r)
    (CSVRowData.room_id r) (CSVRowData.room_name r)
    (CSVRowData.room_temp_f r) (CSVRowData.room_humidity r)
    (CSVRowData.ceiling_materials r) (CSVRowData.ceiling_damage_moisture r)
    (CSVRowData.wall_materials r)
    (CSVRowData.wall_damage_moisture_bottom r)
    (CSVRowData.wall_damage_moisture_middle r)
    (CSVRowData.wall_damage_moisture_top r) (CSVRowData.wall_damage_sf r)
    (CSVRowData.floor_materials r) v
    (CSVRowData.floor_damage_sf r) (CSVRowData.room_sf r)
    (CSVRowData.length_ft r) (CSVRowData.width_ft r).

Definition with_floor_materials (v : string) (r : CSVRowData.t num)
    : CSVRowData.t num :=
  CSVRowData.mk (CSVRowData.claim_id r) (CSVRowData.generator_needed r)
    (CSVRowData.water_category r) (CSVRowData.water_class r)
    (CSVRowData.room_id r) (CSVRowData.room_name r)
    (CSVRowData.room_temp_f r) (CSVRowData.room_humidity r)
    (CSVRowData.ceiling_materials r) (CSVRowData.ceiling_damage_moisture r)
    (CSVRowData.wall_materials r)
    (CSVRowData.wall_damage_moisture_bottom r)
    (CSVRowData.wall_damage_moisture_middle r)
    (CSVRowData.wall_damage_moisture_top r) (CSVRowData.wall_damage_sf r)
    v (CSVRowData.floor_materials_moisture r)
    (CSVRowData.floor_damage_sf r) (CSVRowData.room_sf r)
    (CSVRowData.length_ft r) (CSVRowData.width_ft r).

End Samples.

(** The sample row with a carpet floor and [sf] square feet. *)
Definition carpet_row (sf : Z) : CSVRowData.t Q :=
  with_floor_materials "carpet" (with_room_sf (inject_Z sf) readme_row).

(** A configuration whose rates are not negative. *)
Definition config_nonneg (cfg : UserConfiguration.t Q) : Prop :=
  0 <= UserConfiguration.tech_base cfg
  /\ 0 <= UserConfiguration.supervisor_base cfg
  /\ 0 <= UserConfiguration.specialist_base cfg
  /\ 0 <= UserConfiguration.project_management_base cfg
  /\ 0 <= UserConfiguration.large_dehumidifier_daily cfg
  /\ 0 <= UserConfiguration.standard_dehumidifier_daily cfg
  /\ 0 <= UserConfiguration.air_mover_daily cfg
  /\ 0 <= UserConfiguration.heater_daily cfg
  /\ 0 <= UserConfiguration.air_scrubber_daily cfg
  /\ 0 <= UserConfiguration.injection_system_daily cfg
  /\ 0 <= UserConfiguration.generator_daily cfg.

(** A number that is a non-negative integer. *)
Definition is_count (x : Q) : Prop :=
  exists n : Z, (0 <= n)%Z /\ x = inject_Z n.

(** The reading of the electrical claim: the total amperage as a sum, over
    the equipment units of a room, of a draw fixed per kind of equipment. *)
Inductive EquipmentKind : Type :=
  | LargeDehumidifier
  | StandardDehumidifier
  | AirMover
  | Heater
  | AirScrubber
  | InjectionSystem
  | Generator.

Definition units_of {num : Type} (e : EquipmentRequirements.t num)
    (k : EquipmentKind) : num :=
  match k with
  | LargeDehumidifier => EquipmentRequirements.large_units e
  | StandardDehumidifier => EquipmentRequirements.standard_units e
  | AirMover => EquipmentRequirements.air_movers e
  | Heater => EquipmentRequirements.heaters e
  | AirScrubber => EquipmentRequirements.air_scrubbers e
  | InjectionSystem => EquipmentRequirements.injection_systems e
  | Generator => EquipmentRequirements.generator_required e
  end.

Definition amperage_of_draws (draw : EquipmentKind -> Q)
    (e : EquipmentRequirements.t Q) : Q :=
  (units_of e LargeDehumidifier * draw LargeDehumidifier
   + units_of e StandardDehumidifier * draw StandardDehumidifier
   + units_of e AirMover * draw AirMover
   + units_of e Heater * draw Heater
   + units_of e AirScrubber * draw AirScrubber
   + units_of e InjectionSystem * draw InjectionSystem
   + units_of e Generator * draw Generator)%Q.

(** The sum of a list of rationals, and the fractions in lowest terms. *)
Definition Qsum (l : list Q) : Q := fold_right Qplus 0%Q l.

Definition canonical (q : Q) : Prop := Qred q = q.

(** The timeline of a room, as the statements read it. *)
Section Timeline.

Context {num : Type} `{JSNumber num}.

(** The days, and the class multiplier reported with them, of a room. *)
Definition days_of (cfg : UserConfiguration.t num) (row : CSVRowData.t num)
    : num :=
  RoomTimeline.estimated_days (RoomResult.timeline (calculateRoom cfg row)).

Definition multiplier_of (cfg : UserConfiguration.t num)
    (row : CSVRowData.t num) : num :=
  RoomTimeline.class_multiplier
    (RoomResult.timeline (calculateRoom cfg row)).

(** [estimated_days = ceil(base_days * class_multiplier)], with the fixed
    [base_days = 3] and [daily_monitoring_hours = 2]. *)
Definition timeline_formula (cfg : UserConfiguration.t num)
    (row : CSVRowData.t num) : Prop :=
  let t := RoomResult.timeline (calculateRoom cfg row) in
  RoomTimeline.estimated_days t
  = num_ceil (num_mul (RoomTimeline.base_days t)
                (RoomTimeline.class_multiplier t))
  /\ RoomTimeline.base_days t = num_of_Z 3
  /\ RoomTimeline.daily_monitoring_hours t = num_of_Z 2.

(** The class multiplier does not decrease from class [k1] to [k2]. *)
Definition multiplier_monotone (k1 k2 : Z) : Prop :=
  forall (cfg : UserConfiguration.t num) (r1 r2 : CSVRowData.t num),
    CSVRowData.water_class r1 = num_of_Z k1 ->
    CSVRowData.water_class r2 = num_of_Z k2 ->
    num_leb (multiplier_of cfg r1) (multiplier_of cfg r2) = true.

End Timeline.

(** The validator and the row loop, as the statements read them. *)
Section ValidatorViews.

Context {num : Type} `{JSNumber num}.

Local Open Scope string_scope.

(** A row passes the validator when it yields no error (under any row
    number: see [validateCSVRow_renumber]). *)
Definition row_passes (row : CSVRowData.t num) : bool :=
  match validateCSVRow row 0 with
  | [] => true
  | _ :: _ => false
  end.

(** An error under another row number. *)
Definition renumber (n : nat) (e : ValidationError.t num)
    : ValidationError.t num :=
  ValidationError.mk n (ValidationError.field e) (ValidationError.message e)
    (ValidationError.value e).

(** The errors of all the rows, in order; the row at loop index [i] is
    validated as row [i + 1]. *)
Definition all_errors_from (i : nat) (rows : list (CSVRowData.t num))
    : list (ValidationError.t num) :=
  flat_map (fun ir => validateCSVRow (snd ir) (fst ir + 1))
    (combine (seq i (List.length rows)) rows).

(** A moisture value outside [0.05, 0.95], as the validator tests it. *)
Definition moisture_out_of_range (v : num) : bool :=
  num_ltb v (num_dec 5 100) || num_ltb (num_dec 95 100) v.

Definition moisture_error (rowNumber : nat) (field : string) (v : num)
    : ValidationError.t num :=
  ValidationError.mk rowNumber field
    (field ++ " must be between 0.05-0.95 (5%-95%)") (Some v).

(** The response of the handler when no row is valid. *)
Definition no_valid_rows_response (errors : list (ValidationError.t num))
    : ApiResponse.t (CSVProcessResponse.t num) :=
  ApiResponse.mk false None
    (Some ("No valid rows found. Errors: "
           ++ join "; " (map (@ValidationError.message num) errors)))
    400.

End ValidatorViews.

(** ** Binary64 numbers that are not negative *)

(** Binary64 numbers are read on their images by [Prim2SF]: zero, or a
    finite number above it and below [2^k] ([SFnn]; [SFpz] when the zero is
    [+0]), and a finite number above zero that is not below [2^(j-1)]
    ([SFabove]). *)
Definition SFnn (k : Z) (x : spec_float) : bool :=
  match x with
  | S754_zero _ => true
  | S754_finite false m e => (Zpos (digits2_pos m) + e <=? k)%Z
  | _ => false
  end.

Definition SFpz (k : Z) (x : spec_float) : bool :=
  match x with
  | S754_zero false => true
  | S754_finite false m e => (Zpos (digits2_pos m) + e <=? k)%Z
  | _ => false
  end.

Definition SFabove (j : Z) (x : spec_float) : bool :=
  match x with
  | S754_finite false m e => (j <=? Zpos (digits2_pos m) + e)%Z
  | _ => false
  end.

Definition f64_nn (k : Z) (x : float) : bool := SFnn k (Prim2SF x).
Definition f64_pz (k : Z) (x : float) : bool := SFpz k (Prim2SF x).
Definition f64_above (j : Z) (x : float) : bool := SFabove j (Prim2SF x).

(** The exponent of a finite number above zero, and whether a number is
    zero or finite and above zero. *)
Definition f64_exponent (x : float) : option Z :=
  match Prim2SF x with
  | S754_finite false _ e => Some e
  | _ => None
  end.

Definition f64_zero_or_above (x : float) : bool :=
  match Prim2SF x with
  | S754_zero _ | S754_finite false _ _ => true
  | _ => false
  end.

(** The integers from 0 to 128, and the check that the binary64 sum of two
    of them is their sum. *)
Definition small_integers : list Z := map Z.of_nat (seq 0 129).

Definition small_sums_exact_check : bool :=
  forallb (fun a =>
    forallb (fun b =>
      PrimFloat.Leibniz.eqb (PrimFloat.add (F64.of_Z a) (F64.of_Z b))
        (F64.of_Z (a + b))) small_integers) small_integers.

(** A binary64 cost: finite and not below zero. *)
Definition f64_cost (x : float) : Prop :=
  PrimFloat.is_finite x = true /\ PrimFloat.leb 0 x = true.

(** A count: an integer from 0 to [2^53], each of which binary64 holds
    exactly. *)
Definition f64_is_count (x : float) : Prop :=
  exists n : Z, (0 <= n <= 9007199254740992)%Z /\ x = F64.of_Z n.

(** A damaged area in binary64: from zero to [2^1000] square feet. *)
Definition max_area : float := 0x1p1000%float.

Definition f64_area (x : float) : Prop :=
  PrimFloat.leb 0 x = true /\ PrimFloat.leb x max_area = true.

(** The rates of a configuration, and a configuration that
    [validateConfigurationData] accepts and whose rates are numbers (the
    comparisons of the validation let NaN through). *)
Definition rates_of {num : Type} (cfg : UserConfiguration.t num) : list num :=
  [ UserConfiguration.tech_base cfg;
    UserConfiguration.supervisor_base cfg;
    UserConfiguration.specialist_base cfg;
    UserConfiguration.project_management_base cfg;
    UserConfiguration.large_dehumidifier_daily cfg;
    UserConfiguration.standard_dehumidifier_daily cfg;
    UserConfiguration.air_mover_daily cfg;
    UserConfiguration.heater_daily cfg;
    UserConfiguration.air_scrubber_daily cfg;
    UserConfiguration.injection_system_daily cfg;
    UserConfiguration.generator_daily cfg ].

Definition f64_config_accepted (cfg : UserConfiguration.t float) : Prop :=
  validateConfigurationData cfg = []
  /\ Forall (fun v => PrimFloat.is_nan v = false) (rates_of cfg).

(** A row that the validator passes and whose size and class are numbers
    (as [parseFloat(v) || 0] and [parseInt(v) || 2] are). *)
Definition f64_row_accepted (row : CSVRowData.t float) : Prop :=
  row_passes row = true
  /\ PrimFloat.is_nan (CSVRowData.room_sf row) = false
  /\ PrimFloat.is_nan (CSVRowData.water_class row) = false.

(** The power of two that a finite number is below. *)
Definition f64_magnitude (x : float) : Z :=
  match Prim2SF x with
  | S754_finite _ m e => (Zpos (digits2_pos m) + e)%Z
  | _ => 0%Z
  end.

From Stdlib Require DecimalString.

(** ** Further strings *)

(** [s.split(sep)] for a separator of one character. *)
Fixpoint split (sep : ascii) (s : string) : list string :=
  match s with
  | EmptyString => [EmptyString]
  | String c s' =>
      if Ascii.eqb c sep then EmptyString :: split sep s'
      else match split sep s' with
           | [] => [String c EmptyString]
           | x :: xs => String c x :: xs
           end
  end.

(** [s.replace] of every double quote (code 34) by the empty string. *)
Fixpoint remove_quotes (s : string) : string :=
  match s with
  | EmptyString => EmptyString
  | String c s' =>
      if Ascii.eqb c (ascii_of_nat 34) then remove_quotes s'
      else String c (remove_quotes s')
  end.

(** [s.endsWith(suffix)] and [s.startsWith(pat)]. *)
Fixpoint endsWith (suffix s : string) : bool :=
  String.eqb s suffix
  || match s with
     | EmptyString => false
     | String _ s' => endsWith suffix s'
     end.

Definition startsWith (pat s : string) : bool := String.prefix pat s.

(** [l.includes(x)] for an array of strings. *)
Definition array_includes (x : string) (l : list string) : bool :=
  existsb (String.eqb x) l.

(** The line feed and the carriage return. *)
Definition LF : ascii := ascii_of_nat 10.
Definition CR : ascii := ascii_of_nat 13.

(** A string that may be [undefined] is truthy when it is present and not
    empty; [o || d] is [o] when it is truthy and [d] otherwise. *)
Definition option_truthy (o : option string) : bool :=
  match o with
  | Some s => string_truthy s
  | None => false
  end.

Definition or_default (o : option string) (d : string) : string :=
  match o with
  | Some s => if string_truthy s then s else d
  | None => d
  end.

(** ** The environment, the error handler and the uploaded file *)

Module CloudflareEnv.
Record t : Type := mk {
  DB : bool;
  AUTH_DOMAIN : option string;
  AUTH_AUDIENCE : option string;
  APP_VERSION : option string;
  LOG_LEVEL : option string;
  MAX_FILE_SIZE : option string;
  CORS_ORIGINS : option string
}.
End CloudflareEnv.

Module AppConfig.
Record t (num : Type) : Type := mk {
  version : string;
  logLevel : string;
  maxFileSize : num;
  corsOrigins : list string;
  isDevelopment : bool
}.
End AppConfig.

(** What the error handler adds to its response in development. *)
Module ErrorDetail.
Record t : Type := mk {
  stack : option string;
  path : string;
  method : string
}.
End ErrorDetail.

(** An uploaded file: its size in bytes, its name and its text. *)
Module File.
Record t (num : Type) : Type := mk {
  size : num;
  name : option string;
  text : string
}.
End File.

Module FileValidation.
Record t : Type := mk {
  valid : bool;
  error : option string
}.
End FileValidation.

Section Environment.

Context {num : Type} `{JSNumber num}.

Local Open Scope string_scope.
Local Open Scope num_scope.

(** [parseInt(s, 10)] and [x.toFixed(2)] are those of the runtime. *)
Variable parseInt10 : string -> num.
Variable toFixed2 : num -> string.

(** [isNaN(x)]: NaN is the one number that is not below or equal to
    itself. *)
Definition isNaN (x : num) : bool := negb (x <=? x).

(** [REQUIRED_ENV_VARS], each name with whether [env[varName]] is truthy. *)
Definition REQUIRED_ENV_VARS (env : CloudflareEnv.t) : list (string * bool) :=
  [ ("DB", CloudflareEnv.DB env);
    ("AUTH_DOMAIN", option_truthy (CloudflareEnv.AUTH_DOMAIN env));
    ("AUTH_AUDIENCE", option_truthy (CloudflareEnv.AUTH_AUDIENCE env)) ].

Definition missing_variables (env : CloudflareEnv.t) : list string :=
  map (fun vb => "Missing required environment variable: " ++ fst vb)
    (filter (fun vb => negb (snd vb)) (REQUIRED_ENV_VARS env)).

Definition logLevels : list string := ["debug"; "info"; "warn"; "error"].

(** [validateEnvironment]: the configuration, or the message of the error
    thrown. *)
Definition validateEnvironment (env : CloudflareEnv.t)
    : string + AppConfig.t num :=
  let errors := missing_variables env in
  if Nat.ltb 0 (List.length errors)
  then inl ("Environment validation failed: " ++ join ", " errors)
  else
    let config :=
      AppConfig.mk
        (or_default (CloudflareEnv.APP_VERSION env) "1.0.0")
        (or_default (CloudflareEnv.LOG_LEVEL env) "error")
        (parseInt10 (or_default (CloudflareEnv.MAX_FILE_SIZE env) "10485760"))
        (map trim
           (split ","
              (or_default (CloudflareEnv.CORS_ORIGINS env)
                 "http://localhost:5173,https://localhost:5173")))
        (match CloudflareEnv.AUTH_DOMAIN env with
         | Some d => includes "localhost" d || includes "dev" d
         | None => false
         end) in
    if isNaN (AppConfig.maxFileSize config)
       || (AppConfig.maxFileSize config <=? num_of_Z 0)
    then inl "MAX_FILE_SIZE must be a positive number"
    else if negb (array_includes (AppConfig.logLevel config) logLevels)
    then inl "LOG_LEVEL must be one of: debug, info, warn, error"
    else inr config.

(** The response of the global error handler to an error with the given
    message and stack, for a request to [path] with [method]. *)
Definition createErrorHandler (config : AppConfig.t num)
    (message : string) (stack : option string) (path method : string)
    : ApiResponse.t ErrorDetail.t :=
  ApiResponse.mk false
    (if AppConfig.isDevelopment config
     then Some (ErrorDetail.mk stack path method) else None)
    (Some (if AppConfig.isDevelopment config
           then "Internal server error: " ++ message
           else "Internal server error"))
    500.

(** [validateCSVFile]. *)
Definition allowedTypes : list string := [".csv"; ".txt"].

Definition validateCSVFile (file : option (File.t num)) (maxSize : num)
    : FileValidation.t :=
  match file with
  | None => FileValidation.mk false (Some "No file provided")
  | Some file =>
      if File.size file >? maxSize
      then FileValidation.mk false
             (Some ("File size "
                    ++ toFixed2 (File.size file / num_of_Z 1024 / num_of_Z 1024)
                    ++ "MB exceeds maximum "
                    ++ toFixed2 (maxSize / num_of_Z 1024 / num_of_Z 1024)
                    ++ "MB"))
      else
        let fileName :=
          match File.name file with
          | Some n => if string_truthy (toLowerCase n) then toLowerCase n else ""
          | None => ""
          end in
        let hasValidExtension :=
          existsb (fun ext => endsWith ext fileName) allowedTypes in
        if negb hasValidExtension
        then FileValidation.mk false
               (Some ("Invalid file type. Allowed types: "
                      ++ join ", " allowedTypes))
        else FileValidation.mk true None
  end.

End Environment.

(** ** parseCSVContent: from the text of the file to the rows *)

(** The columns a file must have. *)
Definition requiredColumns : list string :=
  [ "claim_id"; "site_name"; "address"; "city"; "state"; "structure";
    "damage_date"; "assessment_date"; "damage_description";
    "generator_needed";
    "outdoor_temp_f"; "outdoor_humidity"; "outdoor_gpp"; "loss_source";
    "water_category"; "water_class"; "room_id"; "room_name";
    "room_temp_f"; "room_humidity"; "room_gpp"; "dew_point_f"; "wet_bulb_f";
    "ceiling_damage"; "ceiling_materials"; "ceiling_damage_moisture";
    "wall_damage"; "wall_materials"; "wall_damage_moisture_bottom";
    "wall_damage_moisture_middle"; "wall_damage_moisture_top";
    "wall_damage_sf";
    "floor_materials"; "floor_materials_moisture"; "floor_damage_sf";
    "room_sf"; "length_ft"; "width_ft"; "height_ft"; "volume_ft";
    "room_damage" ]%string.

(** [csvContent.split('\n').filter(line => line.trim())]. *)
Definition lines_of (csvContent : string) : list string :=
  filter (fun line => string_truthy (trim line)) (split LF csvContent).

(** [line.split(',').map(v => v.trim().replace(...))]: the cells of a
    line, trimmed and without their double quotes. *)
Definition cells_of (line : string) : list string :=
  map (fun v => remove_quotes (trim v)) (split "," line).

(** [requiredColumns.filter(col => !headers.includes(col))]. *)
Definition missingColumns (headers : list string) : list string :=
  filter (fun col => negb (array_includes col headers)) requiredColumns.

(** The conversion a header selects for the cells of its column. *)
Inductive CellKind : Type := Measure | Code | Text.

Definition kind_of (header : string) : CellKind :=
  if includes "_sf" header || includes "_ft" header
     || includes "temp" header || includes "humidity" header
     || includes "gpp" header || includes "volume" header
     || includes "moisture" header
  then Measure
  else if includes "category" header || includes "class" header
  then Code
  else Text.

Definition cell (num : Type) (k : CellKind) : Type :=
  match k with
  | Measure | Code => num
  | Text => string
  end.

Section CSVText.

Context {num : Type} `{JSNumber num}.

Local Open Scope string_scope.
Local Open Scope num_scope.

(** [parseFloat(s)] and [parseInt(s)] are those of the runtime. *)
Variable parseFloat : string -> num.
Variable parseInt : string -> num.

(** [x || d] on numbers. *)
Definition num_or (x d : num) : num := if num_truthy x then x else d.

(** The value stored under [header] for the cell text [value]:
    [parseFloat(value) || 0] for a measure, [parseInt(value) || 2] for
    category and class, the text itself otherwise. *)
Definition convert (header value : string) : cell num (kind_of header) :=
  match kind_of header as k return cell num k with
  | Measure => num_or (parseFloat value) (num_of_Z 0)
  | Code => num_or (parseInt value) (num_of_Z 2)
  | Text => value
  end.

(** The object [row] that [headers.forEach] fills, as the list of its
    assignments, the latest first; each one binds a header to the cell text
    [values[index] || ''] it converts.  What a key holds is read off the
    assignments by [row_get]: the conversion, which depends on the header
    and the cell text only, of the latest text bound to it. *)
Definition assign (values : list string) (row : list (string * string))
    (ih : nat * string) : list (string * string) :=
  (snd ih, or_default (nth_error values (fst ih)) "") :: row.

Definition row_object (headers values : list string)
    : list (string * string) :=
  fold_left (assign values)
    (combine (seq 0 (List.length headers)) headers) [].

Fixpoint row_lookup (row : list (string * string)) (key : string)
    : option string :=
  match row with
  | [] => None
  | (k, v) :: rest => if String.eqb k key then Some v else row_lookup rest key
  end.

(** [row[key]] for a key the headers include (see [required_columns_bound]
    below: every key read is one of the required columns, and the rows are
    built only when the headers include them all). *)
Definition row_get (row : list (string * string)) (key : string)
    : cell num (kind_of key) :=
  convert key (or_default (row_lookup row key) "").

(** The row as the validator and the handler read it. *)
Definition build_row (headers : list string) (line : string)
    : CSVRowData.t num :=
  let row := row_object headers (cells_of line) in
  CSVRowData.mk
    (row_get row "claim_id") (row_get row "generator_needed")
    (row_get row "water_category") (row_get row "water_class")
    (row_get row "room_id") (row_get row "room_name")
    (row_get row "room_temp_f") (row_get row "room_humidity")
    (row_get row "ceiling_materials") (row_get row "ceiling_damage_moisture")
    (row_get row "wall_materials")
    (row_get row "wall_damage_moisture_bottom")
    (row_get row "wall_damage_moisture_middle")
    (row_get row "wall_damage_moisture_top")
    (row_get row "wall_damage_sf")
    (row_get row "floor_materials") (row_get row "floor_materials_moisture")
    (row_get row "floor_damage_sf")
    (row_get row "room_sf") (row_get row "length_ft") (row_get row "width_ft").

(** [parseCSVContent(csvContent)].  The lines are those that are not blank,
    so the loop skips none, and nothing in the body of the loop throws, so
    its [catch] is not entered: the loop is [parseCSVContent] above, on the
    rows of the lines after the first. *)
Definition parseCSVText (csvContent : string) : ParsedCSV (num := num) :=
  let lines := lines_of csvContent in
  if Nat.ltb (List.length lines) 2
  then mkParsed [] []
         [ValidationError.mk 0 "file"
            "CSV file must contain at least a header row and one data row"
            None]
  else
    let headers := cells_of (hd "" lines) in
    let missing := missingColumns headers in
    if Nat.ltb 0 (List.length missing)
    then mkParsed [] []
           [ValidationError.mk 0 "headers"
              ("Missing required columns: " ++ join ", " missing) None]
    else parseCSVContent (map (build_row headers) (tl lines)).

End CSVText.

(** A binary64 number between two others, and the ranges of the validator
    as they read on numbers. *)
Definition f64_between (lo x hi : float) : Prop :=
  PrimFloat.leb lo x = true /\ PrimFloat.leb x hi = true.

Definition row_in_ranges (row : CSVRowData.t float) : Prop :=
  f64_between (F64.of_Z 1) (CSVRowData.water_category row) (F64.of_Z 3)
  /\ f64_between (F64.of_Z 1) (CSVRowData.water_class row) (F64.of_Z 4)
  /\ f64_between (F64.of_Z 50) (CSVRowData.room_sf row) (F64.of_Z 5000)
  /\ f64_between (F64.of_Z 60) (CSVRowData.room_temp_f row) (F64.of_Z 100)
  /\ f64_between (F64.of_Z 20) (CSVRowData.room_humidity row) (F64.of_Z 90)
  /\ Forall (fun fv => PrimFloat.is_zero (snd fv) = true
                       \/ f64_between (F64.dec 5 100) (snd fv) (F64.dec 95 100))
       (moistureFields row).

(** ** Authentication (the auth module) *)

Module AuthErrorInfo.
Record t : Type := mk {
  code : string;
  message : string;
  statusCode : Z
}.
End AuthErrorInfo.

Module AuthResult.
Record t (A : Type) : Type := mk {
  success : bool;
  data : option A;
  error : option AuthErrorInfo.t
}.
End AuthResult.

Module AuthContext.
Record t : Type := mk {
  user_id : string;
  email : option string;
  groups : option (list string)
}.
End AuthContext.

Module JWTHeader.
Record t : Type := mk {
  alg : string;
  kid : option string;
  typ : string
}.
End JWTHeader.

(** The claims of the payload that the service reads.  [exp] and [iat] are
    the numbers that the comparisons of the service see: a claim that the
    payload lacks is [undefined], which compares as NaN does and is
    falsy. *)
Module CloudflareAccessJWT.
Record t (num : Type) : Type := mk {
  iss : string;
  sub : string;
  aud : string + list string;
  exp : num;
  iat : num;
  nbf : option num;
  email : option string;
  groups : option (list string)
}.
End CloudflareAccessJWT.

(** What the lookup of the public key and [crypto.subtle.verify] come to:
    no key, a verdict, or an exception with its message. *)
Inductive SignatureCheck : Type :=
| KeyNotFound
| Verified (isValid : bool)
| VerifyThrows (message : string).

(** [s.replace(/\/$/, '')]: without its last character when it is a
    slash. *)
Fixpoint remove_trailing_slash (s : string) : string :=
  match s with
  | EmptyString => EmptyString
  | String c s' =>
      match s' with
      | EmptyString => if Ascii.eqb c "/" then EmptyString else s
      | String _ _ => String c (remove_trailing_slash s')
      end
  end.

(** The regular expression [/^Bearer\s+(.+)$/i], within ASCII: the word,
    in any case, then white space, as much of it as leaves a last group
    that is not empty and has no line terminator.  [bearer_group] is the
    match of [\s*(.+)$], the longest run of white space tried first. *)
Definition is_line_terminator (c : ascii) : bool :=
  let n := nat_of_ascii c in Nat.eqb n 10 || Nat.eqb n 13.

Fixpoint no_line_terminator (s : string) : bool :=
  match s with
  | EmptyString => true
  | String c s' => negb (is_line_terminator c) && no_line_terminator s'
  end.

Fixpoint bearer_group (s : string) : option string :=
  let here :=
    if string_truthy s && no_line_terminator s then Some s else None in
  match s with
  | EmptyString => here
  | String c s' =>
      if is_space c
      then match bearer_group s' with
           | Some token => Some token
           | None => here
           end
      else here
  end.

Definition bearer_match (authHeader : string) : option string :=
  if String.eqb (toLowerCase (substring 0 6 authHeader)) "bearer"
  then match substring 6 (String.length authHeader - 6) authHeader with
       | EmptyString => None
       | String c rest => if is_space c then bearer_group rest else None
       end
  else None.

(** [extractBearerToken]. *)
Definition extractBearerToken (authHeader : option string) : option string :=
  match authHeader with
  | None => None
  | Some h => if string_truthy h then bearer_match h else None
  end.

(** What the middleware does with a request: it answers, or it lets the
    request through with the user it has set. *)
Inductive MiddlewareResult (A : Type) : Type :=
| Respond (response : ApiResponse.t A)
| Next (user : AuthContext.t).

Arguments Respond {A} response.
Arguments Next {A} user.

Module AuthService.

Record t : Type := mk {
  authDomain : string;
  audience : string
}.

Local Open Scope string_scope.

(** The constructor: the service, or the error thrown. *)
Definition new (authDomain audience : string) : AuthErrorInfo.t + t :=
  if negb (string_truthy (trim authDomain))
  then inl (AuthErrorInfo.mk "INVALID_AUTH_DOMAIN"
              "Authentication domain is required" 500)
  else if negb (string_truthy (trim audience))
  then inl (AuthErrorInfo.mk "INVALID_AUDIENCE"
              "Audience identifier is required" 500)
  else inr (mk (remove_trailing_slash authDomain) audience).

Definition failure {A : Type} (code message : string) : AuthResult.t A :=
  AuthResult.mk false None (Some (AuthErrorInfo.mk code message 401)).

(** A failed validation returned as the result of the caller. *)
Definition returned {A B : Type} (r : AuthResult.t A) : AuthResult.t B :=
  AuthResult.mk (AuthResult.success r) None (AuthResult.error r).

Definition validateJWTHeader (header : JWTHeader.t) : AuthResult.t bool :=
  if negb (String.eqb (JWTHeader.typ header) "JWT")
  then failure "INVALID_TOKEN_TYPE"
         ("Invalid token type: " ++ JWTHeader.typ header ++ ". Expected: JWT")
  else if negb (String.eqb (JWTHeader.alg header) "RS256")
  then failure "INVALID_ALGORITHM"
         ("Unsupported algorithm: " ++ JWTHeader.alg header
          ++ ". Expected: RS256")
  else AuthResult.mk true (Some true) None.

(** [extractUserContext]. *)
Definition extractUserContext {num : Type}
    (payload : CloudflareAccessJWT.t num) : AuthContext.t :=
  AuthContext.mk (CloudflareAccessJWT.sub payload)
    (CloudflareAccessJWT.email payload)
    (Some (match CloudflareAccessJWT.groups payload with
           | Some g => g
           | None => []
           end)).

Section Service.

Context {num : Type} `{JSNumber num}.

Local Open Scope num_scope.

(** The environment of the service: the decoding of the two first parts of
    a token ([JSON.parse] of [atob] of the part, [None] when either throws),
    the check of the signature, and the clock
    ([Math.floor(Date.now() / 1000)]). *)
Variable decodeHeader : string -> option JWTHeader.t.
Variable decodePayload : string -> option (CloudflareAccessJWT.t num).
Variable checkSignature : string -> JWTHeader.t -> SignatureCheck.
Variable now : num.

Variable service : t.

(** [parseJWT]: the header and the payload, or the message of the error
    thrown. *)
Definition parseJWT (token : string)
    : string + (JWTHeader.t * CloudflareAccessJWT.t num) :=
  let parts := split "." token in
  if negb (Nat.eqb (List.length parts) 3)
  then inl "Invalid JWT format"
  else match decodeHeader (nth 0 parts ""),
             decodePayload (nth 1 parts "") with
       | Some header, Some payload => inr (header, payload)
       | _, _ => inl "Failed to parse JWT token"
       end.

Definition validateJWTPayload (payload : CloudflareAccessJWT.t num)
    : AuthResult.t bool :=
  let expectedIssuer := "https://" ++ authDomain service in
  let audiences :=
    match CloudflareAccessJWT.aud payload with
    | inl a => [a]
    | inr l => l
    end in
  let maxAge := num_of_Z 24 * num_of_Z 60 * num_of_Z 60 in
  if negb (String.eqb (CloudflareAccessJWT.iss payload) expectedIssuer)
  then failure "INVALID_ISSUER"
         ("Invalid issuer: " ++ CloudflareAccessJWT.iss payload
          ++ ". Expected: " ++ expectedIssuer)
  else if negb (array_includes (audience service) audiences)
  then failure "INVALID_AUDIENCE"
         "Invalid audience. Token not issued for this application"
  else if CloudflareAccessJWT.exp payload <=? now
  then failure "TOKEN_EXPIRED" "Token has expired"
  else if match CloudflareAccessJWT.nbf payload with
          | Some nbf => num_truthy nbf && (nbf >? now)
          | None => false
          end
  then failure "TOKEN_NOT_ACTIVE" "Token is not yet active"
  else if num_truthy (CloudflareAccessJWT.iat payload)
          && ((now - CloudflareAccessJWT.iat payload) >? maxAge)
  then failure "TOKEN_TOO_OLD" "Token is too old"
  else if negb (string_truthy (trim (CloudflareAccessJWT.sub payload)))
  then failure "MISSING_SUBJECT" "Token missing user identifier"
  else AuthResult.mk true (Some true) None.

Definition verifyJWTSignature (token : string) (header : JWTHeader.t)
    : AuthResult.t bool :=
  match checkSignature token header with
  | KeyNotFound =>
      failure "PUBLIC_KEY_NOT_FOUND"
        "Unable to find public key for token verification"
  | Verified false =>
      failure "INVALID_SIGNATURE" "Token signature verification failed"
  | Verified true => AuthResult.mk true (Some true) None
  | VerifyThrows message =>
      failure "SIGNATURE_VERIFICATION_ERROR"
        ("Signature verification error: " ++ message)
  end.

Definition validateToken (token : string) : AuthResult.t AuthContext.t :=
  if negb (string_truthy (trim token))
  then failure "TOKEN_MISSING" "Authentication token is required"
  else
    match parseJWT token with
    | inl message =>
        failure "TOKEN_VALIDATION_FAILED"
          ("Token validation failed: " ++ message)
    | inr (header, payload) =>
        let headerValidation := validateJWTHeader header in
        if negb (AuthResult.success headerValidation)
        then returned headerValidation
        else
          let payloadValidation := validateJWTPayload payload in
          if negb (AuthResult.success payloadValidation)
          then returned payloadValidation
          else
            let signatureValidation := verifyJWTSignature token header in
            if negb (AuthResult.success signatureValidation)
            then returned signatureValidation
            else AuthResult.mk true (Some (extractUserContext payload)) None
    end.

(** The middleware, on the [Authorization] header of the request. *)
Definition createMiddleware {A : Type} (authHeader : option string)
    : MiddlewareResult A :=
  if negb (option_truthy authHeader)
  then Respond (ApiResponse.mk false None
                  (Some "Authorization header is required") 401)
  else
    match bearer_match (or_default authHeader "") with
    | None =>
        Respond (ApiResponse.mk false None
          (Some "Invalid Authorization header format. Expected: Bearer <token>")
          401)
    | Some token =>
        let authResult := validateToken token in
        if negb (AuthResult.success authResult)
        then
          Respond (ApiResponse.mk false None
            (Some (or_default
                     (option_map AuthErrorInfo.message
                        (AuthResult.error authResult))
                     "Authentication failed"))
            (match AuthResult.error authResult with
             | Some e =>
                 if Z.eqb (AuthErrorInfo.statusCode e) 0 then 401
                 else AuthErrorInfo.statusCode e
             | None => 401
             end))
        else
          match AuthResult.data authResult with
          | Some user => Next user
          | None =>
              Respond (ApiResponse.mk false None
                         (Some "Authentication system error") 500)
          end
    end.

End Service.

(** [getUserId]: the user the middleware has set, if any, when its
    identifier is not empty. *)
Definition getUserId (user : option AuthContext.t) : option string :=
  match user with
  | Some u =>
      if string_truthy (AuthContext.user_id u)
      then Some (AuthContext.user_id u) else None
  | None => None
  end.

End AuthService.

(** [createAuthService] and [createDatabaseClient]: the message of the
    error thrown, or the service (the database client is the binding). *)
Definition createAuthService (env : CloudflareEnv.t)
    : string + AuthService.t :=
  if negb (option_truthy (CloudflareEnv.AUTH_DOMAIN env))
  then inl "AUTH_DOMAIN environment variable is required"%string
  else if negb (option_truthy (CloudflareEnv.AUTH_AUDIENCE env))
  then inl "AUTH_AUDIENCE environment variable is required"%string
  else
    match AuthService.new
            (or_default (CloudflareEnv.AUTH_DOMAIN env) EmptyString)
            (or_default (CloudflareEnv.AUTH_AUDIENCE env) EmptyString) with
    | inl e => inl (AuthErrorInfo.message e)
    | inr service => inr service
    end.

Definition createDatabaseClient (env : CloudflareEnv.t) : string + unit :=
  if negb (CloudflareEnv.DB env)
  then inl "D1 database binding not found in environment"%string
  else inr tt.

(** ** The database client

    The table [user_configurations] is the list of its rows (without the
    two time stamps) and the last identifier that [AUTOINCREMENT] gave
    out.  The statements of [SQL_QUERIES] are read on it: a selection is a
    search, [UNIQUE(user_id, config_name)] makes an insertion or an update
    fail when another row of the user has the name, and the client is
    followed where the database answers; that the database cannot be
    reached at all is not modelled. *)

Module DatabaseErrorInfo.
Record t : Type := mk {
  code : string;
  message : string;
  operation : string
}.
End DatabaseErrorInfo.

Module DatabaseResult.
Record t (A : Type) : Type := mk {
  success : bool;
  data : option A;
  error : option DatabaseErrorInfo.t
}.
End DatabaseResult.

(** The five target moisture contents of a configuration. *)
Module MoistureTargets.
Record t (num : Type) : Type := mk {
  hardwood_target_mc : num;
  paneling_target_mc : num;
  vinyl_target_mc : num;
  drywall_target_mc : num;
  carpet_target_mc : num
}.
End MoistureTargets.

(** A row of the table: a configuration with its database fields; its
    eleven rates are the record the calculation reads. *)
Module ConfigurationRow.
Record t (num : Type) : Type := mk {
  id : Z;
  user_id : string;
  config_name : string;
  rates : UserConfiguration.t num;
  targets : MoistureTargets.t num
}.
End ConfigurationRow.

(** [ConfigUpdateRequest & { id?: number }]: every field may be absent. *)
Module ConfigUpdateRequest.
Record t (num : Type) : Type := mk {
  id : option Z;
  config_name : option string;
  tech_base : option num;
  supervisor_base : option num;
  specialist_base : option num;
  project_management_base : option num;
  large_dehumidifier_daily : option num;
  standard_dehumidifier_daily : option num;
  air_mover_daily : option num;
  heater_daily : option num;
  air_scrubber_daily : option num;
  injection_system_daily : option num;
  generator_daily : option num;
  hardwood_target_mc : option num;
  paneling_target_mc : option num;
  vinyl_target_mc : option num;
  drywall_target_mc : option num;
  carpet_target_mc : option num
}.
End ConfigUpdateRequest.

Module Database.
Record t (num : Type) : Type := mk {
  rows : list (ConfigurationRow.t num);
  last_row_id : Z
}.
End Database.

(** An integer as JavaScript prints it. *)
Definition string_of_Z (z : Z) : string :=
  DecimalString.NilZero.string_of_int (Z.to_int z).

(** [{ ...base, ...request }] on one field. *)
Definition spread {A : Type} (base : A) (request : option A) : A :=
  match request with
  | Some v => v
  | None => base
  end.

(** The result of [run()] on a statement.  The number of rows changed and
    the last identifier given out are under [meta] ([createConfiguration]
    reads [result.meta.last_row_id]); the result has no property [changes],
    so that [result.changes] is [undefined] whatever the statement did. *)
Module D1Result.
Record t : Type := mk {
  meta_changes : nat;
  meta_last_row_id : Z
}.
Definition changes (result : t) : option nat := None.
End D1Result.

(** [x === 0] for a count that may be [undefined]. *)
Definition strictly_zero (x : option nat) : bool :=
  match x with
  | Some O => true
  | _ => false
  end.

Module DatabaseClient.

Section Client.

Context {num : Type} `{JSNumber num}.

Local Open Scope string_scope.
Local Open Scope num_scope.

Local Abbreviation Row := (ConfigurationRow.t num).
Local Abbreviation Request := (ConfigUpdateRequest.t num).
Local Abbreviation DB := (Database.t num).

Definition failure {A : Type} (code message operation : string)
    : DatabaseResult.t A :=
  DatabaseResult.mk false None
    (Some (DatabaseErrorInfo.mk code message operation)).

(** [if (value !== undefined && (value < min || value > max))
    errors.push(message)]. *)
Definition check_provided (message : string) (value : option num)
    (lo hi : num) : list string :=
  match value with
  | Some v => check_rate message v lo hi
  | None => []
  end.

(** The errors that [validateConfigurationData] collects, in order. *)
Definition validation_errors (configData : Request) : list string :=
  (check_provided "tech_base must be between $25-150"
     (ConfigUpdateRequest.tech_base configData)
     (num_of_Z 25) (num_of_Z 150)
   ++ check_provided "supervisor_base must be between $35-200"
        (ConfigUpdateRequest.supervisor_base configData)
        (num_of_Z 35) (num_of_Z 200)
   ++ check_provided "specialist_base must be between $75-300"
        (ConfigUpdateRequest.specialist_base configData)
        (num_of_Z 75) (num_of_Z 300)
   ++ check_provided "project_management_base must be between $100-500"
        (ConfigUpdateRequest.project_management_base configData)
        (num_of_Z 100) (num_of_Z 500)
   ++ check_provided "large_dehumidifier_daily must be between $15-50"
        (ConfigUpdateRequest.large_dehumidifier_daily configData)
        (num_of_Z 15) (num_of_Z 50)
   ++ check_provided "standard_dehumidifier_daily must be between $8-30"
        (ConfigUpdateRequest.standard_dehumidifier_daily configData)
        (num_of_Z 8) (num_of_Z 30)
   ++ check_provided "air_mover_daily must be between $4-15"
        (ConfigUpdateRequest.air_mover_daily configData)
        (num_of_Z 4) (num_of_Z 15)
   ++ check_provided "heater_daily must be between $6-25"
        (ConfigUpdateRequest.heater_daily configData)
        (num_of_Z 6) (num_of_Z 25)
   ++ check_provided "air_scrubber_daily must be between $20-75"
        (ConfigUpdateRequest.air_scrubber_daily configData)
        (num_of_Z 20) (num_of_Z 75)
   ++ check_provided "injection_system_daily must be between $15-50"
        (ConfigUpdateRequest.injection_system_daily configData)
        (num_of_Z 15) (num_of_Z 50)
   ++ check_provided "generator_daily must be between $25-100"
        (ConfigUpdateRequest.generator_daily configData)
        (num_of_Z 25) (num_of_Z 100)
   ++ check_provided "hardwood_target_mc must be between 6-12%"
        (ConfigUpdateRequest.hardwood_target_mc configData)
        (num_of_Z 6) (num_of_Z 12)
   ++ check_provided "paneling_target_mc must be between 8-15%"
        (ConfigUpdateRequest.paneling_target_mc configData)
        (num_of_Z 8) (num_of_Z 15)
   ++ check_provided "vinyl_target_mc must be between 1-5%"
        (ConfigUpdateRequest.vinyl_target_mc configData)
        (num_of_Z 1) (num_of_Z 5)
   ++ check_provided "drywall_target_mc must be between 10-18%"
        (ConfigUpdateRequest.drywall_target_mc configData)
        (num_of_Z 10) (num_of_Z 18)
   ++ check_provided "carpet_target_mc must be between 3-8%"
        (ConfigUpdateRequest.carpet_target_mc configData)
        (num_of_Z 3) (num_of_Z 8)
   ++ match ConfigUpdateRequest.config_name configData with
      | Some name =>
          if negb (string_truthy (trim name))
          then ["config_name cannot be empty"]
          else if Nat.ltb 50 (String.length name)
          then ["config_name must be 50 characters or less"]
          else []
      | None => []
      end)%list.

Definition validateConfigurationData (configData : Request)
    : DatabaseResult.t bool :=
  let errors := validation_errors configData in
  if Nat.ltb 0 (List.length errors)
  then failure "VALIDATION_FAILED"
         ("Configuration validation failed: " ++ join ", " errors)
         "validateConfigurationData"
  else DatabaseResult.mk true (Some true) None.

(** [DEFAULT_CONFIGURATION], its moisture targets. *)
Definition DEFAULT_TARGETS : MoistureTargets.t num :=
  MoistureTargets.mk (num_of_Z 8) (num_of_Z 10) (num_of_Z 2) (num_of_Z 12)
    (num_of_Z 5).

(** [{ ...base, ...configData }] on the rates and on the targets. *)
Definition spread_rates (base : UserConfiguration.t num)
    (configData : Request) : UserConfiguration.t num :=
  UserConfiguration.mk
    (spread (UserConfiguration.tech_base base)
       (ConfigUpdateRequest.tech_base configData))
    (spread (UserConfiguration.supervisor_base base)
       (ConfigUpdateRequest.supervisor_base configData))
    (spread (UserConfiguration.specialist_base base)
       (ConfigUpdateRequest.specialist_base configData))
    (spread (UserConfiguration.project_management_base base)
       (ConfigUpdateRequest.project_management_base configData))
    (spread (UserConfiguration.large_dehumidifier_daily base)
       (ConfigUpdateRequest.large_dehumidifier_daily configData))
    (spread (UserConfiguration.standard_dehumidifier_daily base)
       (ConfigUpdateRequest.standard_dehumidifier_daily configData))
    (spread (UserConfiguration.air_mover_daily base)
       (ConfigUpdateRequest.air_mover_daily configData))
    (spread (UserConfiguration.heater_daily base)
       (ConfigUpdateRequest.heater_daily configData))
    (spread (UserConfiguration.air_scrubber_daily base)
       (ConfigUpdateRequest.air_scrubber_daily configData))
    (spread (UserConfiguration.injection_system_daily base)
       (ConfigUpdateRequest.injection_system_daily configData))
    (spread (UserConfiguration.generator_daily base)
       (ConfigUpdateRequest.generator_daily configData)).

Definition spread_targets (base : MoistureTargets.t num)
    (configData : Request) : MoistureTargets.t num :=
  MoistureTargets.mk
    (spread (MoistureTargets.hardwood_target_mc base)
       (ConfigUpdateRequest.hardwood_target_mc configData))
    (spread (MoistureTargets.paneling_target_mc base)
       (ConfigUpdateRequest.paneling_target_mc configData))
    (spread (MoistureTargets.vinyl_target_mc base)
       (ConfigUpdateRequest.vinyl_target_mc configData))
    (spread (MoistureTargets.drywall_target_mc base)
       (ConfigUpdateRequest.drywall_target_mc configData))
    (spread (MoistureTargets.carpet_target_mc base)
       (ConfigUpdateRequest.carpet_target_mc configData)).

(** *** The statements *)

(** [SELECT_CONFIG_BY_ID] and [SELECT_CONFIG] (the name is unique for the
    user, so the order of the selection does not matter). *)
Definition select_config_by_id (db : DB) (configId : Z) (userId : string)
    : option Row :=
  find (fun r => Z.eqb (ConfigurationRow.id r) configId
                 && String.eqb (ConfigurationRow.user_id r) userId)
    (Database.rows db).

Definition select_config (db : DB) (userId configName : string)
    : option Row :=
  find (fun r => String.eqb (ConfigurationRow.user_id r) userId
                 && String.eqb (ConfigurationRow.config_name r) configName)
    (Database.rows db).

(** Whether a row other than [configId] has the name for the user. *)
Definition name_taken (db : DB) (userId configName : string)
    (configId : option Z) : bool :=
  existsb (fun r => String.eqb (ConfigurationRow.user_id r) userId
                    && String.eqb (ConfigurationRow.config_name r) configName
                    && match configId with
                       | Some i => negb (Z.eqb (ConfigurationRow.id r) i)
                       | None => true
                       end)
    (Database.rows db).

(** [INSERT_CONFIG]: the new identifier and the table, or [None] for
    [UNIQUE constraint failed]. *)
Definition insert_config (db : DB) (userId configName : string)
    (rates : UserConfiguration.t num) (targets : MoistureTargets.t num)
    : option (Z * DB) :=
  if name_taken db userId configName None then None
  else
    let newId := (Database.last_row_id db + 1)%Z in
    Some (newId,
          Database.mk
            (Database.rows db
             ++ [ConfigurationRow.mk newId userId configName rates targets])
            newId).

(** [UPDATE_CONFIG]: the number of rows changed ([meta.changes]) and the
    table, or [None] for [UNIQUE constraint failed]. *)
Definition update_config (db : DB) (configId : Z) (userId configName : string)
    (rates : UserConfiguration.t num) (targets : MoistureTargets.t num)
    : option (nat * DB) :=
  let hit (r : Row) :=
    Z.eqb (ConfigurationRow.id r) configId
    && String.eqb (ConfigurationRow.user_id r) userId in
  if existsb hit (Database.rows db)
     && name_taken db userId configName (Some configId)
  then None
  else
    Some (List.length (filter hit (Database.rows db)),
          Database.mk
            (map (fun r =>
                    if hit r
                    then ConfigurationRow.mk configId userId configName
                           rates targets
                    else r)
               (Database.rows db))
            (Database.last_row_id db)).

(** [DELETE_CONFIG]: the number of rows changed ([meta.changes]) and the
    table. *)
Definition delete_config (db : DB) (configId : Z) (userId : string)
    : nat * DB :=
  let hit (r : Row) :=
    Z.eqb (ConfigurationRow.id r) configId
    && String.eqb (ConfigurationRow.user_id r) userId in
  (List.length (filter hit (Database.rows db)),
   Database.mk (filter (fun r => negb (hit r)) (Database.rows db))
     (Database.last_row_id db)).

(** *** The methods *)

Definition getConfigurationById (configId : Z) (userId : string) (db : DB)
    : DatabaseResult.t Row :=
  if negb (string_truthy (trim userId))
  then failure "INVALID_USER_ID" "User ID is required and cannot be empty"
         "getConfigurationById"
  else if Z.eqb configId 0 || Z.leb configId 0
  then failure "INVALID_CONFIG_ID" "Valid configuration ID is required"
         "getConfigurationById"
  else
    match select_config_by_id db configId userId with
    | None =>
        failure "CONFIG_NOT_FOUND"
          ("Configuration with ID " ++ string_of_Z configId
           ++ " not found for user")
          "getConfigurationById"
    | Some result => DatabaseResult.mk true (Some result) None
    end.

Definition createConfiguration (userId : string) (configData : Request)
    (db : DB) : DatabaseResult.t Row * DB :=
  let config_name :=
    or_default (ConfigUpdateRequest.config_name configData) "default" in
  match insert_config db userId config_name
          (spread_rates DEFAULT_CONFIGURATION configData)
          (spread_targets DEFAULT_TARGETS configData) with
  | Some (last_row_id, db') =>
      (getConfigurationById last_row_id userId db', db')
  | None =>
      (failure "CONFIG_EXISTS"
         ("Configuration '" ++ config_name ++ "' already exists for user")
         "createConfiguration",
       db)
  end.

Definition updateConfiguration (userId : string) (configId : Z)
    (configData : Request) (db : DB) : DatabaseResult.t Row * DB :=
  let existingResult := getConfigurationById configId userId db in
  match DatabaseResult.success existingResult,
        DatabaseResult.data existingResult with
  | true, Some existing =>
      let config_name :=
        spread (ConfigurationRow.config_name existing)
          (ConfigUpdateRequest.config_name configData) in
      match update_config db configId userId config_name
              (spread_rates (ConfigurationRow.rates existing) configData)
              (spread_targets (ConfigurationRow.targets existing) configData)
      with
      | Some (changes, db') =>
          let result := D1Result.mk changes (Database.last_row_id db') in
          if strictly_zero (D1Result.changes result)
          then (failure "CONFIG_NOT_FOUND"
                  ("Configuration with ID " ++ string_of_Z configId
                   ++ " not found for user")
                  "updateConfiguration",
                db')
          else (getConfigurationById configId userId db', db')
      | None =>
          (failure "CONFIG_NAME_EXISTS"
             ("Configuration name '" ++ config_name
              ++ "' already exists for user")
             "updateConfiguration",
           db)
      end
  | _, _ => (existingResult, db)
  end.

Definition saveConfiguration (userId : string) (configData : Request)
    (db : DB) : DatabaseResult.t Row * DB :=
  if negb (string_truthy (trim userId))
  then (failure "INVALID_USER_ID" "User ID is required and cannot be empty"
          "saveConfiguration",
        db)
  else
    let validationResult := validateConfigurationData configData in
    if negb (DatabaseResult.success validationResult)
    then (DatabaseResult.mk (DatabaseResult.success validationResult) None
            (DatabaseResult.error validationResult),
          db)
    else
      match ConfigUpdateRequest.id configData with
      | Some configId =>
          if Z.eqb configId 0
          then createConfiguration userId configData db
          else updateConfiguration userId configId configData db
      | None => createConfiguration userId configData db
      end.

(** [createDefaultConfiguration]: the request is [{ config_name,
    ...DEFAULT_CONFIGURATION }]. *)
Definition createDefaultConfiguration (userId configName : string) (db : DB)
    : DatabaseResult.t Row * DB :=
  let d := DEFAULT_CONFIGURATION (num := num) in
  let t := DEFAULT_TARGETS in
  createConfiguration userId
    (ConfigUpdateRequest.mk None (Some configName)
       (Some (UserConfiguration.tech_base d))
       (Some (UserConfiguration.supervisor_base d))
       (Some (UserConfiguration.specialist_base d))
       (Some (UserConfiguration.project_management_base d))
       (Some (UserConfiguration.large_dehumidifier_daily d))
       (Some (UserConfiguration.standard_dehumidifier_daily d))
       (Some (UserConfiguration.air_mover_daily d))
       (Some (UserConfiguration.heater_daily d))
       (Some (UserConfiguration.air_scrubber_daily d))
       (Some (UserConfiguration.injection_system_daily d))
       (Some (UserConfiguration.generator_daily d))
       (Some (MoistureTargets.hardwood_target_mc t))
       (Some (MoistureTargets.paneling_target_mc t))
       (Some (MoistureTargets.vinyl_target_mc t))
       (Some (MoistureTargets.drywall_target_mc t))
       (Some (MoistureTargets.carpet_target_mc t)))
    db.

(** [getConfiguration(userId, configName)]. *)
Definition getConfiguration (userId configName : string) (db : DB)
    : DatabaseResult.t Row * DB :=
  if negb (string_truthy (trim userId))
  then (failure "INVALID_USER_ID" "User ID is required and cannot be empty"
          "getConfiguration",
        db)
  else
    match select_config db userId configName with
    | Some result => (DatabaseResult.mk true (Some result) None, db)
    | None => createDefaultConfiguration userId configName db
    end.

Definition deleteConfiguration (configId : Z) (userId : string) (db : DB)
    : DatabaseResult.t bool * DB :=
  if negb (string_truthy (trim userId))
  then (failure "INVALID_USER_ID" "User ID is required and cannot be empty"
          "deleteConfiguration",
        db)
  else if Z.eqb configId 0 || Z.leb configId 0
  then (failure "INVALID_CONFIG_ID" "Valid configuration ID is required"
          "deleteConfiguration",
        db)
  else
    let (changes, db') := delete_config db configId userId in
    let result := D1Result.mk changes (Database.last_row_id db') in
    if strictly_zero (D1Result.changes result)
    then (failure "CONFIG_NOT_FOUND"
            ("Configuration with ID " ++ string_of_Z configId
             ++ " not found for user")
            "deleteConfiguration",
          db')
    else (DatabaseResult.mk true (Some true) None, db').

(** [getConfigurationCount]. *)
Definition getConfigurationCount (userId : string) (db : DB)
    : DatabaseResult.t nat :=
  if negb (string_truthy (trim userId))
  then failure "INVALID_USER_ID" "User ID is required and cannot be empty"
         "getConfigurationCount"
  else
    DatabaseResult.mk true
      (Some (List.length
               (filter (fun r => String.eqb (ConfigurationRow.user_id r) userId)
                  (Database.rows db))))
      None.

End Client.

End DatabaseClient.

(** ** The application: the routes behind the authentication *)

Module App.
Record t (num : Type) : Type := mk {
  config : AppConfig.t num;
  authService : AuthService.t
}.
End App.

(** What the middleware registered on [/api/*] does with a request: the
    request goes on to its route, with the user when one was set, or the
    authentication has made a response, which the wrapper awaits and does
    not return. *)
Inductive Admission (A : Type) : Type :=
| Dropped (response : ApiResponse.t A)
| Passed (user : option AuthContext.t).

Arguments Dropped {A} response.
Arguments Passed {A} user.

(** The answer to a request: the response of the handler of the route, or
    the response of the global error handler. *)
Inductive Answer (A : Type) : Type :=
| FromHandler (response : ApiResponse.t A)
| FromErrorHandler (response : ApiResponse.t ErrorDetail.t).

Arguments FromHandler {A} response.
Arguments FromErrorHandler {A} response.

(** An answer as a client reads it at its type [ApiResponse<A>].  The
    error handler sets [data] in development only, to the stack, the path
    and the method, with [success] false; the clients read [data] of a
    response whose [success] is true. *)
Definition as_response {A : Type} (answer : Answer A) : ApiResponse.t A :=
  match answer with
  | FromHandler response => response
  | FromErrorHandler response =>
      ApiResponse.mk (ApiResponse.success response) None
        (ApiResponse.error response) (ApiResponse.status response)
  end.

Section Application.

Context {num : Type} `{JSNumber num}.

Local Open Scope string_scope.

Local Abbreviation Config := (UserConfiguration.t num).
Local Abbreviation DB := (Database.t num).

(** The runtime and the environment of the service (see above). *)
Variable parseInt10 : string -> num.
Variable toFixed2 : num -> string.
Variable parseFloat : string -> num.
Variable parseInt : string -> num.
Variable decodeHeader : string -> option JWTHeader.t.
Variable decodePayload : string -> option (CloudflareAccessJWT.t num).
Variable checkSignature : string -> JWTHeader.t -> SignatureCheck.
Variable now : num.

(** The framework finds, after the middleware and the handlers of a request
    have run, that none has returned a response or awaited the next one:
    it throws an error, with this message and this stack, which the handler
    registered by [app.onError] answers. *)
Variable notFinalizedMessage : string.
Variable notFinalizedStack : option string.

(** [createApp], as far as it can throw: the message of the error, or the
    configuration and the service that the routes use. *)
Definition createApp (env : CloudflareEnv.t) : string + App.t num :=
  match validateEnvironment parseInt10 env with
  | inl message => inl message
  | inr config =>
      match createDatabaseClient env with
      | inl message => inl message
      | inr _ =>
          match createAuthService env with
          | inl message => inl message
          | inr authService => inr (App.mk config authService)
          end
      end
  end.

(** The worker: [serve] is [app.fetch] on the request. *)
Definition fetch {A : Type} (env : CloudflareEnv.t)
    (serve : App.t num -> ApiResponse.t A) : ApiResponse.t A :=
  match createApp env with
  | inl message =>
      ApiResponse.mk false None
        (Some ("Worker initialization failed: " ++ message)) 500
  | inr app => serve app
  end.

(** The middleware registered on [/api/*]: [await next(); return] for the
    paths it exempts, and [await authMiddleware(c, next)] for the others,
    without [return]. *)
Definition apiAuthentication {A : Type} (app : App.t num) (path : string)
    (authHeader : option string) : Admission A :=
  if String.eqb path "/api/health"
     || (AppConfig.isDevelopment (App.config app)
         && startsWith "/api/debug" path)
  then Passed None
  else
    match AuthService.createMiddleware decodeHeader decodePayload
            checkSignature now (App.authService app) authHeader with
    | Respond response => Dropped response
    | Next user => Passed (Some user)
    end.

(** The handler of [/api/csv/process] from the parsed file on: the body of
    [processCSV] above. *)
Definition processParsed (p : ParsedCSV (num := num))
    (configResult : option Config)
    : ApiResponse.t (CSVProcessResponse.t num) :=
  match valid p with
  | [] =>
      createApiResponse false None
        (Some ("No valid rows found. Errors: "
               ++ join "; " (map (@ValidationError.message num) (errors p))))
        400
  | row :: rest =>
      match configResult with
      | None =>
          createApiResponse false None
            (Some "Failed to retrieve user configuration") 500
      | Some cfg =>
          let room := calculateRoom cfg row in
          let rooms := map (calculateRoom cfg) rest in
          let project := projectSummary (valid p) room rooms in
          let mockResults := CalculationResults.mk (room :: rooms) project in
          createApiResponse true
            (Some (CSVProcessResponse.mk true mockResults (errors p)
                     (List.length (invalid p))))
            None 200
      end
  end.

(** The handler of [POST /api/csv/process].  [formData] is [None] when the
    body of the request cannot be read as a form (the handler catches the
    exception), and [Some None] when the form has no entry [csv]. *)
Definition csvProcessHandler (app : App.t num) (user : option AuthContext.t)
    (formData : option (option (File.t num))) (db : DB)
    : ApiResponse.t (CSVProcessResponse.t num) * DB :=
  match AuthService.getUserId user with
  | None =>
      (createApiResponse false None
         (Some "User ID not found in request context") 401, db)
  | Some userId =>
      match formData with
      | None =>
          (createApiResponse false None (Some "CSV processing failed") 500,
           db)
      | Some csvFile =>
          let fileValidation :=
            validateCSVFile toFixed2 csvFile
              (AppConfig.maxFileSize (App.config app)) in
          if negb (FileValidation.valid fileValidation)
          then (createApiResponse false None
                  (FileValidation.error fileValidation) 400, db)
          else
            match csvFile with
            | None =>
                (createApiResponse false None (Some "CSV processing failed")
                   500, db)
            | Some file =>
                let p := parseCSVText parseFloat parseInt (File.text file) in
                match valid p with
                | [] => (processParsed p None, db)
                | _ :: _ =>
                    let (configResult, db') :=
                      DatabaseClient.getConfiguration userId "default" db in
                    if negb (DatabaseResult.success configResult)
                    then (processParsed p None, db')
                    else
                      match DatabaseResult.data configResult with
                      | Some row =>
                          (processParsed p
                             (Some (ConfigurationRow.rates row)), db')
                      | None =>
                          (createApiResponse false None
                             (Some "CSV processing failed") 500, db')
                      end
                end
            end
      end
  end.

(** The handler of [GET /api/config]. *)
Definition getConfigHandler (user : option AuthContext.t) (db : DB)
    : ApiResponse.t (ConfigurationRow.t num) * DB :=
  match AuthService.getUserId user with
  | None =>
      (createApiResponse false None
         (Some "User ID not found in request context") 401, db)
  | Some userId =>
      let (result, db') :=
        DatabaseClient.getConfiguration userId "default" db in
      if negb (DatabaseResult.success result)
      then (createApiResponse false None
              (Some (or_default
                       (option_map DatabaseErrorInfo.message
                          (DatabaseResult.error result))
                       "Failed to retrieve configuration"))
              500, db')
      else (createApiResponse true (DatabaseResult.data result) None 200, db')
  end.

(** The handler of [PUT /api/config]; [body] is [None] when the body of the
    request is not JSON. *)
Definition saveConfigHandler (user : option AuthContext.t)
    (body : option (ConfigUpdateRequest.t num)) (db : DB)
    : ApiResponse.t (ConfigurationRow.t num) * DB :=
  match AuthService.getUserId user with
  | None =>
      (createApiResponse false None
         (Some "User ID not found in request context") 401, db)
  | Some userId =>
      match body with
      | None =>
          (createApiResponse false None (Some "Invalid JSON in request body")
             400, db)
      | Some configData =>
          let (result, db') :=
            DatabaseClient.saveConfiguration userId configData db in
          if negb (DatabaseResult.success result)
          then
            let statusCode :=
              match DatabaseResult.error result with
              | Some e =>
                  if String.eqb (DatabaseErrorInfo.code e) "VALIDATION_FAILED"
                  then 400%Z else 500%Z
              | None => 500%Z
              end in
            (createApiResponse false None
               (Some (or_default
                        (option_map DatabaseErrorInfo.message
                           (DatabaseResult.error result))
                        "Failed to save configuration"))
               statusCode, db')
          else
            (createApiResponse true (DatabaseResult.data result) None 200,
             db')
      end
  end.

(** A protected route: its handler behind the middleware on [/api/*].  When
    the authentication has made a response, no response was returned and
    the next handler was not awaited: the request is answered by the error
    handler, for the error of the framework. *)
Definition protectedRoute {A : Type} (app : App.t num) (method path : string)
    (authHeader : option string)
    (handler : option AuthContext.t -> DB -> ApiResponse.t A * DB) (db : DB)
    : Answer A * DB :=
  match apiAuthentication (A := A) app path authHeader with
  | Dropped _ =>
      (FromErrorHandler
         (createErrorHandler (App.config app) notFinalizedMessage
            notFinalizedStack path method),
       db)
  | Passed user =>
      let (response, db') := handler user db in (FromHandler response, db')
  end.

Definition csvProcessRoute (app : App.t num) (authHeader : option string)
    (formData : option (option (File.t num))) (db : DB)
    : Answer (CSVProcessResponse.t num) * DB :=
  protectedRoute app "POST" "/api/csv/process" authHeader
    (fun user => csvProcessHandler app user formData) db.

Definition getConfigRoute (app : App.t num) (authHeader : option string)
    (db : DB) : Answer (ConfigurationRow.t num) * DB :=
  protectedRoute app "GET" "/api/config" authHeader getConfigHandler db.

Definition saveConfigRoute (app : App.t num) (authHeader : option string)
    (body : option (ConfigUpdateRequest.t num)) (db : DB)
    : Answer (ConfigurationRow.t num) * DB :=
  protectedRoute app "PUT" "/api/config" authHeader
    (fun user => saveConfigHandler user body) db.

End Application.

(** ** Predicates of the statements on the service and on the table *)

Section Predicates.

Context {num : Type} `{JSNumber num}.

Local Open Scope string_scope.

(** What a token that [service] accepts as [user] has passed. *)
Definition token_accepted_as
    (decodeHeader : string -> option JWTHeader.t)
    (decodePayload : string -> option (CloudflareAccessJWT.t num))
    (checkSignature : string -> JWTHeader.t -> SignatureCheck)
    (now : num) (service : AuthService.t)
    (token : string) (user : AuthContext.t) : Prop :=
  exists header payload,
    AuthService.parseJWT decodeHeader decodePayload token
    = inr (header, payload)
    /\ JWTHeader.typ header = "JWT"
    /\ JWTHeader.alg header = "RS256"
    /\ CloudflareAccessJWT.iss payload
       = "https://" ++ AuthService.authDomain service
    /\ In (AuthService.audience service)
         (match CloudflareAccessJWT.aud payload with
          | inl a => [a]
          | inr l => l
          end)
    /\ num_leb (CloudflareAccessJWT.exp payload) now = false
    /\ (forall nbf, CloudflareAccessJWT.nbf payload = Some nbf ->
          num_truthy nbf = true -> num_ltb now nbf = false)
    /\ (num_truthy (CloudflareAccessJWT.iat payload) = true ->
          num_ltb (num_mul (num_mul (num_of_Z 24) (num_of_Z 60))
                     (num_of_Z 60))
            (num_sub now (CloudflareAccessJWT.iat payload)) = false)
    /\ trim (CloudflareAccessJWT.sub payload) <> EmptyString
    /\ checkSignature token header = Verified true
    /\ user = AuthService.extractUserContext payload.

(** The codes of the failures of [validateToken]. *)
Definition token_failure_codes : list string :=
  [ "TOKEN_MISSING"; "TOKEN_VALIDATION_FAILED"; "INVALID_TOKEN_TYPE";
    "INVALID_ALGORITHM"; "INVALID_ISSUER"; "INVALID_AUDIENCE";
    "TOKEN_EXPIRED"; "TOKEN_NOT_ACTIVE"; "TOKEN_TOO_OLD"; "MISSING_SUBJECT";
    "PUBLIC_KEY_NOT_FOUND"; "INVALID_SIGNATURE";
    "SIGNATURE_VERIFICATION_ERROR" ].

(** The rates of every row pass the checks of the client. *)
Definition rows_valid (db : Database.t num) : Prop :=
  Forall (fun r => validateConfigurationData (ConfigurationRow.rates r) = [])
    (Database.rows db).

(** A table as the statements leave one: the identifiers are positive, at
    most the last one given out, and distinct, and a user has a name
    once. *)
Definition table_ok (db : Database.t num) : Prop :=
  (0 <= Database.last_row_id db)%Z
  /\ Forall (fun r => (0 < ConfigurationRow.id r
                       <= Database.last_row_id db)%Z)
       (Database.rows db)
  /\ NoDup (map (@ConfigurationRow.id num) (Database.rows db))
  /\ NoDup (map (fun r => (ConfigurationRow.user_id r,
                           ConfigurationRow.config_name r))
              (Database.rows db)).

(** The rows of the users other than [userId]. *)
Definition rows_of_others (userId : string) (db : Database.t num)
    : list (ConfigurationRow.t num) :=
  filter (fun r => negb (String.eqb (ConfigurationRow.user_id r) userId))
    (Database.rows db).

End Predicates.

(** ** The clients: the upload component and the configuration panel *)

(** A file as the browser holds it. *)
Module BrowserFile.
Record t (num : Type) : Type := mk {
  size : num;
  name : string;
  mime : string;
  text : string
}.
End BrowserFile.

Module FileValidationResult.
Record t : Type := mk {
  isValid : bool;
  error : option string;
  warnings : option (list string)
}.
End FileValidationResult.

Module UploadError.
Record t : Type := mk {
  type : string;
  message : option string;
  canRetry : bool
}.
End UploadError.

(** How a request ends: with the response of the server, with a network
    error, or with a timeout. *)
Inductive Transport : Type := Loaded | NetworkError | TimedOut.

(** A natural number as JavaScript prints it. *)
Definition string_of_nat (n : nat) : string := string_of_Z (Z.of_nat n).

Module FileUpload.

Section Upload.

Context {num : Type} `{JSNumber num}.

Local Open Scope string_scope.
Local Open Scope num_scope.

(** [formatFileSize] (logarithms, powers and [toFixed]) and the status
    text of a response are those of the runtime. *)
Variable formatFileSize : num -> string.
Variable statusText : Z -> string.

Definition getAuthToken : option string := None.

Definition MAX_FILE_SIZE : num := num_of_Z 10 * num_of_Z 1024 * num_of_Z 1024.
Definition ALLOWED_EXTENSIONS : list string := [".csv"; ".txt"].
Definition ALLOWED_MIME_TYPES : list string :=
  ["text/csv"; "text/plain"; "application/csv"].
Definition REQUIRED_CSV_HEADERS : list string := requiredColumns.

(** [warnings.length > 0 ? warnings : undefined]. *)
Definition some_warnings (warnings : list string) : option (list string) :=
  if Nat.ltb 0 (List.length warnings) then Some warnings else None.

Definition validateFile (file : option (BrowserFile.t num)) (maxSize : num)
    : FileValidationResult.t :=
  match file with
  | None => FileValidationResult.mk false (Some "No file selected") None
  | Some file =>
      if BrowserFile.size file >? maxSize
      then FileValidationResult.mk false
             (Some ("File size " ++ formatFileSize (BrowserFile.size file)
                    ++ " exceeds maximum allowed size of "
                    ++ formatFileSize maxSize))
             None
      else
        let warnings :=
          if BrowserFile.size file >? maxSize * num_dec 8 10
          then ["Large file detected ("
                ++ formatFileSize (BrowserFile.size file)
                ++ "). Processing may take longer."]
          else [] in
        let fileName := toLowerCase (BrowserFile.name file) in
        let hasValidExtension :=
          existsb (fun ext => endsWith ext fileName) ALLOWED_EXTENSIONS in
        if negb hasValidExtension
        then FileValidationResult.mk false
               (Some ("Invalid file type. Allowed types: "
                      ++ join ", " ALLOWED_EXTENSIONS))
               None
        else
          let warnings :=
            (warnings
             ++ if string_truthy (BrowserFile.mime file)
                   && negb (array_includes (BrowserFile.mime file)
                              ALLOWED_MIME_TYPES)
                then ["File MIME type not recognized as CSV. Proceeding with content validation."%string]
                else [])%list in
          FileValidationResult.mk true None (some_warnings warnings)
  end.

Definition validateCSVStructure (content : string)
    : FileValidationResult.t :=
  let lines := lines_of content in
  if Nat.ltb (List.length lines) 2
  then FileValidationResult.mk false
         (Some "CSV file must contain at least a header row and one data row")
         None
  else
    let headers :=
      map (fun h => toLowerCase (remove_quotes (trim h)))
        (split "," (hd "" lines)) in
    let missingHeaders :=
      filter (fun required =>
                negb (array_includes (toLowerCase required) headers))
        REQUIRED_CSV_HEADERS in
    if Nat.ltb 0 (List.length missingHeaders)
    then FileValidationResult.mk false
           (Some ("Missing required columns: "
                  ++ join ", " (firstn 5 missingHeaders)
                  ++ if Nat.ltb 5 (List.length missingHeaders)
                     then " and "
                          ++ string_of_nat (List.length missingHeaders - 5)
                          ++ " more"
                     else ""))
           None
    else
      let dataRows := (List.length lines - 1)%nat in
      FileValidationResult.mk true None
        (some_warnings
           (if Nat.ltb 100 dataRows
            then ["Large dataset detected (" ++ string_of_nat dataRows
                  ++ " rooms). Processing may take several minutes."]
            else [])).

(** The [Authorization] header that the component sets. *)
Definition authorization : option string :=
  match getAuthToken with
  | Some token => if string_truthy token then Some ("Bearer " ++ token) else None
  | None => None
  end.

(** The file as the form carries it to the server. *)
Definition form_file (file : BrowserFile.t num) : File.t num :=
  File.mk (BrowserFile.size file) (Some (BrowserFile.name file))
    (BrowserFile.text file).

(** [uploadFile]: what the promise resolves to, or the message of the
    error it is rejected with.  [server] is the route of the upload, from
    the [Authorization] header and the form to the response. *)
Definition uploadFile
    (server : option string -> option (option (File.t num))
              -> ApiResponse.t (CSVProcessResponse.t num))
    (transport : Transport) (file : BrowserFile.t num)
    : string + CSVProcessResponse.t num :=
  match transport with
  | NetworkError => inl "Network error occurred during upload"
  | TimedOut => inl "Upload timed out"
  | Loaded =>
      let response := server authorization (Some (Some (form_file file))) in
      let status := ApiResponse.status response in
      if Z.leb 200 status && Z.ltb status 300
      then match ApiResponse.success response, ApiResponse.data response with
           | true, Some data => inr data
           | _, _ =>
               inl (or_default (ApiResponse.error response) "Upload failed")
           end
      else inl (or_default (ApiResponse.error response)
                  ("HTTP " ++ string_of_Z status ++ ": " ++ statusText status))
  end.

(** The error that the [catch] of [processFile] sets for a message. *)
Definition categorize (errorMessage : string) : UploadError.t :=
  if includes "Network" errorMessage || includes "timeout" errorMessage
  then UploadError.mk "network" (Some errorMessage) true
  else if includes "validation" errorMessage || includes "column" errorMessage
  then UploadError.mk "validation" (Some errorMessage) false
  else if includes "HTTP 4" errorMessage
  then UploadError.mk "validation" (Some errorMessage) false
  else UploadError.mk "processing" (Some errorMessage) true.

(** How [processFile] ends: in the state [error] with an error, or in the
    state [success] with the results handed to [onResults] and the
    warnings shown. *)
Inductive UploadResult : Type :=
| Failed (error : UploadError.t)
| Succeeded (results : CalculationResults.t num) (warnings : list string).

Definition shown (warnings : option (list string)) : list string :=
  match warnings with
  | Some w => w
  | None => []
  end.

Definition processFile
    (server : option string -> option (option (File.t num))
              -> ApiResponse.t (CSVProcessResponse.t num))
    (transport : Transport) (file : BrowserFile.t num) (maxFileSize : num)
    : UploadResult :=
  let fileValidation := validateFile (Some file) maxFileSize in
  if negb (FileValidationResult.isValid fileValidation)
  then Failed (UploadError.mk "file"
                 (FileValidationResult.error fileValidation) false)
  else
    let structureValidation :=
      validateCSVStructure (BrowserFile.text file) in
    if negb (FileValidationResult.isValid structureValidation)
    then Failed (UploadError.mk "validation"
                   (FileValidationResult.error structureValidation) false)
    else
      let warnings :=
        (shown (FileValidationResult.warnings fileValidation)
         ++ shown (FileValidationResult.warnings structureValidation))%list in
      match uploadFile server transport file with
      | inl errorMessage => Failed (categorize errorMessage)
      | inr response =>
          if CSVProcessResponse.success response
          then
            let n := List.length (CSVProcessResponse.errors response) in
            let detected :=
              string_of_nat n ++ " row validation "
              ++ (if Nat.eqb n 1 then "error" else "errors") ++ " detected" in
            let skipped :=
              string_of_nat (CSVProcessResponse.skipped response)
              ++ " rows skipped due to validation errors" in
            Succeeded (CSVProcessResponse.results response)
              (if Nat.ltb 0 n
               then (warnings ++ [detected]
                     ++ if Nat.ltb 0 (CSVProcessResponse.skipped response)
                        then [skipped] else [])%list
               else warnings)
          else Failed (categorize "Invalid response structure")
      end.

End Upload.

End FileUpload.

(** A field of the panel; [read] is the value [config[field.key]]. *)
Module ConfigField.
Record t (num : Type) : Type := mk {
  key : string;
  label : string;
  min : Z;
  max : Z;
  unit : string;
  read : ConfigurationRow.t num -> num
}.
End ConfigField.

Module FieldValidation.
Record t : Type := mk {
  error : option string;
  warning : option string
}.
End FieldValidation.

Module ValidationState.
Record t : Type := mk {
  isValid : bool;
  errors : list (string * string);
  warnings : list (string * string)
}.
End ValidationState.

Module SaveState.
Inductive t : Type := idle | saving | success | error.
End SaveState.

Module ConfigurationPanel.

Section Panel.

Context {num : Type} `{JSNumber num}.

Local Open Scope string_scope.
Local Open Scope num_scope.

Local Abbreviation rate f :=
  (fun c : ConfigurationRow.t num => f (ConfigurationRow.rates c)).
Local Abbreviation target f :=
  (fun c : ConfigurationRow.t num => f (ConfigurationRow.targets c)).

(** The fields of [CONFIG_SECTIONS], section after section. *)
Definition CONFIG_SECTIONS : list (string * list (ConfigField.t num)) :=
  [ ("Labor Rates",
     [ ConfigField.mk "tech_base" "Technician Base Rate" 25 150 "$/hour"
         (rate (@UserConfiguration.tech_base num));
       ConfigField.mk "supervisor_base" "Supervisor Base Rate" 35 200
         "$/hour" (rate (@UserConfiguration.supervisor_base num));
       ConfigField.mk "specialist_base" "Specialist Base Rate" 75 300
         "$/hour" (rate (@UserConfiguration.specialist_base num));
       ConfigField.mk "project_management_base" "Project Management Fee"
         100 500 "$ flat fee"
         (rate (@UserConfiguration.project_management_base num)) ]);
    ("Equipment Daily Rates",
     [ ConfigField.mk "large_dehumidifier_daily" "Large Dehumidifier (LGR)"
         15 50 "$/day"
         (rate (@UserConfiguration.large_dehumidifier_daily num));
       ConfigField.mk "standard_dehumidifier_daily" "Standard Dehumidifier"
         8 30 "$/day"
         (rate (@UserConfiguration.standard_dehumidifier_daily num));
       ConfigField.mk "air_mover_daily" "Air Mover" 4 15 "$/day"
         (rate (@UserConfiguration.air_mover_daily num));
       ConfigField.mk "heater_daily" "Heater" 6 25 "$/day"
         (rate (@UserConfiguration.heater_daily num));
       ConfigField.mk "air_scrubber_daily" "Air Scrubber" 20 75 "$/day"
         (rate (@UserConfiguration.air_scrubber_daily num));
       ConfigField.mk "injection_system_daily" "Injection System" 15 50
         "$/day" (rate (@UserConfiguration.injection_system_daily num));
       ConfigField.mk "generator_daily" "Generator" 25 100 "$/day"
         (rate (@UserConfiguration.generator_daily num)) ]);
    ("Target Moisture Content",
     [ ConfigField.mk "hardwood_target_mc" "Hardwood Target" 6 12 "%"
         (target (@MoistureTargets.hardwood_target_mc num));
       ConfigField.mk "paneling_target_mc" "Paneling Target" 8 15 "%"
         (target (@MoistureTargets.paneling_target_mc num));
       ConfigField.mk "vinyl_target_mc" "Vinyl Target" 1 5 "%"
         (target (@MoistureTargets.vinyl_target_mc num));
       ConfigField.mk "drywall_target_mc" "Drywall Target" 10 18 "%"
         (target (@MoistureTargets.drywall_target_mc num));
       ConfigField.mk "carpet_target_mc" "Carpet Target" 3 8 "%"
         (target (@MoistureTargets.carpet_target_mc num)) ]) ].

Definition getAuthToken : option string := None.

Definition validateField (field : ConfigField.t num) (value : num)
    : FieldValidation.t :=
  let min := num_of_Z (ConfigField.min field) in
  let max := num_of_Z (ConfigField.max field) in
  if isNaN value
  then FieldValidation.mk
         (Some (ConfigField.label field ++ " is required")) None
  else if (value <? min) || (value >? max)
  then FieldValidation.mk
         (Some (ConfigField.label field ++ " must be between "
                ++ string_of_Z (ConfigField.min field) ++ " and "
                ++ string_of_Z (ConfigField.max field) ++ " "
                ++ ConfigField.unit field))
         None
  else
    let range := max - min in
    let warningThreshold := range * num_dec 1 10 in
    if value <=? min + warningThreshold
    then FieldValidation.mk None
           (Some (ConfigField.label field
                  ++ " is near the minimum recommended value"))
    else if value >=? max - warningThreshold
    then FieldValidation.mk None
           (Some (ConfigField.label field
                  ++ " is near the maximum recommended value"))
    else FieldValidation.mk None None.

(** [validateConfiguration]: the errors and the warnings by key, in the
    order of the fields. *)
Definition validateConfiguration (config : ConfigurationRow.t num)
    : ValidationState.t :=
  let fields := flat_map snd CONFIG_SECTIONS in
  let pick (part : FieldValidation.t -> option string)
           (field : ConfigField.t num) : list (string * string) :=
    match part (validateField field (ConfigField.read field config)) with
    | Some m => if string_truthy m then [(ConfigField.key field, m)] else []
    | None => []
    end in
  let errors := flat_map (pick FieldValidation.error) fields in
  let warnings := flat_map (pick FieldValidation.warning) fields in
  ValidationState.mk (Nat.eqb (List.length errors) 0) errors warnings.

(** The body of the request that [saveConfiguration] sends. *)
Definition request_of (localConfig : ConfigurationRow.t num)
    : ConfigUpdateRequest.t num :=
  let r := ConfigurationRow.rates localConfig in
  let t := ConfigurationRow.targets localConfig in
  ConfigUpdateRequest.mk None
    (Some (or_default (Some (ConfigurationRow.config_name localConfig))
             "default"))
    (Some (UserConfiguration.tech_base r))
    (Some (UserConfiguration.supervisor_base r))
    (Some (UserConfiguration.specialist_base r))
    (Some (UserConfiguration.project_management_base r))
    (Some (UserConfiguration.large_dehumidifier_daily r))
    (Some (UserConfiguration.standard_dehumidifier_daily r))
    (Some (UserConfiguration.air_mover_daily r))
    (Some (UserConfiguration.heater_daily r))
    (Some (UserConfiguration.air_scrubber_daily r))
    (Some (UserConfiguration.injection_system_daily r))
    (Some (UserConfiguration.generator_daily r))
    (Some (MoistureTargets.hardwood_target_mc t))
    (Some (MoistureTargets.paneling_target_mc t))
    (Some (MoistureTargets.vinyl_target_mc t))
    (Some (MoistureTargets.drywall_target_mc t))
    (Some (MoistureTargets.carpet_target_mc t)).

Definition authorization : option string :=
  match getAuthToken with
  | Some token => if string_truthy token then Some ("Bearer " ++ token) else None
  | None => None
  end.

(** [saveConfiguration]: the state in which the save ends and the
    configuration handed to [onConfigChange].  [server] is the route of
    the save, from the [Authorization] header and the body to the response,
    [None] when the request fails. *)
Definition saveConfiguration
    (server : option string -> option (ConfigUpdateRequest.t num)
              -> option (ApiResponse.t (ConfigurationRow.t num)))
    (localConfig : ConfigurationRow.t num)
    : SaveState.t * option (ConfigurationRow.t num) :=
  if negb (ValidationState.isValid (validateConfiguration localConfig))
  then (SaveState.error, None)
  else
    match server authorization (Some (request_of localConfig)) with
    | Some result =>
        match ApiResponse.success result, ApiResponse.data result with
        | true, Some data => (SaveState.success, Some data)
        | _, _ => (SaveState.error, None)
        end
    | None => (SaveState.error, None)
    end.

End Panel.

End ConfigurationPanel.

(** ** Samples for the statements on the text of a file *)

Section TextSamples.

Context {num : Type} `{JSNumber num}.

Local Open Scope string_scope.

(** The number that [parseFloat] and [parseInt] read in a text of digits
    with at most one point, which is what the cells of the sample are; on
    another text the sample reader gives 0, which [|| 0] and [|| 2] treat
    as they treat NaN. *)
Definition digit_of (c : ascii) : option Z :=
  let n := nat_of_ascii c in
  if Nat.leb 48 n && Nat.leb n 57 then Some (Z.of_nat (n - 48)) else None.

Fixpoint read_digits (s : string) (acc : Z) (scale : positive)
    (fraction : bool) : option (Z * positive) :=
  match s with
  | EmptyString => Some (acc, scale)
  | String c s' =>
      if Ascii.eqb c "."
      then if fraction then None else read_digits s' acc scale true
      else match digit_of c with
           | Some d =>
               read_digits s' (10 * acc + d)%Z
                 (if fraction then (10 * scale)%positive else scale) fraction
           | None => None
           end
  end.

Definition read_number (s : string) : num :=
  match s with
  | EmptyString => num_of_Z 0
  | String _ _ =>
      match read_digits s 0 1 false with
      | Some (n, d) => num_dec n d
      | None => num_of_Z 0
      end
  end.

(** The sample file of the README: its header line and its data line. *)
Definition sample_header : string :=
  "claim_id,site_name,address,city,state,structure,damage_date,"
  ++ "assessment_date,damage_description,generator_needed,"
  ++ "outdoor_temp_f,outdoor_humidity,outdoor_gpp,loss_source,"
  ++ "water_category,water_class,room_id,room_name,room_temp_f,"
  ++ "room_humidity,room_gpp,dew_point_f,wet_bulb_f,"
  ++ "ceiling_damage,ceiling_materials,ceiling_damage_moisture,"
  ++ "wall_damage,wall_materials,wall_damage_moisture_bottom,"
  ++ "wall_damage_moisture_middle,wall_damage_moisture_top,"
  ++ "wall_damage_sf,floor_materials,floor_materials_moisture,"
  ++ "floor_damage_sf,room_sf,length_ft,width_ft,height_ft,"
  ++ "volume_ft,room_damage".

Definition sample_line : string :=
  "CLM001,Municipal Building,123 Main St,Anytown,FL,Commercial,"
  ++ "2024-01-15,2024-01-16,Pipe burst flooding,No,78,65,89,"
  ++ "Supply line,2,2,R001,Main Office,72,55,76,58,62,No,,0,Yes,"
  ++ "drywall,0.45,0.25,0.15,120,hardwood,0.35,200,400,20,20,10,"
  ++ "4000,Significant".

Definition sample_csv : string :=
  sample_header ++ String LF sample_line.

(** An application in production, a user, the sample file as uploaded, and
    the table before any request. *)
Definition sample_app : App.t num :=
  App.mk
    (AppConfig.mk "1.0.0" "error" (num_of_Z 10485760)
       ["http://localhost:5173"; "https://localhost:5173"] false)
    (AuthService.mk "team.cloudflareaccess.com" "aud-1").

Definition sample_user : AuthContext.t :=
  AuthContext.mk "user-7" (Some "u7@example.com") (Some []).

Definition sample_file : File.t num :=
  File.mk (num_of_Z 1024) (Some "Rooms.CSV") sample_csv.

Definition empty_database : Database.t num := Database.mk [] 0.

(** A request that sets the rate of the technician and nothing else. *)
Definition sample_request (tech_base : num) : ConfigUpdateRequest.t num :=
  ConfigUpdateRequest.mk None None (Some tech_base) None None None None
    None None None None None None None None None None None.

End TextSamples.

(** ** Facts on the two number instances *)

Example f64_ceil_fraction : F64.ceil (F64.dec 39 10) = F64.of_Z 4.
Proof. reflexivity. Qed.

Example f64_ceil_integer : F64.ceil (F64.of_Z 5000) = F64.of_Z 5000.
Proof. reflexivity. Qed.

Example f64_ceil_negative :
  F64.ceil (F64.dec (-3) 10) = PrimFloat.neg_zero
  /\ F64.ceil (F64.dec (-13) 10) = F64.of_Z (-1).
Proof. split; reflexivity. Qed.

Example f64_ceil_tiny :
  F64.ceil (PrimFloat.next_up PrimFloat.zero) = F64.of_Z 1.
Proof. vm_compute. reflexivity. Qed.

Example f64_truthy :
  F64.truthy PrimFloat.zero = false /\ F64.truthy PrimFloat.nan = false
  /\ F64.truthy (F64.dec 5 100) = true.
Proof. repeat split. Qed.

Example f64_decimal_literals :
  F64.dec 15 100 = 0x1.3333333333333p-3%float
  /\ F64.dec 3 10 = 0x1.3333333333333p-2%float
  /\ F64.dec 225 100 = 2.25%float.
Proof. repeat split. Qed.

Section ExactFacts.

Local Open Scope Q_scope.

Lemma exact_add_eq a b : Exact.add a b == a + b.
Proof. apply Qred_correct. Qed.

Lemma exact_sub_eq a b : Exact.sub a b == a - b.
Proof. apply Qred_correct. Qed.

Lemma exact_mul_eq a b : Exact.mul a b == a * b.
Proof. apply Qred_correct. Qed.

Lemma exact_div_eq a b : Exact.div a b == a / b.
Proof. apply Qred_correct. Qed.

Lemma exact_dec_eq m d : Exact.dec m d == m # d.
Proof. apply Qred_correct. Qed.

Lemma exact_leb_true a b : Exact.leb a b = true <-> a <= b.
Proof. apply Qle_bool_iff. Qed.

Lemma exact_leb_false a b : Exact.leb a b = false <-> b < a.
Proof.
  unfold Exact.leb. rewrite <- not_true_iff_false, Qle_bool_iff.
  split; [apply Qnot_le_lt | apply Qlt_not_le].
Qed.

Lemma exact_ltb_true a b : Exact.ltb a b = true <-> a < b.
Proof.
  unfold Exact.ltb. rewrite negb_true_iff. apply exact_leb_false.
Qed.

Lemma exact_ltb_false a b : Exact.ltb a b = false <-> b <= a.
Proof.
  unfold Exact.ltb. rewrite negb_false_iff. apply Qle_bool_iff.
Qed.

Lemma exact_ceil_eq x y : x == y -> Exact.ceil x = inject_Z (Qceiling y).
Proof. intros E. unfold Exact.ceil. now rewrite E. Qed.

Lemma exact_ceil_pos x : 0 < x -> 1 <= Exact.ceil x.
Proof.
  intros Hx. unfold Exact.ceil.
  assert (Hz : (0 < Qceiling x)%Z).
  { rewrite Zlt_Qlt. eapply Qlt_le_trans; [exact Hx | apply Qle_ceiling]. }
  change 1 with (inject_Z 1). rewrite <- Zle_Qle. lia.
Qed.

Lemma exact_ceil_count x : 0 <= x -> is_count (Exact.ceil x).
Proof.
  intros Hx. exists (Qceiling x). split; [| reflexivity].
  rewrite Zle_Qle. eapply Qle_trans; [exact Hx | apply Qle_ceiling].
Qed.

End ExactFacts.

(** *** Comparisons of binary64 numbers *)

Section F64Facts.

Lemma SFcompare_antisym (x y : spec_float) :
  SFcompare y x = option_map CompOpp (SFcompare x y).
Proof.
  destruct x as [[]|[]| |[] mx ex], y as [[]|[]| |[] my ey]; cbn;
    try reflexivity.
  all: rewrite (Z.compare_antisym ex ey);
    destruct (ex ?= ey)%Z; cbn; try reflexivity;
    rewrite (Pos.compare_cont_antisym mx my Eq); cbn;
    now rewrite ?CompOpp_involutive.
Qed.

Lemma SFcompare_refl (x : spec_float) :
  x <> S754_nan -> SFcompare x x = Some Eq.
Proof.
  destruct x as [[]|[]| |[] mx ex]; cbn; intros Hx;
    try reflexivity; try (now destruct Hx).
  all: rewrite Z.compare_refl, Pos.compare_cont_refl; reflexivity.
Qed.

(** What compares below or equal to a number is not NaN. *)
Lemma f64_leb_not_nan (x y : float) :
  PrimFloat.leb x y = true ->
  PrimFloat.is_nan x = false /\ PrimFloat.is_nan y = false.
Proof.
  unfold PrimFloat.is_nan.
  rewrite FloatAxioms.leb_spec, !negb_false_iff, !FloatAxioms.eqb_spec.
  unfold SFleb, SFeqb. intros H.
  assert (Hx : Prim2SF x <> S754_nan)
    by (intros E; rewrite E in H; discriminate H).
  assert (Hy : Prim2SF y <> S754_nan)
    by (intros E; rewrite E in H; destruct (Prim2SF x); discriminate H).
  now rewrite !SFcompare_refl.
Qed.

(** [c < x] and [x <= c] exclude each other and one of them holds, for
    numbers that are not NaN. *)
Lemma f64_ltb_negb_leb (x c : float) :
  PrimFloat.is_nan x = false -> PrimFloat.is_nan c = false ->
  PrimFloat.ltb c x = negb (PrimFloat.leb x c).
Proof.
  unfold PrimFloat.is_nan.
  rewrite !negb_false_iff, !FloatAxioms.eqb_spec, FloatAxioms.ltb_spec,
    FloatAxioms.leb_spec.
  unfold SFeqb, SFltb, SFleb.
  rewrite (SFcompare_antisym (Prim2SF x) (Prim2SF c)).
  destruct (Prim2SF x) as [[]|[]| |[] mx ex],
           (Prim2SF c) as [[]|[]| |[] mc ec];
    cbn; try reflexivity; try discriminate; intros _ _.
  all: destruct (ex ?= ec)%Z; try reflexivity;
    now destruct (Pos.compare_cont Eq mx mc).
Qed.

End F64Facts.

(** *** Magnitudes of binary64 numbers

    The operations of binary64 arithmetic on numbers that are not
    negative, from their specification: a sum, a product, a quotient and a
    difference of such numbers below given powers of two is such a number
    below a power of two, so that no operation overflows or yields NaN
    while the powers stay below [2^1024]. *)

Unset Implicit Arguments.

Section F64Magnitudes.

Local Open Scope Z_scope.

Lemma digits2_pos_bounds (p : positive) :
  2 ^ (Zpos (digits2_pos p) - 1) <= Zpos p < 2 ^ Zpos (digits2_pos p).
Proof.
  induction p as [p IH | p IH |]; cbn [digits2_pos].
  - rewrite Pos2Z.inj_succ.
    replace (Z.succ (Zpos (digits2_pos p)) - 1)
      with (Z.succ (Zpos (digits2_pos p) - 1)) by lia.
    rewrite !Z.pow_succ_r by lia. lia.
  - rewrite Pos2Z.inj_succ.
    replace (Z.succ (Zpos (digits2_pos p)) - 1)
      with (Z.succ (Zpos (digits2_pos p) - 1)) by lia.
    rewrite !Z.pow_succ_r by lia. lia.
  - cbn. lia.
Qed.

Lemma Zdigits2_bounds (m : Z) :
  0 <= m -> 0 <= Zdigits2 m /\ m < 2 ^ Zdigits2 m.
Proof.
  destruct m as [| p | p]; cbn [Zdigits2]; intros Hm.
  - split; [lia | reflexivity].
  - split; [lia | apply digits2_pos_bounds].
  - lia.
Qed.

(** A positive number below [2^t] has at most [t] digits. *)
Lemma digits2_pos_le (p : positive) (t : Z) :
  Zpos p < 2 ^ t -> Zpos (digits2_pos p) <= t.
Proof.
  intros Hp. destruct (digits2_pos_bounds p) as [Hlo _].
  destruct (Z.le_gt_cases (Zpos (digits2_pos p)) t) as [| Hgt]; [assumption |].
  exfalso.
  assert (0 <= t).
  { destruct (Z.le_gt_cases 0 t); [assumption |].
    rewrite Z.pow_neg_r in Hp by lia. lia. }
  assert (2 ^ t <= 2 ^ (Zpos (digits2_pos p) - 1))
    by (apply Z.pow_le_mono_r; lia).
  lia.
Qed.

Lemma Zdigits2_le (m t : Z) :
  0 <= m -> 0 <= t -> m < 2 ^ t -> Zdigits2 m <= t.
Proof.
  destruct m as [| p | p]; cbn [Zdigits2]; intros Hm Ht Hlt.
  - exact Ht.
  - now apply digits2_pos_le.
  - lia.
Qed.

(** *** Shifting to the right *)

Lemma shr_1_m (mrs : shr_record) :
  0 <= shr_m mrs -> shr_m (shr_1 mrs) = shr_m mrs / 2.
Proof.
  destruct mrs as [m r s]. cbn [shr_m shr_1].
  destruct m as [| [p | p |] | p]; cbn [shr_m]; intros Hm; try lia.
  - reflexivity.
  - rewrite Pos2Z.inj_xI.
    apply Z.div_unique with (r := 1); lia.
  - rewrite Pos2Z.inj_xO.
    apply Z.div_unique with (r := 0); lia.
  - reflexivity.
Qed.

Lemma pow2_xO (n : positive) : 2 ^ Zpos n~0 = 2 ^ Zpos n * 2 ^ Zpos n.
Proof.
  replace (Zpos n~0) with (Zpos n + Zpos n) by lia.
  apply Z.pow_add_r; lia.
Qed.

Lemma pow2_xI (n : positive) : 2 ^ Zpos n~1 = 2 * (2 ^ Zpos n * 2 ^ Zpos n).
Proof.
  replace (Zpos n~1) with (Z.succ (Zpos n + Zpos n)) by lia.
  rewrite Z.pow_succ_r, Z.pow_add_r by lia. reflexivity.
Qed.

Lemma iter_shr_1_m (n : positive) (mrs : shr_record) :
  0 <= shr_m mrs ->
  shr_m (iter_pos shr_1 n mrs) = shr_m mrs / 2 ^ Zpos n.
Proof.
  revert mrs.
  induction n as [n IH | n IH |]; intros mrs Hm; cbn [iter_pos].
  - assert (H1 : 0 <= shr_m (shr_1 mrs))
      by (rewrite shr_1_m by assumption; apply Z.div_pos; lia).
    assert (H2 : 0 <= shr_m (iter_pos shr_1 n (shr_1 mrs)))
      by (rewrite IH by assumption; apply Z.div_pos; lia).
    rewrite IH, IH, shr_1_m by assumption.
    rewrite !Z.div_div by lia. now rewrite pow2_xI, Z.mul_assoc.
  - assert (H2 : 0 <= shr_m (iter_pos shr_1 n mrs))
      by (rewrite IH by assumption; apply Z.div_pos; lia).
    rewrite IH, IH by assumption.
    rewrite !Z.div_div by lia. now rewrite pow2_xO.
  - rewrite shr_1_m by assumption. reflexivity.
Qed.

(** [shr] divides the mantissa by [2^n] and adds [n] to the exponent, for
    [n] above zero, and does nothing otherwise. *)
Lemma shr_m_e (mrs : shr_record) (e n : Z) :
  0 <= shr_m mrs ->
  shr_m (fst (shr mrs e n)) = shr_m mrs / 2 ^ Z.max 0 n
  /\ snd (shr mrs e n) = e + Z.max 0 n.
Proof.
  intros Hm. destruct n as [| p | p]; cbn [shr fst snd].
  - cbn. rewrite Z.div_1_r. lia.
  - rewrite iter_shr_1_m by assumption. split; [f_equal; f_equal; lia | lia].
  - cbn. rewrite Z.div_1_r. lia.
Qed.

Lemma shr_record_of_loc_m (m : Z) (l : location) :
  shr_m (shr_record_of_loc m l) = m.
Proof. destruct l as [| []]; reflexivity. Qed.

Lemma round_nearest_even_bounds (m : Z) (l : location) :
  m <= round_nearest_even m l <= m + 1.
Proof.
  destruct l as [| []]; cbn [round_nearest_even]; try lia.
  destruct (Z.even m); lia.
Qed.

Lemma SFpz_nn (k : Z) (x : spec_float) : SFpz k x = true -> SFnn k x = true.
Proof. destruct x as [[] | | | [] m e]; cbn; congruence. Qed.

Lemma div_pow_bound (m d a : Z) :
  0 <= m < 2 ^ d -> 0 <= d -> 0 <= a -> m / 2 ^ a < 2 ^ Z.max 0 (d - a).
Proof.
  intros [Hm0 Hm] Hd Ha.
  assert (Hp : 0 < 2 ^ a) by (apply Z.pow_pos_nonneg; lia).
  destruct (Z.le_gt_cases a d) as [Had | Had].
  - rewrite Z.max_r by lia. apply Z.div_lt_upper_bound; [exact Hp |].
    rewrite <- Z.pow_add_r by lia. now replace (a + (d - a)) with d by lia.
  - rewrite Z.max_l by lia.
    assert (2 ^ d <= 2 ^ a) by (apply Z.pow_le_mono_r; lia).
    rewrite Z.div_small by lia. reflexivity.
Qed.

Lemma pow2_le_inv (a b : Z) : 0 <= b -> 2 ^ a <= 2 ^ b -> a <= b.
Proof. intros Hb H. apply (Z.pow_le_mono_r_iff 2); lia. Qed.

(** Rounding a mantissa and an exponent that denote a number below [2^k]
    gives zero or a number below [2^(k+1)], and does not overflow. *)
Lemma round_aux_bound (mx ex : Z) (l : location) (k : Z) :
  0 <= mx -> Zdigits2 mx + ex <= k -> ex <= 971 -> -1074 <= k <= 1023 ->
  SFpz (k + 1) (binary_round_aux prec emax false mx ex l) = true.
Proof.
  intros Hmx Hk Hex [Hklo Hkhi].
  destruct (Zdigits2_bounds mx Hmx) as [Hd Hmxd].
  set (d := Zdigits2 mx) in *.
  unfold binary_round_aux, shr_fexp. fold d.
  set (n1 := fexp prec emax (d + ex) - ex).
  assert (En1 : n1 = Z.max (d + ex - 53) (-1074) - ex) by reflexivity.
  pose proof (shr_m_e (shr_record_of_loc mx l) ex n1) as H1.
  rewrite shr_record_of_loc_m in H1. specialize (H1 Hmx).
  destruct (shr (shr_record_of_loc mx l) ex n1) as [mrs1 e1].
  cbn [fst snd] in H1. destruct H1 as [Em1 Ee1].
  set (A1 := Z.max 0 n1) in *.
  assert (Hm1 : 0 <= shr_m mrs1)
    by (rewrite Em1; apply Z.div_pos; [lia | apply Z.pow_pos_nonneg; lia]).
  set (j1 := Z.max 0 (d - A1)).
  assert (Hm1j : shr_m mrs1 < 2 ^ j1)
    by (rewrite Em1; apply div_pow_bound; lia).
  pose proof (round_nearest_even_bounds (shr_m mrs1)
                (loc_of_shr_record mrs1)) as Hr1.
  set (r1 := round_nearest_even (shr_m mrs1) (loc_of_shr_record mrs1)) in *.
  assert (Hr0 : 0 <= r1) by lia.
  assert (Hr1j : r1 <= 2 ^ j1) by lia.
  assert (Hj53 : j1 <= 53) by lia.
  assert (Hj0 : 0 <= j1) by lia.
  destruct (Zdigits2_bounds r1 Hr0) as [Hd2 Hr1d].
  assert (Hd2j : Zdigits2 r1 <= j1 + 1).
  { apply Zdigits2_le; [lia | lia |].
    rewrite Z.pow_add_r by lia. change (2 ^ 1) with 2.
    assert (0 < 2 ^ j1) by (apply Z.pow_pos_nonneg; lia). lia. }
  set (d2 := Zdigits2 r1) in *.
  set (n2 := fexp prec emax (d2 + e1) - e1).
  assert (En2 : n2 = Z.max (d2 + e1 - 53) (-1074) - e1) by reflexivity.
  pose proof (shr_m_e (shr_record_of_loc r1 loc_Exact) e1 n2) as H2.
  rewrite shr_record_of_loc_m in H2. specialize (H2 Hr0).
  destruct (shr (shr_record_of_loc r1 loc_Exact) e1 n2) as [mrs2 e2].
  cbn [fst snd] in H2. destruct H2 as [Em2 Ee2].
  assert (He1lo : -1074 <= e1) by lia.
  assert (He1k : e1 <= k) by lia.
  assert (Hj1e1 : j1 + e1 <= k) by lia.
  destruct (Z.le_gt_cases d2 53) as [Hsmall | Hbig].
  - (* no second shift *)
    assert (EA2 : Z.max 0 n2 = 0) by lia.
    rewrite EA2 in Em2, Ee2. change (2 ^ 0) with 1 in Em2.
    rewrite Z.div_1_r in Em2.
    destruct (shr_m mrs2) as [| m | m] eqn:Es; [reflexivity | | lia].
    assert (He2 : (e2 <=? emax - prec) = true)
      by (apply Z.leb_le; change (emax - prec) with 971; lia).
    rewrite He2. cbn [SFpz]. apply Z.leb_le.
    assert (Zpos (digits2_pos m) <= j1 + 1); [| lia].
    apply digits2_pos_le. rewrite Em2.
    rewrite Z.pow_add_r by lia. change (2 ^ 1) with 2.
    assert (0 < 2 ^ j1) by (apply Z.pow_pos_nonneg; lia). lia.
  - (* the rounding has carried to [2^53] *)
    assert (Hd54 : d2 = 54) by lia.
    assert (Hr53 : 2 ^ 53 <= r1).
    { subst d2. destruct r1 as [| p | p]; cbn [Zdigits2] in *; try lia.
      destruct (digits2_pos_bounds p) as [Hlo _].
      rewrite Hd54 in Hlo. exact Hlo. }
    assert (Hj : j1 = 53).
    { assert (53 <= j1); [| lia]. apply pow2_le_inv; lia. }
    assert (EA2 : Z.max 0 n2 = 1) by lia.
    rewrite EA2 in Em2, Ee2. change (2 ^ 1) with 2 in Em2.
    assert (Hm2 : shr_m mrs2 <= 2 ^ 52).
    { rewrite Em2. apply Z.div_le_upper_bound; [lia |].
      rewrite Hj in Hr1j. change (2 * 2 ^ 52) with (2 ^ 53). exact Hr1j. }
    destruct (shr_m mrs2) as [| m | m] eqn:Es; [reflexivity | |].
    + assert (He2 : (e2 <=? emax - prec) = true)
        by (apply Z.leb_le; change (emax - prec) with 971; lia).
      rewrite He2. cbn [SFpz]. apply Z.leb_le.
      assert (Zpos (digits2_pos m) <= 53); [| lia].
      apply digits2_pos_le. change (2 ^ 53) with (2 * 2 ^ 52). lia.
    + assert (0 <= r1 / 2) by (apply Z.div_pos; lia). lia.
Qed.

(** *** Shifting to the left *)

Lemma iter_xO (m d : positive) : Zpos (Pos.iter xO m d) = Zpos m * 2 ^ Zpos d.
Proof.
  change (Pos.iter xO m d) with (shift_pos d m).
  rewrite shift_pos_correct, Zpower_pos_nat, Zpower_nat_Z,
          positive_nat_Z.
  ring.
Qed.

(** [shl_align] keeps the number and lowers the exponent to [ex'] when it is
    below [ex]. *)
Lemma shl_align_spec (mx : positive) (ex ex' : Z) :
  snd (shl_align mx ex ex') = Z.min ex ex'
  /\ Zpos (fst (shl_align mx ex ex'))
     = Zpos mx * 2 ^ (ex - Z.min ex ex').
Proof.
  unfold shl_align. destruct (ex' - ex) as [| d | d] eqn:Ed; cbn [fst snd].
  - replace (Z.min ex ex') with ex by lia. rewrite Z.sub_diag. cbn. lia.
  - replace (Z.min ex ex') with ex by lia. rewrite Z.sub_diag. cbn. lia.
  - replace (Z.min ex ex') with ex' by lia. split; [reflexivity |].
    rewrite iter_xO. f_equal. f_equal. lia.
Qed.

(** A mantissa below [2^d] shifted by [a] is below [2^(d+a)]. *)
Lemma shift_bound (m d a : Z) :
  0 <= m < 2 ^ d -> 0 <= d -> 0 <= a -> m * 2 ^ a < 2 ^ (d + a).
Proof.
  intros [Hm0 Hm] Hd Ha. rewrite Z.pow_add_r by lia.
  apply Z.mul_lt_mono_pos_r; [apply Z.pow_pos_nonneg; lia | exact Hm].
Qed.

(** What validity says of a finite number: at most 53 digits, an exponent
    between [-1074] and [971], and 53 digits above the least exponent. *)
Lemma bounded_spec (m : positive) (e : Z) :
  bounded prec emax m e = true ->
  -1074 <= e <= 971
  /\ Zpos (digits2_pos m) <= 53
  /\ (-1074 < e -> Zpos (digits2_pos m) = 53).
Proof.
  unfold bounded, canonical_mantissa. intros [Hc He]%andb_true_iff.
  apply Z.eqb_eq in Hc. apply Z.leb_le in He.
  change (emax - prec) with 971 in He.
  assert (E : fexp prec emax (Zpos (digits2_pos m) + e)
              = Z.max (Zpos (digits2_pos m) + e - 53) (-1074))
    by reflexivity.
  rewrite E in Hc. lia.
Qed.

(** *** The operations on numbers that are not negative *)

Section Closure.

Variables kx ky : Z.

Lemma SFbinary_round_bound (m : positive) (e k : Z) :
  Zpos (digits2_pos m) + e <= k -> e <= 971 -> -1074 <= k <= 1023 ->
  SFpz (k + 1) (binary_round prec emax false m e) = true.
Proof.
  intros Hk He Hkk. unfold binary_round.
  pose proof (shl_align_spec m e
                (fexp prec emax (Zpos (digits2_pos m) + e))) as [E2 E1].
  destruct (shl_align m e _) as [mz ez]. cbn [fst snd] in E1, E2.
  destruct (digits2_pos_bounds m) as [_ Hm].
  apply round_aux_bound; [lia | | lia | lia].
  cbn [Zdigits2].
  assert (Zpos (digits2_pos mz) <= Zpos (digits2_pos m) + (e - ez));
    [| lia].
  apply digits2_pos_le. rewrite E1, E2.
  apply shift_bound; lia.
Qed.

Lemma SFadd_nn (x y : spec_float) :
  valid_binary x = true -> valid_binary y = true ->
  SFnn kx x = true -> SFnn ky y = true ->
  -1074 <= kx -> -1074 <= ky -> Z.max kx ky + 1 <= 1023 ->
  SFnn (Z.max kx ky + 2) (SFadd prec emax x y) = true.
Proof.
  intros Vx Vy Hx Hy Hkx Hky Hmax.
  destruct x as [sx | [] | | [] mx ex], y as [sy | [] | | [] my ey];
    try discriminate Hx; try discriminate Hy.
  - now destruct sx, sy.
  - cbn [SFadd SFnn] in *. apply Z.leb_le. apply Z.leb_le in Hy. lia.
  - cbn [SFadd SFnn] in *. apply Z.leb_le. apply Z.leb_le in Hx. lia.
  - cbn [SFnn valid_binary] in Hx, Hy, Vx, Vy.
    apply Z.leb_le in Hx, Hy.
    apply bounded_spec in Vx, Vy.
    destruct Vx as ((Hexlo & Hexhi) & Hdx & _).
    destruct Vy as ((Heylo & Heyhi) & Hdy & _).
    unfold SFadd. cbv zeta.
    pose proof (shl_align_spec mx ex (Z.min ex ey)) as [_ Ex].
    pose proof (shl_align_spec my ey (Z.min ex ey)) as [_ Ey].
    destruct (shl_align mx ex (Z.min ex ey)) as [mx' ex'].
    destruct (shl_align my ey (Z.min ex ey)) as [my' ey'].
    cbn [fst snd cond_Zopp] in *.
    replace (Z.min ex (Z.min ex ey)) with (Z.min ex ey) in Ex by lia.
    replace (Z.min ey (Z.min ex ey)) with (Z.min ex ey) in Ey by lia.
    change (Zpos mx' + Zpos my') with (Zpos (mx' + my')).
    cbn [binary_normalize].
    apply SFpz_nn.
    replace (Z.max kx ky + 2) with (Z.max kx ky + 1 + 1) by lia.
    apply SFbinary_round_bound; [| lia | lia].
    set (ez := Z.min ex ey) in *.
    destruct (digits2_pos_bounds mx) as [_ Hmx].
    destruct (digits2_pos_bounds my) as [_ Hmy].
    assert (Zpos (digits2_pos (mx' + my')) <= Z.max kx ky + 1 - ez);
      [| lia].
    apply digits2_pos_le. rewrite Pos2Z.inj_add, Ex, Ey.
    assert (Hx' : Zpos mx * 2 ^ (ex - ez)
                  < 2 ^ (Zpos (digits2_pos mx) + (ex - ez)))
      by (apply shift_bound; lia).
    assert (Hy' : Zpos my * 2 ^ (ey - ez)
                  < 2 ^ (Zpos (digits2_pos my) + (ey - ez)))
      by (apply shift_bound; lia).
    assert (Hx'' : 2 ^ (Zpos (digits2_pos mx) + (ex - ez))
                   <= 2 ^ (Z.max kx ky - ez))
      by (apply Z.pow_le_mono_r; lia).
    assert (Hy'' : 2 ^ (Zpos (digits2_pos my) + (ey - ez))
                   <= 2 ^ (Z.max kx ky - ez))
      by (apply Z.pow_le_mono_r; lia).
    replace (Z.max kx ky + 1 - ez) with (Z.succ (Z.max kx ky - ez)) by lia.
    rewrite Z.pow_succ_r by lia. lia.
Qed.

Lemma SFmul_nn (x y : spec_float) :
  valid_binary x = true -> valid_binary y = true ->
  SFnn kx x = true -> SFnn ky y = true ->
  -1021 <= kx -> -1021 <= ky -> -1074 <= kx + ky <= 1023 ->
  SFnn (kx + ky + 1) (SFmul prec emax x y) = true.
Proof.
  intros Vx Vy Hx Hy Hkx Hky Hk.
  destruct x as [sx | [] | | [] mx ex], y as [sy | [] | | [] my ey];
    try discriminate Hx; try discriminate Hy; try reflexivity.
  cbn [SFnn valid_binary] in Hx, Hy, Vx, Vy.
  apply Z.leb_le in Hx, Hy.
  apply bounded_spec in Vx, Vy.
  destruct Vx as ((Hexlo & Hexhi) & Hdx & Hnx).
  destruct Vy as ((Heylo & Heyhi) & Hdy & Hny).
  cbn [SFmul xorb]. apply SFpz_nn. apply round_aux_bound; [lia | | | lia].
  - cbn [Zdigits2].
    assert (Zpos (digits2_pos (mx * my))
            <= Zpos (digits2_pos mx) + Zpos (digits2_pos my)); [| lia].
    apply digits2_pos_le. rewrite Pos2Z.inj_mul, Z.pow_add_r by lia.
    destruct (digits2_pos_bounds mx) as [_ Hmx].
    destruct (digits2_pos_bounds my) as [_ Hmy].
    apply Z.mul_lt_mono_nonneg; lia.
  - (* an exponent above the least one has 53 digits with it *)
    assert (ex <= Z.max (kx - 53) (-1074)) by lia.
    assert (ey <= Z.max (ky - 53) (-1074)) by lia.
    lia.
Qed.

End Closure.

Lemma SFnn_mono (k k' : Z) (x : spec_float) :
  k <= k' -> SFnn k x = true -> SFnn k' x = true.
Proof.
  intros Hk. destruct x as [s | s | | [] m e]; cbn; try congruence.
  intros H%Z.leb_le. apply Z.leb_le. lia.
Qed.

Lemma SFdiv_pz (kx jy : Z) (x y : spec_float) :
  SFpz kx x = true -> SFabove jy y = true ->
  -1074 <= kx - jy + 1 <= 1023 ->
  SFpz (kx - jy + 2) (SFdiv prec emax x y) = true.
Proof.
  intros Hx Hy Hk.
  destruct y as [sy | sy | | [] my ey]; try discriminate Hy.
  cbn [SFabove] in Hy. apply Z.leb_le in Hy.
  destruct x as [[] | [] | | [] mx ex]; try discriminate Hx;
    [reflexivity |].
  cbn [SFpz] in Hx. apply Z.leb_le in Hx.
  cbn [SFdiv xorb]. unfold SFdiv_core_binary. cbn [Zdigits2]. cbv zeta.
  set (d1 := Zpos (digits2_pos mx)) in *.
  set (d2 := Zpos (digits2_pos my)) in *.
  set (e' := Z.min (fexp prec emax (d1 + ex - (d2 + ey))) (ex - ey)).
  assert (Ee' : e' = Z.min (Z.max (d1 + ex - (d2 + ey) - 53) (-1074))
                       (ex - ey)) by reflexivity.
  set (s := ex - ey - e').
  assert (Hs : 0 <= s) by lia.
  set (m' := match s with
             | 0 => Zpos mx
             | Zpos _ => Z.shiftl (Zpos mx) s
             | Zneg _ => 0
             end).
  assert (Em' : m' = Zpos mx * 2 ^ s).
  { subst m'. destruct s as [| p | p] eqn:Es; [cbn; lia | | lia].
    now rewrite Z.shiftl_mul_pow2 by lia. }
  assert (Hq : fst (Z.div_eucl m' (Zpos my)) = m' / Zpos my) by reflexivity.
  destruct (Z.div_eucl m' (Zpos my)) as [q r]. cbn [fst] in Hq.
  destruct (digits2_pos_bounds mx) as [_ Hmx].
  destruct (digits2_pos_bounds my) as [Hmy _].
  fold d1 in Hmx. fold d2 in Hmy.
  assert (Hd1 : 0 < d1) by (subst d1; lia).
  assert (Hd2 : 0 < d2) by (subst d2; lia).
  assert (Hm'0 : 0 <= m')
    by (rewrite Em'; apply Z.mul_nonneg_nonneg;
        [lia | apply Z.pow_nonneg; lia]).
  assert (Hq0 : 0 <= q) by (rewrite Hq; apply Z.div_pos; lia).
  set (t := Z.max 0 (d1 + s - d2 + 1)).
  assert (Hqt : q < 2 ^ t).
  { rewrite Hq. apply Z.div_lt_upper_bound; [lia |].
    assert (H1 : m' < 2 ^ (d1 + s))
      by (rewrite Em'; apply shift_bound; lia).
    assert (H2 : 2 ^ (d1 + s) <= 2 ^ (d2 - 1 + t))
      by (apply Z.pow_le_mono_r; lia).
    assert (H3 : 2 ^ (d2 - 1 + t) = 2 ^ (d2 - 1) * 2 ^ t)
      by (apply Z.pow_add_r; lia).
    assert (H4 : 2 ^ (d2 - 1) * 2 ^ t <= Zpos my * 2 ^ t)
      by (apply Z.mul_le_mono_nonneg_r; [apply Z.pow_nonneg; lia | lia]).
    lia. }
  replace (kx - jy + 2) with (kx - jy + 1 + 1) by lia.
  apply round_aux_bound; [exact Hq0 | | lia | lia].
  assert (Zdigits2 q <= t) by (apply Zdigits2_le; lia).
  lia.
Qed.

Lemma SFdiv_nn (kx jy : Z) (x y : spec_float) :
  SFnn kx x = true -> SFabove jy y = true ->
  -1074 <= kx - jy + 1 <= 1023 ->
  SFnn (kx - jy + 2) (SFdiv prec emax x y) = true.
Proof.
  intros Hx Hy Hk.
  destruct x as [[] | [] | | [] mx ex] eqn:Ex; try discriminate Hx.
  - destruct y as [sy | sy | | [] my ey]; try discriminate Hy. reflexivity.
  - apply SFpz_nn. now apply SFdiv_pz with (kx := kx) (jy := jy).
  - apply SFpz_nn. now apply SFdiv_pz with (kx := kx) (jy := jy).
Qed.

Lemma SFsub_nn (kx : Z) (x y : spec_float) :
  valid_binary x = true -> valid_binary y = true ->
  SFnn kx x = true -> SFnn kx y = true ->
  SFleb y x = true ->
  -1074 <= kx <= 1023 ->
  SFnn (kx + 1) (SFsub prec emax x y) = true.
Proof.
  intros Vx Vy Hx Hy Hle Hk.
  destruct x as [sx | [] | | [] mx ex], y as [sy | [] | | [] my ey];
    try discriminate Hx; try discriminate Hy.
  - now destruct sx, sy.
  - discriminate Hle.
  - cbn [SFsub]. eapply SFnn_mono; [| exact Hx]. lia.
  - cbn [SFnn valid_binary] in Hx, Hy, Vx, Vy.
    apply Z.leb_le in Hx, Hy.
    apply bounded_spec in Vx, Vy.
    destruct Vx as ((Hexlo & Hexhi) & Hdx & Hnx).
    destruct Vy as ((Heylo & Heyhi) & Hdy & Hny).
    unfold SFsub. cbv zeta.
    pose proof (shl_align_spec mx ex (Z.min ex ey)) as [_ Ex].
    pose proof (shl_align_spec my ey (Z.min ex ey)) as [_ Ey].
    destruct (shl_align mx ex (Z.min ex ey)) as [mx' ex'].
    destruct (shl_align my ey (Z.min ex ey)) as [my' ey'].
    cbn [fst snd cond_Zopp] in *.
    replace (Z.min ex (Z.min ex ey)) with (Z.min ex ey) in Ex by lia.
    replace (Z.min ey (Z.min ex ey)) with (Z.min ex ey) in Ey by lia.
    set (ez := Z.min ex ey) in *.
    destruct (digits2_pos_bounds mx) as [Hmxlo Hmx].
    destruct (digits2_pos_bounds my) as [_ Hmy].
    (* the order of the numbers is that of the aligned mantissas *)
    assert (Hord : Zpos my' <= Zpos mx').
    { unfold SFleb, SFcompare in Hle.
      destruct (Z.compare_spec ey ex) as [E | E | E];
        [| | discriminate Hle].
      - subst ey. replace ez with ex in * by lia.
        rewrite Z.sub_diag in Ex, Ey. cbn in Ex, Ey.
        rewrite Ex, Ey, ?Z.mul_1_r.
        change (Pos.compare_cont Eq my mx) with (Pos.compare my mx) in Hle.
        destruct (Pos.compare_spec my mx); [lia | lia | discriminate Hle].
      - replace ez with ey in * by lia.
        rewrite Z.sub_diag in Ey. cbn in Ey. rewrite Ey, Ex, ?Z.mul_1_r.
        rewrite (Hnx ltac:(lia)) in Hmxlo.
        change (2 ^ (53 - 1)) with (2 ^ 52) in Hmxlo.
        assert (Hmy53 : Zpos my < 2 ^ 53).
        { eapply Z.lt_le_trans; [exact Hmy |].
          apply Z.pow_le_mono_r; lia. }
        assert (2 ^ 1 <= 2 ^ (ex - ey)) by (apply Z.pow_le_mono_r; lia).
        change (2 ^ 1) with 2 in *. change (2 ^ 53) with (2 * 2 ^ 52) in *.
        nia. }
    destruct (Zpos mx' - Zpos my') as [| m | m] eqn:Ed; [reflexivity | | lia].
    cbn [binary_normalize]. apply SFpz_nn.
    apply SFbinary_round_bound; [| lia | lia].
    assert (Zpos (digits2_pos m) <= kx - ez); [| lia].
    apply digits2_pos_le.
    assert (Hx' : Zpos mx * 2 ^ (ex - ez)
                  < 2 ^ (Zpos (digits2_pos mx) + (ex - ez)))
      by (apply shift_bound; lia).
    assert (Hx'' : 2 ^ (Zpos (digits2_pos mx) + (ex - ez)) <= 2 ^ (kx - ez))
      by (apply Z.pow_le_mono_r; lia).
    lia.
Qed.

Lemma f64_nn_mono (k k' : Z) (x : float) :
  f64_nn k x = true -> (k <=? k') = true -> f64_nn k' x = true.
Proof.
  intros H Hk%Z.leb_le. unfold f64_nn in *. eapply SFnn_mono; eassumption.
Qed.

Lemma f64_add_nn (kx ky : Z) (x y : float) :
  f64_nn kx x = true -> f64_nn ky y = true ->
  (-1074 <=? kx) && (-1074 <=? ky) && (Z.max kx ky + 1 <=? 1023) = true ->
  f64_nn (Z.max kx ky + 2) (x + y) = true.
Proof.
  intros Hx Hy [[H1%Z.leb_le H2%Z.leb_le]%andb_true_iff
                  H3%Z.leb_le]%andb_true_iff.
  unfold f64_nn. rewrite FloatAxioms.add_spec.
  apply SFadd_nn; try assumption; apply Prim2SF_valid.
Qed.

Lemma f64_mul_nn (kx ky : Z) (x y : float) :
  f64_nn kx x = true -> f64_nn ky y = true ->
  (0 <=? kx) && (0 <=? ky) && (kx + ky <=? 1023) = true ->
  f64_nn (kx + ky + 1) (x * y) = true.
Proof.
  intros Hx Hy [[H1%Z.leb_le H2%Z.leb_le]%andb_true_iff
                  H3%Z.leb_le]%andb_true_iff.
  unfold f64_nn. rewrite FloatAxioms.mul_spec.
  apply SFmul_nn; try assumption; try apply Prim2SF_valid; lia.
Qed.

Lemma f64_div_nn (kx jy : Z) (x y : float) :
  f64_nn kx x = true -> f64_above jy y = true ->
  (-1074 <=? kx - jy + 1) && (kx - jy + 1 <=? 1023) = true ->
  f64_nn (kx - jy + 2) (x / y) = true.
Proof.
  intros Hx Hy [H1%Z.leb_le H2%Z.leb_le]%andb_true_iff.
  unfold f64_nn. rewrite FloatAxioms.div_spec. apply SFdiv_nn; try assumption. lia.
Qed.

Lemma f64_sub_nn (kx : Z) (x y : float) :
  f64_nn kx x = true -> f64_nn kx y = true -> PrimFloat.leb y x = true ->
  (-1074 <=? kx) && (kx <=? 1023) = true ->
  f64_nn (kx + 1) (x - y) = true.
Proof.
  intros Hx Hy Hle [H1%Z.leb_le H2%Z.leb_le]%andb_true_iff.
  unfold f64_nn. rewrite FloatAxioms.sub_spec. rewrite FloatAxioms.leb_spec in Hle.
  apply SFsub_nn; try assumption; try apply Prim2SF_valid. lia.
Qed.

Lemma f64_if_nn (k : Z) (b : bool) (x y : float) :
  f64_nn k x = true -> f64_nn k y = true ->
  f64_nn k (if b then x else y) = true.
Proof. now destruct b. Qed.

(** A number between a number that is zero or above and a finite one is
    zero or above, and not above the power of two of the latter. *)
Lemma f64_nn_of_leb (k : Z) (lo x hi : float) :
  PrimFloat.leb lo x = true -> PrimFloat.leb x hi = true ->
  f64_zero_or_above lo
  && match f64_exponent hi with
     | Some eh => 53 + eh <=? k
     | None => false
     end = true ->
  f64_nn k x = true.
Proof.
  rewrite !FloatAxioms.leb_spec.
  unfold f64_exponent, f64_nn, f64_zero_or_above.
  pose proof (Prim2SF_valid x) as Vx.
  intros Hlo Hhi [Hz Hk]%andb_true_iff.
  destruct (Prim2SF hi) as [sh | sh | | [] mh eh]; try discriminate Hk.
  apply Z.leb_le in Hk.
  destruct (Prim2SF x) as [sx | [] | | [] mx ex];
    try discriminate Hhi; try reflexivity.
  - destruct (Prim2SF lo) as [sl | [] | | [] ml el]; discriminate.
  - destruct (Prim2SF lo) as [sl | [] | | [] ml el]; discriminate.
  - cbn [valid_binary] in Vx. apply bounded_spec in Vx.
    destruct Vx as (_ & Hdx & _).
    unfold SFleb, SFcompare in Hhi. cbn [SFnn]. apply Z.leb_le.
    destruct (Z.compare_spec ex eh); [lia | lia | discriminate Hhi].
Qed.

Lemma f64_pz_of_above (j k : Z) (x : float) :
  f64_above j x = true -> f64_nn k x = true -> f64_pz k x = true.
Proof.
  unfold f64_above, f64_nn, f64_pz.
  destruct (Prim2SF x) as [sx | [] | | [] mx ex]; try discriminate.
  intros _ H. exact H.
Qed.

Lemma f64_div_pz (kx jy : Z) (x y : float) :
  f64_pz kx x = true -> f64_above jy y = true ->
  (-1074 <=? kx - jy + 1) && (kx - jy + 1 <=? 1023) = true ->
  f64_pz (kx - jy + 2) (x / y) = true.
Proof.
  intros Hx Hy [H1%Z.leb_le H2%Z.leb_le]%andb_true_iff.
  unfold f64_pz. rewrite FloatAxioms.div_spec.
  apply SFdiv_pz; try assumption. lia.
Qed.

(** A number between two finite ones above zero, the lower of which is not
    subnormal, is finite, above zero and of 53 digits. *)
Lemma f64_above_of_leb (j : Z) (lo x hi : float) :
  PrimFloat.leb lo x = true -> PrimFloat.leb x hi = true ->
  match f64_exponent lo, f64_exponent hi with
  | Some el, Some _ => (-1074 <? el) && (j <=? 53 + el)
  | _, _ => false
  end = true ->
  f64_above j x = true.
Proof.
  rewrite !FloatAxioms.leb_spec. unfold f64_exponent, f64_above.
  pose proof (Prim2SF_valid x) as Vx.
  destruct (Prim2SF lo) as [sl | sl | | [] ml el]; try discriminate.
  destruct (Prim2SF hi) as [sh | sh | | [] mh eh]; try discriminate.
  destruct (Prim2SF x) as [sx | [] | | [] mx ex]; try discriminate.
  cbn [valid_binary] in Vx. apply bounded_spec in Vx.
  destruct Vx as (_ & _ & Hnx).
  unfold SFleb, SFcompare.
  intros Hlo _ [Hel%Z.ltb_lt Hj%Z.leb_le]%andb_true_iff.
  cbn [SFabove]. apply Z.leb_le.
  destruct (Z.compare_spec el ex); [| | discriminate Hlo];
    rewrite Hnx by lia; lia.
Qed.

(** Such numbers are finite and not below zero. *)
Lemma f64_nn_finite (k : Z) (x : float) :
  f64_nn k x = true ->
  PrimFloat.is_finite x = true /\ PrimFloat.leb 0 x = true.
Proof.
  unfold f64_nn, PrimFloat.is_finite, PrimFloat.is_nan,
    PrimFloat.is_infinity.
  rewrite FloatAxioms.leb_spec, !FloatAxioms.eqb_spec, FloatAxioms.abs_spec.
  change (Prim2SF 0) with (S754_zero false).
  change (Prim2SF infinity) with (S754_infinity false).
  destruct (Prim2SF x) as [sx | [] | | [] mx ex]; try discriminate.
  - intros _. now destruct sx.
  - intros _. unfold SFeqb, SFleb. cbn [SFabs SFcompare].
    now rewrite Z.compare_refl, Pos.compare_cont_refl.
Qed.

(** The integers. *)
Lemma f64_of_Z_nn (k z : Z) :
  0 <= z < 2 ^ k -> 0 <= k <= 62 ->
  f64_nn (k + 1) (F64.of_Z z) = true.
Proof.
  intros [Hz0 Hz] Hk. unfold f64_nn.
  destruct z as [| p | p]; [reflexivity | | lia].
  unfold F64.of_Z. rewrite FloatAxioms.of_uint63_spec.
  assert (E : Uint63.to_Z (Uint63.of_Z (Zpos p)) = Zpos p).
  { rewrite Uint63.of_Z_spec. apply Z.mod_small. split; [lia |].
    eapply Z.lt_le_trans; [exact Hz |].
    change Uint63.wB with (2 ^ 63). apply Z.pow_le_mono_r; lia. }
  rewrite E. cbn [binary_normalize]. apply SFpz_nn.
  apply SFbinary_round_bound; [| lia | lia].
  assert (Zpos (digits2_pos p) <= k); [| lia].
  now apply digits2_pos_le.
Qed.

(** [Math.ceil] of a number that is not negative and below [2^k]: an
    integer from 0 to [2^k]. *)
Lemma f64_ceil_count (k : Z) (x : float) :
  f64_pz k x = true -> 0 <= k <= 52 ->
  exists n : Z, 0 <= n <= 2 ^ k /\ F64.ceil x = F64.of_Z n.
Proof.
  unfold f64_pz. intros Hx Hk. unfold F64.ceil.
  pose proof (Prim2SF_valid x) as Vx.
  destruct (Prim2SF x) as [[] | [] | | [] m e] eqn:Ex; try discriminate Hx.
  - exists 0. split; [split; [lia | apply Z.pow_nonneg; lia] |].
    apply Prim2SF_inj. rewrite Ex. reflexivity.
  - cbn [SFpz] in Hx. apply Z.leb_le in Hx.
    cbn [valid_binary] in Vx. apply bounded_spec in Vx.
    destruct Vx as ((Helo & _) & Hd & Hn).
    assert (He : e < 0) by lia.
    assert (E0 : (0 <=? e) = false) by (apply Z.leb_gt; exact He).
    rewrite E0. cbv zeta.
    assert (Ed : Z.pow_pos 2 (Z.to_pos (- e)) = 2 ^ (- e)).
    { change (Z.pow_pos 2 (Z.to_pos (- e)))
        with (2 ^ Zpos (Z.to_pos (- e))).
      now rewrite Z2Pos.id by lia. }
    rewrite Ed.
    assert (Hp : 0 < 2 ^ (- e)) by (apply Z.pow_pos_nonneg; lia).
    destruct (digits2_pos_bounds m) as [_ Hm].
    assert (Hm' : Zpos m < 2 ^ k * 2 ^ (- e)).
    { rewrite <- Z.pow_add_r by lia.
      eapply Z.lt_le_trans; [exact Hm |]. apply Z.pow_le_mono_r; lia. }
    eexists. split; [| reflexivity]. split.
    + apply Z.div_pos; lia.
    + assert ((Zpos m + 2 ^ (- e) - 1) / 2 ^ (- e) < 2 ^ k + 1); [| lia].
      apply Z.div_lt_upper_bound; [exact Hp |]. lia.
Qed.

Lemma small_integers_spec (a : Z) : 0 <= a <= 128 -> In a small_integers.
Proof.
  intros Ha. unfold small_integers. apply in_map_iff. exists (Z.to_nat a).
  split; [lia |]. apply in_seq. lia.
Qed.

(** Small integers add without rounding. *)
Lemma small_sums_exact (a b : Z) :
  0 <= a <= 128 -> 0 <= b <= 128 ->
  PrimFloat.add (F64.of_Z a) (F64.of_Z b) = F64.of_Z (a + b).
Proof.
  intros Ha Hb.
  assert (Hc : small_sums_exact_check = true) by (vm_compute; reflexivity).
  unfold small_sums_exact_check in Hc.
  rewrite forallb_forall in Hc. specialize (Hc a (@small_integers_spec a Ha)).
  rewrite forallb_forall in Hc. specialize (Hc b (@small_integers_spec b Hb)).
  now apply FloatAxioms.Leibniz.eqb_spec in Hc.
Qed.

End F64Magnitudes.

Set Implicit Arguments.

(** ** Equipment sizing *)

(** C10. For a room whose [room_sf] lies in [50, 5000], exactly one class of
    dehumidifier is selected: above 1500 sq ft, [large_units] is
    [ceil(room_sf / 2500)], at least 1, and [standard_units] is 0; otherwise
    [standard_units] is [ceil(room_sf / 1200)], at least 1, and
    [large_units] is 0.  The two counts are never both positive and never
    both zero.  (Exact arithmetic.) *)
Theorem dehumidifier_class_exclusive
    (cfg : UserConfiguration.t Q) (row : CSVRowData.t Q) :
  (50 <= CSVRowData.room_sf row <= 5000)%Q ->
  let sf := CSVRowData.room_sf row in
  let e := RoomResult.equipment (calculateRoom cfg row) in
  let large := EquipmentRequirements.large_units e in
  let standard := EquipmentRequirements.standard_units e in
  ((1500 < sf)%Q ->
     large = inject_Z (Qceiling (sf / 2500)) /\ (1 <= large)%Q
     /\ standard = 0%Q)
  /\ ((sf <= 1500)%Q ->
     standard = inject_Z (Qceiling (sf / 1200)) /\ (1 <= standard)%Q
     /\ large = 0%Q)
  /\ ~ ((0 < large)%Q /\ (0 < standard)%Q)
  /\ ~ (large == 0 /\ standard == 0)%Q.
Proof.
  intros [Hlo Hhi] sf e large standard.
  subst large standard e. cbn. fold sf. fold sf in Hlo, Hhi. clearbody sf.
  destruct (Exact.ltb (Exact.of_Z 1500) sf) eqn:Hgt.
  - apply exact_ltb_true in Hgt.
    assert (Hle : Exact.leb sf (Exact.of_Z 1500) = false)
      by (apply exact_leb_false; exact Hgt).
    rewrite Hle.
    assert (Hpos : (0 < Exact.div sf (Exact.of_Z 2500))%Q).
    { rewrite exact_div_eq. unfold Exact.of_Z, inject_Z in *.
      apply Qlt_shift_div_l; [reflexivity | lra]. }
    pose proof (exact_ceil_pos Hpos) as Hone.
    split; [| split; [| split]].
    + intros _. split; [| split; [exact Hone | reflexivity]].
      apply exact_ceil_eq. apply exact_div_eq.
    + unfold Exact.of_Z, inject_Z in *. intros H. lra.
    + intros [_ H]. revert H. apply Qlt_irrefl.
    + intros [H _]. lra.
  - apply exact_ltb_false in Hgt.
    assert (Hle : Exact.leb sf (Exact.of_Z 1500) = true)
      by (apply exact_leb_true; exact Hgt).
    rewrite Hle.
    assert (Hpos : (0 < Exact.div sf (Exact.of_Z 1200))%Q).
    { rewrite exact_div_eq. unfold Exact.of_Z, inject_Z in *.
      apply Qlt_shift_div_l; [reflexivity | lra]. }
    pose proof (exact_ceil_pos Hpos) as Hone.
    split; [| split; [| split]].
    + unfold Exact.of_Z, inject_Z in *. intros H. lra.
    + intros _. split; [| split; [exact Hone | reflexivity]].
      apply exact_ceil_eq. apply exact_div_eq.
    + intros [H _]. revert H. apply Qlt_irrefl.
    + intros [_ H]. lra.
Qed.

Lemma dehumidifier_class_exclusive_witness :
  (50 <= CSVRowData.room_sf (@readme_row Q _) <= 5000)%Q
  /\ (let e := RoomResult.equipment
                 (calculateRoom DEFAULT_CONFIGURATION (@readme_row Q _)) in
      EquipmentRequirements.standard_units e = 1%Q
      /\ EquipmentRequirements.large_units e = 0%Q).
Proof.
  assert (Hsf : (50 <= CSVRowData.room_sf (@readme_row Q _) <= 5000)%Q)
    by (split; unfold Qle; simpl; lia).
  split; [exact Hsf |].
  destruct (dehumidifier_class_exclusive DEFAULT_CONFIGURATION readme_row Hsf)
    as (_ & Hstd & _).
  destruct Hstd as (Hs & _ & Hl); [unfold Qle; simpl; lia |].
  split; [rewrite Hs; reflexivity | exact Hl].
Defined.

(** In binary64 as well one class is selected and the other count is 0, for
    every [room_sf] that lies in [50, 5000] as the validator tests it. *)
Lemma dehumidifier_class_selected_f64
    (cfg : UserConfiguration.t float) (row : CSVRowData.t float) :
  PrimFloat.leb 50 (CSVRowData.room_sf row) = true ->
  PrimFloat.leb (CSVRowData.room_sf row) 5000 = true ->
  let sf := CSVRowData.room_sf row in
  let e := RoomResult.equipment (calculateRoom cfg row) in
  (PrimFloat.ltb 1500 sf = true
   /\ EquipmentRequirements.large_units e = F64.ceil (PrimFloat.div sf 2500)
   /\ EquipmentRequirements.standard_units e = 0%float)
  \/ (PrimFloat.leb sf 1500 = true
      /\ EquipmentRequirements.standard_units e
         = F64.ceil (PrimFloat.div sf 1200)
      /\ EquipmentRequirements.large_units e = 0%float).
Proof.
  intros Hlo _ sf e. subst e. cbn. fold sf.
  apply f64_leb_not_nan in Hlo. destruct Hlo as [_ Hnan]. fold sf in Hnan.
  change (F64.of_Z 1500) with 1500%float.
  rewrite (f64_ltb_negb_leb sf 1500 Hnan eq_refl).
  destruct (PrimFloat.leb sf 1500); cbn [negb]; [right | left];
    repeat split.
Qed.

(** The binary64 computation at the bounds of the range and on both sides
    of the breakpoint: the pairs are [(large_units, standard_units)]. *)
Example dehumidifier_boundaries_f64 :
  map (fun sf =>
         let e := RoomResult.equipment
                    (calculateRoom DEFAULT_CONFIGURATION
                       (with_room_sf sf readme_row)) in
         (EquipmentRequirements.large_units e,
          EquipmentRequirements.standard_units e))
    [50; 1200; PrimFloat.next_up 1200; 1500; PrimFloat.next_up 1500;
     2500; PrimFloat.next_up 2500; 5000]%float
  = [(0, 1); (0, 1); (0, 2); (0, 2); (1, 0); (1, 0); (2, 0); (2, 0)]%float.
Proof. reflexivity. Qed.

(** Scenario A of the specification: 400 sq ft, category 2, class 2, default
    configuration. *)
Example scenario_A :
  let r := calculateRoom DEFAULT_CONFIGURATION (@readme_row float _) in
  EquipmentRequirements.air_movers (RoomResult.equipment r) = 1%float
  /\ EquipmentRequirements.standard_units (RoomResult.equipment r) = 1%float
  /\ EquipmentRequirements.large_units (RoomResult.equipment r) = 0%float
  /\ RoomTimeline.estimated_days (RoomResult.timeline r) = 4%float.
Proof. repeat split. Qed.

(** ** Timeline *)

Lemma water_class_cases (k : Z) :
  (1 <= k <= 4)%Z -> k = 1%Z \/ k = 2%Z \/ k = 3%Z \/ k = 4%Z.
Proof. lia. Qed.

(** C4. For a room whose [water_class] is 1, 2, 3 or 4,
    [estimated_days = ceil(base_days * class_multiplier)] with
    [base_days = 3] and the constant [daily_monitoring_hours = 2], and the
    class multiplier is non-decreasing in the water class; this holds of
    the binary64 computation and of the exact one. *)
Theorem timeline_estimated_days (k1 k2 : Z) :
  (1 <= k1 <= 4)%Z -> (1 <= k2 <= 4)%Z -> (k1 <= k2)%Z ->
  (forall (cfg : UserConfiguration.t float) (row : CSVRowData.t float),
     CSVRowData.water_class row = F64.of_Z k1 -> timeline_formula cfg row)
  /\ (forall (cfg : UserConfiguration.t Q) (row : CSVRowData.t Q),
     CSVRowData.water_class row = inject_Z k1 -> timeline_formula cfg row)
  /\ multiplier_monotone (num := float) k1 k2
  /\ multiplier_monotone (num := Q) k1 k2.
Proof.
  intros H1 H2 Hle.
  apply water_class_cases in H1, H2.
  split; [| split; [| split]].
  - intros cfg row Hwc. unfold timeline_formula. cbn. rewrite Hwc.
    destruct H1 as [-> | [-> | [-> | ->]]]; repeat split.
  - intros cfg row Hwc. unfold timeline_formula. cbn. rewrite Hwc.
    destruct H1 as [-> | [-> | [-> | ->]]]; repeat split.
  - intros cfg r1 r2 Hr1 Hr2. unfold multiplier_of. cbn. rewrite Hr1, Hr2.
    destruct H1 as [-> | [-> | [-> | ->]]];
      destruct H2 as [-> | [-> | [-> | ->]]];
      try lia; reflexivity.
  - intros cfg r1 r2 Hr1 Hr2. unfold multiplier_of. cbn.
    change (@num_of_Z Q _) with inject_Z in Hr1, Hr2. rewrite Hr1, Hr2.
    destruct H1 as [-> | [-> | [-> | ->]]];
      destruct H2 as [-> | [-> | [-> | ->]]];
      try lia; reflexivity.
Qed.

Lemma timeline_estimated_days_witness :
  ((1 <= 2 <= 4)%Z /\ (1 <= 3 <= 4)%Z /\ (2 <= 3)%Z)
  /\ timeline_formula (num := float) DEFAULT_CONFIGURATION readme_row
  /\ days_of (num := float) DEFAULT_CONFIGURATION readme_row = F64.of_Z 4.
Proof.
  assert (H2 : (1 <= 2 <= 4)%Z) by lia.
  assert (H3 : (1 <= 3 <= 4)%Z) by lia.
  assert (H23 : (2 <= 3)%Z) by lia.
  split; [exact (conj H2 (conj H3 H23)) |].
  split; [| reflexivity].
  apply (proj1 (timeline_estimated_days H2 H3 H23) DEFAULT_CONFIGURATION
           readme_row).
  reflexivity.
Defined.

(** ** Row validation and the row loop *)

Section ValidatorFacts.

Context {num : Type} `{JSNumber num}.

Lemma check_required_renumber (n m : nat) (field v : string) :
  map (renumber n) (check_required (num := num) m field v)
  = check_required n field v.
Proof.
  unfold check_required. destruct (string_truthy (trim v)); reflexivity.
Qed.

Lemma check_range_renumber (n m : nat) (field msg : string) (v lo hi : num) :
  map (renumber n) (check_range m field msg v lo hi)
  = check_range n field msg v lo hi.
Proof.
  unfold check_range.
  destruct (num_ltb v lo || num_ltb hi v); reflexivity.
Qed.

Lemma check_moisture_renumber (n m : nat) (field : string) (v : num) :
  map (renumber n) (check_moisture m field v) = check_moisture n field v.
Proof.
  unfold check_moisture.
  destruct (num_truthy v && _); reflexivity.
Qed.

(** The row number only labels the errors. *)
Lemma validateCSVRow_renumber (row : CSVRowData.t num) (n m : nat) :
  validateCSVRow row n = map (renumber n) (validateCSVRow row m).
Proof.
  unfold validateCSVRow.
  cbn [flat_map requiredFields moistureFields fst snd].
  rewrite !map_app, !check_required_renumber, !check_range_renumber,
    !check_moisture_renumber.
  reflexivity.
Qed.

Lemma row_passes_iff (row : CSVRowData.t num) (n : nat) :
  row_passes row = true <-> validateCSVRow row n = [].
Proof.
  unfold row_passes. rewrite (validateCSVRow_renumber row n 0).
  destruct (validateCSVRow row 0); cbn; split; intros E;
    (reflexivity || discriminate E).
Qed.

Lemma row_passes_length (row : CSVRowData.t num) (n : nat) :
  Nat.ltb 0 (List.length (validateCSVRow row n)) = negb (row_passes row).
Proof.
  unfold row_passes. rewrite (validateCSVRow_renumber row n 0).
  destruct (validateCSVRow row 0); reflexivity.
Qed.

Lemma parseCSVContent_from_valid (i : nat) (rows : list (CSVRowData.t num)) :
  valid (parseCSVContent_from i rows) = filter row_passes rows.
Proof.
  revert i. induction rows as [| row rest IH]; intros i; [reflexivity |].
  cbn [parseCSVContent_from filter]. rewrite row_passes_length.
  destruct (row_passes row); cbn [negb valid]; now rewrite IH.
Qed.

Lemma parseCSVContent_from_invalid (i : nat) (rows : list (CSVRowData.t num)) :
  invalid (parseCSVContent_from i rows)
  = filter (fun r => negb (row_passes r)) rows.
Proof.
  revert i. induction rows as [| row rest IH]; intros i; [reflexivity |].
  cbn [parseCSVContent_from filter]. rewrite row_passes_length.
  destruct (row_passes row); cbn [negb invalid]; now rewrite IH.
Qed.

Lemma parseCSVContent_from_errors (i : nat) (rows : list (CSVRowData.t num)) :
  errors (parseCSVContent_from i rows) = all_errors_from i rows.
Proof.
  revert i. induction rows as [| row rest IH]; intros i; [reflexivity |].
  unfold all_errors_from in *.
  cbn [parseCSVContent_from List.length seq combine flat_map fst snd].
  rewrite row_passes_length, <- IH.
  destruct (row_passes row) eqn:E; cbn [negb errors]; [| reflexivity].
  apply (row_passes_iff row (i + 1)) in E. now rewrite E.
Qed.

(** Every input row is either kept or skipped. *)
Lemma parseCSVContent_partition (rows : list (CSVRowData.t num)) :
  (List.length (valid (parseCSVContent rows))
   + List.length (invalid (parseCSVContent rows)) = List.length rows)%nat.
Proof.
  unfold parseCSVContent.
  rewrite parseCSVContent_from_valid, parseCSVContent_from_invalid.
  induction rows as [| row rest IH]; [reflexivity |].
  cbn [filter]. destruct (row_passes row); cbn [negb List.length]; lia.
Qed.

Lemma check_moisture_reports (n : nat) (field : string) (v : num) :
  num_truthy v = true -> moisture_out_of_range v = true ->
  check_moisture n field v = [moisture_error n field v].
Proof.
  unfold check_moisture, moisture_out_of_range. intros -> ->. reflexivity.
Qed.

End ValidatorFacts.

(** C9 (as stated, refuted). The sample row of the README has
    [ceiling_damage_moisture = 0], which lies below 0.05; the validator
    reports nothing and the row is among the valid ones. *)
Lemma moisture_zero_not_reported :
  CSVRowData.ceiling_damage_moisture (@readme_row float _) = F64.of_Z 0
  /\ moisture_out_of_range
       (CSVRowData.ceiling_damage_moisture (@readme_row float _)) = true
  /\ validateCSVRow (@readme_row float _) 2 = []
  /\ valid (parseCSVContent [@readme_row float _]) = [readme_row].
Proof. repeat split. Qed.

(** C9 (amended). A moisture field that is not zero (nor NaN) and lies
    outside [0.05, 0.95] is reported with the row number, the field, the
    message and the value, and the row is not among the valid rows. *)
Theorem moisture_out_of_range_reported {num : Type} `{JSNumber num}
    (row : CSVRowData.t num) (rowNumber : nat) (field : string) (v : num) :
  In (field, v) (moistureFields row) ->
  num_truthy v = true ->
  moisture_out_of_range v = true ->
  In (moisture_error rowNumber field v) (validateCSVRow row rowNumber)
  /\ row_passes row = false
  /\ forall rows, ~ In row (valid (parseCSVContent rows)).
Proof.
  intros Hin Ht Hr.
  assert (Hrep : forall n,
             In (moisture_error n field v) (validateCSVRow row n)).
  { intros n. unfold validateCSVRow.
    rewrite !in_app_iff. do 6 right.
    apply in_flat_map. exists (field, v). split; [exact Hin |].
    cbn [fst snd]. rewrite check_moisture_reports by assumption.
    now left. }
  assert (Hfail : row_passes row = false).
  { destruct (row_passes row) eqn:E; [| reflexivity].
    apply (row_passes_iff row 0) in E.
    specialize (Hrep 0%nat). rewrite E in Hrep. destruct Hrep. }
  split; [apply Hrep | split; [exact Hfail |]].
  intros rows Hv. unfold parseCSVContent in Hv.
  rewrite parseCSVContent_from_valid in Hv. apply filter_In in Hv.
  destruct Hv as [_ Hv]. congruence.
Qed.

Lemma moisture_out_of_range_reported_witness :
  let row := with_floor_materials_moisture (F64.dec 99 100) readme_row in
  (In ("floor_materials_moisture"%string, F64.dec 99 100) (moistureFields row)
   /\ F64.truthy (F64.dec 99 100) = true
   /\ moisture_out_of_range (F64.dec 99 100) = true)
  /\ In (moisture_error 2 "floor_materials_moisture" (F64.dec 99 100))
       (validateCSVRow row 2)
  /\ valid (parseCSVContent [row]) = [].
Proof.
  intros row.
  assert (Hin : In ("floor_materials_moisture"%string, F64.dec 99 100)
                  (moistureFields row)) by (simpl; tauto).
  assert (Ht : num_truthy (F64.dec 99 100) = true) by reflexivity.
  assert (Hr : moisture_out_of_range (F64.dec 99 100) = true) by reflexivity.
  split; [exact (conj Hin (conj Ht Hr)) |].
  split; [| reflexivity].
  apply (moisture_out_of_range_reported 2 Hin Ht Hr).
Defined.

(** ** The handler *)

(** C2 (as stated, refuted). When the only row fails validation the handler
    answers with a failure of status 400 that carries no data: no result
    with [room_count = 0], no error list, no skipped count. *)
Lemma no_valid_rows_is_a_failure :
  valid (parseCSVContent [with_room_sf (F64.of_Z 10) readme_row]) = []
  /\ processCSV [with_room_sf (F64.of_Z 10) readme_row]
       (Some DEFAULT_CONFIGURATION)
     = ApiResponse.mk false None
         (Some "No valid rows found. Errors: room_sf must be between 50-5000 square feet"%string)
         400.
Proof. split; reflexivity. Qed.

(** C2 (amended). The row loop keeps exactly the rows without error, skips
    the others and collects the errors of all rows.  With at least one valid
    row and the configuration at hand the handler answers with the results
    of the valid rows, in order, the whole error list and the number of
    skipped rows (without the configuration, with a failure of status 500);
    with no valid row it answers, whatever the configuration, with a failure
    of status 400 whose message joins the error messages. *)
Theorem processCSV_outcome {num : Type} `{JSNumber num}
    (rows : list (CSVRowData.t num)) (cfg : UserConfiguration.t num) :
  let p := parseCSVContent rows in
  valid p = filter row_passes rows
  /\ invalid p = filter (fun r => negb (row_passes r)) rows
  /\ errors p = all_errors_from 1 rows
  /\ match valid p with
     | [] =>
         forall configResult,
           processCSV rows configResult = no_valid_rows_response (errors p)
     | _ :: _ =>
         (exists project,
            processCSV rows (Some cfg)
            = ApiResponse.mk true
                (Some (CSVProcessResponse.mk true
                         (CalculationResults.mk
                            (map (calculateRoom cfg) (valid p)) project)
                         (errors p) (List.length (invalid p))))
                None 200
            /\ ProjectSummary.room_count project = List.length (valid p))
         /\ processCSV rows None
            = ApiResponse.mk false None
                (Some "Failed to retrieve user configuration"%string) 500
     end.
Proof.
  intros p. subst p. unfold parseCSVContent at 1 2 3.
  rewrite parseCSVContent_from_valid, parseCSVContent_from_invalid,
    parseCSVContent_from_errors.
  repeat split.
  unfold processCSV.
  destruct (valid (parseCSVContent rows)) as [| row rest] eqn:E.
  - intros configResult. reflexivity.
  - split; [eexists; split; reflexivity | reflexivity].
Qed.

(** ** Costs of a room *)

(** C3 (as stated, refuted). For the sample row of the README under the
    default configuration, the subtotal is 2038.25; the total computed as
    [subtotal + subtotal * 0.15] is 2343.9875000000002, the binary64 number
    just above [subtotal * 1.15 = 2343.9874999999997]. *)
Lemma rollup_not_exactly_115_percent :
  validateCSVRow (@readme_row float _) 2 = []
  /\ (let c := RoomResult.costs
                 (calculateRoom DEFAULT_CONFIGURATION (@readme_row float _)) in
      RoomCosts.subtotal c = 2038.25%float
      /\ PrimFloat.eqb (RoomCosts.total_room_cost c)
           (PrimFloat.mul (RoomCosts.subtotal c) (F64.dec 115 100)) = false
      /\ RoomCosts.total_room_cost c
         = PrimFloat.next_up
             (PrimFloat.mul (RoomCosts.subtotal c) (F64.dec 115 100))).
Proof. repeat split. Qed.

Lemma rollup_structure {num : Type} `{JSNumber num}
    (cfg : UserConfiguration.t num) (row : CSVRowData.t num) :
  let c := RoomResult.costs (calculateRoom cfg row) in
  RoomCosts.subtotal c
  = num_add
      (num_add (LaborCosts.total_labor (RoomCosts.labor c))
         (EquipmentCosts.total_equipment (RoomCosts.equipment c)))
      (MaterialCosts.total_materials (RoomCosts.materials c))
  /\ RoomCosts.commercial_markup c
     = num_mul (RoomCosts.subtotal c) (num_dec 15 100)
  /\ RoomCosts.total_room_cost c
     = num_add (RoomCosts.subtotal c) (RoomCosts.commercial_markup c).
Proof. repeat split. Qed.

(** C3 (amended). For every room, in either arithmetic, the subtotal is
    [total_labor + total_equipment + total_materials], the markup is
    [subtotal * 0.15] and the total is [subtotal + commercial_markup]; in
    exact arithmetic the total equals [subtotal * 1.15]. *)
Theorem rollup_markup :
  (forall (cfg : UserConfiguration.t float) (row : CSVRowData.t float),
     let c := RoomResult.costs (calculateRoom cfg row) in
     RoomCosts.subtotal c
     = PrimFloat.add
         (PrimFloat.add (LaborCosts.total_labor (RoomCosts.labor c))
            (EquipmentCosts.total_equipment (RoomCosts.equipment c)))
         (MaterialCosts.total_materials (RoomCosts.materials c))
     /\ RoomCosts.commercial_markup c
        = PrimFloat.mul (RoomCosts.subtotal c) (F64.dec 15 100)
     /\ RoomCosts.total_room_cost c
        = PrimFloat.add (RoomCosts.subtotal c) (RoomCosts.commercial_markup c))
  /\ (forall (cfg : UserConfiguration.t Q) (row : CSVRowData.t Q),
     let c := RoomResult.costs (calculateRoom cfg row) in
     (RoomCosts.subtotal c
      == LaborCosts.total_labor (RoomCosts.labor c)
         + EquipmentCosts.total_equipment (RoomCosts.equipment c)
         + MaterialCosts.total_materials (RoomCosts.materials c))%Q
     /\ (RoomCosts.commercial_markup c == RoomCosts.subtotal c * (15 # 100))%Q
     /\ (RoomCosts.total_room_cost c == RoomCosts.subtotal c * (115 # 100))%Q).
Proof.
  split.
  - intros cfg row. exact (rollup_structure cfg row).
  - intros cfg row c.
    destruct (rollup_structure cfg row) as (Hs & Hm & Ht). fold c in Hs, Hm, Ht.
    clearbody c. revert Hs Hm Ht.
    generalize (RoomCosts.total_room_cost c) (RoomCosts.commercial_markup c)
      (RoomCosts.subtotal c) (LaborCosts.total_labor (RoomCosts.labor c))
      (EquipmentCosts.total_equipment (RoomCosts.equipment c))
      (MaterialCosts.total_materials (RoomCosts.materials c)).
    intros t m s l e mt -> -> ->.
    cbn [num_add num_mul num_dec Q_JSNumber].
    rewrite !exact_add_eq, !exact_mul_eq, !exact_dec_eq.
    repeat split; try reflexivity. ring.
Qed.

(** What does hold of the material costs of a room: the floor is charged the
    cost of its reported specification, the ceiling is charged nothing for
    no affected surface, the wall is charged 2 per square foot, and the total
    is the sum of the three treatments, the disposal and the antimicrobial
    fee. *)
Lemma material_costs_structure {num : Type} `{JSNumber num}
    (cfg : UserConfiguration.t num) (row : CSVRowData.t num) :
  let r := calculateRoom cfg row in
  let m := RoomCosts.materials (RoomResult.costs r) in
  let d := RoomResult.materials r in
  MaterialCosts.floor_treatment m
  = num_mul (FloorMaterial.affected_sqft (RoomMaterials.floor d))
      (MaterialSpecification.cost
         (FloorMaterial.material_specs (RoomMaterials.floor d)))
  /\ MaterialCosts.wall_treatment m
     = num_mul (WallMaterial.affected_sqft (RoomMaterials.wall d))
         (num_of_Z 2)
  /\ MaterialCosts.ceiling_treatment m = num_of_Z 0
  /\ CeilingMaterial.affected_sqft (RoomMaterials.ceiling d) = num_of_Z 0
  /\ MaterialCosts.total_materials m
     = num_add
         (num_add
            (num_add
               (num_add (MaterialCosts.floor_treatment m)
                  (MaterialCosts.wall_treatment m))
               (MaterialCosts.ceiling_treatment m))
            (MaterialCosts.disposal m))
         (MaterialCosts.antimicrobial m).
Proof. repeat split. Qed.

(** C5 (the code departs from it). For the sample row of the README, with
    120 sq ft of damaged wall, the wall specification reported in the
    materials detail costs 2.25 per square foot, which makes 270, and the
    wall treatment charged is 240. *)
Lemma wall_treatment_ignores_reported_cost :
  validateCSVRow (@readme_row float _) 2 = []
  /\ (let r := calculateRoom DEFAULT_CONFIGURATION (@readme_row float _) in
      let w := RoomMaterials.wall (RoomResult.materials r) in
      WallMaterial.affected_sqft w = 120%float
      /\ MaterialSpecification.cost (WallMaterial.material_specs w)
         = 2.25%float
      /\ PrimFloat.mul (WallMaterial.affected_sqft w)
           (MaterialSpecification.cost (WallMaterial.material_specs w))
         = 270%float
      /\ MaterialCosts.wall_treatment
           (RoomCosts.materials (RoomResult.costs r)) = 240%float).
Proof. repeat split. Qed.

(** In exact arithmetic the two differ for every room with a damaged wall
    area other than zero. *)
Lemma wall_treatment_mismatch
    (cfg : UserConfiguration.t Q) (row : CSVRowData.t Q) :
  ~ (CSVRowData.wall_damage_sf row == 0)%Q ->
  let r := calculateRoom cfg row in
  let w := RoomMaterials.wall (RoomResult.materials r) in
  ~ (MaterialCosts.wall_treatment (RoomCosts.materials (RoomResult.costs r))
     == WallMaterial.affected_sqft w
        * MaterialSpecification.cost (WallMaterial.material_specs w))%Q.
Proof.
  intros Hw r w E. apply Hw. subst w r. revert E.
  cbn [calculateRoom RoomResult.costs RoomResult.materials RoomCosts.materials
         RoomMaterials.wall MaterialCosts.wall_treatment
         WallMaterial.affected_sqft WallMaterial.material_specs
         MaterialSpecification.cost].
  cbn [num_mul num_of_Z num_dec Q_JSNumber].
  generalize (CSVRowData.wall_damage_sf row). intros a.
  rewrite exact_mul_eq, exact_dec_eq. unfold Exact.of_Z, inject_Z.
  intros E. lra.
Qed.

(** ** Electrical output *)

(** C6 (as stated, refuted). Two valid rooms with 3 and 7 units of equipment
    have the same total amperage, 45; and no draw per kind of equipment
    gives the total amperage of every valid room as the sum over its
    units. *)
Lemma amperage_ignores_equipment :
  (let a := calculateRoom DEFAULT_CONFIGURATION (@readme_row float _) in
   let b := calculateRoom DEFAULT_CONFIGURATION
              (with_room_sf (F64.of_Z 1300) readme_row) in
   validateCSVRow (with_room_sf (F64.of_Z 1300) readme_row) 3 = []
   /\ EquipmentRequirements.total_units (RoomResult.equipment a) = 3%float
   /\ EquipmentRequirements.total_units (RoomResult.equipment b) = 7%float
   /\ ElectricalRequirements.total_amperage (RoomResult.electrical a)
      = 45%float
   /\ ElectricalRequirements.total_amperage (RoomResult.electrical b)
      = 45%float)
  /\ ~ (exists draw : EquipmentKind -> Q,
          forall row : CSVRowData.t Q,
            row_passes row = true ->
            let r := calculateRoom DEFAULT_CONFIGURATION row in
            (ElectricalRequirements.total_amperage (RoomResult.electrical r)
             == amperage_of_draws draw (RoomResult.equipment r))%Q).
Proof.
  split; [repeat split |].
  intros [draw Hd].
  pose proof (Hd (carpet_row 400) eq_refl) as H1.
  pose proof (Hd (carpet_row 800) eq_refl) as H2.
  pose proof (Hd (carpet_row 1300) eq_refl) as H3.
  cbv zeta in H1, H2, H3.
  change (RoomResult.equipment
            (calculateRoom DEFAULT_CONFIGURATION (carpet_row 400)))
    with (EquipmentRequirements.mk 0%Q 1%Q 1%Q 0%Q 0%Q 0%Q 0%Q 2%Q "Standard")
    in H1.
  change (RoomResult.equipment
            (calculateRoom DEFAULT_CONFIGURATION (carpet_row 800)))
    with (EquipmentRequirements.mk 0%Q 1%Q 2%Q 0%Q 0%Q 0%Q 0%Q 3%Q "Standard")
    in H2.
  change (RoomResult.equipment
            (calculateRoom DEFAULT_CONFIGURATION (carpet_row 1300)))
    with (EquipmentRequirements.mk 0%Q 2%Q 4%Q 0%Q 0%Q 0%Q 0%Q 6%Q "Standard")
    in H3.
  change (ElectricalRequirements.total_amperage _) with 45%Q in H1, H2, H3.
  unfold amperage_of_draws in H1, H2, H3.
  cbn [units_of EquipmentRequirements.large_units
         EquipmentRequirements.standard_units EquipmentRequirements.air_movers
         EquipmentRequirements.heaters EquipmentRequirements.air_scrubbers
         EquipmentRequirements.injection_systems
         EquipmentRequirements.generator_required] in H1, H2, H3.
  lra.
Qed.

(** C6 (amended). The electrical output of a room does not depend on its
    equipment: the total amperage is 45, one 20 A circuit and two 15 A
    circuits are required, the daily consumption is 24 kWh at 120 V; and
    [generator_needed] is 1 when the input flag is "yes", whatever its case,
    and 0 otherwise, as is the generator count of the equipment. *)
Theorem electrical_is_constant {num : Type} `{JSNumber num}
    (cfg : UserConfiguration.t num) (row : CSVRowData.t num) :
  let r := calculateRoom cfg row in
  let e := RoomResult.electrical r in
  ElectricalRequirements.total_amperage e = num_of_Z 45
  /\ ElectricalRequirements.circuits_20a_required e = num_of_Z 1
  /\ ElectricalRequirements.circuits_15a_required e = num_of_Z 2
  /\ ElectricalRequirements.daily_kwh e = num_of_Z 24
  /\ ElectricalRequirements.voltage e = "120V"%string
  /\ ElectricalRequirements.generator_needed e
     = (if String.eqb (toLowerCase (CSVRowData.generator_needed row)) "yes"
        then num_of_Z 1 else num_of_Z 0)
  /\ ElectricalRequirements.generator_needed e
     = EquipmentRequirements.generator_required (RoomResult.equipment r).
Proof. repeat split. Qed.

(** ** Project aggregation *)

(** C1 (as stated, refuted). For the single room of the README sample, and
    for three such rooms (one timeline of 4 days), no entry of [details] is
    emitted although there is a bucket; and for the single room, which
    shares its timeline with no other, savings are reported all the same. *)
Lemma labor_optimization_has_no_buckets :
  let room := calculateRoom DEFAULT_CONFIGURATION (@readme_row float _) in
  let one := projectSummary [readme_row] room [] in
  let three :=
    projectSummary [readme_row; readme_row; readme_row] room [room; room] in
  RoomTimeline.estimated_days (RoomResult.timeline room) = 4%float
  /\ ProjectSummary.room_count one = 1%nat
  /\ LaborOptimization.details (ProjectSummary.labor_optimization one) = []
  /\ PrimFloat.ltb 0
       (LaborOptimization.savings (ProjectSummary.labor_optimization one))
     = true
  /\ ProjectSummary.room_count three = 3%nat
  /\ LaborOptimization.details (ProjectSummary.labor_optimization three) = [].
Proof. repeat split. Qed.

(** C1 (amended). For every non-empty list of room results the pass does no
    grouping: the savings are [total_cost * 0.05], split into
    [total_cost * 0.03] for supervision and [total_cost * 0.02] for setup
    and breakdown, [details] is empty, and [optimized_total_cost] is
    [total_cost * 0.95]; in exact arithmetic this is [total_cost - savings],
    and the two parts add up to the savings. *)
Theorem labor_optimization_flat_rate :
  (forall (num : Type) (N : JSNumber num) (valid : list (CSVRowData.t num))
          (room : RoomResult.t num) (rooms : list (RoomResult.t num)),
     let p := projectSummary valid room rooms in
     let o := ProjectSummary.labor_optimization p in
     LaborOptimization.savings o
     = num_mul (ProjectSummary.total_cost p) (num_dec 5 100)
     /\ LaborOptimization.supervision_savings o
        = num_mul (ProjectSummary.total_cost p) (num_dec 3 100)
     /\ LaborOptimization.setup_breakdown_savings o
        = num_mul (ProjectSummary.total_cost p) (num_dec 2 100)
     /\ LaborOptimization.details o = []
     /\ ProjectSummary.optimized_total_cost p
        = num_mul (ProjectSummary.total_cost p) (num_dec 95 100))
  /\ (forall (valid : list (CSVRowData.t Q)) (room : RoomResult.t Q)
             (rooms : list (RoomResult.t Q)),
     let p := projectSummary valid room rooms in
     let o := ProjectSummary.labor_optimization p in
     (ProjectSummary.optimized_total_cost p
      == ProjectSummary.total_cost p - LaborOptimization.savings o)%Q
     /\ (LaborOptimization.savings o
         == LaborOptimization.supervision_savings o
            + LaborOptimization.setup_breakdown_savings o)%Q).
Proof.
  split; [intros; repeat split |].
  intros valid room rooms p o. subst o p.
  cbn [projectSummary ProjectSummary.optimized_total_cost
         ProjectSummary.total_cost ProjectSummary.labor_optimization
         LaborOptimization.savings LaborOptimization.supervision_savings
         LaborOptimization.setup_breakdown_savings].
  generalize (sum_by
                (fun r : RoomResult.t Q =>
                   RoomCosts.total_room_cost (RoomResult.costs r))
                (room :: rooms)).
  intros t. cbn [num_mul num_dec Q_JSNumber].
  rewrite !exact_mul_eq, !exact_dec_eq. split; ring.
Qed.

(** ** Signs of the costs and the counts *)

Section Signs.

Local Open Scope Q_scope.

Lemma exact_of_Z_nonneg (z : Z) : (0 <= z)%Z -> 0 <= Exact.of_Z z.
Proof.
  intros Hz. unfold Exact.of_Z. change 0 with (inject_Z 0).
  now rewrite <- Zle_Qle.
Qed.

Lemma exact_dec_nonneg (m : Z) (d : positive) :
  (0 <= m)%Z -> 0 <= Exact.dec m d.
Proof.
  intros Hm. rewrite exact_dec_eq. unfold Qle. cbn [Qnum Qden]. lia.
Qed.

Lemma exact_add_nonneg a b : 0 <= a -> 0 <= b -> 0 <= Exact.add a b.
Proof. intros Ha Hb. rewrite exact_add_eq. lra. Qed.

Lemma exact_sub_nonneg a b : b <= a -> 0 <= Exact.sub a b.
Proof. intros Hab. rewrite exact_sub_eq. lra. Qed.

Lemma exact_mul_nonneg a b : 0 <= a -> 0 <= b -> 0 <= Exact.mul a b.
Proof. intros Ha Hb. rewrite exact_mul_eq. now apply Qmult_le_0_compat. Qed.

Lemma exact_div_nonneg a b : 0 <= a -> 0 <= b -> 0 <= Exact.div a b.
Proof.
  intros Ha Hb. rewrite exact_div_eq. unfold Qdiv.
  apply Qmult_le_0_compat; [exact Ha | now apply Qinv_le_0_compat].
Qed.

Lemma exact_ceil_nonneg x : 0 <= x -> 0 <= Exact.ceil x.
Proof.
  intros Hx. eapply Qle_trans; [exact Hx | apply Qle_ceiling].
Qed.

Lemma if_nonneg (b : bool) (x y : Q) :
  0 <= x -> 0 <= y -> 0 <= (if b then x else y).
Proof. now destruct b. Qed.

Lemma is_count_of_Z (z : Z) : (0 <= z)%Z -> is_count (Exact.of_Z z).
Proof. intros Hz. now exists z. Qed.

Lemma is_count_add a b : is_count a -> is_count b -> is_count (Exact.add a b).
Proof.
  intros (n & Hn & ->) (m & Hm & ->). exists (n + m)%Z. split; [lia |].
  unfold Exact.add. rewrite <- inject_Z_plus.
  apply Qcanon.Qred_identity. cbn [inject_Z Qnum Qden]. apply Z.gcd_1_r.
Qed.

Lemma is_count_if (b : bool) (x y : Q) :
  is_count x -> is_count y -> is_count (if b then x else y).
Proof. now destruct b. Qed.

End Signs.

(** Unfolds the calculation of a room, in exact arithmetic, down to the
    operations of the instance. *)
Ltac unfold_room :=
  cbv beta iota zeta delta
    [calculateRoom
       RoomResult.costs RoomResult.equipment RoomResult.timeline
       RoomResult.electrical RoomResult.materials RoomResult.room_sf
       RoomCosts.labor RoomCosts.equipment RoomCosts.materials
       RoomCosts.subtotal RoomCosts.commercial_markup
       RoomCosts.total_room_cost RoomCosts.cost_per_sqft
       LaborCosts.total_labor LaborCosts.supervisor_cost
       LaborCosts.project_management
       EquipmentCosts.total_equipment MaterialCosts.total_materials
       EquipmentRequirements.large_units EquipmentRequirements.standard_units
       EquipmentRequirements.air_movers EquipmentRequirements.heaters
       EquipmentRequirements.air_scrubbers
       EquipmentRequirements.injection_systems
       EquipmentRequirements.generator_required
       EquipmentRequirements.total_units
       RoomTimeline.estimated_days
       num_of_Z num_dec num_add num_sub num_mul num_div num_ltb num_leb
       num_ceil num_max num_truthy Q_JSNumber].

Lemma check_range_nil {num : Type} `{JSNumber num} (n : nat)
    (field msg : string) (v lo hi : num) :
  check_range n field msg v lo hi = [] ->
  num_ltb v lo = false /\ num_ltb hi v = false.
Proof.
  unfold check_range.
  destruct (num_ltb v lo), (num_ltb hi v); cbn; intros E;
    (discriminate E || now split).
Qed.

(** What the validator guarantees of the numbers of a row it passes. *)
Lemma row_passes_ranges (row : CSVRowData.t Q) :
  row_passes row = true ->
  (1 <= CSVRowData.water_category row <= 3)%Q
  /\ (1 <= CSVRowData.water_class row <= 4)%Q
  /\ (50 <= CSVRowData.room_sf row <= 5000)%Q
  /\ (60 <= CSVRowData.room_temp_f row <= 100)%Q
  /\ (20 <= CSVRowData.room_humidity row <= 90)%Q.
Proof.
  intros Hp. apply (row_passes_iff row 0) in Hp.
  unfold validateCSVRow in Hp.
  repeat match type of Hp with
         | (_ ++ _)%list = [] =>
             apply app_eq_nil in Hp; destruct Hp as [? Hp]
         end.
  repeat match goal with
         | E : check_range _ _ _ _ _ _ = [] |- _ =>
             apply check_range_nil in E; destruct E as [?%exact_ltb_false
                                                         ?%exact_ltb_false]
         end.
  now repeat split.
Qed.

Lemma check_rate_nil {num : Type} `{JSNumber num} (message : string)
    (v lo hi : num) :
  check_rate message v lo hi = [] ->
  num_ltb v lo = false /\ num_ltb hi v = false.
Proof.
  unfold check_rate.
  destruct (num_ltb v lo), (num_ltb hi v); cbn; intros E;
    (discriminate E || now split).
Qed.

(** The rates of a configuration that the database client accepts are not
    negative; those of the default configuration are accepted. *)
Lemma accepted_config_nonneg (cfg : UserConfiguration.t Q) :
  validateConfigurationData cfg = [] -> config_nonneg cfg.
Proof.
  unfold validateConfigurationData. intros Hv.
  repeat match type of Hv with
         | (_ ++ _)%list = [] =>
             apply app_eq_nil in Hv; destruct Hv as [? Hv]
         end.
  repeat match goal with
         | E : check_rate _ _ _ _ = [] |- _ =>
             apply check_rate_nil in E; destruct E as [?%exact_ltb_false _]
         end.
  unfold config_nonneg.
  cbv [num_of_Z Q_JSNumber Exact.of_Z inject_Z] in *.
  repeat split; lra.
Qed.

Example default_config_accepted :
  validateConfigurationData (@DEFAULT_CONFIGURATION float _) = []
  /\ validateConfigurationData (@DEFAULT_CONFIGURATION Q _) = [].
Proof. split; reflexivity. Qed.

(** C8 (as stated, refuted). The sample row of the README with
    [floor_damage_sf = -1000] passes the validator, which does not look at
    the damaged areas; its material costs, subtotal, markup, total and cost
    per square foot are negative.  With an infinite [floor_damage_sf] (the
    cell [Infinity]) the row passes as well and the total is not finite. *)
Lemma negative_damage_area_passes_validation :
  let row := with_floor_damage_sf (F64.of_Z (-1000)) readme_row in
  let c := RoomResult.costs (calculateRoom DEFAULT_CONFIGURATION row) in
  let row' := with_floor_damage_sf PrimFloat.infinity readme_row in
  let c' := RoomResult.costs (calculateRoom DEFAULT_CONFIGURATION row') in
  validateCSVRow row 2 = []
  /\ MaterialCosts.total_materials (RoomCosts.materials c) = (-2160)%float
  /\ RoomCosts.subtotal c = (-961.75)%float
  /\ PrimFloat.ltb (RoomCosts.commercial_markup c) 0 = true
  /\ PrimFloat.ltb (RoomCosts.total_room_cost c) 0 = true
  /\ PrimFloat.ltb (RoomCosts.cost_per_sqft c) 0 = true
  /\ validateCSVRow row' 2 = []
  /\ PrimFloat.is_finite (RoomCosts.total_room_cost c') = false.
Proof. repeat split. Qed.

(** *** The costs and the counts of a room in binary64 *)

Unset Implicit Arguments.

Section F64Costs.

Local Open Scope Z_scope.

Lemma f64_nn_const (x : float) :
  f64_zero_or_above x = true ->
  f64_nn (Z.max 0 (f64_magnitude x)) x = true.
Proof.
  unfold f64_zero_or_above, f64_nn, f64_magnitude.
  destruct (Prim2SF x) as [s | s | | [] m e]; try discriminate;
    intros _; [reflexivity |].
  cbn [SFnn]. apply Z.leb_le. lia.
Qed.

Lemma f64_if_nn_max (kx ky : Z) (b : bool) (x y : float) :
  f64_nn kx x = true -> f64_nn ky y = true ->
  f64_nn (Z.max kx ky) (if b then x else y) = true.
Proof.
  intros Hx Hy.
  destruct b; [eapply f64_nn_mono; [exact Hx |]
              | eapply f64_nn_mono; [exact Hy |]];
    apply Z.leb_le; lia.
Qed.

Lemma f64_count_nn (n : Z) : 0 <= n <= 127 -> f64_nn 8 (F64.of_Z n) = true.
Proof.
  intros Hn. apply (f64_of_Z_nn 7); [| lia].
  change (2 ^ 7) with 128. lia.
Qed.

Lemma if_of_Z (b : bool) (n m : Z) :
  (if b then F64.of_Z n else F64.of_Z m) = F64.of_Z (if b then n else m).
Proof. now destruct b. Qed.

(** The comparisons of the validations, for numbers that are not NaN. *)
Lemma f64_not_below (v lo : float) :
  PrimFloat.ltb v lo = false ->
  PrimFloat.is_nan v = false -> PrimFloat.is_nan lo = false ->
  PrimFloat.leb lo v = true.
Proof.
  intros H Hv Hlo. rewrite (@f64_ltb_negb_leb lo v Hlo Hv) in H.
  now apply negb_false_iff in H.
Qed.

Lemma f64_not_above (v hi : float) :
  PrimFloat.ltb hi v = false ->
  PrimFloat.is_nan v = false -> PrimFloat.is_nan hi = false ->
  PrimFloat.leb v hi = true.
Proof.
  intros H Hv Hhi. rewrite (@f64_ltb_negb_leb v hi Hv Hhi) in H.
  now apply negb_false_iff in H.
Qed.

(** A number that a check of range passes is below [2^k], for the bounds of
    the check. *)
Lemma f64_in_range_nn (k : Z) (v lo hi : float) :
  PrimFloat.ltb v lo = false -> PrimFloat.ltb hi v = false ->
  PrimFloat.is_nan v = false ->
  negb (PrimFloat.is_nan lo) && negb (PrimFloat.is_nan hi)
  && f64_zero_or_above lo
  && match f64_exponent hi with
     | Some eh => 53 + eh <=? k
     | None => false
     end = true ->
  PrimFloat.leb lo v = true /\ PrimFloat.leb v hi = true
  /\ f64_nn k v = true.
Proof.
  intros Hlo Hhi Hv
    [[[Nlo%negb_true_iff Nhi%negb_true_iff]%andb_true_iff Hz]%andb_true_iff
       Hk]%andb_true_iff.
  assert (H1 : PrimFloat.leb lo v = true) by now apply f64_not_below.
  assert (H2 : PrimFloat.leb v hi = true) by now apply f64_not_above.
  split; [exact H1 |]. split; [exact H2 |].
  apply (f64_nn_of_leb k lo v hi H1 H2). now rewrite Hz, Hk.
Qed.

(** The rates of an accepted configuration are below [2^9]. *)
Lemma f64_config_accepted_rates (cfg : UserConfiguration.t float) :
  f64_config_accepted cfg ->
  Forall (fun v => f64_nn 9 v = true) (rates_of cfg).
Proof.
  intros [Hv Hn]. unfold validateConfigurationData in Hv.
  repeat match type of Hv with
         | (_ ++ _)%list = [] =>
             apply app_eq_nil in Hv; destruct Hv as [? Hv]
         end.
  repeat match goal with
         | E : check_rate _ _ _ _ = [] |- _ =>
             apply check_rate_nil in E; destruct E as [? ?]
         end.
  unfold rates_of in *.
  repeat match type of Hn with
         | Forall _ (_ :: _) =>
             let Hx := fresh "Hx" in
             apply Forall_cons_iff in Hn; destruct Hn as [Hx Hn]
         end.
  repeat (constructor;
          [eapply f64_in_range_nn; [eassumption | eassumption | assumption
                                    | vm_compute; reflexivity] |]).
  constructor.
Qed.

(** The size and the class of an accepted row. *)
Lemma f64_row_accepted_ranges (row : CSVRowData.t float) :
  f64_row_accepted row ->
  (PrimFloat.leb (F64.of_Z 50) (CSVRowData.room_sf row) = true
   /\ f64_nn 13 (CSVRowData.room_sf row) = true)
  /\ (PrimFloat.leb (F64.of_Z 1) (CSVRowData.water_class row) = true
      /\ f64_nn 3 (CSVRowData.water_class row) = true).
Proof.
  intros (Hp & Hsf & Hwc). apply (row_passes_iff row 0) in Hp.
  unfold validateCSVRow in Hp.
  repeat match type of Hp with
         | (_ ++ _)%list = [] =>
             apply app_eq_nil in Hp; destruct Hp as [? Hp]
         end.
  repeat match goal with
         | E : check_range _ _ _ _ _ _ = [] |- _ =>
             apply check_range_nil in E; destruct E as [? ?]
         end.
  split.
  - assert (Hsize : PrimFloat.leb (F64.of_Z 50) (CSVRowData.room_sf row) = true
                  /\ PrimFloat.leb (CSVRowData.room_sf row) (F64.of_Z 5000)
                     = true
                  /\ f64_nn 13 (CSVRowData.room_sf row) = true)
      by (eapply f64_in_range_nn;
          [eassumption | eassumption | assumption | vm_compute; reflexivity]).
    now destruct Hsize as (? & _ & ?).
  - assert (Hclass : PrimFloat.leb (F64.of_Z 1) (CSVRowData.water_class row)
                 = true
                 /\ PrimFloat.leb (CSVRowData.water_class row) (F64.of_Z 4)
                    = true
                 /\ f64_nn 3 (CSVRowData.water_class row) = true)
      by (eapply f64_in_range_nn;
          [eassumption | eassumption | assumption | vm_compute; reflexivity]).
    now destruct Hclass as (? & _ & ?).
Qed.

(** The quotient of the size of a room by a number from [2^(j-1)] on,
    rounded up: an integer from 0 to [2^(15-j)]. *)
Lemma f64_units_count (j : Z) (sf c : float) :
  PrimFloat.leb (F64.of_Z 50) sf = true -> f64_nn 13 sf = true ->
  f64_above j c = true -> 0 <= 15 - j <= 52 ->
  exists n : Z, 0 <= n <= 2 ^ (15 - j)
                /\ F64.ceil (PrimFloat.div sf c) = F64.of_Z n.
Proof.
  intros H50 Hsf Hc Hj.
  apply f64_ceil_count; [| exact Hj].
  replace (15 - j) with (13 - j + 2) by lia.
  apply f64_div_pz; [| exact Hc | apply andb_true_iff; split; apply Z.leb_le; lia].
  apply (f64_pz_of_above 6); [| exact Hsf].
  unfold f64_above. rewrite FloatAxioms.leb_spec in H50.
  unfold f64_nn in Hsf. pose proof (Prim2SF_valid sf) as V.
  change (Prim2SF (F64.of_Z 50))
    with (S754_finite false 7036874417766400 (-47)) in H50.
  destruct (Prim2SF sf) as [s | [] | | [] m e]; try discriminate.
  cbn [valid_binary] in V. apply bounded_spec in V.
  destruct V as (_ & _ & Hn). cbn [SFabove]. apply Z.leb_le.
  unfold SFleb, SFcompare in H50.
  destruct (Z.compare_spec (-47) e); [| | discriminate H50];
    rewrite Hn by lia; lia.
Qed.

Ltac unfold_room_f64 :=
  cbv beta iota zeta delta
    [calculateRoom
       RoomResult.costs RoomResult.equipment RoomResult.timeline
       RoomResult.electrical RoomResult.materials RoomResult.room_sf
       RoomCosts.labor RoomCosts.equipment RoomCosts.materials
       RoomCosts.subtotal RoomCosts.commercial_markup
       RoomCosts.total_room_cost RoomCosts.cost_per_sqft
       LaborCosts.total_labor LaborCosts.supervisor_cost
       LaborCosts.project_management
       EquipmentCosts.total_equipment MaterialCosts.total_materials
       EquipmentRequirements.large_units EquipmentRequirements.standard_units
       EquipmentRequirements.air_movers EquipmentRequirements.heaters
       EquipmentRequirements.air_scrubbers
       EquipmentRequirements.injection_systems
       EquipmentRequirements.generator_required
       EquipmentRequirements.total_units
       RoomTimeline.estimated_days
       num_of_Z num_dec num_add num_sub num_mul num_div num_ltb num_leb
       num_ceil num_max num_truthy float_JSNumber].

(** The bound of a number built by the operations from numbers with
    bounds. *)
Ltac f64_bound :=
  lazymatch goal with
  | |- f64_nn _ (PrimFloat.add _ _) = true =>
      eapply f64_add_nn; [f64_bound | f64_bound | vm_compute; reflexivity]
  | |- f64_nn _ (PrimFloat.mul _ _) = true =>
      eapply f64_mul_nn; [f64_bound | f64_bound | vm_compute; reflexivity]
  | |- f64_nn _ (PrimFloat.div _ _) = true =>
      eapply f64_div_nn; [f64_bound | eassumption | vm_compute; reflexivity]
  | |- f64_nn _ (if _ then _ else _) = true =>
      eapply f64_if_nn_max; [f64_bound | f64_bound]
  | |- f64_nn _ (F64.of_Z ?n) = true =>
      lazymatch n with
      | Z0 => eapply f64_nn_const; vm_compute; reflexivity
      | Zpos _ => eapply f64_nn_const; vm_compute; reflexivity
      | _ => eapply f64_count_nn; lia
      end
  | |- f64_nn _ _ = true =>
      first [ eassumption | eapply f64_nn_const; vm_compute; reflexivity ]
  end.

(** The costs and the counts of a room in binary64. *)
Lemma f64_room_costs_finite
    (cfg : UserConfiguration.t float) (row : CSVRowData.t float) :
  f64_row_accepted row -> f64_config_accepted cfg ->
  f64_area (CSVRowData.floor_damage_sf row) ->
  f64_area (CSVRowData.wall_damage_sf row) ->
  let r := calculateRoom cfg row in
  let c := RoomResult.costs r in
  let e := RoomResult.equipment r in
  (f64_cost (LaborCosts.total_labor (RoomCosts.labor c))
   /\ f64_cost (EquipmentCosts.total_equipment (RoomCosts.equipment c))
   /\ f64_cost (MaterialCosts.total_materials (RoomCosts.materials c))
   /\ f64_cost (RoomCosts.subtotal c)
   /\ f64_cost (RoomCosts.commercial_markup c)
   /\ f64_cost (RoomCosts.total_room_cost c)
   /\ f64_cost (RoomCosts.cost_per_sqft c))
  /\ (f64_is_count (EquipmentRequirements.large_units e)
      /\ f64_is_count (EquipmentRequirements.standard_units e)
      /\ f64_is_count (EquipmentRequirements.air_movers e)
      /\ f64_is_count (EquipmentRequirements.heaters e)
      /\ f64_is_count (EquipmentRequirements.air_scrubbers e)
      /\ f64_is_count (EquipmentRequirements.injection_systems e)
      /\ f64_is_count (EquipmentRequirements.generator_required e)
      /\ f64_is_count (EquipmentRequirements.total_units e)).
Proof.
  intros Hrow Hcfg [Hf0 Hf1] [Hw0 Hw1].
  destruct (f64_row_accepted_ranges row Hrow)
    as ((Hsf50 & Hsf) & (Hwc1 & Hwc)).
  pose proof (f64_config_accepted_rates cfg Hcfg) as Hrates.
  unfold rates_of in Hrates.
  repeat match type of Hrates with
         | Forall _ (_ :: _) =>
             let Hx := fresh "Hrate" in
             apply Forall_cons_iff in Hrates; destruct Hrates as [Hx Hrates]
         end.
  clear Hrates.
  assert (Hfloor : f64_nn 1001 (CSVRowData.floor_damage_sf row) = true)
    by (apply (f64_nn_of_leb 1001 0%float _ max_area Hf0 Hf1); reflexivity).
  assert (Hwall : f64_nn 1001 (CSVRowData.wall_damage_sf row) = true)
    by (apply (f64_nn_of_leb 1001 0%float _ max_area Hw0 Hw1); reflexivity).
  assert (Hsize : f64_above 6 (CSVRowData.room_sf row) = true).
  { destruct Hrow as (Hp & Hn & _). apply (row_passes_iff row 0) in Hp.
    unfold validateCSVRow in Hp.
    repeat match type of Hp with
           | (_ ++ _)%list = [] =>
               apply app_eq_nil in Hp; destruct Hp as [? Hp]
           end.
    repeat match goal with
           | E : check_range _ _ _ _ _ _ = [] |- _ =>
               apply check_range_nil in E; destruct E as [? ?]
           end.
    apply (f64_above_of_leb 6 (F64.of_Z 50) _ (F64.of_Z 5000));
      [exact Hsf50 | | reflexivity].
    apply f64_not_above; [assumption | exact Hn | reflexivity]. }
  assert (Hclass : f64_nn 4 (PrimFloat.sub (CSVRowData.water_class row)
                               (F64.of_Z 1)) = true)
    by (apply (f64_sub_nn 3); [exact Hwc | reflexivity | exact Hwc1
                               | reflexivity]).
  destruct (f64_units_count 12 (CSVRowData.room_sf row) (F64.of_Z 2500)
              Hsf50 Hsf eq_refl ltac:(lia)) as (nl & Hnl & El).
  destruct (f64_units_count 11 (CSVRowData.room_sf row) (F64.of_Z 1200)
              Hsf50 Hsf eq_refl ltac:(lia)) as (ns & Hns & Es).
  destruct (f64_units_count 9 (CSVRowData.room_sf row) (F64.of_Z 400)
              Hsf50 Hsf eq_refl ltac:(lia)) as (na & Hna & Ea).
  change (2 ^ (15 - 12)) with 8 in Hnl.
  change (2 ^ (15 - 11)) with 16 in Hns.
  change (2 ^ (15 - 9)) with 64 in Hna.
  unfold_room_f64. rewrite El, Es, Ea. split.
  - repeat match goal with |- _ /\ _ => split end;
      (eapply f64_nn_finite; f64_bound).
  - destruct (PrimFloat.ltb (F64.of_Z 1500) (CSVRowData.room_sf row)),
      (PrimFloat.leb (CSVRowData.room_sf row) (F64.of_Z 1500)),
      (PrimFloat.leb (F64.of_Z 3) (CSVRowData.water_category row)),
      (includes "hardwood" (toLowerCase (CSVRowData.floor_materials row))),
      (String.eqb (toLowerCase (CSVRowData.generator_needed row)) "yes").
    all: rewrite ?small_sums_exact by lia;
      repeat match goal with |- _ /\ _ => split end;
      (eexists; split; [| reflexivity]; lia).
Qed.

End F64Costs.

Set Implicit Arguments.

(** The costs and the counts of a room in exact arithmetic. *)
Lemma exact_room_costs_nonnegative
    (cfg : UserConfiguration.t Q) (row : CSVRowData.t Q) :
  row_passes row = true ->
  config_nonneg cfg ->
  (0 <= CSVRowData.floor_damage_sf row)%Q ->
  (0 <= CSVRowData.wall_damage_sf row)%Q ->
  let r := calculateRoom cfg row in
  let c := RoomResult.costs r in
  let e := RoomResult.equipment r in
  ((0 <= LaborCosts.total_labor (RoomCosts.labor c))%Q
   /\ (0 <= EquipmentCosts.total_equipment (RoomCosts.equipment c))%Q
   /\ (0 <= MaterialCosts.total_materials (RoomCosts.materials c))%Q
   /\ (0 <= RoomCosts.subtotal c)%Q
   /\ (0 <= RoomCosts.commercial_markup c)%Q
   /\ (0 <= RoomCosts.total_room_cost c)%Q
   /\ (0 <= RoomCosts.cost_per_sqft c)%Q)
  /\ (is_count (EquipmentRequirements.large_units e)
      /\ is_count (EquipmentRequirements.standard_units e)
      /\ is_count (EquipmentRequirements.air_movers e)
      /\ is_count (EquipmentRequirements.heaters e)
      /\ is_count (EquipmentRequirements.air_scrubbers e)
      /\ is_count (EquipmentRequirements.injection_systems e)
      /\ is_count (EquipmentRequirements.generator_required e)
      /\ is_count (EquipmentRequirements.total_units e)).
Proof.
  intros Hp Hcfg Hfloor Hwall.
  destruct (row_passes_ranges row Hp)
    as ((Hc1 & Hc3) & (Hw1 & Hw4) & (Hs50 & Hs5000) & _).
  destruct Hcfg as (? & ? & ? & ? & ? & ? & ? & ? & ? & ? & ?).
  assert (Hsf : (0 <= CSVRowData.room_sf row)%Q) by lra.
  change 1%Q with (Exact.of_Z 1) in Hw1.
  assert (H2500 : (0 <= Exact.div (CSVRowData.room_sf row) (Exact.of_Z 2500))%Q)
    by (apply exact_div_nonneg; [exact Hsf | now apply exact_of_Z_nonneg]).
  assert (H1200 : (0 <= Exact.div (CSVRowData.room_sf row) (Exact.of_Z 1200))%Q)
    by (apply exact_div_nonneg; [exact Hsf | now apply exact_of_Z_nonneg]).
  assert (H400 : (0 <= Exact.div (CSVRowData.room_sf row) (Exact.of_Z 400))%Q)
    by (apply exact_div_nonneg; [exact Hsf | now apply exact_of_Z_nonneg]).
  unfold_room. split.
  - repeat split;
      repeat first
        [ assumption
        | match goal with
          | |- (_ <= Exact.add _ _)%Q => apply exact_add_nonneg
          | |- (_ <= Exact.sub _ _)%Q => apply exact_sub_nonneg
          | |- (_ <= Exact.mul _ _)%Q => apply exact_mul_nonneg
          | |- (_ <= Exact.div _ _)%Q => apply exact_div_nonneg
          | |- (_ <= Exact.ceil _)%Q => apply exact_ceil_nonneg
          | |- (_ <= Exact.dec _ _)%Q => apply exact_dec_nonneg; lia
          | |- (_ <= Exact.of_Z _)%Q => apply exact_of_Z_nonneg; lia
          | |- (_ <= (if _ then _ else _))%Q => apply if_nonneg
          end ].
  - repeat split;
      repeat first
        [ match goal with
          | |- is_count (Exact.add _ _) => apply is_count_add
          | |- is_count (Exact.ceil _) => apply exact_ceil_count; assumption
          | |- is_count (Exact.of_Z _) => apply is_count_of_Z; lia
          | |- is_count (if _ then _ else _) => apply is_count_if
          end ].
Qed.

(** The bounds of the binary64 statement are needed: a finite damaged
    area of [2^1023] square feet gives a total that is not finite, and a
    configuration whose technician rate is NaN is accepted by
    [validateConfigurationData] and gives a labor cost that is NaN. *)
Example f64_costs_need_the_bounds :
  let row := with_floor_damage_sf 0x1p1023%float readme_row in
  let cfg :=
    UserConfiguration.mk PrimFloat.nan (F64.of_Z 75) (F64.of_Z 120)
      (F64.of_Z 200) (F64.of_Z 25) (F64.of_Z 15) (F64.of_Z 8) (F64.of_Z 12)
      (F64.of_Z 35) (F64.of_Z 25) (F64.of_Z 45) in
  (row_passes row = true
   /\ PrimFloat.is_finite (CSVRowData.floor_damage_sf row) = true
   /\ PrimFloat.is_finite
        (RoomCosts.total_room_cost
           (RoomResult.costs (calculateRoom DEFAULT_CONFIGURATION row)))
      = false)
  /\ (validateConfigurationData cfg = []
      /\ PrimFloat.is_nan
           (LaborCosts.total_labor
              (RoomCosts.labor
                 (RoomResult.costs (calculateRoom cfg readme_row))))
         = true).
Proof. repeat split. Qed.

(** C8 (amended). In binary64: for every row that passes the validator,
    whose size and water class are numbers and whose damaged floor and wall
    areas lie between 0 and [2^1000] (the validator looks at neither area),
    under a configuration that [validateConfigurationData] accepts and
    whose rates are numbers (its comparisons let NaN through), the labor,
    equipment and material costs, the subtotal, the markup, the total and
    the cost per square foot are finite and not below zero, and every
    equipment count is a non-negative integer.  In exact arithmetic, where
    every number is finite: the same costs are not negative and the counts
    are non-negative integers for every row that passes the validator and
    whose damaged areas are not negative, under any rates that are not
    negative. *)
Theorem valid_room_costs_nonnegative :
  (forall (cfg : UserConfiguration.t float) (row : CSVRowData.t float),
     f64_row_accepted row -> f64_config_accepted cfg ->
     f64_area (CSVRowData.floor_damage_sf row) ->
     f64_area (CSVRowData.wall_damage_sf row) ->
     let r := calculateRoom cfg row in
     let c := RoomResult.costs r in
     let e := RoomResult.equipment r in
     (f64_cost (LaborCosts.total_labor (RoomCosts.labor c))
      /\ f64_cost (EquipmentCosts.total_equipment (RoomCosts.equipment c))
      /\ f64_cost (MaterialCosts.total_materials (RoomCosts.materials c))
      /\ f64_cost (RoomCosts.subtotal c)
      /\ f64_cost (RoomCosts.commercial_markup c)
      /\ f64_cost (RoomCosts.total_room_cost c)
      /\ f64_cost (RoomCosts.cost_per_sqft c))
     /\ (f64_is_count (EquipmentRequirements.large_units e)
         /\ f64_is_count (EquipmentRequirements.standard_units e)
         /\ f64_is_count (EquipmentRequirements.air_movers e)
         /\ f64_is_count (EquipmentRequirements.heaters e)
         /\ f64_is_count (EquipmentRequirements.air_scrubbers e)
         /\ f64_is_count (EquipmentRequirements.injection_systems e)
         /\ f64_is_count (EquipmentRequirements.generator_required e)
         /\ f64_is_count (EquipmentRequirements.total_units e)))
  /\ (forall (cfg : UserConfiguration.t Q) (row : CSVRowData.t Q),
     row_passes row = true ->
     config_nonneg cfg ->
     (0 <= CSVRowData.floor_damage_sf row)%Q ->
     (0 <= CSVRowData.wall_damage_sf row)%Q ->
     let r := calculateRoom cfg row in
     let c := RoomResult.costs r in
     let e := RoomResult.equipment r in
     ((0 <= LaborCosts.total_labor (RoomCosts.labor c))%Q
      /\ (0 <= EquipmentCosts.total_equipment (RoomCosts.equipment c))%Q
      /\ (0 <= MaterialCosts.total_materials (RoomCosts.materials c))%Q
      /\ (0 <= RoomCosts.subtotal c)%Q
      /\ (0 <= RoomCosts.commercial_markup c)%Q
      /\ (0 <= RoomCosts.total_room_cost c)%Q
      /\ (0 <= RoomCosts.cost_per_sqft c)%Q)
     /\ (is_count (EquipmentRequirements.large_units e)
         /\ is_count (EquipmentRequirements.standard_units e)
         /\ is_count (EquipmentRequirements.air_movers e)
         /\ is_count (EquipmentRequirements.heaters e)
         /\ is_count (EquipmentRequirements.air_scrubbers e)
         /\ is_count (EquipmentRequirements.injection_systems e)
         /\ is_count (EquipmentRequirements.generator_required e)
         /\ is_count (EquipmentRequirements.total_units e))).
Proof.
  split; [exact f64_room_costs_finite | exact exact_room_costs_nonnegative].
Qed.

Lemma valid_room_costs_nonnegative_witness :
  (f64_row_accepted readme_row
   /\ f64_config_accepted DEFAULT_CONFIGURATION
   /\ f64_area (CSVRowData.floor_damage_sf (@readme_row float _))
   /\ f64_area (CSVRowData.wall_damage_sf (@readme_row float _)))
  /\ f64_cost
       (RoomCosts.total_room_cost
          (RoomResult.costs
             (calculateRoom DEFAULT_CONFIGURATION (@readme_row float _))))
  /\ f64_is_count
       (EquipmentRequirements.total_units
          (RoomResult.equipment
             (calculateRoom DEFAULT_CONFIGURATION (@readme_row float _))))
  /\ (row_passes (@readme_row Q _) = true
      /\ config_nonneg DEFAULT_CONFIGURATION
      /\ (0 <= CSVRowData.floor_damage_sf (@readme_row Q _))%Q
      /\ (0 <= CSVRowData.wall_damage_sf (@readme_row Q _))%Q)
  /\ (0 <= RoomCosts.total_room_cost
             (RoomResult.costs
                (calculateRoom DEFAULT_CONFIGURATION (@readme_row Q _))))%Q
  /\ is_count
       (EquipmentRequirements.total_units
          (RoomResult.equipment
             (calculateRoom DEFAULT_CONFIGURATION (@readme_row Q _)))).
Proof.
  assert (Fr : f64_row_accepted readme_row) by (repeat split).
  assert (Fc : f64_config_accepted DEFAULT_CONFIGURATION)
    by (split; [reflexivity | repeat constructor]).
  assert (Ff : f64_area (CSVRowData.floor_damage_sf (@readme_row float _)))
    by (split; reflexivity).
  assert (Fw : f64_area (CSVRowData.wall_damage_sf (@readme_row float _)))
    by (split; reflexivity).
  assert (Hp : row_passes (@readme_row Q _) = true) by reflexivity.
  assert (Hc : config_nonneg DEFAULT_CONFIGURATION)
    by (unfold config_nonneg, Qle; simpl; lia).
  assert (Hf : (0 <= CSVRowData.floor_damage_sf (@readme_row Q _))%Q)
    by (unfold Qle; simpl; lia).
  assert (Hw : (0 <= CSVRowData.wall_damage_sf (@readme_row Q _))%Q)
    by (unfold Qle; simpl; lia).
  destruct valid_room_costs_nonnegative as [Hfloat Hexact].
  destruct (Hfloat _ _ Fr Fc Ff Fw) as [Fcost Fcount].
  destruct (Hexact _ _ Hp Hc Hf Hw) as [Hcost Hcount].
  split; [exact (conj Fr (conj Fc (conj Ff Fw))) |].
  split; [apply Fcost |]. split; [apply Fcount |].
  split; [exact (conj Hp (conj Hc (conj Hf Hw))) |].
  split; [apply Hcost | apply Hcount].
Defined.


(** ** Order of the rooms *)

Section Aggregation.

Local Open Scope Q_scope.

Lemma Qsum_permutation (l l' : list Q) :
  Permutation l l' -> Qsum l == Qsum l'.
Proof.
  induction 1 as [| x l l' _ IH | x y l | l l' l'' _ IH1 _ IH2]; cbn.
  - reflexivity.
  - now rewrite IH.
  - ring.
  - now rewrite IH1.
Qed.

Lemma fold_add_exact {A : Type} (f : A -> Q) (l : list A) (acc : Q) :
  fold_left (fun sum x => Exact.add sum (f x)) l (Qred acc)
  = Qred (acc + Qsum (map f l)).
Proof.
  revert acc. induction l as [| x l IH]; intros acc;
    cbn [fold_left map Qsum fold_right].
  - apply Qred_complete. ring.
  - unfold Exact.add at 2. rewrite IH. apply Qred_complete.
    rewrite Qred_correct. fold (Qsum (map f l)). ring.
Qed.

(** A sum of the aggregator is the reduced fraction of the exact sum. *)
Lemma sum_by_exact {A : Type} (f : A -> Q) (l : list A) :
  sum_by f l = Qred (Qsum (map f l)).
Proof.
  unfold sum_by. change (num_of_Z 0) with (Qred 0).
  change (fun sum x => num_add sum (f x))
    with (fun sum x => Exact.add sum (f x)).
  rewrite fold_add_exact. apply Qred_complete. ring.
Qed.

Lemma sum_by_permutation {A : Type} (f : A -> Q) (l l' : list A) :
  Permutation l l' -> sum_by f l = sum_by f l'.
Proof.
  intros P. rewrite !sum_by_exact. apply Qred_complete.
  apply Qsum_permutation. now apply Permutation_map.
Qed.

Lemma exact_max_cases a b :
  (Exact.max a b = a \/ Exact.max a b = b)
  /\ a <= Exact.max a b /\ b <= Exact.max a b.
Proof.
  unfold Exact.max. destruct (Qle_bool a b) eqn:E.
  - apply Qle_bool_iff in E. repeat split; auto; lra.
  - apply exact_leb_false in E. repeat split; auto; lra.
Qed.

(** [Math.max] returns an element that is above all the others. *)
Lemma math_max_spec (x : Q) (xs : list Q) :
  In (math_max x xs) (x :: xs)
  /\ forall y, In y (x :: xs) -> y <= math_max x xs.
Proof.
  unfold math_max. change (@num_max Q _) with Exact.max.
  revert x. induction xs as [| a xs IH]; intros x; cbn [fold_left].
  - split; [now left |]. intros y [<- | []]. lra.
  - destruct (IH (Exact.max x a)) as [Hin Hub].
    destruct (exact_max_cases x a) as (Hc & Hx & Ha).
    split.
    + destruct Hin as [Hin | Hin].
      * rewrite <- Hin. destruct Hc as [-> | ->]; cbn; auto.
      * right. now right.
    + intros y [<- | [<- | Hy]].
      * eapply Qle_trans; [exact Hx | apply Hub; now left].
      * eapply Qle_trans; [exact Ha | apply Hub; now left].
      * apply Hub. now right.
Qed.

Lemma math_max_permutation (x y : Q) (xs ys : list Q) :
  Forall canonical (x :: xs) ->
  Permutation (x :: xs) (y :: ys) ->
  math_max x xs = math_max y ys.
Proof.
  intros Hcan P.
  destruct (math_max_spec x xs) as [Hin Hub].
  destruct (math_max_spec y ys) as [Hin' Hub'].
  assert (Hcan' : Forall canonical (y :: ys)).
  { rewrite Forall_forall in *. intros z Hz. apply Hcan.
    eapply Permutation_in; [apply Permutation_sym; exact P | exact Hz]. }
  assert (E : math_max x xs == math_max y ys).
  { apply Qle_antisym.
    - apply Hub'. eapply Permutation_in; [exact P | exact Hin].
    - apply Hub. eapply Permutation_in;
        [apply Permutation_sym; exact P | exact Hin']. }
  rewrite Forall_forall in Hcan, Hcan'.
  rewrite <- (Hcan _ Hin), <- (Hcan' _ Hin').
  now apply Qred_complete.
Qed.

Lemma days_of_canonical (cfg : UserConfiguration.t Q) (row : CSVRowData.t Q) :
  canonical (days_of cfg row).
Proof. apply Qcanon.Qred_involutive. Qed.

End Aggregation.

(** C7 (as stated, refuted). Three valid rows, the README sample with water
    classes 1, 2 and 3, aggregated in the orders 1, 2, 3 and 1, 3, 2: the
    binary64 sums differ in their last bit, and with them the total cost,
    the optimized total cost, the average cost per square foot and the
    savings. *)
Lemma aggregation_depends_on_order :
  let r1 := with_water_class (F64.of_Z 1) readme_row in
  let r2 := @readme_row float _ in
  let r3 := with_water_class (F64.of_Z 3) readme_row in
  let calc := calculateRoom DEFAULT_CONFIGURATION in
  let p := projectSummary [r1; r2; r3] (calc r1) [calc r2; calc r3] in
  let q := projectSummary [r1; r3; r2] (calc r1) [calc r3; calc r2] in
  Permutation [r1; r2; r3] [r1; r3; r2]
  /\ map (fun r => validateCSVRow r 2) [r1; r2; r3] = [[]; []; []]
  /\ ProjectSummary.total_cost q
     = PrimFloat.next_up (ProjectSummary.total_cost p)
  /\ PrimFloat.eqb (ProjectSummary.total_cost p) (ProjectSummary.total_cost q)
     = false
  /\ PrimFloat.eqb (ProjectSummary.optimized_total_cost p)
       (ProjectSummary.optimized_total_cost q) = false
  /\ PrimFloat.eqb (ProjectSummary.average_cost_per_sf p)
       (ProjectSummary.average_cost_per_sf q) = false
  /\ PrimFloat.eqb
       (LaborOptimization.savings (ProjectSummary.labor_optimization p))
       (LaborOptimization.savings (ProjectSummary.labor_optimization q))
     = false.
Proof.
  split; [apply perm_skip, perm_swap |]. repeat split.
Qed.

(** The summary of permuted rows and permuted results, when the days of the
    results are fractions in lowest terms. *)
Lemma projectSummary_permutation
    (valid valid' : list (CSVRowData.t Q))
    (room room' : RoomResult.t Q) (rooms rooms' : list (RoomResult.t Q)) :
  Permutation valid valid' ->
  Permutation (room :: rooms) (room' :: rooms') ->
  Forall
    (fun r => canonical (RoomTimeline.estimated_days (RoomResult.timeline r)))
    (room :: rooms) ->
  projectSummary valid room rooms = projectSummary valid' room' rooms'.
Proof.
  intros Pv Pr Hcan. unfold projectSummary.
  rewrite (Permutation_length Pv).
  rewrite (sum_by_permutation (fun row => CSVRowData.room_sf row) Pv).
  rewrite
    (math_max_permutation
       (x := RoomTimeline.estimated_days (RoomResult.timeline room))
       (y := RoomTimeline.estimated_days (RoomResult.timeline room'))
       (xs := map (fun r => RoomTimeline.estimated_days (RoomResult.timeline r))
                rooms)
       (ys := map (fun r => RoomTimeline.estimated_days (RoomResult.timeline r))
                rooms')).
  - repeat match goal with
           | |- context [sum_by ?f (room :: rooms)] =>
               rewrite (sum_by_permutation f Pr)
           end.
    reflexivity.
  - change (Forall canonical
              (map (fun r =>
                      RoomTimeline.estimated_days (RoomResult.timeline r))
                 (room :: rooms))).
    apply Forall_map. exact Hcan.
  - exact (Permutation_map
             (fun r => RoomTimeline.estimated_days (RoomResult.timeline r))
             Pr).
Qed.

(** C7 (amended). The aggregator is a function of its input, so the same
    list gives the same summary; and in exact arithmetic the summary of the
    rows of a batch, with the results computed from them, does not depend
    on the order of the rows. *)
Theorem aggregation_order_independent
    (cfg : UserConfiguration.t Q)
    (row row' : CSVRowData.t Q) (rows rows' : list (CSVRowData.t Q)) :
  Permutation (row :: rows) (row' :: rows') ->
  projectSummary (row :: rows)
    (calculateRoom cfg row) (map (calculateRoom cfg) rows)
  = projectSummary (row' :: rows')
      (calculateRoom cfg row') (map (calculateRoom cfg) rows').
Proof.
  intros P. apply projectSummary_permutation.
  - exact P.
  - exact (Permutation_map (calculateRoom cfg) P).
  - change (Forall
              (fun r =>
                 canonical
                   (RoomTimeline.estimated_days (RoomResult.timeline r)))
              (map (calculateRoom cfg) (row :: rows))).
    apply Forall_map. apply Forall_forall. intros r _.
    exact (days_of_canonical cfg r).
Qed.

Lemma aggregation_order_independent_witness :
  let a := @readme_row Q _ in
  let b := with_water_class (inject_Z 3) readme_row in
  let calc := calculateRoom DEFAULT_CONFIGURATION in
  Permutation [a; b] [b; a]
  /\ projectSummary [a; b] (calc a) [calc b]
     = projectSummary [b; a] (calc b) [calc a].
Proof.
  intros a b calc.
  assert (P : Permutation [a; b] [b; a]) by apply perm_swap.
  split; [exact P |].
  exact (aggregation_order_independent DEFAULT_CONFIGURATION P).
Defined.

(** ** Facts on splitting, joining and trimming *)

Lemma split_not_nil (sep : ascii) (s : string) : split sep s <> [].
Proof.
  induction s as [| c s IH]; cbn; [discriminate |].
  destruct (Ascii.eqb c sep); [discriminate |].
  destruct (split sep s); discriminate.
Qed.

Lemma split_no_sep (sep : ascii) (s : string) :
  Forall (fun l => ~ In sep (list_ascii_of_string l)) (split sep s).
Proof.
  induction s as [| c s IH]; cbn.
  - constructor; [intros [] | constructor].
  - destruct (Ascii.eqb_spec c sep) as [-> | Hc].
    + constructor; [intros [] | exact IH].
    + destruct (split sep s) as [| x xs].
      * constructor; [| constructor]. cbn. intros [E | []]. now apply Hc.
      * inversion IH as [| ? ? Hx Hxs]; subst.
        constructor; [| exact Hxs]. cbn. intros [E | Hi]; [now apply Hc |].
        now apply Hx.
Qed.

Lemma split_line (sep : ascii) (x : string) :
  ~ In sep (list_ascii_of_string x) -> split sep x = [x].
Proof.
  induction x as [| c x IH]; cbn; intros Hn; [reflexivity |].
  destruct (Ascii.eqb_spec c sep) as [-> | Hc]; [exfalso; apply Hn; now left |].
  rewrite IH; [reflexivity |]. intros Hi. apply Hn. now right.
Qed.

Lemma split_app_sep (sep : ascii) (x rest : string) :
  ~ In sep (list_ascii_of_string x) ->
  split sep (x ++ String sep rest) = x :: split sep rest.
Proof.
  induction x as [| c x IH]; cbn; intros Hn.
  - now rewrite Ascii.eqb_refl.
  - destruct (Ascii.eqb_spec c sep) as [-> | Hc];
      [exfalso; apply Hn; now left |].
    rewrite IH; [reflexivity |]. intros Hi. apply Hn. now right.
Qed.

(** Splitting what was joined gives the pieces back. *)
Lemma split_join (sep : ascii) (ls : list string) :
  ls <> [] ->
  Forall (fun l => ~ In sep (list_ascii_of_string l)) ls ->
  split sep (join (String sep EmptyString) ls) = ls.
Proof.
  unfold join. induction ls as [| x xs IH]; intros Hne Hf; [now destruct Hne |].
  inversion Hf as [| ? ? Hx Hxs]; subst.
  destruct xs as [| y ys].
  - cbn. now apply split_line.
  - change (String.concat (String sep "") (x :: y :: ys))
      with (x ++ String sep (String.concat (String sep "") (y :: ys)))%string.
    rewrite split_app_sep by exact Hx.
    f_equal. apply IH; [discriminate | exact Hxs].
Qed.

(** Appending a character that is not the separator extends the last
    piece. *)
Lemma split_app_last (sep c : ascii) (s : string) :
  c <> sep ->
  exists pre x,
    split sep s = (pre ++ [x])%list
    /\ split sep (s ++ String c EmptyString) 
       = (pre ++ [(x ++ String c EmptyString)%string])%list.
Proof.
  intros Hc. induction s as [| a s (pre & x & E1 & E2)].
  - exists [], EmptyString. cbn.
    destruct (Ascii.eqb_spec c sep); [contradiction | now split].
  - cbn. destruct (Ascii.eqb a sep).
    + exists (EmptyString :: pre), x. rewrite E1, E2. now split.
    + rewrite E1, E2. destruct pre as [| p pre]; cbn.
      * exists [], (String a x). now split.
      * exists (String a p :: pre), x. now split.
Qed.

Lemma list_ascii_of_string_app (s t : string) :
  list_ascii_of_string (s ++ t)
  = (list_ascii_of_string s ++ list_ascii_of_string t)%list.
Proof. induction s as [| c s IH]; cbn; [reflexivity | now rewrite IH]. Qed.

Lemma string_rev_app_char (s : string) (c : ascii) :
  string_rev (s ++ String c EmptyString) = String c (string_rev s).
Proof.
  unfold string_rev. rewrite list_ascii_of_string_app, rev_app_distr.
  reflexivity.
Qed.

Lemma trim_start_app_space (s : string) (c : ascii) :
  is_space c = true ->
  (trim_start s = EmptyString
   /\ trim_start (s ++ String c EmptyString) = EmptyString)
  \/ trim_start (s ++ String c EmptyString)
     = (trim_start s ++ String c EmptyString)%string.
Proof.
  intros Hc. induction s as [| a s IH]; cbn.
  - rewrite Hc. now left.
  - destruct (is_space a); [exact IH | now right].
Qed.

(** A trailing space, such as the carriage return that ends a line of a
    file written on Windows, is trimmed away. *)
Lemma trim_app_space (s : string) (c : ascii) :
  is_space c = true -> trim (s ++ String c EmptyString) = trim s.
Proof.
  intros Hc. unfold trim.
  destruct (@trim_start_app_space s c Hc) as [[E1 E2] | E].
  - now rewrite E1, E2.
  - rewrite E, string_rev_app_char. cbn [trim_start]. now rewrite Hc.
Qed.

Lemma cells_of_app_space (line : string) (c : ascii) :
  is_space c = true -> c <> ","%char ->
  cells_of (line ++ String c EmptyString) = cells_of line.
Proof.
  intros Hs Hc. unfold cells_of.
  destruct (@split_app_last ","%char c line Hc) as (pre & x & -> & ->).
  rewrite !map_app. cbn [map]. now rewrite trim_app_space.
Qed.

Lemma filter_nil_iff {A : Type} (f : A -> bool) (l : list A) :
  filter f l = [] <-> forall x, In x l -> f x = false.
Proof.
  induction l as [| a l IH]; cbn.
  - split; [intros _ x [] | reflexivity].
  - destruct (f a) eqn:E.
    + split; [discriminate |]. intros Hf. specialize (Hf a (or_introl eq_refl)).
      congruence.
    + rewrite IH. split.
      * intros Hl x [<- | Hx]; [exact E | now apply Hl].
      * intros Hl x Hx. apply Hl. now right.
Qed.

Lemma filter_idempotent {A : Type} (f : A -> bool) (l : list A) :
  filter f (filter f l) = filter f l.
Proof.
  induction l as [| a l IH]; cbn; [reflexivity |].
  destruct (f a) eqn:E; cbn; [rewrite E; now f_equal | exact IH].
Qed.

Lemma array_includes_In (x : string) (l : list string) :
  array_includes x l = true <-> In x l.
Proof.
  unfold array_includes. rewrite existsb_exists. split.
  - intros (y & Hy & E). apply String.eqb_eq in E. now subst.
  - intros Hx. exists x. split; [exact Hx | apply String.eqb_refl].
Qed.

(** ** The text of the file *)

Section CSVTextFacts.

Context {num : Type} `{JSNumber num}.
Variable parseFloat parseInt : string -> num.

Local Open Scope string_scope.

Local Abbreviation parse := (parseCSVText parseFloat parseInt).

Lemma validateCSVRow_rows (row : CSVRowData.t num) (n : nat) :
  Forall (fun e => ValidationError.row e = n) (validateCSVRow row n).
Proof.
  rewrite (validateCSVRow_renumber row n 0). apply Forall_forall.
  intros e (e0 & <- & _)%in_map_iff. reflexivity.
Qed.

Lemma all_errors_from_rows (i : nat) (rows : list (CSVRowData.t num)) :
  Forall (fun e => i + 1 <= ValidationError.row e <= i + List.length rows)%nat
    (all_errors_from i rows).
Proof.
  unfold all_errors_from. revert i.
  induction rows as [| row rest IH]; intros i; cbn; [constructor |].
  apply Forall_app. split.
  - eapply Forall_impl; [| apply validateCSVRow_rows].
    cbn. intros e ->. lia.
  - eapply Forall_impl; [| apply (IH (S i))]. cbn. intros e He. lia.
Qed.

Lemma lines_of_join_lines (csvContent : string) :
  lines_of (join (String LF EmptyString) (lines_of csvContent))
  = lines_of csvContent.
Proof.
  unfold lines_of at 1.
  assert (Hf : Forall (fun l => ~ In LF (list_ascii_of_string l))
                 (lines_of csvContent)).
  { unfold lines_of. apply Forall_forall. intros l [Hl _]%filter_In.
    exact (proj1 (Forall_forall _ _) (split_no_sep LF csvContent) l Hl). }
  destruct (lines_of csvContent) as [| l ls] eqn:E; [reflexivity |].
  rewrite split_join; [| discriminate | exact Hf].
  rewrite <- E. unfold lines_of. apply filter_idempotent.
Qed.

Lemma lines_of_carriage_returns (csvContent : string) :
  lines_of
    (join (String LF EmptyString)
       (map (fun l => l ++ String CR EmptyString) (split LF csvContent)))
  = map (fun l => l ++ String CR EmptyString) (lines_of csvContent).
Proof.
  unfold lines_of. rewrite split_join.
  - induction (split LF csvContent) as [| l ls IH]; [reflexivity |].
    cbn [map filter]. rewrite trim_app_space by reflexivity.
    destruct (string_truthy (trim l)); cbn [map]; now rewrite IH.
  - pose proof (split_not_nil LF csvContent).
    destruct (split LF csvContent); [contradiction | discriminate].
  - apply Forall_forall. intros l' (l & <- & Hl)%in_map_iff.
    rewrite list_ascii_of_string_app. intros [Hi | [E | []]]%in_app_or.
    + exact (proj1 (Forall_forall _ _) (split_no_sep LF csvContent) l Hl Hi).
    + discriminate E.
Qed.

Lemma build_row_app_space (headers : list string) (line : string) (c : ascii) :
  is_space c = true -> c <> ","%char ->
  build_row parseFloat parseInt headers (line ++ String c EmptyString)
  = build_row parseFloat parseInt headers line.
Proof.
  intros Hs Hc. unfold build_row. now rewrite cells_of_app_space.
Qed.

End CSVTextFacts.

Lemma parseCSVText_counts {num : Type} `{JSNumber num}
    (parseFloat parseInt : string -> num) (csvContent : string) :
  valid (parseCSVText parseFloat parseInt csvContent) <> [] ->
  (List.length (valid (parseCSVText parseFloat parseInt csvContent))
   + List.length (invalid (parseCSVText parseFloat parseInt csvContent))
   = List.length (lines_of csvContent) - 1)%nat.
Proof.
  unfold parseCSVText.
  destruct (Nat.ltb (List.length (lines_of csvContent)) 2) eqn:E2;
    [now intros [] |].
  destruct (Nat.ltb 0 _); [now intros [] |].
  intros _. rewrite parseCSVContent_partition, length_map.
  apply Nat.ltb_ge in E2.
  destruct (lines_of csvContent); cbn [List.length tl] in *; lia.
Qed.

(** X1. A file is answered in one of two ways.  With fewer than two lines
    that are not blank, or with a required column missing from the header,
    it is rejected as a whole: no row is valid or invalid and there is one
    error, at row 0 and without a value.  Otherwise every line after the
    header that is not blank is counted once, as valid or as invalid, and
    every error carries the number of one of these lines, from 2 to the
    number of lines that are not blank. *)
Theorem parseCSVText_file_or_rows {num : Type} `{JSNumber num}
    (parseFloat parseInt : string -> num) (csvContent : string) :
  let p := parseCSVText parseFloat parseInt csvContent in
  let lines := lines_of csvContent in
  if Nat.ltb (List.length lines) 2
     || Nat.ltb 0 (List.length (missingColumns (cells_of (hd ""%string lines))))
  then valid p = [] /\ invalid p = []
       /\ exists e, errors p = [e] /\ ValidationError.row e = 0%nat
                    /\ ValidationError.value e = None
  else (List.length (valid p) + List.length (invalid p)
        = List.length lines - 1)%nat
       /\ Forall (fun e => 2 <= ValidationError.row e <= List.length lines)%nat
            (errors p).
Proof.
  intros p lines. subst p. unfold parseCSVText. fold lines.
  destruct (Nat.ltb (List.length lines) 2) eqn:E2; cbn [orb].
  - repeat split. eexists. repeat split.
  - destruct (Nat.ltb 0 (List.length (missingColumns _))) eqn:Em.
    + repeat split. eexists. repeat split.
    + apply Nat.ltb_ge in E2. clear Em.
      assert (El : (List.length (tl lines) = List.length lines - 1)%nat)
        by (destruct lines; cbn [List.length tl]; lia).
      split.
      * rewrite parseCSVContent_partition, length_map. exact El.
      * unfold parseCSVContent. rewrite parseCSVContent_from_errors.
        eapply Forall_impl; [| apply all_errors_from_rows].
        cbn beta. rewrite length_map, El. intros e He. lia.
Qed.

(** X2. Blank lines do not count: the result for a text is the result for
    the text of its lines that are not blank, so that the row number of an
    error is the rank of its line among these, not among the lines of the
    file. *)
Theorem parseCSVText_blank_lines {num : Type} `{JSNumber num}
    (parseFloat parseInt : string -> num) (csvContent : string) :
  parseCSVText parseFloat parseInt
    (join (String LF EmptyString) (lines_of csvContent))
  = parseCSVText parseFloat parseInt csvContent.
Proof.
  unfold parseCSVText. now rewrite lines_of_join_lines.
Qed.

(** X3. A carriage return at the end of every line, as in a file written
    on Windows, changes nothing. *)
Theorem parseCSVText_carriage_returns {num : Type} `{JSNumber num}
    (parseFloat parseInt : string -> num) (csvContent : string) :
  parseCSVText parseFloat parseInt
    (join (String LF EmptyString)
       (map (fun l => (l ++ String CR EmptyString)%string)
          (split LF csvContent)))
  = parseCSVText parseFloat parseInt csvContent.
Proof.
  unfold parseCSVText. rewrite lines_of_carriage_returns, length_map.
  destruct (Nat.ltb (List.length (lines_of csvContent)) 2) eqn:E2;
    [reflexivity |].
  apply Nat.ltb_ge in E2.
  destruct (lines_of csvContent) as [| header rest];
    [cbn [List.length] in E2; lia |].
  cbn [map hd tl].
  rewrite cells_of_app_space by (reflexivity || discriminate).
  destruct (Nat.ltb 0 _); [reflexivity |].
  f_equal. rewrite map_map. apply map_ext. intros l.
  apply build_row_app_space; (reflexivity || discriminate).
Qed.

(** ** The rows of a file, in binary64 *)

Lemma combine_app_same {A B : Type} (l1 l2 : list A) (m1 m2 : list B) :
  List.length l1 = List.length m1 ->
  combine (l1 ++ l2) (m1 ++ m2) = (combine l1 m1 ++ combine l2 m2)%list.
Proof.
  revert m1. induction l1 as [| a l1 IH]; intros [| b m1] E;
    try discriminate E; cbn; [reflexivity |].
  f_equal. apply IH. now injection E.
Qed.

Lemma row_object_snoc (headers values : list string) (h : string) :
  row_object (headers ++ [h]) values
  = (h, or_default (nth_error values (List.length headers)) EmptyString)
    :: row_object headers values.
Proof.
  unfold row_object.
  rewrite length_app, seq_app, combine_app_same by apply length_seq.
  rewrite fold_left_app. reflexivity.
Qed.

Lemma build_row_fields {num : Type} `{JSNumber num}
    (parseFloat parseInt : string -> num) (headers : list string)
    (line : string) :
  let text key :=
    or_default (row_lookup (row_object headers (cells_of line)) key)
      EmptyString in
  let measure key := num_or (parseFloat (text key)) (num_of_Z 0) in
  let code key := num_or (parseInt (text key)) (num_of_Z 2) in
  build_row parseFloat parseInt headers line
  = (CSVRowData.mk
      (text "claim_id") (text "generator_needed")
      (code "water_category") (code "water_class")
      (text "room_id") (text "room_name")
      (measure "room_temp_f") (measure "room_humidity")
      (text "ceiling_materials") (measure "ceiling_damage_moisture")
      (text "wall_materials")
      (measure "wall_damage_moisture_bottom")
      (measure "wall_damage_moisture_middle")
      (measure "wall_damage_moisture_top")
      (measure "wall_damage_sf")
      (text "floor_materials") (measure "floor_materials_moisture")
      (measure "floor_damage_sf")
      (measure "room_sf") (measure "length_ft") (measure "width_ft"))%string.
Proof. reflexivity. Qed.

Lemma f64_num_or_not_nan (x d : float) :
  PrimFloat.is_nan d = false -> PrimFloat.is_nan (num_or x d) = false.
Proof.
  intros Hd. unfold num_or. cbn [num_truthy float_JSNumber]. unfold F64.truthy.
  destruct (PrimFloat.is_nan x) eqn:E; cbn [orb negb]; [exact Hd |].
  destruct (PrimFloat.is_zero x); cbn [negb]; [exact Hd | exact E].
Qed.

Lemma f64_check_range_between (n : nat) (field msg : string) (v lo hi : float) :
  PrimFloat.is_nan v = false ->
  PrimFloat.is_nan lo = false -> PrimFloat.is_nan hi = false ->
  check_range n field msg v lo hi = [] -> f64_between lo v hi.
Proof.
  intros Hv Hlo Hhi [E1 E2]%check_range_nil.
  cbn [num_ltb float_JSNumber] in E1, E2.
  rewrite (f64_ltb_negb_leb lo v Hlo Hv) in E1.
  rewrite (f64_ltb_negb_leb v hi Hv Hhi) in E2.
  apply negb_false_iff in E1, E2. now split.
Qed.

Lemma f64_check_moisture_between (n : nat) (field : string) (v : float) :
  PrimFloat.is_nan v = false ->
  check_moisture n field v = [] ->
  PrimFloat.is_zero v = true
  \/ f64_between (F64.dec 5 100) v (F64.dec 95 100).
Proof.
  intros Hv. unfold check_moisture.
  cbn [num_truthy num_ltb num_dec float_JSNumber]. unfold F64.truthy.
  rewrite Hv. cbn [orb].
  destruct (PrimFloat.is_zero v); [now left |]. cbn [negb andb].
  destruct (PrimFloat.ltb v (F64.dec 5 100)) eqn:E1; [discriminate |].
  destruct (PrimFloat.ltb (F64.dec 95 100) v) eqn:E2; [discriminate |].
  intros _. right.
  rewrite (f64_ltb_negb_leb (F64.dec 5 100) v eq_refl Hv) in E1.
  rewrite (f64_ltb_negb_leb v (F64.dec 95 100) Hv eq_refl) in E2.
  apply negb_false_iff in E1, E2. now split.
Qed.

(** X4. In binary64, whatever [parseFloat] and [parseInt] return (NaN
    included), every valid row of a file has its water category in 1..3, its
    water class in 1..4, its room size in 50..5000, its temperature in
    60..100, its humidity in 20..90, and each of its moisture readings zero
    or in 0.05..0.95: the [|| 0] and [|| 2] of the conversion leave no NaN,
    which the comparisons of the validator would let through. *)
Theorem parsed_valid_rows_in_ranges
    (parseFloat parseInt : string -> float) (csvContent : string) :
  Forall row_in_ranges (valid (parseCSVText parseFloat parseInt csvContent)).
Proof.
  unfold parseCSVText.
  destruct (Nat.ltb _ 2); [constructor |].
  destruct (Nat.ltb 0 _); [constructor |].
  unfold parseCSVContent. rewrite parseCSVContent_from_valid.
  apply Forall_forall. intros r [Hr Hp]%filter_In.
  apply in_map_iff in Hr. destruct Hr as (line & <- & _).
  apply (row_passes_iff _ 0) in Hp. revert Hp.
  rewrite build_row_fields. cbv zeta.
  generalize (row_lookup (row_object
    (cells_of (hd EmptyString (lines_of csvContent))) (cells_of line))).
  intros text Hp. unfold validateCSVRow in Hp.
  cbn [CSVRowData.water_category CSVRowData.water_class CSVRowData.room_sf
       CSVRowData.room_temp_f CSVRowData.room_humidity moistureFields
       flat_map fst snd] in Hp.
  repeat match type of Hp with
         | (_ ++ _)%list = [] =>
             apply app_eq_nil in Hp; destruct Hp as [? Hp]
         end.
  unfold row_in_ranges.
  cbn [CSVRowData.water_category CSVRowData.water_class CSVRowData.room_sf
       CSVRowData.room_temp_f CSVRowData.room_humidity moistureFields].
  repeat match goal with
         | E : check_range _ _ _ _ _ _ = [] |- _ =>
             apply f64_check_range_between in E;
               [| now apply f64_num_or_not_nan | reflexivity | reflexivity]
         | E : check_moisture _ _ _ = [] |- _ =>
             apply f64_check_moisture_between in E;
               [| now apply f64_num_or_not_nan]
         end.
  repeat match goal with
         | |- _ /\ _ => split; [assumption |]
         end.
  repeat (constructor; [assumption |]). constructor.
Qed.

(** The validator alone passes a row whose room size is NaN. *)
Example validator_passes_nan :
  row_passes (with_room_sf PrimFloat.nan readme_row) = true
  /\ ~ row_in_ranges (with_room_sf PrimFloat.nan readme_row).
Proof.
  split; [reflexivity |].
  intros (_ & _ & [E _] & _). discriminate E.
Qed.

Lemma missing_nil_In (cols headers : list string) (key : string) :
  filter (fun col => negb (array_includes col headers)) cols = [] ->
  In key cols -> In key headers.
Proof.
  intros Hm Hk. apply array_includes_In.
  apply negb_false_iff. exact (proj1 (filter_nil_iff _ _) Hm key Hk).
Qed.

(** X5. When the header has every required column, each of them is bound
    in the object of every row, whatever the number of cells of the line:
    to the cell at the place of the last header of that name, and to the
    empty text when the line has no cell there or an empty one. *)
Theorem required_columns_bound (headers values : list string)
    (key : string) :
  missingColumns headers = [] ->
  In key requiredColumns ->
  exists i,
    nth_error headers i = Some key
    /\ (forall j, (i < j)%nat -> nth_error headers j <> Some key)
    /\ row_lookup (row_object headers values) key
       = Some (or_default (nth_error values i) EmptyString).
Proof.
  intros Hm Hk.
  assert (Hin : In key headers)
    by (revert Hm Hk; unfold missingColumns; apply missing_nil_In).
  clear Hm Hk. induction headers as [| h hs IH] using rev_ind;
    [now destruct Hin |].
  rewrite row_object_snoc. cbn [row_lookup].
  destruct (String.eqb_spec h key) as [-> | Hne].
  - exists (List.length hs). repeat split.
    + rewrite nth_error_app2, Nat.sub_diag by lia. reflexivity.
    + intros j Hj. rewrite (proj2 (nth_error_None _ _)); [discriminate |].
      rewrite length_app. cbn. lia.
  - apply in_app_or in Hin. destruct Hin as [Hin | [E | []]];
      [| now destruct Hne].
    destruct (IH Hin) as (i & Hi & Hlast & Hl).
    assert (Hlt : (i < List.length hs)%nat)
      by (apply nth_error_Some; rewrite Hi; discriminate).
    exists i. repeat split.
    + now rewrite nth_error_app1.
    + intros j Hj. destruct (Nat.lt_ge_cases j (List.length hs)) as [Hjl | Hjl].
      * rewrite nth_error_app1 by exact Hjl. now apply Hlast.
      * rewrite nth_error_app2 by exact Hjl.
        destruct (j - List.length hs)%nat as [| k]; cbn.
        -- intros [= E]. now apply Hne.
        -- destruct k; discriminate.
    + exact Hl.
Qed.

Lemma required_columns_bound_witness :
  (missingColumns requiredColumns = []
   /\ In "room_sf"%string requiredColumns)
  /\ exists i,
       nth_error requiredColumns i = Some "room_sf"%string
       /\ (forall j, (i < j)%nat ->
             nth_error requiredColumns j <> Some "room_sf"%string)
       /\ row_lookup (row_object requiredColumns ["C-1"%string]) "room_sf"
          = Some (or_default (nth_error ["C-1"%string] i) EmptyString).
Proof.
  assert (Hm : missingColumns requiredColumns = []) by reflexivity.
  assert (Hk : In "room_sf"%string requiredColumns)
    by (cbn; repeat (first [left; reflexivity | right])).
  split; [now split |].
  exact (@required_columns_bound requiredColumns ["C-1"%string] "room_sf"
           Hm Hk).
Defined.

(** ** The uploaded file *)

Lemma endsWith_iff (suffix s : string) :
  endsWith suffix s = true <-> exists pre, s = (pre ++ suffix)%string.
Proof.
  induction s as [| c s IH]; cbn [endsWith].
  - rewrite orb_false_r, String.eqb_eq. split.
    + intros <-. now exists EmptyString.
    + intros ([| c pre] & E); [exact E | discriminate E].
  - rewrite orb_true_iff, String.eqb_eq, IH. split.
    + intros [<- | (pre & ->)]; [now exists EmptyString |].
      now exists (String c pre).
    + intros ([| c' pre] & E); [now left |].
      right. exists pre. now injection E.
Qed.

(** X6. A file is accepted exactly when it is present, its size does not
    exceed the maximum, and its name, in lower case, ends in [.csv] or
    [.txt]; and it comes without an error exactly when it is accepted. *)
Theorem validateCSVFile_accepts {num : Type} `{JSNumber num}
    (toFixed2 : num -> string) (file : option (File.t num)) (maxSize : num) :
  let v := validateCSVFile toFixed2 file maxSize in
  (FileValidation.valid v = true <->
   exists f name stem ext,
     file = Some f /\ File.name f = Some name
     /\ num_ltb maxSize (File.size f) = false
     /\ In ext allowedTypes
     /\ toLowerCase name = (stem ++ ext)%string)
  /\ (FileValidation.error v = None <-> FileValidation.valid v = true).
Proof.
  cbv zeta. unfold validateCSVFile.
  destruct file as [f |]; cbn [FileValidation.valid FileValidation.error].
  2: { split; split; try discriminate. now intros (f & ? & ? & ? & [=] & _). }
  destruct (num_ltb maxSize (File.size f)) eqn:Es;
    cbn [FileValidation.valid FileValidation.error].
  { split; split; try discriminate.
    intros (f' & ? & ? & ? & [= <-] & _ & E & _). congruence. }
  set (fileName := match File.name f with
                   | Some n => if string_truthy (toLowerCase n)
                               then toLowerCase n else EmptyString
                   | None => EmptyString
                   end).
  assert (Hn : forall n, File.name f = Some n -> fileName = toLowerCase n).
  { intros n E. unfold fileName. rewrite E. unfold string_truthy.
    destruct (String.eqb_spec (toLowerCase n) EmptyString) as [-> | _];
      reflexivity. }
  destruct (existsb (fun ext => endsWith ext fileName) allowedTypes) eqn:Ee;
    cbn [negb FileValidation.valid FileValidation.error].
  - split; [| now split]. split; [intros _ | reflexivity].
    apply existsb_exists in Ee. destruct Ee as (ext & Hext & He).
    apply endsWith_iff in He. destruct He as (stem & He).
    destruct (File.name f) as [n |] eqn:En.
    + exists f, n, stem, ext. rewrite <- (Hn n eq_refl). now repeat split.
    + unfold fileName in He. destruct stem; [| discriminate He].
      cbn in He. subst ext. cbn in Hext.
      destruct Hext as [E | [E | []]]; discriminate E.
  - split; split; try discriminate.
    intros (f' & n & stem & ext & [= <-] & En & _ & Hext & He).
    assert (Ht : existsb (fun ext => endsWith ext fileName) allowedTypes = true).
    { apply existsb_exists. exists ext. split; [exact Hext |].
      apply endsWith_iff. exists stem. now rewrite (Hn n En). }
    congruence.
Qed.

(** ** The environment and the worker *)

Lemma string_of_list_ascii_app (l m : list ascii) :
  string_of_list_ascii (l ++ m)
  = (string_of_list_ascii l ++ string_of_list_ascii m)%string.
Proof. induction l as [| c l IH]; cbn; [reflexivity | now rewrite IH]. Qed.

Lemma string_rev_app (s t : string) :
  string_rev (s ++ t) = (string_rev t ++ string_rev s)%string.
Proof.
  unfold string_rev.
  now rewrite list_ascii_of_string_app, rev_app_distr,
    string_of_list_ascii_app.
Qed.

Lemma string_rev_involutive (s : string) : string_rev (string_rev s) = s.
Proof.
  unfold string_rev.
  now rewrite list_ascii_of_string_of_list_ascii, rev_involutive,
    string_of_list_ascii_of_string.
Qed.

(** A string that does not begin with white space. *)
Lemma trim_start_clean (s : string) :
  match trim_start s with
  | EmptyString => True
  | String c _ => is_space c = false
  end.
Proof.
  induction s as [| c s IH]; cbn; [exact I |].
  destruct (is_space c) eqn:E; [exact IH | exact E].
Qed.

Lemma trim_start_fixed (s : string) :
  match s with
  | EmptyString => True
  | String c _ => is_space c = false
  end ->
  trim_start s = s.
Proof. destruct s as [| c s]; cbn; [reflexivity | now intros ->]. Qed.

Lemma trim_start_suffix (s : string) :
  exists p, s = (p ++ trim_start s)%string.
Proof.
  induction s as [| c s (p & IH)]; cbn; [now exists EmptyString |].
  destruct (is_space c); [| now exists EmptyString].
  exists (String c p). cbn. now rewrite <- IH.
Qed.

(** Trimming what is trimmed changes nothing. *)
Lemma trim_idempotent (s : string) : trim (trim s) = trim s.
Proof.
  unfold trim.
  set (w := trim_start s).
  set (u := trim_start (string_rev w)).
  assert (Hu : trim_start u = u) by apply trim_start_fixed, trim_start_clean.
  assert (Ht : trim_start (string_rev u) = string_rev u).
  { apply trim_start_fixed.
    destruct (trim_start_suffix (string_rev w)) as (p & Hp). fold u in Hp.
    apply (f_equal string_rev) in Hp.
    rewrite string_rev_involutive, string_rev_app in Hp.
    pose proof (trim_start_clean s) as Hw. fold w in Hw. rewrite Hp in Hw.
    destruct (string_rev u); [exact I | exact Hw]. }
  now rewrite Ht, string_rev_involutive, Hu.
Qed.

(** X7. The configuration that [validateEnvironment] returns: the three
    required variables are set, the log level is one of the four, the
    maximal file size is a number above zero, the version is not empty, and
    there is at least one origin, each one trimmed; it is in development
    exactly when the authentication domain contains [localhost] or
    [dev]. *)
Theorem validateEnvironment_config {num : Type} `{JSNumber num}
    (parseInt10 : string -> num) (env : CloudflareEnv.t)
    (config : AppConfig.t num) :
  validateEnvironment parseInt10 env = inr config ->
  CloudflareEnv.DB env = true
  /\ (exists d, CloudflareEnv.AUTH_DOMAIN env = Some d /\ d <> EmptyString
        /\ AppConfig.isDevelopment config
           = includes "localhost" d || includes "dev" d)
  /\ (exists a, CloudflareEnv.AUTH_AUDIENCE env = Some a /\ a <> EmptyString)
  /\ In (AppConfig.logLevel config) logLevels
  /\ isNaN (AppConfig.maxFileSize config) = false
  /\ num_leb (AppConfig.maxFileSize config) (num_of_Z 0) = false
  /\ AppConfig.version config <> EmptyString
  /\ AppConfig.corsOrigins config <> []
  /\ Forall (fun o => trim o = o) (AppConfig.corsOrigins config).
Proof.
  unfold validateEnvironment, missing_variables, REQUIRED_ENV_VARS.
  cbn [filter map fst snd].
  assert (Ht : forall o, option_truthy o = true ->
                 exists s, o = Some s /\ s <> EmptyString).
  { intros [s |]; cbn; [| discriminate]. unfold string_truthy.
    destruct (String.eqb_spec s EmptyString); [discriminate |].
    intros _. now exists s. }
  destruct (CloudflareEnv.DB env); cbn [negb];
    [| destruct (negb _), (negb _); discriminate].
  destruct (option_truthy (CloudflareEnv.AUTH_DOMAIN env)) eqn:Ed; cbn [negb];
    [| destruct (negb _); discriminate].
  destruct (option_truthy (CloudflareEnv.AUTH_AUDIENCE env)) eqn:Ea;
    cbn [negb]; [| discriminate].
  cbn [map List.length Nat.ltb Nat.leb AppConfig.maxFileSize
       AppConfig.logLevel].
  destruct (isNaN _) eqn:En; [discriminate |].
  destruct (num_leb _ (num_of_Z 0)) eqn:El; [discriminate |].
  cbn [orb].
  destruct (array_includes _ logLevels) eqn:Ei; cbn [negb]; [| discriminate].
  intros [= <-].
  cbn [AppConfig.maxFileSize AppConfig.logLevel AppConfig.isDevelopment
       AppConfig.version AppConfig.corsOrigins].
  destruct (Ht _ Ed) as (d & Hd & Hdne). destruct (Ht _ Ea) as (a & Ha & Hane).
  repeat split.
  - exists d. rewrite Hd. now repeat split.
  - now exists a.
  - now apply array_includes_In.
  - exact En.
  - exact El.
  - unfold or_default. destruct (CloudflareEnv.APP_VERSION env) as [v |];
      [| discriminate]. unfold string_truthy.
    destruct (String.eqb_spec v EmptyString); [discriminate | assumption].
  - intros E. apply map_eq_nil in E. now apply split_not_nil in E.
  - apply Forall_forall. intros o (s & <- & _)%in_map_iff.
    apply trim_idempotent.
Qed.

Lemma validateEnvironment_config_witness :
  let env :=
    CloudflareEnv.mk true (Some "team.cloudflareaccess.com"%string)
      (Some "aud-1"%string) None (Some "info"%string) None
      (Some " https://a.example , https://b.example"%string) in
  let config :=
    AppConfig.mk "1.0.0"%string "info"%string (F64.of_Z 10485760)
      ["https://a.example"%string; "https://b.example"%string] false in
  validateEnvironment (fun _ => F64.of_Z 10485760) env = inr config
  /\ AppConfig.isDevelopment config = false
  /\ Forall (fun o => trim o = o) (AppConfig.corsOrigins config).
Proof.
  intros env config.
  assert (E : validateEnvironment (fun _ => F64.of_Z 10485760) env
              = inr config) by reflexivity.
  pose proof (validateEnvironment_config (fun _ => F64.of_Z 10485760) env E)
    as (_ & _ & _ & _ & _ & _ & _ & _ & Ho).
  split; [exact E | split; [reflexivity | exact Ho]].
Defined.

Lemma option_truthy_Some (o : option string) :
  option_truthy o = true -> exists s, o = Some s /\ s <> EmptyString.
Proof.
  destruct o as [s |]; cbn; [| discriminate]. unfold string_truthy.
  destruct (String.eqb_spec s EmptyString); [discriminate |].
  intros _. now exists s.
Qed.

Lemma or_default_Some (s d : string) :
  s <> EmptyString -> or_default (Some s) d = s.
Proof.
  intros Hs. unfold or_default, string_truthy.
  destruct (String.eqb_spec s EmptyString); [contradiction | reflexivity].
Qed.

Lemma string_truthy_iff (s : string) :
  string_truthy s = true <-> s <> EmptyString.
Proof.
  unfold string_truthy.
  destruct (String.eqb_spec s EmptyString); cbn; split; congruence.
Qed.

Lemma validateEnvironment_required {num : Type} `{JSNumber num}
    (parseInt10 : string -> num) (env : CloudflareEnv.t)
    (config : AppConfig.t num) :
  validateEnvironment parseInt10 env = inr config ->
  CloudflareEnv.DB env = true
  /\ option_truthy (CloudflareEnv.AUTH_DOMAIN env) = true
  /\ option_truthy (CloudflareEnv.AUTH_AUDIENCE env) = true
  /\ AppConfig.isDevelopment config
     = match CloudflareEnv.AUTH_DOMAIN env with
       | Some d => includes "localhost" d || includes "dev" d
       | None => false
       end.
Proof.
  unfold validateEnvironment, missing_variables, REQUIRED_ENV_VARS.
  cbn [filter map fst snd].
  destruct (CloudflareEnv.DB env); cbn [negb];
    [| destruct (negb _), (negb _); discriminate].
  destruct (option_truthy (CloudflareEnv.AUTH_DOMAIN env)); cbn [negb];
    [| destruct (negb _); discriminate].
  destruct (option_truthy (CloudflareEnv.AUTH_AUDIENCE env));
    cbn [negb]; [| discriminate].
  cbn [map List.length Nat.ltb Nat.leb].
  destruct (_ || _); [discriminate |].
  destruct (negb _); [discriminate |].
  intros [= <-]. now repeat split.
Qed.

(** X8. The worker starts exactly when [validateEnvironment] accepts the
    environment and neither the authentication domain nor the audience is
    blank; the application then has the configuration of
    [validateEnvironment] and a service that holds the domain without its
    last slash and the audience.  It fails to start exactly when
    [validateEnvironment] throws, with its message, or accepts an
    environment whose domain is blank ([Authentication domain is
    required]) or whose domain is not blank and whose audience is
    ([Audience identifier is required]): the checks of
    [createDatabaseClient] and [createAuthService] on the variables never
    fail after [validateEnvironment].  When the worker does not start,
    every request is answered 500 with the message of the error. *)
Theorem worker_initialization {num : Type} `{JSNumber num}
    (parseInt10 : string -> num) (env : CloudflareEnv.t) :
  (forall app,
     createApp parseInt10 env = inr app
     <-> validateEnvironment parseInt10 env = inr (App.config app)
         /\ exists d a,
              CloudflareEnv.AUTH_DOMAIN env = Some d
              /\ CloudflareEnv.AUTH_AUDIENCE env = Some a
              /\ trim d <> EmptyString /\ trim a <> EmptyString
              /\ App.authService app
                 = AuthService.mk (remove_trailing_slash d) a)
  /\ (forall message,
        createApp parseInt10 env = inl message
        <-> validateEnvironment parseInt10 env = inl message
            \/ exists config d a,
                 validateEnvironment parseInt10 env = inr config
                 /\ CloudflareEnv.AUTH_DOMAIN env = Some d
                 /\ CloudflareEnv.AUTH_AUDIENCE env = Some a
                 /\ (trim d = EmptyString
                     /\ message = "Authentication domain is required"%string
                     \/ trim d <> EmptyString /\ trim a = EmptyString
                        /\ message
                           = "Audience identifier is required"%string))
  /\ (forall (A : Type) (serve : App.t num -> ApiResponse.t A),
        fetch parseInt10 env serve
        = match createApp parseInt10 env with
          | inr app => serve app
          | inl message =>
              ApiResponse.mk false None
                (Some ("Worker initialization failed: " ++ message)%string)
                500
          end).
Proof.
  split; [| split]; [| | reflexivity].
  - intros [config service]. cbn [App.config App.authService].
    unfold createApp.
    destruct (validateEnvironment parseInt10 env) as [m | config'] eqn:Ev.
    + split; [discriminate | intros [[=] _]].
    + destruct (validateEnvironment_required _ _ Ev) as (Hdb & Hd & Ha & _).
      unfold createDatabaseClient, createAuthService. rewrite Hdb, Hd, Ha.
      cbn [negb].
      destruct (option_truthy_Some _ Hd) as (d & Ed & Hdne).
      destruct (option_truthy_Some _ Ha) as (a & Ea & Hane).
      rewrite Ed, Ea, !or_default_Some by assumption.
      unfold AuthService.new.
      destruct (string_truthy (trim d)) eqn:Etd; cbn [negb];
        [destruct (string_truthy (trim a)) eqn:Eta; cbn [negb] |].
      * apply string_truthy_iff in Etd, Eta. split.
        -- intros [= <- <-]. split; [reflexivity |].
           exists d, a. now repeat split.
        -- intros ([= <-] & d' & a' & [= <-] & [= <-] & _ & _ & ->).
           reflexivity.
      * split; [discriminate |].
        intros (_ & d' & a' & _ & [= <-] & _ & Ha' & _).
        apply string_truthy_iff in Ha'. congruence.
      * split; [discriminate |].
        intros (_ & d' & a' & [= <-] & _ & Hd' & _).
        apply string_truthy_iff in Hd'. congruence.
  - intros message. unfold createApp.
    destruct (validateEnvironment parseInt10 env) as [m | config] eqn:Ev.
    + split.
      * intros [= <-]. now left.
      * intros [[= <-] | (config & d & a & [=] & _)]. reflexivity.
    + destruct (validateEnvironment_required _ _ Ev) as (Hdb & Hd & Ha & _).
      unfold createDatabaseClient, createAuthService. rewrite Hdb, Hd, Ha.
      cbn [negb].
      destruct (option_truthy_Some _ Hd) as (d & Ed & Hdne).
      destruct (option_truthy_Some _ Ha) as (a & Ea & Hane).
      rewrite Ed, Ea, !or_default_Some by assumption.
      unfold AuthService.new.
      destruct (string_truthy (trim d)) eqn:Etd; cbn [negb];
        [destruct (string_truthy (trim a)) eqn:Eta; cbn [negb] |].
      * apply string_truthy_iff in Etd, Eta. split; [discriminate |].
        intros [[=] | (config' & d' & a' & _ & [= <-] & [= <-]
                       & [(Hd' & _) | (_ & Ha' & _)])]; congruence.
      * assert (Hta : trim a = EmptyString).
        { destruct (String.eqb_spec (trim a) EmptyString) as [E | E];
            [exact E |].
          apply string_truthy_iff in E. congruence. }
        apply string_truthy_iff in Etd.
        cbn [AuthErrorInfo.message]. split.
        -- intros [= <-]. right. exists config, d, a.
           repeat (split; [reflexivity |]). right. now repeat split.
        -- intros [[=] | (config' & d' & a' & _ & [= <-] & [= <-]
                          & [(Hd' & _) | (_ & _ & ->)])];
             [congruence | reflexivity].
      * assert (Htd : trim d = EmptyString).
        { destruct (String.eqb_spec (trim d) EmptyString) as [E | E];
            [exact E |].
          apply string_truthy_iff in E. congruence. }
        cbn [AuthErrorInfo.message]. split.
        -- intros [= <-]. right. exists config, d, a.
           repeat (split; [reflexivity |]). left. now split.
        -- intros [[=] | (config' & d' & a' & _ & [= <-] & [= <-]
                          & [(_ & ->) | (Hd' & _)])];
             [reflexivity | congruence].
Qed.

(** X9. An accepted environment whose authentication domain contains
    neither [localhost] nor [dev] is in production, and there the global
    error handler discloses nothing of the error: whatever the message,
    the stack, the path and the method, the response is the same. *)
Theorem production_errors_disclose_nothing {num : Type} `{JSNumber num}
    (parseInt10 : string -> num) (env : CloudflareEnv.t)
    (config : AppConfig.t num) (d : string) :
  validateEnvironment parseInt10 env = inr config ->
  CloudflareEnv.AUTH_DOMAIN env = Some d ->
  includes "localhost" d = false ->
  includes "dev" d = false ->
  forall (message : string) (stack : option string) (path method : string),
    createErrorHandler config message stack path method
    = ApiResponse.mk false None (Some "Internal server error"%string) 500.
Proof.
  intros Ev Ed Hl Hd message stack path method.
  destruct (validateEnvironment_required _ _ Ev) as (_ & _ & _ & Hdev).
  rewrite Ed, Hl, Hd in Hdev. unfold createErrorHandler. now rewrite Hdev.
Qed.

Lemma production_errors_disclose_nothing_witness :
  let env :=
    CloudflareEnv.mk true (Some "team.cloudflareaccess.com"%string)
      (Some "aud-1"%string) None None None None in
  let config :=
    AppConfig.mk "1.0.0"%string "error"%string (F64.of_Z 10485760)
      ["http://localhost:5173"%string; "https://localhost:5173"%string]
      false in
  validateEnvironment (fun _ => F64.of_Z 10485760) env = inr config
  /\ createErrorHandler config "D1_ERROR: no such table"%string
       (Some "at DatabaseClient.getConfiguration"%string)
       "/api/config"%string "GET"%string
     = ApiResponse.mk false None (Some "Internal server error"%string) 500.
Proof.
  intros env config.
  assert (E : validateEnvironment (fun _ => F64.of_Z 10485760) env
              = inr config) by reflexivity.
  split; [exact E |].
  exact (@production_errors_disclose_nothing _ _
           (fun _ => F64.of_Z 10485760) env config
           "team.cloudflareaccess.com"%string E eq_refl eq_refl eq_refl
           _ _ _ _).
Defined.

(** The same handler in development: a domain that merely contains [dev]
    switches it on. *)
Example development_by_substring :
  let env :=
    CloudflareEnv.mk true (Some "devonshire.cloudflareaccess.com"%string)
      (Some "aud-1"%string) None None None None in
  exists config,
    validateEnvironment (fun _ => F64.of_Z 10485760) env = inr config
    /\ AppConfig.isDevelopment config = true
    /\ ApiResponse.error
         (createErrorHandler config "secret"%string None
            "/api/config"%string "GET"%string)
       = Some "Internal server error: secret"%string.
Proof. eexists. repeat split. Qed.

(** ** The Authorization header *)

Lemma substring_prefix (w r : string) :
  substring 0 (String.length w) (w ++ r) = w.
Proof.
  induction w as [| c w IH]; cbn.
  - destruct r; reflexivity.
  - now rewrite IH.
Qed.

Lemma substring_all (s : string) : substring 0 (String.length s) s = s.
Proof. induction s as [| c s IH]; cbn; [reflexivity | now rewrite IH]. Qed.

Lemma substring_drop (w r : string) :
  substring (String.length w) (String.length (w ++ r) - String.length w)
    (w ++ r) = r.
Proof.
  induction w as [| c w IH]; cbn [String.length append].
  - rewrite Nat.sub_0_r. apply substring_all.
  - cbn [substring Nat.sub]. exact IH.
Qed.

Lemma toLowerCase_length (s : string) :
  String.length (toLowerCase s) = String.length s.
Proof. induction s as [| c s IH]; cbn; [reflexivity | now rewrite IH]. Qed.

Lemma bearer_group_token (ws token : string) :
  trim_start ws = EmptyString ->
  match token with
  | String c _ => is_space c = false
  | EmptyString => False
  end ->
  no_line_terminator token = true ->
  bearer_group (ws ++ token) = Some token.
Proof.
  intros Hws Ht Hn. induction ws as [| w ws IH].
  - destruct token as [| c t]; [contradiction |].
    cbn [append bearer_group]. rewrite Ht.
    change (string_truthy (String c t)) with true. cbn [andb].
    now rewrite Hn.
  - cbn [trim_start] in Hws. cbn [append bearer_group].
    destruct (is_space w); [| discriminate Hws].
    now rewrite (IH Hws).
Qed.

(** X10. The word [Bearer] in any letter case, then white space, then a
    token that does not begin with white space and has no line terminator:
    the token is what the middleware and [extractBearerToken] take from
    the header. *)
Theorem bearer_match_token (word ws token : string) :
  toLowerCase word = "bearer"%string ->
  ws <> EmptyString ->
  trim_start ws = EmptyString ->
  match token with
  | String c _ => is_space c = false
  | EmptyString => False
  end ->
  no_line_terminator token = true ->
  bearer_match (word ++ ws ++ token) = Some token
  /\ extractBearerToken (Some (word ++ ws ++ token)%string) = Some token.
Proof.
  intros Hw Hne Hws Ht Hn.
  assert (Hl : String.length word = 6%nat)
    by (rewrite <- toLowerCase_length, Hw; reflexivity).
  assert (Hm : bearer_match (word ++ ws ++ token) = Some token).
  { assert (E1 : substring 0 6 (word ++ ws ++ token) = word)
      by (rewrite <- Hl; apply substring_prefix).
    assert (E2 : substring 6 (String.length (word ++ ws ++ token) - 6)
                   (word ++ ws ++ token) = (ws ++ token)%string)
      by (rewrite <- Hl; apply substring_drop).
    unfold bearer_match. rewrite E1, E2, Hw.
    change (String.eqb "bearer" "bearer") with true. cbv iota.
    destruct ws as [| w ws]; [contradiction |].
    cbn [trim_start] in Hws. cbn [append].
    destruct (is_space w); [| discriminate Hws].
    now apply bearer_group_token. }
  split; [exact Hm |].
  unfold extractBearerToken. rewrite Hm.
  destruct word as [| c word]; [discriminate Hl | reflexivity].
Qed.

Lemma bearer_match_token_witness :
  (toLowerCase "BeArEr" = "bearer"%string
   /\ "  "%string <> EmptyString
   /\ trim_start "  " = EmptyString
   /\ is_space "e" = false
   /\ no_line_terminator "eyJ.eyJ.sig" = true)
  /\ bearer_match "BeArEr  eyJ.eyJ.sig" = Some "eyJ.eyJ.sig"%string
  /\ extractBearerToken (Some "BeArEr  eyJ.eyJ.sig"%string)
     = Some "eyJ.eyJ.sig"%string.
Proof.
  assert (H1 : toLowerCase "BeArEr" = "bearer"%string) by reflexivity.
  assert (H2 : "  "%string <> EmptyString) by discriminate.
  assert (H3 : trim_start "  " = EmptyString) by reflexivity.
  assert (H4 : is_space "e" = false) by reflexivity.
  assert (H5 : no_line_terminator "eyJ.eyJ.sig" = true) by reflexivity.
  split; [now repeat split |].
  exact (@bearer_match_token "BeArEr" "  " "eyJ.eyJ.sig" H1 H2 H3 H4 H5).
Defined.

(** ** The token and the middleware *)

Section AuthFacts.

Context {num : Type} `{JSNumber num}.
Variable decodeHeader : string -> option JWTHeader.t.
Variable decodePayload : string -> option (CloudflareAccessJWT.t num).
Variable checkSignature : string -> JWTHeader.t -> SignatureCheck.
Variable now : num.
Variable service : AuthService.t.

Local Open Scope string_scope.

Local Abbreviation validateToken :=
  (AuthService.validateToken decodeHeader decodePayload checkSignature now
     service).

Lemma validateJWTHeader_success (header : JWTHeader.t) :
  AuthResult.success (AuthService.validateJWTHeader header) = true ->
  JWTHeader.typ header = "JWT" /\ JWTHeader.alg header = "RS256".
Proof.
  unfold AuthService.validateJWTHeader.
  destruct (String.eqb_spec (JWTHeader.typ header) "JWT") as [-> |];
    cbn [negb]; [| discriminate].
  destruct (String.eqb_spec (JWTHeader.alg header) "RS256") as [-> |];
    cbn [negb]; [| discriminate].
  now split.
Qed.

Lemma validateJWTPayload_success (payload : CloudflareAccessJWT.t num) :
  AuthResult.success (AuthService.validateJWTPayload now service payload)
  = true ->
  CloudflareAccessJWT.iss payload = "https://" ++ AuthService.authDomain service
  /\ In (AuthService.audience service)
       (match CloudflareAccessJWT.aud payload with
        | inl a => [a]
        | inr l => l
        end)
  /\ num_leb (CloudflareAccessJWT.exp payload) now = false
  /\ (forall nbf, CloudflareAccessJWT.nbf payload = Some nbf ->
        num_truthy nbf = true -> num_ltb now nbf = false)
  /\ (num_truthy (CloudflareAccessJWT.iat payload) = true ->
        num_ltb (num_mul (num_mul (num_of_Z 24) (num_of_Z 60)) (num_of_Z 60))
          (num_sub now (CloudflareAccessJWT.iat payload)) = false)
  /\ trim (CloudflareAccessJWT.sub payload) <> EmptyString.
Proof.
  unfold AuthService.validateJWTPayload. cbv zeta.
  destruct (String.eqb_spec (CloudflareAccessJWT.iss payload)
              ("https://" ++ AuthService.authDomain service)) as [Ei |];
    cbn [negb]; [| discriminate].
  destruct (array_includes _ _) eqn:Ea; cbn [negb]; [| discriminate].
  destruct (num_leb _ now) eqn:Ee; [discriminate |].
  destruct (match CloudflareAccessJWT.nbf payload with
            | Some nbf => _
            | None => false
            end) eqn:En; [discriminate |].
  destruct (num_truthy (CloudflareAccessJWT.iat payload) && _) eqn:Et;
    [discriminate |].
  destruct (string_truthy (trim (CloudflareAccessJWT.sub payload))) eqn:Es;
    cbn [negb]; [| discriminate].
  intros _. repeat split.
  - exact Ei.
  - now apply array_includes_In.
  - intros nbf E Hn. rewrite E, Hn in En. exact En.
  - intros Hi. rewrite Hi in Et. exact Et.
  - now apply string_truthy_iff.
Qed.

Lemma verifyJWTSignature_success (token : string) (header : JWTHeader.t) :
  AuthResult.success
    (AuthService.verifyJWTSignature checkSignature token header) = true ->
  checkSignature token header = Verified true.
Proof.
  unfold AuthService.verifyJWTSignature.
  destruct (checkSignature token header) as [| [] |]; cbn;
    (discriminate || reflexivity).
Qed.

Lemma failure_success {A : Type} (code message : string) :
  AuthResult.success (AuthService.failure (A := A) code message) = false.
Proof. reflexivity. Qed.

Lemma validateToken_inversion (token : string) :
  AuthResult.success (validateToken token) = true ->
  exists user,
    validateToken token = AuthResult.mk true (Some user) None
    /\ token_accepted_as decodeHeader decodePayload checkSignature now
         service token user.
Proof.
  unfold AuthService.validateToken.
  destruct (string_truthy (trim token)); cbn [negb]; [| discriminate].
  destruct (AuthService.parseJWT decodeHeader decodePayload token)
    as [m | [header payload]] eqn:Ep; [discriminate |].
  cbv zeta.
  destruct (AuthResult.success (AuthService.validateJWTHeader header))
    eqn:Eh; cbn [negb];
    [| unfold AuthService.returned; cbn; intros E; congruence].
  destruct (AuthResult.success
              (AuthService.validateJWTPayload now service payload))
    eqn:Epl; cbn [negb];
    [| unfold AuthService.returned; cbn; intros E; congruence].
  destruct (AuthResult.success
              (AuthService.verifyJWTSignature checkSignature token header))
    eqn:Es; cbn [negb];
    [| unfold AuthService.returned; cbn; intros E; congruence].
  intros _. eexists. split; [reflexivity |].
  apply validateJWTHeader_success in Eh. destruct Eh as [Ht Ha].
  apply validateJWTPayload_success in Epl.
  destruct Epl as (Hi & Hau & He & Hn & Hia & Hs).
  apply verifyJWTSignature_success in Es.
  exists header, payload. now repeat split.
Qed.

Lemma validateJWTHeader_failure (header : JWTHeader.t) :
  AuthResult.success (AuthService.validateJWTHeader header) = false ->
  exists e, AuthResult.error (AuthService.validateJWTHeader header) = Some e
            /\ AuthErrorInfo.statusCode e = 401%Z
            /\ In (AuthErrorInfo.code e) token_failure_codes.
Proof.
  unfold AuthService.validateJWTHeader.
  destruct (negb _); [intros _; eexists; split; [reflexivity |] |].
  - split; [reflexivity |]. cbn. tauto.
  - destruct (negb _); [intros _; eexists; split; [reflexivity |] |
                        discriminate].
    split; [reflexivity |]. cbn. tauto.
Qed.

Lemma validateJWTPayload_failure (payload : CloudflareAccessJWT.t num) :
  AuthResult.success (AuthService.validateJWTPayload now service payload)
  = false ->
  exists e,
    AuthResult.error (AuthService.validateJWTPayload now service payload)
    = Some e
    /\ AuthErrorInfo.statusCode e = 401%Z
    /\ In (AuthErrorInfo.code e) token_failure_codes.
Proof.
  unfold AuthService.validateJWTPayload. cbv zeta.
  repeat match goal with
         | |- context [if ?b then _ else _] =>
             destruct b;
               [intros _; eexists; split; [reflexivity |];
                split; [reflexivity | cbn; tauto] |]
         end.
  discriminate.
Qed.

Lemma verifyJWTSignature_failure (token : string) (header : JWTHeader.t) :
  AuthResult.success
    (AuthService.verifyJWTSignature checkSignature token header) = false ->
  exists e,
    AuthResult.error
      (AuthService.verifyJWTSignature checkSignature token header) = Some e
    /\ AuthErrorInfo.statusCode e = 401%Z
    /\ In (AuthErrorInfo.code e) token_failure_codes.
Proof.
  unfold AuthService.verifyJWTSignature.
  destruct (checkSignature token header) as [| [] |]; cbn [AuthResult.success];
    try discriminate; intros _; eexists;
    (split; [reflexivity |]; split; [reflexivity | cbn; tauto]).
Qed.

Lemma validateToken_failure (token : string) :
  AuthResult.success (validateToken token) = false ->
  AuthResult.data (validateToken token) = None
  /\ exists e, AuthResult.error (validateToken token) = Some e
               /\ AuthErrorInfo.statusCode e = 401%Z
               /\ In (AuthErrorInfo.code e) token_failure_codes.
Proof.
  unfold AuthService.validateToken.
  destruct (string_truthy (trim token)); cbn [negb].
  2: { intros _. split; [reflexivity |]. eexists.
       split; [reflexivity |]. split; [reflexivity | cbn; tauto]. }
  destruct (AuthService.parseJWT decodeHeader decodePayload token)
    as [m | [header payload]].
  { intros _. split; [reflexivity |]. eexists.
    split; [reflexivity |]. split; [reflexivity | cbn; tauto]. }
  cbv zeta.
  destruct (AuthResult.success (AuthService.validateJWTHeader header))
    eqn:Eh; cbn [negb].
  2: { intros _. split; [reflexivity |].
       exact (validateJWTHeader_failure header Eh). }
  destruct (AuthResult.success
              (AuthService.validateJWTPayload now service payload))
    eqn:Epl; cbn [negb].
  2: { intros _. split; [reflexivity |].
       exact (validateJWTPayload_failure payload Epl). }
  destruct (AuthResult.success
              (AuthService.verifyJWTSignature checkSignature token header))
    eqn:Es; cbn [negb].
  2: { intros _. split; [reflexivity |].
       exact (verifyJWTSignature_failure token header Es). }
  discriminate.
Qed.

(** What the middleware does, by cases. *)
Lemma createMiddleware_cases {A : Type} (authHeader : option string) :
  match AuthService.createMiddleware (A := A) decodeHeader decodePayload
          checkSignature now service authHeader with
  | Next user =>
      exists h token,
        authHeader = Some h
        /\ bearer_match h = Some token
        /\ validateToken token = AuthResult.mk true (Some user) None
        /\ token_accepted_as decodeHeader decodePayload checkSignature now
             service token user
  | Respond r =>
      ApiResponse.success r = false /\ ApiResponse.data r = None
      /\ ApiResponse.status r = 401%Z
      /\ ApiResponse.error r <> None
  end.
Proof.
  unfold AuthService.createMiddleware.
  destruct (option_truthy authHeader) eqn:Eh; cbn [negb];
    [| now repeat split].
  destruct (option_truthy_Some _ Eh) as (h & -> & Hh).
  rewrite or_default_Some by exact Hh.
  destruct (bearer_match h) as [token |] eqn:Eb; [| now repeat split].
  cbv zeta.
  destruct (AuthResult.success (validateToken token)) eqn:Es; cbn [negb].
  - destruct (validateToken_inversion token Es) as (user & Ev & Ha).
    rewrite Ev. cbn [AuthResult.data]. exists h, token. now repeat split.
  - destruct (validateToken_failure token Es) as (_ & e & Ee & Hs & _).
    rewrite Ee, Hs. cbn [ApiResponse.success ApiResponse.data
                           ApiResponse.status ApiResponse.error Z.eqb].
    now repeat split.
Qed.

End AuthFacts.

(** X11. A token that [validateToken] accepts has three parts that decode,
    the type JWT and the algorithm RS256, the issuer [https://] followed by
    the domain of the service, the audience of the service among its
    audiences, a subject that is not blank and a signature that verifies,
    and it has passed the three tests on the times as the code makes
    them: [exp <= now] is false, [nbf > now] is false when [nbf] is present
    and truthy, and [now - iat > 24 h] is false when [iat] is truthy.  These
    are tests that a number that is not one fails: a token without [exp],
    or with an [exp] that is not a number, is not refused as expired (see
    [token_without_expiry_is_accepted]).  The user returned is the subject
    of the payload, with its email and its groups. *)
Theorem validateToken_sound {num : Type} `{JSNumber num}
    (decodeHeader : string -> option JWTHeader.t)
    (decodePayload : string -> option (CloudflareAccessJWT.t num))
    (checkSignature : string -> JWTHeader.t -> SignatureCheck)
    (now : num) (service : AuthService.t) (token : string) :
  AuthResult.success
    (AuthService.validateToken decodeHeader decodePayload checkSignature now
       service token) = true ->
  exists user,
    AuthService.validateToken decodeHeader decodePayload checkSignature now
      service token = AuthResult.mk true (Some user) None
    /\ token_accepted_as decodeHeader decodePayload checkSignature now
         service token user.
Proof. apply validateToken_inversion. Qed.

(** X12. A token that [validateToken] refuses gives no user and an error
    of status 401, with one of the thirteen codes of the service: the
    service never fails with another status. *)
Theorem validateToken_refusal {num : Type} `{JSNumber num}
    (decodeHeader : string -> option JWTHeader.t)
    (decodePayload : string -> option (CloudflareAccessJWT.t num))
    (checkSignature : string -> JWTHeader.t -> SignatureCheck)
    (now : num) (service : AuthService.t) (token : string) :
  let r :=
    AuthService.validateToken decodeHeader decodePayload checkSignature now
      service token in
  AuthResult.success r = false ->
  AuthResult.data r = None
  /\ exists e, AuthResult.error r = Some e
               /\ AuthErrorInfo.statusCode e = 401%Z
               /\ In (AuthErrorInfo.code e) token_failure_codes.
Proof. cbv zeta. apply validateToken_failure. Qed.

(** The sample file of the README gives the sample row, valid, and
    nothing else. *)
Example sample_csv_is_readme_row :
  parseCSVText (num := float) read_number read_number sample_csv
  = mkParsed [readme_row] [] [].
Proof. vm_compute. reflexivity. Qed.

Lemma validateToken_sound_witness :
  let decodeHeader := fun _ : string =>
    Some (JWTHeader.mk "RS256" (Some "key-1") "JWT")%string in
  let decodePayload := fun _ : string =>
    Some (CloudflareAccessJWT.mk "https://team.cloudflareaccess.com"%string
            "user-7"%string (inr ["aud-0"; "aud-1"]%string)
            (F64.of_Z 2000) (F64.of_Z 900) None
            (Some "u7@example.com"%string) None) in
  let checkSignature := fun (_ : string) (_ : JWTHeader.t) => Verified true in
  let service :=
    AuthService.mk "team.cloudflareaccess.com"%string "aud-1"%string in
  AuthResult.success
    (AuthService.validateToken decodeHeader decodePayload checkSignature
       (F64.of_Z 1000) service "eyJ.eyJ.sig") = true
  /\ exists user,
       AuthService.validateToken decodeHeader decodePayload checkSignature
         (F64.of_Z 1000) service "eyJ.eyJ.sig"
       = AuthResult.mk true (Some user) None
       /\ token_accepted_as decodeHeader decodePayload checkSignature
            (F64.of_Z 1000) service "eyJ.eyJ.sig" user.
Proof.
  intros decodeHeader decodePayload checkSignature service.
  assert (E : AuthResult.success
                (AuthService.validateToken decodeHeader decodePayload
                   checkSignature (F64.of_Z 1000) service "eyJ.eyJ.sig")
              = true) by reflexivity.
  split; [exact E |].
  exact (validateToken_sound decodeHeader decodePayload checkSignature
           (F64.of_Z 1000) service "eyJ.eyJ.sig" E).
Defined.

Lemma validateToken_refusal_witness :
  let decodeHeader := fun _ : string =>
    Some (JWTHeader.mk "none" None "JWT")%string in
  let decodePayload := fun _ : string =>
    @None (CloudflareAccessJWT.t float) in
  let checkSignature := fun (_ : string) (_ : JWTHeader.t) => Verified true in
  let service :=
    AuthService.mk "team.cloudflareaccess.com"%string "aud-1"%string in
  let r :=
    AuthService.validateToken decodeHeader decodePayload checkSignature
      (F64.of_Z 1000) service "only.two" in
  AuthResult.success r = false
  /\ AuthResult.data r = None
  /\ exists e, AuthResult.error r = Some e
               /\ AuthErrorInfo.statusCode e = 401%Z
               /\ In (AuthErrorInfo.code e) token_failure_codes.
Proof.
  intros decodeHeader decodePayload checkSignature service r.
  assert (E : AuthResult.success r = false) by reflexivity.
  split; [exact E |].
  exact (validateToken_refusal decodeHeader decodePayload checkSignature
           (F64.of_Z 1000) service "only.two" E).
Defined.

(** A token whose payload has no [exp] (the claim then compares as NaN
    does) passes the test of the expiry and is accepted. *)
Example token_without_expiry_is_accepted :
  let decodeHeader := fun _ : string =>
    Some (JWTHeader.mk "RS256" (Some "key-1") "JWT")%string in
  let decodePayload := fun _ : string =>
    Some (CloudflareAccessJWT.mk "https://team.cloudflareaccess.com"%string
            "user-7"%string (inl "aud-1"%string)
            PrimFloat.nan (F64.of_Z 900) None None None) in
  let checkSignature := fun (_ : string) (_ : JWTHeader.t) => Verified true in
  let service :=
    AuthService.mk "team.cloudflareaccess.com"%string "aud-1"%string in
  AuthService.validateToken decodeHeader decodePayload checkSignature
    (F64.of_Z 1000) service "eyJ.eyJ.sig"
  = AuthResult.mk true (Some (AuthContext.mk "user-7" None (Some []))) None.
Proof. reflexivity. Qed.

(** X13. The middleware either answers, with a failure of status 401 that
    carries a message and no data, or lets the request through, and then
    the header was [Bearer] and a token that [validateToken] accepts as the
    user that the middleware sets. *)
Theorem middleware_outcome {num : Type} `{JSNumber num}
    (decodeHeader : string -> option JWTHeader.t)
    (decodePayload : string -> option (CloudflareAccessJWT.t num))
    (checkSignature : string -> JWTHeader.t -> SignatureCheck)
    (now : num) (service : AuthService.t)
    {A : Type} (authHeader : option string) :
  match AuthService.createMiddleware (A := A) decodeHeader decodePayload
          checkSignature now service authHeader with
  | Next user =>
      exists h token,
        authHeader = Some h
        /\ bearer_match h = Some token
        /\ AuthService.validateToken decodeHeader decodePayload
             checkSignature now service token
           = AuthResult.mk true (Some user) None
        /\ token_accepted_as decodeHeader decodePayload checkSignature now
             service token user
  | Respond r =>
      ApiResponse.success r = false /\ ApiResponse.data r = None
      /\ ApiResponse.status r = 401%Z
      /\ ApiResponse.error r <> None
  end.
Proof. apply createMiddleware_cases. Qed.

(** ** The protected routes *)

Section RouteFacts.

Context {num : Type} `{JSNumber num}.
Variable parseInt10 : string -> num.
Variable toFixed2 : num -> string.
Variable parseFloat parseInt : string -> num.
Variable decodeHeader : string -> option JWTHeader.t.
Variable decodePayload : string -> option (CloudflareAccessJWT.t num).
Variable checkSignature : string -> JWTHeader.t -> SignatureCheck.
Variable now : num.

Local Open Scope string_scope.


End RouteFacts.



(** ** The handler of the uploaded file *)

Lemma validateCSVFile_error {num : Type} `{JSNumber num}
    (toFixed2 : num -> string) (file : option (File.t num)) (maxSize : num) :
  FileValidation.valid (validateCSVFile toFixed2 file maxSize) = false ->
  FileValidation.error (validateCSVFile toFixed2 file maxSize) <> None.
Proof.
  unfold validateCSVFile. destruct file as [f |]; [| discriminate].
  destruct (num_ltb maxSize (File.size f)); [discriminate |].
  cbv zeta. destruct (negb _); discriminate.
Qed.

Lemma validateCSVFile_present {num : Type} `{JSNumber num}
    (toFixed2 : num -> string) (maxSize : num) :
  FileValidation.valid (validateCSVFile toFixed2 None maxSize) = false.
Proof. reflexivity. Qed.

(** X15. The handler of the upload answers 200, 400, 401 or 500; it
    succeeds exactly when it answers 200, which is exactly when it returns
    data, and it fails exactly when it returns an error message; it
    answers 401 exactly when no user is set.  It consults the database
    only for a file that passes [validateCSVFile] and has a valid row:
    otherwise the table is left as it was. *)
Theorem csvProcessHandler_outcome {num : Type} `{JSNumber num}
    (toFixed2 : num -> string) (parseFloat parseInt : string -> num)
    (app : App.t num) (user : option AuthContext.t)
    (formData : option (option (File.t num))) (db : Database.t num) :
  let res :=
    csvProcessHandler toFixed2 parseFloat parseInt app user formData db in
  let r := fst res in
  In (ApiResponse.status r) [200; 400; 401; 500]%Z
  /\ (ApiResponse.success r = true <-> ApiResponse.status r = 200%Z)
  /\ (ApiResponse.success r = true <-> ApiResponse.data r <> None)
  /\ (ApiResponse.success r = false <-> ApiResponse.error r <> None)
  /\ (ApiResponse.status r = 401%Z <-> AuthService.getUserId user = None)
  /\ (snd res = db
      \/ exists userId file,
           AuthService.getUserId user = Some userId
           /\ formData = Some (Some file)
           /\ FileValidation.valid
                (validateCSVFile toFixed2 (Some file)
                   (AppConfig.maxFileSize (App.config app))) = true
           /\ valid (parseCSVText parseFloat parseInt (File.text file)) <> []
           /\ snd res
              = snd (DatabaseClient.getConfiguration userId "default" db)).
Proof.
  cbv zeta. unfold csvProcessHandler.
  destruct (AuthService.getUserId user) as [userId |];
    [| cbn; intuition (discriminate || congruence)].
  destruct formData as [csvFile |];
    [| cbn; intuition (discriminate || congruence)].
  cbv zeta.
  destruct (FileValidation.valid (validateCSVFile toFixed2 csvFile _)) eqn:Ev;
    cbn [negb].
  2: { pose proof (validateCSVFile_error _ _ _ Ev) as He.
       cbn. intuition (discriminate || congruence). }
  destruct csvFile as [file |];
    [| cbn; intuition (discriminate || congruence)].
  unfold processParsed.
  destruct (valid (parseCSVText parseFloat parseInt (File.text file)))
    as [| row rest] eqn:Ep;
    [cbn; intuition (discriminate || congruence) |].
  destruct (DatabaseClient.getConfiguration userId "default" db)
    as [configResult db'] eqn:Eg.
  assert (Hdb : exists userId0 file0,
            Some userId = Some userId0
            /\ Some (Some file) = Some (Some file0)
            /\ FileValidation.valid
                 (validateCSVFile toFixed2 (Some file0)
                    (AppConfig.maxFileSize (App.config app))) = true
            /\ valid (parseCSVText parseFloat parseInt (File.text file0))
               <> []
            /\ db' = snd (DatabaseClient.getConfiguration userId0 "default"
                            db)).
  { exists userId, file. rewrite Ep, Eg. repeat split; [exact Ev |].
    discriminate. }
  destruct (DatabaseResult.success configResult); cbn [negb];
    [| cbn; intuition (discriminate || congruence)].
  destruct (DatabaseResult.data configResult);
    cbn; intuition (discriminate || congruence).
Qed.

(** X16. When the handler of the upload answers 200, the response accounts
    for every line of the file after the header that is not blank: it has
    one room for each valid row, in order and computed with the rates of
    the configuration that the database client returned for the user, it
    counts the invalid rows as skipped, it carries their errors, and rooms
    and skipped rows together are as many as these lines. *)
Theorem csvProcessHandler_accounts {num : Type} `{JSNumber num}
    (toFixed2 : num -> string) (parseFloat parseInt : string -> num)
    (app : App.t num) (user : option AuthContext.t)
    (formData : option (option (File.t num))) (db : Database.t num) :
  let res :=
    csvProcessHandler toFixed2 parseFloat parseInt app user formData db in
  ApiResponse.status (fst res) = 200%Z ->
  exists userId file config response,
    AuthService.getUserId user = Some userId
    /\ formData = Some (Some file)
    /\ DatabaseResult.data
         (fst (DatabaseClient.getConfiguration userId "default" db))
       = Some config
    /\ ApiResponse.data (fst res) = Some response
    /\ let p := parseCSVText parseFloat parseInt (File.text file) in
       let rooms :=
         CalculationResults.rooms (CSVProcessResponse.results response) in
       rooms = map (calculateRoom (ConfigurationRow.rates config)) (valid p)
       /\ ProjectSummary.room_count
            (CalculationResults.project
               (CSVProcessResponse.results response))
          = List.length (valid p)
       /\ CSVProcessResponse.skipped response = List.length (invalid p)
       /\ CSVProcessResponse.errors response = errors p
       /\ (List.length rooms + CSVProcessResponse.skipped response
           = List.length (lines_of (File.text file)) - 1)%nat.
Proof.
  cbv zeta. unfold csvProcessHandler.
  destruct (AuthService.getUserId user) as [userId |]; [| discriminate].
  destruct formData as [csvFile |]; [| discriminate].
  cbv zeta.
  destruct (FileValidation.valid (validateCSVFile toFixed2 csvFile _));
    cbn [negb]; [| discriminate].
  destruct csvFile as [file |]; [| discriminate].
  pose proof (parseCSVText_counts parseFloat parseInt (File.text file))
    as Hc.
  unfold processParsed.
  destruct (valid (parseCSVText parseFloat parseInt (File.text file)))
    as [| row rest] eqn:Ep; [discriminate |].
  destruct (DatabaseClient.getConfiguration userId "default" db)
    as [configResult db'] eqn:Eg.
  destruct (DatabaseResult.success configResult); cbn [negb];
    [| discriminate].
  destruct (DatabaseResult.data configResult) as [config |] eqn:Ed;
    [| discriminate].
  intros _. exists userId, file, config. eexists.
  split; [reflexivity |]. split; [reflexivity |].
  split; [rewrite Eg; exact Ed |]. split; [reflexivity |].
  cbn [CSVProcessResponse.results CSVProcessResponse.skipped
       CSVProcessResponse.errors CalculationResults.rooms
       CalculationResults.project projectSummary ProjectSummary.room_count].
  rewrite Ep. repeat split.
  cbn [List.length]. rewrite length_map.
  apply Hc. discriminate.
Qed.

Lemma csvProcessHandler_accounts_witness :
  let toFixed2 := fun _ : float => EmptyString in
  let formData := Some (Some (sample_file (num := float))) in
  let res :=
    csvProcessHandler toFixed2 read_number read_number sample_app
      (Some sample_user) formData empty_database in
  ApiResponse.status (fst res) = 200%Z
  /\ exists userId file config response,
       AuthService.getUserId (Some sample_user) = Some userId
       /\ formData = Some (Some file)
       /\ DatabaseResult.data
            (fst (DatabaseClient.getConfiguration userId "default"
                    empty_database))
          = Some config
       /\ ApiResponse.data (fst res) = Some response
       /\ let p := parseCSVText read_number read_number (File.text file) in
          let rooms :=
            CalculationResults.rooms (CSVProcessResponse.results response) in
          rooms
          = map (calculateRoom (ConfigurationRow.rates config)) (valid p)
          /\ ProjectSummary.room_count
               (CalculationResults.project
                  (CSVProcessResponse.results response))
             = List.length (valid p)
          /\ CSVProcessResponse.skipped response = List.length (invalid p)
          /\ CSVProcessResponse.errors response = errors p
          /\ (List.length rooms + CSVProcessResponse.skipped response
              = List.length (lines_of (File.text file)) - 1)%nat.
Proof.
  intros toFixed2 formData res.
  assert (E : ApiResponse.status (fst res) = 200%Z)
    by (vm_compute; reflexivity).
  split; [exact E |].
  exact (@csvProcessHandler_accounts float _ toFixed2 read_number
           read_number sample_app (Some sample_user) formData
           empty_database E).
Defined.

(** ** The table of the configurations *)

Lemma NoDup_snoc {A : Type} (l : list A) (x : A) :
  NoDup l -> ~ In x l -> NoDup (l ++ [x]).
Proof.
  intros Hl Hx. induction Hl as [| a l Ha Hl IH]; cbn.
  - constructor; [intros [] | constructor].
  - constructor.
    + rewrite in_app_iff. intros [Hi | [<- | []]]; [now apply Ha |].
      apply Hx. now left.
    + apply IH. intros Hi. apply Hx. now right.
Qed.

Lemma NoDup_map_filter {A B : Type} (g : A -> B) (p : A -> bool)
    (l : list A) :
  NoDup (map g l) -> NoDup (map g (filter p l)).
Proof.
  induction l as [| a l IH]; cbn; [constructor |].
  intros Hn. inversion Hn as [| ? ? Ha Hl]; subst.
  destruct (p a); [| now apply IH]. cbn. constructor; [| now apply IH].
  intros (b & Eb & Hb%filter_In)%in_map_iff. apply Ha.
  apply in_map_iff. exists b. now split.
Qed.

Lemma find_app_none {A : Type} (p : A -> bool) (l m : list A) :
  find p l = None -> find p (l ++ m) = find p m.
Proof.
  induction l as [| a l IH]; cbn; [reflexivity |].
  destruct (p a); [discriminate | exact IH].
Qed.

Lemma existsb_false_forall {A : Type} (p : A -> bool) (l : list A) :
  existsb p l = false <-> forall x, In x l -> p x = false.
Proof.
  induction l as [| a l IH]; cbn.
  - split; [intros _ x [] | reflexivity].
  - rewrite orb_false_iff, IH. split.
    + intros [Ha Hl] x [<- | Hx]; [exact Ha | now apply Hl].
    + intros Hl. split; [apply Hl; now left |].
      intros x Hx. apply Hl. now right.
Qed.

Section DatabaseFacts.

Context {num : Type} `{JSNumber num}.

Local Open Scope string_scope.

Local Abbreviation Row := (ConfigurationRow.t num).
Local Abbreviation Request := (ConfigUpdateRequest.t num).
Local Abbreviation DB := (Database.t num).
Local Abbreviation pair_of :=
  (fun r : Row => (ConfigurationRow.user_id r, ConfigurationRow.config_name r)).
Local Abbreviation hit configId userId :=
  (fun r : Row => Z.eqb (ConfigurationRow.id r) configId
                  && String.eqb (ConfigurationRow.user_id r) userId).
Local Abbreviation replace configId userId row :=
  (fun r : Row => if hit configId userId r then row else r).

(** *** The request and the rates *)

Lemma check_provided_spread (message : string) (value : option num)
    (base lo hi : num) :
  DatabaseClient.check_provided message value lo hi = [] ->
  check_rate message base lo hi = [] ->
  check_rate message (spread base value) lo hi = [].
Proof. destruct value as [v |]; cbn; [intros Hv _ | intros _ Hb]; assumption. Qed.

Lemma spread_rates_valid (base : UserConfiguration.t num)
    (configData : Request) :
  DatabaseClient.validation_errors configData = [] ->
  validateConfigurationData base = [] ->
  validateConfigurationData (DatabaseClient.spread_rates base configData)
  = [].
Proof.
  unfold DatabaseClient.validation_errors, validateConfigurationData.
  intros Hr Hb.
  repeat match type of Hr with
         | (_ ++ _)%list = [] =>
             apply app_eq_nil in Hr; destruct Hr as [? Hr]
         end.
  repeat match type of Hb with
         | (_ ++ _)%list = [] =>
             apply app_eq_nil in Hb; destruct Hb as [? Hb]
         end.
  unfold DatabaseClient.spread_rates.
  cbn [UserConfiguration.tech_base UserConfiguration.supervisor_base
       UserConfiguration.specialist_base
       UserConfiguration.project_management_base
       UserConfiguration.large_dehumidifier_daily
       UserConfiguration.standard_dehumidifier_daily
       UserConfiguration.air_mover_daily UserConfiguration.heater_daily
       UserConfiguration.air_scrubber_daily
       UserConfiguration.injection_system_daily
       UserConfiguration.generator_daily].
  repeat match goal with
         | Hv : DatabaseClient.check_provided ?m ?v ?lo ?hi = [],
           Hc : check_rate ?m ?b ?lo ?hi = [] |- _ =>
             rewrite (check_provided_spread m v b lo hi Hv Hc); clear Hv Hc
         end.
  reflexivity.
Qed.


(** *** The statements *)

Lemma insert_config_inv (db : DB) (u n : string)
    (r : UserConfiguration.t num) (t : MoistureTargets.t num)
    (i : Z) (db' : DB) :
  DatabaseClient.insert_config db u n r t = Some (i, db') ->
  DatabaseClient.name_taken db u n None = false
  /\ i = (Database.last_row_id db + 1)%Z
  /\ db' = Database.mk
             (Database.rows db ++ [ConfigurationRow.mk i u n r t]) i.
Proof.
  unfold DatabaseClient.insert_config.
  destruct (DatabaseClient.name_taken db u n None); [discriminate |].
  intros [= <- <-]. now repeat split.
Qed.

Lemma insert_config_none (db : DB) (u n : string)
    (r : UserConfiguration.t num) (t : MoistureTargets.t num) :
  DatabaseClient.insert_config db u n r t = None <->
  DatabaseClient.name_taken db u n None = true.
Proof.
  unfold DatabaseClient.insert_config.
  destruct (DatabaseClient.name_taken db u n None); split;
    (reflexivity || discriminate).
Qed.

Lemma name_taken_false (db : DB) (u n : string) :
  DatabaseClient.name_taken db u n None = false ->
  ~ In (u, n) (map pair_of (Database.rows db)).
Proof.
  unfold DatabaseClient.name_taken. rewrite existsb_false_forall.
  intros Hf (r & [= Eu En] & Hr)%in_map_iff.
  specialize (Hf r Hr). rewrite Eu, En, !String.eqb_refl in Hf.
  discriminate Hf.
Qed.

Lemma select_config_none (db : DB) (u n : string) :
  DatabaseClient.select_config db u n = None ->
  DatabaseClient.name_taken db u n None = false.
Proof.
  unfold DatabaseClient.select_config, DatabaseClient.name_taken.
  intros Hf. apply existsb_false_forall. intros r Hr.
  rewrite (find_none _ _ Hf r Hr). reflexivity.
Qed.

Lemma select_config_some (db : DB) (u n : string) (r : Row) :
  DatabaseClient.select_config db u n = Some r ->
  In r (Database.rows db)
  /\ ConfigurationRow.user_id r = u /\ ConfigurationRow.config_name r = n.
Proof.
  unfold DatabaseClient.select_config. intros [Hr Hp]%find_some.
  apply andb_true_iff in Hp. destruct Hp as [Eu En].
  apply String.eqb_eq in Eu, En. now repeat split.
Qed.

Lemma select_by_id_some (db : DB) (i : Z) (u : string) (r : Row) :
  DatabaseClient.select_config_by_id db i u = Some r ->
  In r (Database.rows db)
  /\ ConfigurationRow.id r = i /\ ConfigurationRow.user_id r = u.
Proof.
  unfold DatabaseClient.select_config_by_id. intros [Hr Hp]%find_some.
  apply andb_true_iff in Hp. destruct Hp as [Ei Eu].
  apply Z.eqb_eq in Ei. apply String.eqb_eq in Eu. now repeat split.
Qed.

Lemma update_config_inv (db : DB) (i : Z) (u n : string)
    (r : UserConfiguration.t num) (t : MoistureTargets.t num)
    (c : nat) (db' : DB) :
  DatabaseClient.update_config db i u n r t = Some (c, db') ->
  db' = Database.mk
          (map (replace i u (ConfigurationRow.mk i u n r t))
             (Database.rows db))
          (Database.last_row_id db)
  /\ c = List.length (filter (hit i u) (Database.rows db))
  /\ (existsb (hit i u) (Database.rows db) = false
      \/ DatabaseClient.name_taken db u n (Some i) = false).
Proof.
  unfold DatabaseClient.update_config. cbv zeta.
  destruct (existsb _ (Database.rows db)) eqn:Ee; cbn [andb].
  - destruct (DatabaseClient.name_taken db u n (Some i)) eqn:En;
      [discriminate |].
    intros [= <- <-]. repeat split. now right.
  - intros [= <- <-]. repeat split. now left.
Qed.

Lemma replace_id (i : Z) (u : string) (row : Row) (l : list Row) :
  ConfigurationRow.id row = i ->
  map (@ConfigurationRow.id num) (map (replace i u row) l)
  = map (@ConfigurationRow.id num) l.
Proof.
  intros Hi. rewrite map_map. apply map_ext_in. intros r _. cbv beta.
  destruct (Z.eqb_spec (ConfigurationRow.id r) i) as [E |]; cbn [andb];
    [| reflexivity].
  destruct (String.eqb _ u); [congruence | reflexivity].
Qed.

Lemma replace_none (i : Z) (u : string) (row : Row) (l : list Row) :
  existsb (hit i u) l = false -> map (replace i u row) l = l.
Proof.
  rewrite existsb_false_forall. intros Hf.
  rewrite <- (map_id l) at 2. apply map_ext_in. intros r Hr. cbv beta.
  now rewrite (Hf r Hr).
Qed.

Lemma replace_pairs (i : Z) (u n : string) (row : Row) (l : list Row) :
  pair_of row = (u, n) ->
  NoDup (map (@ConfigurationRow.id num) l) ->
  NoDup (map pair_of l) ->
  (forall r, In r l -> ConfigurationRow.user_id r = u ->
     ConfigurationRow.config_name r = n -> ConfigurationRow.id r = i) ->
  NoDup (map pair_of (map (replace i u row) l)).
Proof.
  intros Hrow. induction l as [| a l IH]; cbn [map]; [constructor |].
  intros Hid Hp Hn.
  inversion Hid as [| ? ? Ha Hid']; subst.
  inversion Hp as [| ? ? Hpa Hp']; subst.
  constructor.
  2: { apply IH; [exact Hid' | exact Hp' |].
       intros r Hr. apply Hn. now right. }
  intros (b' & Eb & (b & <- & Hb)%in_map_iff)%in_map_iff.
  assert (Hhit : forall r, hit i u r = true ->
            ConfigurationRow.id r = i /\ ConfigurationRow.user_id r = u).
  { intros r [Ei Eu]%andb_true_iff. apply Z.eqb_eq in Ei.
    apply String.eqb_eq in Eu. now split. }
  assert (Hnot : forall r, In r (a :: l) -> hit i u r = false ->
            pair_of r <> (u, n)).
  { intros r Hr Hh [= Eu En].
    rewrite (Hn r Hr Eu En), Eu, Z.eqb_refl, String.eqb_refl in Hh.
    discriminate Hh. }
  cbv beta in Eb.
  destruct (hit i u a) eqn:Eha, (hit i u b) eqn:Ehb.
  - apply Ha. apply in_map_iff. exists b. split; [| exact Hb].
    destruct (Hhit a Eha) as [-> _]. now destruct (Hhit b Ehb) as [-> _].
  - rewrite Hrow in Eb. exact (Hnot b (or_intror Hb) Ehb Eb).
  - rewrite Hrow in Eb.
    exact (Hnot a (or_introl eq_refl) Eha (eq_sym Eb)).
  - apply Hpa. apply in_map_iff. exists b. now split.
Qed.

Lemma name_taken_other (db : DB) (u n : string) (i : Z) :
  DatabaseClient.name_taken db u n (Some i) = false ->
  forall r, In r (Database.rows db) -> ConfigurationRow.user_id r = u ->
    ConfigurationRow.config_name r = n -> ConfigurationRow.id r = i.
Proof.
  unfold DatabaseClient.name_taken. rewrite existsb_false_forall.
  intros Hf r Hr Eu En. specialize (Hf r Hr).
  rewrite Eu, En, !String.eqb_refl in Hf. cbn [andb] in Hf.
  apply negb_false_iff in Hf. now apply Z.eqb_eq.
Qed.

Lemma find_replace (i : Z) (u : string) (row : Row) (l : list Row) (r : Row) :
  hit i u row = true ->
  find (hit i u) l = Some r ->
  find (hit i u) (map (replace i u row) l) = Some row.
Proof.
  intros Hrow. induction l as [| a l IH]; cbn [find map]; [discriminate |].
  cbv beta. destruct (hit i u a) eqn:Ea.
  - intros _. now rewrite Hrow.
  - rewrite Ea. exact IH.
Qed.

(** *** The invariants *)

Lemma table_ok_insert (db : DB) (u n : string)
    (r : UserConfiguration.t num) (t : MoistureTargets.t num)
    (i : Z) (db' : DB) :
  table_ok db ->
  DatabaseClient.insert_config db u n r t = Some (i, db') ->
  table_ok db'.
Proof.
  intros (Hl & Hids & Hnd & Hnp) (Hn & -> & ->)%insert_config_inv.
  unfold table_ok. cbn [Database.rows Database.last_row_id].
  rewrite !map_app. cbn [map ConfigurationRow.id ConfigurationRow.user_id
                          ConfigurationRow.config_name].
  repeat split.
  - lia.
  - apply Forall_app. split.
    + eapply Forall_impl; [| exact Hids]. cbv beta. intros a Ha. lia.
    + constructor; [cbn; lia | constructor].
  - apply NoDup_snoc; [exact Hnd |].
    intros (a & Ea & Ha)%in_map_iff.
    pose proof (proj1 (Forall_forall _ _) Hids a Ha) as Hb. cbv beta in Hb.
    lia.
  - apply NoDup_snoc; [exact Hnp |]. now apply name_taken_false.
Qed.

Lemma table_ok_update (db : DB) (i : Z) (u n : string)
    (r : UserConfiguration.t num) (t : MoistureTargets.t num)
    (c : nat) (db' : DB) :
  table_ok db ->
  DatabaseClient.update_config db i u n r t = Some (c, db') ->
  table_ok db'.
Proof.
  intros (Hl & Hids & Hnd & Hnp) (-> & _ & Hc)%update_config_inv.
  destruct Hc as [Hno | Hfree].
  { rewrite (replace_none _ _ _ _ Hno). now repeat split. }
  unfold table_ok. cbn [Database.rows Database.last_row_id].
  repeat split.
  - exact Hl.
  - apply Forall_forall. intros a (b & <- & Hb)%in_map_iff. cbv beta.
    pose proof (proj1 (Forall_forall _ _) Hids b Hb) as Hbb. cbv beta in Hbb.
    destruct (Z.eqb_spec (ConfigurationRow.id b) i) as [E |]; cbn [andb];
      [| exact Hbb].
    destruct (String.eqb _ u); [| exact Hbb].
    cbn [ConfigurationRow.id]. now rewrite <- E.
  - now rewrite replace_id.
  - eapply replace_pairs;
      [reflexivity | exact Hnd | exact Hnp | now apply name_taken_other].
Qed.

Lemma table_ok_delete (db : DB) (i : Z) (u : string) :
  table_ok db -> table_ok (snd (DatabaseClient.delete_config db i u)).
Proof.
  intros (Hl & Hids & Hnd & Hnp).
  unfold DatabaseClient.delete_config, table_ok.
  cbn [snd Database.rows Database.last_row_id]. repeat split.
  - exact Hl.
  - apply Forall_forall. intros a [Ha _]%filter_In.
    exact (proj1 (Forall_forall _ _) Hids a Ha).
  - now apply NoDup_map_filter.
  - now apply (NoDup_map_filter pair_of).
Qed.

Lemma rows_valid_insert (db : DB) (u n : string)
    (r : UserConfiguration.t num) (t : MoistureTargets.t num)
    (i : Z) (db' : DB) :
  rows_valid db -> validateConfigurationData r = [] ->
  DatabaseClient.insert_config db u n r t = Some (i, db') ->
  rows_valid db'.
Proof.
  intros Hv Hr (_ & -> & ->)%insert_config_inv.
  unfold rows_valid in *. cbn [Database.rows].
  apply Forall_app. split; [exact Hv |]. now constructor.
Qed.

Lemma rows_valid_update (db : DB) (i : Z) (u n : string)
    (r : UserConfiguration.t num) (t : MoistureTargets.t num)
    (c : nat) (db' : DB) :
  rows_valid db -> validateConfigurationData r = [] ->
  DatabaseClient.update_config db i u n r t = Some (c, db') ->
  rows_valid db'.
Proof.
  intros Hv Hr (-> & _ & _)%update_config_inv.
  unfold rows_valid in *. cbn [Database.rows].
  apply Forall_forall. intros a (b & <- & Hb)%in_map_iff. cbv beta.
  destruct (_ && _); [exact Hr |].
  exact (proj1 (Forall_forall _ _) Hv b Hb).
Qed.

Lemma others_insert (db : DB) (u n : string)
    (r : UserConfiguration.t num) (t : MoistureTargets.t num)
    (i : Z) (db' : DB) :
  DatabaseClient.insert_config db u n r t = Some (i, db') ->
  rows_of_others u db' = rows_of_others u db.
Proof.
  intros (_ & -> & ->)%insert_config_inv.
  unfold rows_of_others. cbn [Database.rows]. rewrite filter_app.
  cbn [filter ConfigurationRow.user_id]. rewrite String.eqb_refl.
  cbn [negb]. apply app_nil_r.
Qed.

Lemma others_update (db : DB) (i : Z) (u n : string)
    (r : UserConfiguration.t num) (t : MoistureTargets.t num)
    (c : nat) (db' : DB) :
  DatabaseClient.update_config db i u n r t = Some (c, db') ->
  rows_of_others u db' = rows_of_others u db.
Proof.
  intros (-> & _ & _)%update_config_inv.
  unfold rows_of_others. cbn [Database.rows].
  induction (Database.rows db) as [| a l IH]; [reflexivity |].
  cbn [map filter]. cbv beta. rewrite IH.
  destruct (Z.eqb (ConfigurationRow.id a) i); cbn [andb]; [| reflexivity].
  destruct (String.eqb (ConfigurationRow.user_id a) u) eqn:Eu;
    [| now rewrite Eu].
  cbn [ConfigurationRow.user_id negb]. now rewrite String.eqb_refl.
Qed.

Lemma others_delete (db : DB) (i : Z) (u : string) :
  rows_of_others u (snd (DatabaseClient.delete_config db i u))
  = rows_of_others u db.
Proof.
  unfold DatabaseClient.delete_config, rows_of_others.
  cbn [snd Database.rows].
  induction (Database.rows db) as [| a l IH]; [reflexivity |].
  cbn [filter].
  destruct (Z.eqb (ConfigurationRow.id a) i); cbn [andb negb].
  - destruct (String.eqb (ConfigurationRow.user_id a) u) eqn:Eu;
      cbn [negb filter]; rewrite ?Eu; cbn [negb]; now rewrite IH.
  - cbn [filter]. now rewrite IH.
Qed.

(** *** Reading what was written *)

Lemma getById_inv (i : Z) (u : string) (db : DB) (r : Row) :
  DatabaseResult.success (DatabaseClient.getConfigurationById i u db) = true ->
  DatabaseResult.data (DatabaseClient.getConfigurationById i u db) = Some r ->
  string_truthy (trim u) = true /\ (0 < i)%Z
  /\ DatabaseClient.select_config_by_id db i u = Some r
  /\ DatabaseClient.getConfigurationById i u db
     = DatabaseResult.mk true (Some r) None.
Proof.
  unfold DatabaseClient.getConfigurationById.
  destruct (string_truthy (trim u)); cbn [negb]; [| discriminate].
  destruct (Z.eqb_spec i 0); cbn [orb]; [discriminate |].
  destruct (Z.leb_spec i 0); [discriminate |].
  destruct (DatabaseClient.select_config_by_id db i u) as [r' |];
    [| discriminate].
  cbn. intros _ [= ->]. now repeat split.
Qed.

Lemma getById_found (i : Z) (u : string) (db : DB) (r : Row) :
  string_truthy (trim u) = true -> (0 < i)%Z ->
  DatabaseClient.select_config_by_id db i u = Some r ->
  DatabaseClient.getConfigurationById i u db
  = DatabaseResult.mk true (Some r) None.
Proof.
  intros Hu Hi Hs. unfold DatabaseClient.getConfigurationById.
  rewrite Hu, Hs. cbn [negb].
  destruct (Z.eqb_spec i 0); [lia |]. destruct (Z.leb_spec i 0); [lia |].
  reflexivity.
Qed.

Lemma getById_after_insert (db : DB) (u n : string)
    (r : UserConfiguration.t num) (t : MoistureTargets.t num)
    (i : Z) (db' : DB) :
  table_ok db -> string_truthy (trim u) = true ->
  DatabaseClient.insert_config db u n r t = Some (i, db') ->
  DatabaseClient.getConfigurationById i u db'
  = DatabaseResult.mk true (Some (ConfigurationRow.mk i u n r t)) None.
Proof.
  intros (Hl & Hids & _) Hu (_ & -> & ->)%insert_config_inv.
  apply getById_found; [exact Hu | lia |].
  unfold DatabaseClient.select_config_by_id. cbn [Database.rows].
  rewrite find_app_none.
  - cbn [find ConfigurationRow.id ConfigurationRow.user_id].
    now rewrite Z.eqb_refl, String.eqb_refl.
  - destruct (find _ (Database.rows db)) as [a |] eqn:Ef; [| reflexivity].
    apply find_some in Ef. destruct Ef as [Ha Hp].
    apply andb_true_iff in Hp. destruct Hp as [Ei%Z.eqb_eq _].
    pose proof (proj1 (Forall_forall _ _) Hids a Ha) as Hb. cbv beta in Hb.
    lia.
Qed.

Lemma getById_after_update (db : DB) (i : Z) (u n : string)
    (r : UserConfiguration.t num) (t : MoistureTargets.t num)
    (c : nat) (db' : DB) (existing : Row) :
  string_truthy (trim u) = true -> (0 < i)%Z ->
  DatabaseClient.select_config_by_id db i u = Some existing ->
  DatabaseClient.update_config db i u n r t = Some (c, db') ->
  c <> 0%nat
  /\ DatabaseClient.getConfigurationById i u db'
     = DatabaseResult.mk true (Some (ConfigurationRow.mk i u n r t)) None.
Proof.
  intros Hu Hi Hs (-> & -> & _)%update_config_inv. split.
  - unfold DatabaseClient.select_config_by_id in Hs.
    apply find_some in Hs. destruct Hs as [Hin Hp].
    assert (Hf : In existing (filter (hit i u) (Database.rows db)))
      by (apply filter_In; now split).
    destruct (filter _ _); [now destruct Hf | discriminate].
  - apply getById_found; [exact Hu | exact Hi |].
    unfold DatabaseClient.select_config_by_id in *. cbn [Database.rows].
    eapply find_replace; [| exact Hs].
    cbn [ConfigurationRow.id ConfigurationRow.user_id].
    now rewrite Z.eqb_refl, String.eqb_refl.
Qed.


(** *** The methods, by cases *)

Lemma find_unique (l : list Row) (r : Row) :
  NoDup (map pair_of l) -> In r l ->
  find (fun a => String.eqb (ConfigurationRow.user_id a)
                   (ConfigurationRow.user_id r)
                 && String.eqb (ConfigurationRow.config_name a)
                      (ConfigurationRow.config_name r)) l
  = Some r.
Proof.
  induction l as [| a l IH]; cbn [map find]; [intros _ [] |].
  intros Hn [-> | Hr].
  - now rewrite !String.eqb_refl.
  - inversion Hn as [| ? ? Ha Hl]; subst.
    destruct (String.eqb_spec (ConfigurationRow.user_id a)
                (ConfigurationRow.user_id r)) as [Eu |]; cbn [andb];
      [| now apply IH].
    destruct (String.eqb_spec (ConfigurationRow.config_name a)
                (ConfigurationRow.config_name r)) as [En |];
      [| now apply IH].
    exfalso. apply Ha. apply in_map_iff. exists r. split; [| exact Hr].
    now rewrite Eu, En.
Qed.

(** What a save does: it fails, and the table is as it was, or it has
    inserted or updated the row that it returns. *)
Lemma saveConfiguration_cases (u : string) (configData : Request) (db : DB) :
  table_ok db ->
  let res := fst (DatabaseClient.saveConfiguration u configData db) in
  let db' := snd (DatabaseClient.saveConfiguration u configData db) in
  (DatabaseResult.success res = false /\ DatabaseResult.data res = None
   /\ db' = db)
  \/ (string_truthy (trim u) = true
      /\ DatabaseClient.validation_errors configData = []
      /\ exists row,
           res = DatabaseResult.mk true (Some row) None
           /\ ((exists i,
                  DatabaseClient.insert_config db u
                    (ConfigurationRow.config_name row)
                    (ConfigurationRow.rates row)
                    (ConfigurationRow.targets row) = Some (i, db')
                  /\ row
                     = ConfigurationRow.mk i u
                         (or_default
                            (ConfigUpdateRequest.config_name configData)
                            "default")
                         (DatabaseClient.spread_rates DEFAULT_CONFIGURATION
                            configData)
                         (DatabaseClient.spread_targets
                            DatabaseClient.DEFAULT_TARGETS configData))
               \/ (exists i existing c,
                     ConfigUpdateRequest.id configData = Some i
                     /\ (0 < i)%Z
                     /\ DatabaseClient.select_config_by_id db i u
                        = Some existing
                     /\ DatabaseClient.update_config db i u
                          (ConfigurationRow.config_name row)
                          (ConfigurationRow.rates row)
                          (ConfigurationRow.targets row) = Some (c, db')
                     /\ row
                        = ConfigurationRow.mk i u
                            (spread (ConfigurationRow.config_name existing)
                               (ConfigUpdateRequest.config_name configData))
                            (DatabaseClient.spread_rates
                               (ConfigurationRow.rates existing) configData)
                            (DatabaseClient.spread_targets
                               (ConfigurationRow.targets existing)
                               configData)))).
Proof.
  intros Hok. cbv zeta. unfold DatabaseClient.saveConfiguration.
  destruct (string_truthy (trim u)) eqn:Hu; cbn [negb];
    [| left; now repeat split].
  unfold DatabaseClient.validateConfigurationData. cbv zeta.
  destruct (DatabaseClient.validation_errors configData) as [| e es] eqn:Ev;
    [| left; now repeat split].
  cbn [List.length Nat.ltb Nat.leb DatabaseResult.success negb].
  assert (Hcreate :
    let res := fst (DatabaseClient.createConfiguration u configData db) in
    let db' := snd (DatabaseClient.createConfiguration u configData db) in
    (DatabaseResult.success res = false /\ DatabaseResult.data res = None
     /\ db' = db)
    \/ exists row,
         res = DatabaseResult.mk true (Some row) None
         /\ exists i,
              DatabaseClient.insert_config db u
                (ConfigurationRow.config_name row)
                (ConfigurationRow.rates row)
                (ConfigurationRow.targets row) = Some (i, db')
              /\ row
                 = ConfigurationRow.mk i u
                     (or_default
                        (ConfigUpdateRequest.config_name configData)
                        "default")
                     (DatabaseClient.spread_rates DEFAULT_CONFIGURATION
                        configData)
                     (DatabaseClient.spread_targets
                        DatabaseClient.DEFAULT_TARGETS configData)).
  { cbv zeta. unfold DatabaseClient.createConfiguration. cbv zeta.
    destruct (DatabaseClient.insert_config db u _ _ _) as [[i db'] |] eqn:Ei;
      [| left; now repeat split].
    right. cbn [fst snd].
    rewrite (@getById_after_insert _ _ _ _ _ _ _ Hok Hu Ei).
    eexists. split; [reflexivity |]. exists i. split; [exact Ei | reflexivity]. }
  cbv zeta in Hcreate.
  destruct (ConfigUpdateRequest.id configData) as [i |] eqn:Eid.
  2: { destruct Hcreate as [Hf | (row & Hr & Hi)]; [now left |].
       right. repeat split. exists row. split; [exact Hr | now left]. }
  destruct (Z.eqb_spec i 0) as [-> | Hi0].
  { destruct Hcreate as [Hf | (row & Hr & Hi)]; [now left |].
    right. repeat split. exists row. split; [exact Hr | now left]. }
  clear Hcreate.
  unfold DatabaseClient.updateConfiguration. cbv zeta.
  destruct (DatabaseResult.success
              (DatabaseClient.getConfigurationById i u db)) eqn:Es.
  2: { left. cbn [fst snd]. repeat split; [exact Es |].
       revert Es. unfold DatabaseClient.getConfigurationById.
       repeat match goal with
              | |- context [if ?b then _ else _] => destruct b; try reflexivity
              end.
       destruct (DatabaseClient.select_config_by_id db i u);
         [discriminate | reflexivity]. }
  destruct (DatabaseResult.data
              (DatabaseClient.getConfigurationById i u db))
    as [existing |] eqn:Ed.
  2: { exfalso. revert Es Ed. unfold DatabaseClient.getConfigurationById.
       repeat match goal with
              | |- context [if ?b then _ else _] =>
                  destruct b; try discriminate
              end.
       destruct (DatabaseClient.select_config_by_id db i u); discriminate. }
  destruct (@getById_inv _ _ _ _ Es Ed) as (_ & Hpos & Hsel & _).
  destruct (DatabaseClient.update_config db i u _ _ _) as [[c db'] |] eqn:Eu;
    [| left; now repeat split].
  destruct (@getById_after_update _ _ _ _ _ _ _ _ _ Hu Hpos Hsel Eu)
    as [Hc0 Hg].
  cbv zeta. cbn [strictly_zero D1Result.changes].
  right. repeat split. cbn [fst snd]. rewrite Hg.
  eexists. split; [reflexivity |]. right.
  exists i, existing, c. now repeat split.
Qed.

(** What reading the configuration of a user does. *)
Lemma getConfiguration_cases (u n : string) (db : DB) :
  table_ok db -> string_truthy (trim u) = true -> n <> EmptyString ->
  exists row,
    fst (DatabaseClient.getConfiguration u n db)
    = DatabaseResult.mk true (Some row) None
    /\ ConfigurationRow.user_id row = u
    /\ ConfigurationRow.config_name row = n
    /\ ((DatabaseClient.select_config db u n = Some row
         /\ snd (DatabaseClient.getConfiguration u n db) = db)
        \/ (DatabaseClient.select_config db u n = None
            /\ ConfigurationRow.rates row = DEFAULT_CONFIGURATION
            /\ ConfigurationRow.targets row = DatabaseClient.DEFAULT_TARGETS
            /\ DatabaseClient.insert_config db u n DEFAULT_CONFIGURATION
                 DatabaseClient.DEFAULT_TARGETS
               = Some (ConfigurationRow.id row,
                       snd (DatabaseClient.getConfiguration u n db)))).
Proof.
  intros Hok Hu Hn. unfold DatabaseClient.getConfiguration.
  rewrite Hu. cbn [negb].
  destruct (DatabaseClient.select_config db u n) as [row |] eqn:Es.
  - destruct (select_config_some _ _ _ Es) as (_ & Eu & En).
    exists row. cbn [fst snd]. repeat split; try assumption. now left.
  - unfold DatabaseClient.createDefaultConfiguration,
      DatabaseClient.createConfiguration. cbv zeta.
    cbn [ConfigUpdateRequest.config_name].
    rewrite (or_default_Some _ Hn).
    change (DatabaseClient.spread_rates _ _)
      with (DEFAULT_CONFIGURATION (num := num)).
    change (DatabaseClient.spread_targets _ _)
      with (DatabaseClient.DEFAULT_TARGETS (num := num)).
    destruct (DatabaseClient.insert_config db u n _ _) as [[i db'] |] eqn:Ei.
    + cbn [fst snd]. rewrite (@getById_after_insert _ _ _ _ _ _ _ Hok Hu Ei).
      eexists. split; [reflexivity |]. repeat split. right.
      now repeat split.
    + apply insert_config_none in Ei.
      now rewrite (select_config_none _ _ _ Es) in Ei.
Qed.


Lemma spread_idempotent {A : Type} (base : A) (value : option A) :
  spread (spread base value) value = spread base value.
Proof. now destruct value. Qed.

Lemma spread_rates_idempotent (base : UserConfiguration.t num)
    (configData : Request) :
  DatabaseClient.spread_rates (DatabaseClient.spread_rates base configData)
    configData
  = DatabaseClient.spread_rates base configData.
Proof.
  unfold DatabaseClient.spread_rates.
  cbn [UserConfiguration.tech_base UserConfiguration.supervisor_base
       UserConfiguration.specialist_base
       UserConfiguration.project_management_base
       UserConfiguration.large_dehumidifier_daily
       UserConfiguration.standard_dehumidifier_daily
       UserConfiguration.air_mover_daily UserConfiguration.heater_daily
       UserConfiguration.air_scrubber_daily
       UserConfiguration.injection_system_daily
       UserConfiguration.generator_daily].
  now rewrite !spread_idempotent.
Qed.

Lemma spread_targets_idempotent (base : MoistureTargets.t num)
    (configData : Request) :
  DatabaseClient.spread_targets
    (DatabaseClient.spread_targets base configData) configData
  = DatabaseClient.spread_targets base configData.
Proof.
  unfold DatabaseClient.spread_targets.
  cbn [MoistureTargets.hardwood_target_mc MoistureTargets.paneling_target_mc
       MoistureTargets.vinyl_target_mc MoistureTargets.drywall_target_mc
       MoistureTargets.carpet_target_mc].
  now rewrite !spread_idempotent.
Qed.

(** The table after a method, whatever the table before. *)
Lemma createConfiguration_table (u : string) (configData : Request) (db : DB) :
  snd (DatabaseClient.createConfiguration u configData db) = db
  \/ exists i,
       DatabaseClient.insert_config db u
         (or_default (ConfigUpdateRequest.config_name configData) "default")
         (DatabaseClient.spread_rates DEFAULT_CONFIGURATION configData)
         (DatabaseClient.spread_targets DatabaseClient.DEFAULT_TARGETS
            configData)
       = Some (i, snd (DatabaseClient.createConfiguration u configData db)).
Proof.
  unfold DatabaseClient.createConfiguration. cbv zeta.
  destruct (DatabaseClient.insert_config db u _ _ _) as [[i db'] |];
    [| now left].
  right. now exists i.
Qed.

Lemma updateConfiguration_table (u : string) (i : Z) (configData : Request)
    (db : DB) :
  snd (DatabaseClient.updateConfiguration u i configData db) = db
  \/ exists existing c,
       In existing (Database.rows db)
       /\ DatabaseClient.update_config db i u
            (spread (ConfigurationRow.config_name existing)
               (ConfigUpdateRequest.config_name configData))
            (DatabaseClient.spread_rates (ConfigurationRow.rates existing)
               configData)
            (DatabaseClient.spread_targets
               (ConfigurationRow.targets existing) configData)
          = Some (c, snd (DatabaseClient.updateConfiguration u i configData
                            db)).
Proof.
  unfold DatabaseClient.updateConfiguration. cbv zeta.
  destruct (DatabaseResult.success
              (DatabaseClient.getConfigurationById i u db)) eqn:Es;
    [| now left].
  destruct (DatabaseResult.data
              (DatabaseClient.getConfigurationById i u db))
    as [existing |] eqn:Ed; [| now left].
  destruct (@getById_inv _ _ _ _ Es Ed) as (_ & _ & Hsel & _).
  apply select_by_id_some in Hsel. destruct Hsel as (Hin & _).
  destruct (DatabaseClient.update_config db i u _ _ _) as [[c db'] |] eqn:Eu;
    [| now left].
  right. exists existing, c. split; [exact Hin |].
  cbv zeta. cbn [strictly_zero D1Result.changes]. exact Eu.
Qed.

Lemma saveConfiguration_table (u : string) (configData : Request) (db : DB) :
  snd (DatabaseClient.saveConfiguration u configData db) = db
  \/ DatabaseClient.validation_errors configData = []
     /\ ((exists i,
            DatabaseClient.insert_config db u
              (or_default (ConfigUpdateRequest.config_name configData)
                 "default")
              (DatabaseClient.spread_rates DEFAULT_CONFIGURATION configData)
              (DatabaseClient.spread_targets DatabaseClient.DEFAULT_TARGETS
                 configData)
            = Some (i, snd (DatabaseClient.saveConfiguration u configData
                              db)))
         \/ (exists i existing c,
               In existing (Database.rows db)
               /\ DatabaseClient.update_config db i u
                    (spread (ConfigurationRow.config_name existing)
                       (ConfigUpdateRequest.config_name configData))
                    (DatabaseClient.spread_rates
                       (ConfigurationRow.rates existing) configData)
                    (DatabaseClient.spread_targets
                       (ConfigurationRow.targets existing) configData)
                  = Some (c, snd (DatabaseClient.saveConfiguration u
                                    configData db)))).
Proof.
  unfold DatabaseClient.saveConfiguration.
  destruct (string_truthy (trim u)); cbn [negb]; [| now left].
  unfold DatabaseClient.validateConfigurationData. cbv zeta.
  destruct (DatabaseClient.validation_errors configData) as [| e es] eqn:Ev;
    [| now left].
  cbn [List.length Nat.ltb Nat.leb DatabaseResult.success negb].
  destruct (ConfigUpdateRequest.id configData) as [i |].
  - destruct (Z.eqb i 0).
    + destruct (createConfiguration_table u configData db) as [E | E];
        [now left | right; split; [reflexivity | now left]].
    + destruct (updateConfiguration_table u i configData db)
        as [E | (existing & c & Hin & E)]; [now left |].
      right. split; [reflexivity |]. right. now exists i, existing, c.
  - destruct (createConfiguration_table u configData db) as [E | E];
      [now left | right; split; [reflexivity | now left]].
Qed.

Lemma getConfiguration_table (u n : string) (db : DB) :
  snd (DatabaseClient.getConfiguration u n db) = db
  \/ exists i name,
       DatabaseClient.insert_config db u name DEFAULT_CONFIGURATION
         DatabaseClient.DEFAULT_TARGETS
       = Some (i, snd (DatabaseClient.getConfiguration u n db)).
Proof.
  unfold DatabaseClient.getConfiguration.
  destruct (string_truthy (trim u)); cbn [negb]; [| now left].
  destruct (DatabaseClient.select_config db u n); [now left |].
  unfold DatabaseClient.createDefaultConfiguration. cbv zeta.
  destruct (createConfiguration_table u
              (ConfigUpdateRequest.mk None (Some n)
                 (Some (UserConfiguration.tech_base DEFAULT_CONFIGURATION))
                 (Some (UserConfiguration.supervisor_base
                          DEFAULT_CONFIGURATION))
                 (Some (UserConfiguration.specialist_base
                          DEFAULT_CONFIGURATION))
                 (Some (UserConfiguration.project_management_base
                          DEFAULT_CONFIGURATION))
                 (Some (UserConfiguration.large_dehumidifier_daily
                          DEFAULT_CONFIGURATION))
                 (Some (UserConfiguration.standard_dehumidifier_daily
                          DEFAULT_CONFIGURATION))
                 (Some (UserConfiguration.air_mover_daily
                          DEFAULT_CONFIGURATION))
                 (Some (UserConfiguration.heater_daily DEFAULT_CONFIGURATION))
                 (Some (UserConfiguration.air_scrubber_daily
                          DEFAULT_CONFIGURATION))
                 (Some (UserConfiguration.injection_system_daily
                          DEFAULT_CONFIGURATION))
                 (Some (UserConfiguration.generator_daily
                          DEFAULT_CONFIGURATION))
                 (Some (MoistureTargets.hardwood_target_mc
                          DatabaseClient.DEFAULT_TARGETS))
                 (Some (MoistureTargets.paneling_target_mc
                          DatabaseClient.DEFAULT_TARGETS))
                 (Some (MoistureTargets.vinyl_target_mc
                          DatabaseClient.DEFAULT_TARGETS))
                 (Some (MoistureTargets.drywall_target_mc
                          DatabaseClient.DEFAULT_TARGETS))
                 (Some (MoistureTargets.carpet_target_mc
                          DatabaseClient.DEFAULT_TARGETS)))
              db) as [E | (i & E)]; [now left |].
  right. exists i. eexists. exact E.
Qed.

Lemma deleteConfiguration_table (i : Z) (u : string) (db : DB) :
  snd (DatabaseClient.deleteConfiguration i u db) = db
  \/ snd (DatabaseClient.deleteConfiguration i u db)
     = snd (DatabaseClient.delete_config db i u).
Proof.
  unfold DatabaseClient.deleteConfiguration.
  destruct (negb _); [now left |]. destruct (_ || _); [now left |].
  right. unfold DatabaseClient.delete_config. cbv zeta.
  reflexivity.
Qed.


Lemma name_taken_In (db : DB) (u n : string) (r : Row) :
  In r (Database.rows db) ->
  ConfigurationRow.user_id r = u -> ConfigurationRow.config_name r = n ->
  DatabaseClient.name_taken db u n None = true.
Proof.
  intros Hr Eu En. unfold DatabaseClient.name_taken.
  apply existsb_exists. exists r. split; [exact Hr |].
  now rewrite Eu, En, !String.eqb_refl.
Qed.

(** After a read for a user, the table has the configuration [n] of the
    user, and a second read returns the same and changes nothing. *)
Lemma getConfiguration_twice (u n : string) (db : DB) :
  table_ok db -> string_truthy (trim u) = true -> n <> EmptyString ->
  let res := fst (DatabaseClient.getConfiguration u n db) in
  let db1 := snd (DatabaseClient.getConfiguration u n db) in
  table_ok db1
  /\ DatabaseClient.name_taken db1 u n None = true
  /\ DatabaseClient.getConfiguration u n db1 = (res, db1)
  /\ exists row,
       res = DatabaseResult.mk true (Some row) None
       /\ In row (Database.rows db1)
       /\ ConfigurationRow.user_id row = u
       /\ ConfigurationRow.config_name row = n.
Proof.
  intros Hok Hu Hn. cbv zeta.
  destruct (getConfiguration_cases u Hok Hu Hn)
    as (row & Hres & Eu & En & Hcase).
  set (db1 := snd (DatabaseClient.getConfiguration u n db)) in *.
  assert (Hok1 : table_ok db1).
  { destruct Hcase as [(_ & ->) | (_ & _ & _ & Ei)]; [exact Hok |].
    eapply table_ok_insert; [exact Hok | exact Ei]. }
  assert (Hin : In row (Database.rows db1)).
  { destruct Hcase as [(Hs & ->) | (_ & Er & Et & Ei)].
    - now apply select_config_some in Hs.
    - apply insert_config_inv in Ei. destruct Ei as (_ & Ei & ->).
      cbn [Database.rows]. apply in_or_app. right. left.
      destruct row as [ri ru rn rr rt]. cbn in *. congruence. }
  split; [exact Hok1 |].
  split; [eapply name_taken_In; [exact Hin | exact Eu | exact En] |].
  split.
  - unfold DatabaseClient.getConfiguration at 1. rewrite Hu. cbn [negb].
    unfold DatabaseClient.select_config.
    destruct Hok1 as (_ & _ & _ & Hnp).
    pose proof (find_unique _ _ Hnp Hin) as Hf. rewrite Eu, En in Hf.
    now rewrite Hf, Hres.
  - exists row. now repeat split.
Qed.

(** The failures of a save and their codes. *)
Lemma getById_failure (i : Z) (u : string) (db : DB) :
  DatabaseResult.success (DatabaseClient.getConfigurationById i u db) = false ->
  exists e,
    DatabaseClient.getConfigurationById i u db
    = DatabaseResult.mk false None (Some e)
    /\ DatabaseErrorInfo.code e <> "VALIDATION_FAILED"
    /\ string_truthy (DatabaseErrorInfo.message e) = true.
Proof.
  unfold DatabaseClient.getConfigurationById.
  destruct (negb _);
    [intros _; eexists; split; [reflexivity |]; split;
     [discriminate | reflexivity] |].
  destruct (_ || _);
    [intros _; eexists; split; [reflexivity |]; split;
     [discriminate | reflexivity] |].
  destruct (DatabaseClient.select_config_by_id db i u); [discriminate |].
  intros _. eexists. split; [reflexivity |]. split;
    [discriminate | reflexivity].
Qed.

Lemma createConfiguration_failure (u : string) (configData : Request)
    (db : DB) :
  DatabaseResult.success
    (fst (DatabaseClient.createConfiguration u configData db)) = false ->
  exists e,
    fst (DatabaseClient.createConfiguration u configData db)
    = DatabaseResult.mk false None (Some e)
    /\ DatabaseErrorInfo.code e <> "VALIDATION_FAILED"
    /\ string_truthy (DatabaseErrorInfo.message e) = true.
Proof.
  unfold DatabaseClient.createConfiguration. cbv zeta.
  destruct (DatabaseClient.insert_config db u _ _ _) as [[i db'] |].
  - cbn [fst]. apply getById_failure.
  - intros _. eexists. split; [reflexivity |]. split;
      [discriminate | reflexivity].
Qed.

Lemma updateConfiguration_failure (u : string) (i : Z) (configData : Request)
    (db : DB) :
  DatabaseResult.success
    (fst (DatabaseClient.updateConfiguration u i configData db)) = false ->
  exists e,
    fst (DatabaseClient.updateConfiguration u i configData db)
    = DatabaseResult.mk false None (Some e)
    /\ DatabaseErrorInfo.code e <> "VALIDATION_FAILED"
    /\ string_truthy (DatabaseErrorInfo.message e) = true.
Proof.
  unfold DatabaseClient.updateConfiguration. cbv zeta.
  destruct (DatabaseResult.success
              (DatabaseClient.getConfigurationById i u db)) eqn:Es.
  2: { cbn [fst]. intros _. now apply getById_failure. }
  destruct (DatabaseResult.data
              (DatabaseClient.getConfigurationById i u db)) eqn:Ed.
  2: { cbn [fst]. intros E. rewrite Es in E. discriminate E. }
  destruct (DatabaseClient.update_config db i u _ _ _) as [[c db'] |].
  - cbv zeta. cbn [strictly_zero D1Result.changes fst].
    apply getById_failure.
  - intros _. eexists. split; [reflexivity |]. split;
      [discriminate | reflexivity].
Qed.

Lemma saveConfiguration_failure (u : string) (configData : Request)
    (db : DB) :
  DatabaseResult.success
    (fst (DatabaseClient.saveConfiguration u configData db)) = false ->
  exists e,
    fst (DatabaseClient.saveConfiguration u configData db)
    = DatabaseResult.mk false None (Some e)
    /\ string_truthy (DatabaseErrorInfo.message e) = true
    /\ (String.eqb (DatabaseErrorInfo.code e) "VALIDATION_FAILED" = true <->
        string_truthy (trim u) = true
        /\ DatabaseClient.validation_errors configData <> []).
Proof.
  unfold DatabaseClient.saveConfiguration.
  destruct (string_truthy (trim u)); cbn [negb].
  2: { intros _. eexists. split; [reflexivity |]. split; [reflexivity |].
       cbn. split; [discriminate | now intros [? _]]. }
  unfold DatabaseClient.validateConfigurationData. cbv zeta.
  destruct (DatabaseClient.validation_errors configData) as [| m ms] eqn:Ev.
  2: { intros _. eexists. split; [reflexivity |]. split; [reflexivity |].
       cbn. split; [intros _; split; [reflexivity | discriminate] |
                    reflexivity]. }
  cbn [List.length Nat.ltb Nat.leb DatabaseResult.success negb].
  assert (Hno : forall e : DatabaseErrorInfo.t,
            DatabaseErrorInfo.code e <> "VALIDATION_FAILED" ->
            (String.eqb (DatabaseErrorInfo.code e) "VALIDATION_FAILED" = true
             <-> true = true /\ @nil string <> [])).
  { intros e He. split.
    - intros E%String.eqb_eq. contradiction.
    - intros [_ Hn]. now destruct Hn. }
  destruct (ConfigUpdateRequest.id configData) as [i |].
  - destruct (Z.eqb i 0).
    + intros (e & -> & Hc & Hm)%createConfiguration_failure.
      exists e. split; [reflexivity |]. split; [exact Hm | now apply Hno].
    + intros (e & -> & Hc & Hm)%updateConfiguration_failure.
      exists e. split; [reflexivity |]. split; [exact Hm | now apply Hno].
  - intros (e & -> & Hc & Hm)%createConfiguration_failure.
    exists e. split; [reflexivity |]. split; [exact Hm | now apply Hno].
Qed.

End DatabaseFacts.

(** X17. The invariants of the table.  On a table whose identifiers are
    positive, at most the last one given out and distinct, where a user
    has a name once and where the rates of every row pass the checks of
    the client, every save, every read (which may insert the default
    configuration) and every deletion leaves such a table; and the rates of
    a row that a read returns, those that the upload handler computes
    with, pass the checks.  The rates of the default configuration are to
    pass them, as they do in both arithmetics. *)
Theorem table_invariants_kept {num : Type} `{JSNumber num}
    (db : Database.t num) :
  validateConfigurationData (DEFAULT_CONFIGURATION (num := num)) = [] ->
  table_ok db -> rows_valid db ->
  (forall u configData,
     let db' := snd (DatabaseClient.saveConfiguration u configData db) in
     table_ok db' /\ rows_valid db')
  /\ (forall u n,
        let db' := snd (DatabaseClient.getConfiguration u n db) in
        table_ok db' /\ rows_valid db')
  /\ (forall i u,
        let db' := snd (DatabaseClient.deleteConfiguration i u db) in
        table_ok db' /\ rows_valid db')
  /\ (forall u row,
        DatabaseResult.data
          (fst (DatabaseClient.getConfiguration u "default" db)) = Some row ->
        validateConfigurationData (ConfigurationRow.rates row) = []).
Proof.
  intros Hd Hok Hv.
  assert (Hsave : forall u configData,
            let db' := snd (DatabaseClient.saveConfiguration u configData db) in
            table_ok db' /\ rows_valid db').
  { intros u configData. cbv zeta.
    destruct (saveConfiguration_table u configData db)
      as [-> | (Hreq & [(i & Ei) | (i & existing & c & Hin & Eu)])].
    - now split.
    - split; [eapply table_ok_insert; [exact Hok | exact Ei] |].
      eapply rows_valid_insert; [exact Hv | | exact Ei].
      now apply spread_rates_valid.
    - split; [eapply table_ok_update; [exact Hok | exact Eu] |].
      eapply rows_valid_update; [exact Hv | | exact Eu].
      apply spread_rates_valid; [exact Hreq |].
      exact (proj1 (Forall_forall _ _) Hv existing Hin). }
  assert (Hget : forall u n,
            let db' := snd (DatabaseClient.getConfiguration u n db) in
            table_ok db' /\ rows_valid db').
  { intros u n. cbv zeta.
    destruct (getConfiguration_table u n db) as [-> | (i & name & Ei)].
    - now split.
    - split; [eapply table_ok_insert; [exact Hok | exact Ei] |].
      eapply rows_valid_insert; [exact Hv | exact Hd | exact Ei]. }
  split; [exact Hsave |]. split; [exact Hget |]. split.
  - intros i u. cbv zeta.
    destruct (deleteConfiguration_table i u db) as [-> | ->];
      [now split |].
    split; [now apply table_ok_delete |].
    unfold rows_valid, DatabaseClient.delete_config in *.
    cbn [snd Database.rows]. apply Forall_forall.
    intros a [Ha _]%filter_In. exact (proj1 (Forall_forall _ _) Hv a Ha).
  - intros u row Hrow.
    destruct (Hget u "default"%string) as [_ Hv'].
    revert Hrow Hv'. unfold DatabaseClient.getConfiguration.
    destruct (string_truthy (trim u)); cbn [negb]; [| discriminate].
    destruct (DatabaseClient.select_config db u "default") as [r |] eqn:Es.
    + cbn. intros [= ->] _.
      apply select_config_some in Es. destruct Es as (Hin & _).
      exact (proj1 (Forall_forall _ _) Hv row Hin).
    + unfold DatabaseClient.createDefaultConfiguration,
        DatabaseClient.createConfiguration. cbv zeta.
      destruct (DatabaseClient.insert_config db u _ _ _) as [[i db'] |];
        [| discriminate].
      cbn [fst snd]. intros Hrow Hv'.
      unfold DatabaseClient.getConfigurationById in Hrow.
      repeat match type of Hrow with
             | context [if ?b then _ else _] =>
                 destruct b; try discriminate Hrow
             end.
      destruct (DatabaseClient.select_config_by_id db' i u) as [r |] eqn:Er;
        [| discriminate Hrow].
      cbn in Hrow. injection Hrow as ->.
      apply select_by_id_some in Er. destruct Er as (Hin & _).
      exact (proj1 (Forall_forall _ _) Hv' row Hin).
Qed.

Lemma table_invariants_kept_witness :
  (validateConfigurationData (DEFAULT_CONFIGURATION (num := Q)) = []
   /\ table_ok (empty_database (num := Q))
   /\ rows_valid (empty_database (num := Q)))
  /\ (forall u configData,
        let db' :=
          snd (DatabaseClient.saveConfiguration u configData
                 (empty_database (num := Q))) in
        table_ok db' /\ rows_valid db')
  /\ (forall u n,
        let db' :=
          snd (DatabaseClient.getConfiguration u n
                 (empty_database (num := Q))) in
        table_ok db' /\ rows_valid db')
  /\ (forall i u,
        let db' :=
          snd (DatabaseClient.deleteConfiguration i u
                 (empty_database (num := Q))) in
        table_ok db' /\ rows_valid db')
  /\ (forall u row,
        DatabaseResult.data
          (fst (DatabaseClient.getConfiguration u "default"
                  (empty_database (num := Q)))) = Some row ->
        validateConfigurationData (ConfigurationRow.rates row) = []).
Proof.
  assert (Hd : validateConfigurationData (DEFAULT_CONFIGURATION (num := Q))
               = []) by reflexivity.
  assert (Hok : table_ok (empty_database (num := Q)))
    by (repeat split; (reflexivity || constructor || discriminate)).
  assert (Hv : rows_valid (empty_database (num := Q))) by constructor.
  split; [exact (conj Hd (conj Hok Hv)) |].
  exact (@table_invariants_kept Q _ empty_database Hd Hok Hv).
Defined.

(** X18. A user does not touch the rows of another.  Whatever the table
    and whatever the request, identifier included, a save, a read and a
    deletion by a user leave the rows of all other users as they were, in
    order; and a row that the client reads by identifier for a user is a
    row of that user. *)
Theorem other_users_rows_untouched {num : Type} `{JSNumber num}
    (db : Database.t num) (u : string) :
  (forall configData,
     rows_of_others u (snd (DatabaseClient.saveConfiguration u configData db))
     = rows_of_others u db)
  /\ (forall n,
        rows_of_others u (snd (DatabaseClient.getConfiguration u n db))
        = rows_of_others u db)
  /\ (forall i,
        rows_of_others u (snd (DatabaseClient.deleteConfiguration i u db))
        = rows_of_others u db)
  /\ (forall i row,
        DatabaseResult.data (DatabaseClient.getConfigurationById i u db)
        = Some row ->
        ConfigurationRow.user_id row = u).
Proof.
  split; [| split; [| split]].
  - intros configData.
    destruct (saveConfiguration_table u configData db)
      as [-> | (_ & [(i & Ei) | (i & existing & c & _ & Eu)])].
    + reflexivity.
    + eapply others_insert. exact Ei.
    + eapply others_update. exact Eu.
  - intros n.
    destruct (getConfiguration_table u n db) as [-> | (i & name & Ei)];
      [reflexivity |].
    eapply others_insert. exact Ei.
  - intros i.
    destruct (deleteConfiguration_table i u db) as [-> | ->];
      [reflexivity | apply others_delete].
  - intros i row. unfold DatabaseClient.getConfigurationById.
    repeat match goal with
           | |- context [if ?b then _ else _] => destruct b; try discriminate
           end.
    destruct (DatabaseClient.select_config_by_id db i u) as [r |] eqn:Er;
      [| discriminate].
    cbn. intros [= ->]. now apply select_by_id_some in Er.
Qed.

(** X19. A save that fails changes nothing: on a table with the
    invariants, when [saveConfiguration] does not succeed it returns no
    row and the table is as it was. *)
Theorem failed_save_changes_nothing {num : Type} `{JSNumber num}
    (db : Database.t num) (u : string)
    (configData : ConfigUpdateRequest.t num) :
  table_ok db ->
  DatabaseResult.success
    (fst (DatabaseClient.saveConfiguration u configData db)) = false ->
  snd (DatabaseClient.saveConfiguration u configData db) = db
  /\ DatabaseResult.data
       (fst (DatabaseClient.saveConfiguration u configData db)) = None.
Proof.
  intros Hok Hf.
  destruct (saveConfiguration_cases u configData Hok)
    as [(_ & Hd & Hs) | (_ & _ & row & Hr & _)]; [now split |].
  rewrite Hr in Hf. discriminate Hf.
Qed.

(** X20. A save that succeeds is read back.  On a table with the
    invariants, the row that [saveConfiguration] returns is a row of the
    user in the new table and holds every value of the request (the request
    spread over it changes nothing); the name it was given, when one was
    given; and a read by its identifier, or by its name, returns this very
    row and leaves the table as it is. *)
Theorem saved_configuration_is_read_back {num : Type} `{JSNumber num}
    (db : Database.t num) (u : string)
    (configData : ConfigUpdateRequest.t num) :
  table_ok db ->
  let res := fst (DatabaseClient.saveConfiguration u configData db) in
  let db' := snd (DatabaseClient.saveConfiguration u configData db) in
  DatabaseResult.success res = true ->
  exists row,
    res = DatabaseResult.mk true (Some row) None
    /\ In row (Database.rows db')
    /\ ConfigurationRow.user_id row = u
    /\ DatabaseClient.spread_rates (ConfigurationRow.rates row) configData
       = ConfigurationRow.rates row
    /\ DatabaseClient.spread_targets (ConfigurationRow.targets row) configData
       = ConfigurationRow.targets row
    /\ (forall name, ConfigUpdateRequest.config_name configData = Some name ->
          ConfigurationRow.config_name row = name)
    /\ DatabaseClient.getConfigurationById (ConfigurationRow.id row) u db'
       = res
    /\ DatabaseClient.getConfiguration u (ConfigurationRow.config_name row)
         db'
       = (res, db').
Proof.
  intros Hok. cbv zeta. intros Hs.
  destruct (saveConfiguration_cases u configData Hok)
    as [(Hf & _) | (Hu & Hreq & row & Hr & Hcase)];
    [rewrite Hf in Hs; discriminate Hs |].
  assert (Hname : forall name,
            ConfigUpdateRequest.config_name configData = Some name ->
            name <> EmptyString).
  { intros name En ->. revert Hreq.
    unfold DatabaseClient.validation_errors. rewrite En.
    intros Hreq.
    repeat match type of Hreq with
           | (_ ++ _)%list = [] =>
               apply app_eq_nil in Hreq; destruct Hreq as [_ Hreq]
           end.
    discriminate Hreq. }
  exists row. split; [exact Hr |].
  set (db' := snd (DatabaseClient.saveConfiguration u configData db)) in *.
  assert (Hget : forall P : Prop,
            (table_ok db' -> In row (Database.rows db') ->
             ConfigurationRow.user_id row = u ->
             DatabaseClient.getConfigurationById (ConfigurationRow.id row) u
               db' = DatabaseResult.mk true (Some row) None -> P) -> P).
  { intros P HP.
    destruct Hcase
      as [(i & Ei & Erow) | (i & existing & c & _ & Hi & Hsel & Eu & Erow)];
      rewrite Erow in *;
      cbn [ConfigurationRow.config_name ConfigurationRow.rates
           ConfigurationRow.targets ConfigurationRow.id
           ConfigurationRow.user_id] in *.
    - apply HP.
      + eapply table_ok_insert; [exact Hok | exact Ei].
      + apply insert_config_inv in Ei. destruct Ei as (_ & _ & ->).
        cbn [Database.rows]. apply in_or_app. right. now left.
      + reflexivity.
      + exact (getById_after_insert _ _ _ _ Hok Hu Ei).
    - destruct (getById_after_update db _ _ _ _ Hu Hi Hsel Eu) as [_ Hg].
      apply HP.
      + eapply table_ok_update; [exact Hok | exact Eu].
      + apply update_config_inv in Eu. destruct Eu as (-> & _ & _).
        cbn [Database.rows]. apply in_map_iff. exists existing.
        apply select_by_id_some in Hsel. destruct Hsel as (Hin & Ei & Eus).
        split; [| exact Hin].
        now rewrite Ei, Eus, Z.eqb_refl, String.eqb_refl.
      + reflexivity.
      + exact Hg. }
  apply Hget. intros Hok' Hin Huser Hbyid.
  split; [exact Hin |]. split; [exact Huser |].
  split; [| split; [| split; [| split]]].
  - destruct Hcase as [(i & _ & ->) | (i & existing & c & _ & _ & _ & _ & ->)];
      cbn [ConfigurationRow.rates]; apply spread_rates_idempotent.
  - destruct Hcase as [(i & _ & ->) | (i & existing & c & _ & _ & _ & _ & ->)];
      cbn [ConfigurationRow.targets]; apply spread_targets_idempotent.
  - intros name En. specialize (Hname name En).
    destruct Hcase as [(i & _ & ->) | (i & existing & c & _ & _ & _ & _ & ->)];
      cbn [ConfigurationRow.config_name]; rewrite En.
    + now apply or_default_Some.
    + reflexivity.
  - rewrite Hr. exact Hbyid.
  - rewrite Hr. unfold DatabaseClient.getConfiguration. rewrite Hu.
    cbn [negb]. unfold DatabaseClient.select_config.
    destruct Hok' as (_ & _ & _ & Hnp).
    pose proof (find_unique _ _ Hnp Hin) as Hf. rewrite Huser in Hf.
    now rewrite Hf.
Qed.

Lemma table_ok_empty {num : Type} `{JSNumber num} :
  table_ok (empty_database (num := num)).
Proof. repeat split; (reflexivity || constructor || discriminate). Qed.

Lemma failed_save_changes_nothing_witness :
  let db := empty_database (num := Q) in
  let configData := sample_request (num_of_Z 1000) in
  (table_ok db
   /\ DatabaseResult.success
        (fst (DatabaseClient.saveConfiguration "user-7" configData db))
      = false)
  /\ snd (DatabaseClient.saveConfiguration "user-7" configData db) = db
  /\ DatabaseResult.data
       (fst (DatabaseClient.saveConfiguration "user-7" configData db)) = None.
Proof.
  intros db configData.
  assert (Hf : DatabaseResult.success
                 (fst (DatabaseClient.saveConfiguration "user-7" configData
                         db)) = false) by reflexivity.
  split; [exact (conj table_ok_empty Hf) |].
  exact (@failed_save_changes_nothing Q _ db "user-7" configData
           table_ok_empty Hf).
Defined.

Lemma saved_configuration_is_read_back_witness :
  let db := empty_database (num := Q) in
  let configData := sample_request (num_of_Z 60) in
  let res := fst (DatabaseClient.saveConfiguration "user-7" configData db) in
  let db' := snd (DatabaseClient.saveConfiguration "user-7" configData db) in
  (table_ok db /\ DatabaseResult.success res = true)
  /\ exists row,
       res = DatabaseResult.mk true (Some row) None
       /\ In row (Database.rows db')
       /\ ConfigurationRow.user_id row = "user-7"%string
       /\ DatabaseClient.spread_rates (ConfigurationRow.rates row) configData
          = ConfigurationRow.rates row
       /\ DatabaseClient.spread_targets (ConfigurationRow.targets row)
            configData
          = ConfigurationRow.targets row
       /\ (forall name,
             ConfigUpdateRequest.config_name configData = Some name ->
             ConfigurationRow.config_name row = name)
       /\ DatabaseClient.getConfigurationById (ConfigurationRow.id row)
            "user-7" db' = res
       /\ DatabaseClient.getConfiguration "user-7"
            (ConfigurationRow.config_name row) db'
          = (res, db').
Proof.
  intros db configData res db'.
  assert (Hs : DatabaseResult.success res = true) by reflexivity.
  split; [exact (conj table_ok_empty Hs) |].
  exact (@saved_configuration_is_read_back Q _ db "user-7" configData
           table_ok_empty Hs).
Defined.

(** ** The handlers of the configuration *)

(** X21. After a user has read the configuration, which creates the
    default one when there is none, a save that names no identifier and no
    configuration can only fail: whatever values it carries, the handler
    answers 500 with [Configuration 'default' already exists for user] and
    the table is as the read left it.  An update has to carry the
    identifier of the row. *)
Theorem save_without_id_after_read_fails {num : Type} `{JSNumber num}
    (db : Database.t num) (user : AuthContext.t)
    (configData : ConfigUpdateRequest.t num) :
  table_ok db ->
  trim (AuthContext.user_id user) <> EmptyString ->
  ConfigUpdateRequest.id configData = None ->
  ConfigUpdateRequest.config_name configData = None ->
  DatabaseClient.validation_errors configData = [] ->
  let db1 := snd (getConfigHandler (Some user) db) in
  saveConfigHandler (Some user) (Some configData) db1
  = (ApiResponse.mk false None
       (Some "Configuration 'default' already exists for user"%string) 500,
     db1).
Proof.
  intros Hok Hu Hid Hname Hreq. cbv zeta.
  assert (Hu' : string_truthy (trim (AuthContext.user_id user)) = true)
    by now apply string_truthy_iff.
  assert (Hg : AuthService.getUserId (Some user)
               = Some (AuthContext.user_id user)).
  { unfold AuthService.getUserId.
    destruct (AuthContext.user_id user); [| reflexivity].
    exfalso. apply Hu. reflexivity. }
  assert (Hd : "default"%string <> EmptyString) by discriminate.
  destruct (getConfiguration_twice (AuthContext.user_id user) Hok Hu' Hd)
    as (_ & Htaken & _).
  unfold getConfigHandler. rewrite Hg.
  destruct (DatabaseClient.getConfiguration (AuthContext.user_id user)
              "default" db) as [result db1].
  cbn [snd] in Htaken.
  assert (Edb : forall (b : bool)
                  (x y : ApiResponse.t (ConfigurationRow.t num)),
            snd (if b then (x, db1) else (y, db1)) = db1)
    by (intros []; reflexivity).
  rewrite Edb. unfold saveConfigHandler. rewrite Hg.
  unfold DatabaseClient.saveConfiguration. rewrite Hu'. cbn [negb].
  unfold DatabaseClient.validateConfigurationData. cbv zeta.
  rewrite Hreq, Hid.
  cbn [List.length Nat.ltb Nat.leb DatabaseResult.success negb].
  unfold DatabaseClient.createConfiguration. cbv zeta.
  rewrite Hname. cbn [or_default].
  unfold DatabaseClient.insert_config. rewrite Htaken.
  reflexivity.
Qed.

Lemma save_without_id_after_read_fails_witness :
  let db := empty_database (num := Q) in
  let configData := sample_request (num_of_Z 60) in
  let db1 := snd (getConfigHandler (Some sample_user) db) in
  (table_ok db
   /\ trim (AuthContext.user_id sample_user) <> EmptyString
   /\ ConfigUpdateRequest.id configData = None
   /\ ConfigUpdateRequest.config_name configData = None
   /\ DatabaseClient.validation_errors configData = [])
  /\ saveConfigHandler (Some sample_user) (Some configData) db1
     = (ApiResponse.mk false None
          (Some "Configuration 'default' already exists for user"%string)
          500,
        db1).
Proof.
  intros db configData db1.
  assert (H1 : trim (AuthContext.user_id sample_user) <> EmptyString)
    by discriminate.
  assert (H2 : ConfigUpdateRequest.id configData = None) by reflexivity.
  assert (H3 : ConfigUpdateRequest.config_name configData = None)
    by reflexivity.
  assert (H4 : DatabaseClient.validation_errors configData = [])
    by reflexivity.
  split; [exact (conj table_ok_empty (conj H1 (conj H2 (conj H3 H4)))) |].
  exact (@save_without_id_after_read_fails Q _ db sample_user configData
           table_ok_empty H1 H2 H3 H4).
Defined.

(** X22. The handler of [PUT /api/config] answers 200, 400, 401 or 500; it
    succeeds exactly when it answers 200, and answers 401 exactly when no
    user is set.  It answers 400 exactly for a body that is not JSON or,
    the identifier of the user not being blank, a request that fails the
    validation; the message then lists every violation, in the order of the
    checks, and the table is as it was. *)
Theorem saveConfigHandler_outcome {num : Type} `{JSNumber num}
    (user : option AuthContext.t)
    (body : option (ConfigUpdateRequest.t num)) (db : Database.t num) :
  let res := saveConfigHandler user body db in
  let r := fst res in
  In (ApiResponse.status r) [200; 400; 401; 500]%Z
  /\ (ApiResponse.success r = true <-> ApiResponse.status r = 200%Z)
  /\ (ApiResponse.status r = 401%Z <-> AuthService.getUserId user = None)
  /\ (ApiResponse.status r = 400%Z <->
      exists u,
        AuthService.getUserId user = Some u
        /\ (body = None
            \/ exists configData,
                 body = Some configData
                 /\ string_truthy (trim u) = true
                 /\ DatabaseClient.validation_errors configData <> []))
  /\ (forall u configData,
        AuthService.getUserId user = Some u ->
        body = Some configData ->
        string_truthy (trim u) = true ->
        DatabaseClient.validation_errors configData <> [] ->
        ApiResponse.error r
        = Some ("Configuration validation failed: "
                ++ join ", " (DatabaseClient.validation_errors configData))%string
        /\ snd res = db).
Proof.
  cbv zeta. unfold saveConfigHandler.
  destruct (AuthService.getUserId user) as [u |].
  2: { cbn. repeat split; try tauto; try discriminate.
       all: try (now intros (u & [=] & _)). }
  destruct body as [configData |].
  2: { cbn. repeat split; try tauto; try discriminate.
       all: try (intros _; exists u; split; [reflexivity | now left]). }
  pose proof (saveConfiguration_failure u configData db) as Hfail.
  assert (Hvalid : string_truthy (trim u) = true ->
            DatabaseClient.validation_errors configData <> [] ->
            DatabaseClient.saveConfiguration u configData db
            = (DatabaseClient.failure "VALIDATION_FAILED"
                 ("Configuration validation failed: "
                  ++ join ", "
                       (DatabaseClient.validation_errors configData))
                 "validateConfigurationData", db)).
  { intros Hu Hv. unfold DatabaseClient.saveConfiguration.
    rewrite Hu. cbn [negb].
    unfold DatabaseClient.validateConfigurationData. cbv zeta.
    destruct (DatabaseClient.validation_errors configData) as [| m ms];
      [now destruct Hv | reflexivity]. }
  destruct (DatabaseClient.saveConfiguration u configData db)
    as [result db'] eqn:Esave.
  cbn [fst] in Hfail.
  destruct (DatabaseResult.success result) eqn:Es; cbn [negb fst snd].
  { assert (Hnot : string_truthy (trim u) = true ->
              DatabaseClient.validation_errors configData <> [] -> False).
    { intros Hu Hv. specialize (Hvalid Hu Hv).
      injection Hvalid as -> ->. discriminate Es. }
    cbn [createApiResponse ApiResponse.status ApiResponse.success
         ApiResponse.error].
    split; [cbn; tauto |]. split; [now split |].
    split; [split; discriminate |]. split.
    - split; [discriminate |].
      intros (u' & [= <-] & [E | (c & [= <-] & Hu & Hv)]);
        [discriminate E | now destruct (Hnot Hu Hv)].
    - intros u' c [= <-] [= <-] Hu Hv. now destruct (Hnot Hu Hv). }
  destruct (Hfail eq_refl) as (e & -> & Hm & Hcode).
  cbn [DatabaseResult.error option_map createApiResponse ApiResponse.status
       ApiResponse.success ApiResponse.error].
  destruct (String.eqb (DatabaseErrorInfo.code e) "VALIDATION_FAILED")
    eqn:Ec.
  - destruct (proj1 Hcode eq_refl) as [Hu Hv].
    split; [cbn; tauto |]. split; [split; discriminate |].
    split; [split; discriminate |]. split.
    + split; [intros _ | reflexivity].
      exists u. split; [reflexivity |]. right. now exists configData.
    + intros u' c [= <-] [= <-] _ _.
      specialize (Hvalid Hu Hv). injection Hvalid as -> ->.
      split; reflexivity.
  - split; [cbn; tauto |]. split; [split; discriminate |].
    split; [split; discriminate |]. split.
    + split; [discriminate |].
      intros (u' & [= <-] & [E | (c & [= <-] & Hu & Hv)]);
        [discriminate E |].
      pose proof (proj2 Hcode (conj Hu Hv)). discriminate.
    + intros u' c [= <-] [= <-] Hu Hv.
      pose proof (proj2 Hcode (conj Hu Hv)). discriminate.
Qed.

(** X23. The handler of [GET /api/config], for a user whose identifier is
    not blank and on a table with the invariants, always answers 200 with a
    configuration named [default] of that user, inserting the default one
    when the user has none; and it is idempotent: a second read gives the
    same response and leaves the table as the first one left it. *)
Theorem getConfigHandler_idempotent {num : Type} `{JSNumber num}
    (db : Database.t num) (user : AuthContext.t) :
  table_ok db ->
  trim (AuthContext.user_id user) <> EmptyString ->
  let r := fst (getConfigHandler (Some user) db) in
  let db1 := snd (getConfigHandler (Some user) db) in
  (exists row,
     r = ApiResponse.mk true (Some row) None 200
     /\ In row (Database.rows db1)
     /\ ConfigurationRow.user_id row = AuthContext.user_id user
     /\ ConfigurationRow.config_name row = "default"%string)
  /\ getConfigHandler (Some user) db1 = (r, db1).
Proof.
  intros Hok Hu. cbv zeta.
  assert (Hu' : string_truthy (trim (AuthContext.user_id user)) = true)
    by now apply string_truthy_iff.
  assert (Hg : AuthService.getUserId (Some user)
               = Some (AuthContext.user_id user)).
  { unfold AuthService.getUserId.
    destruct (AuthContext.user_id user); [| reflexivity].
    exfalso. apply Hu. reflexivity. }
  assert (Hd : "default"%string <> EmptyString) by discriminate.
  destruct (getConfiguration_twice (AuthContext.user_id user) Hok Hu' Hd)
    as (_ & _ & Hagain & row & Hres & Hin & Eu & En).
  unfold getConfigHandler. rewrite Hg.
  destruct (DatabaseClient.getConfiguration (AuthContext.user_id user)
              "default" db) as [result db1].
  cbn [fst snd] in *. subst result.
  cbn [DatabaseResult.success negb fst snd DatabaseResult.data].
  rewrite Hagain. cbn [DatabaseResult.success negb DatabaseResult.data].
  split; [| reflexivity].
  exists row. now repeat split.
Qed.

Lemma getConfigHandler_idempotent_witness :
  let db := empty_database (num := Q) in
  let r := fst (getConfigHandler (Some sample_user) db) in
  let db1 := snd (getConfigHandler (Some sample_user) db) in
  (table_ok db /\ trim (AuthContext.user_id sample_user) <> EmptyString)
  /\ (exists row,
        r = ApiResponse.mk true (Some row) None 200
        /\ In row (Database.rows db1)
        /\ ConfigurationRow.user_id row = AuthContext.user_id sample_user
        /\ ConfigurationRow.config_name row = "default"%string)
  /\ getConfigHandler (Some sample_user) db1 = (r, db1).
Proof.
  intros db r db1.
  assert (H1 : trim (AuthContext.user_id sample_user) <> EmptyString)
    by discriminate.
  split; [exact (conj table_ok_empty H1) |].
  exact (@getConfigHandler_idempotent Q _ db sample_user table_ok_empty H1).
Defined.

(** ** The clients and the server *)

Lemma protectedRoute_no_header {num : Type} `{JSNumber num}
    (decodeHeader : string -> option JWTHeader.t)
    (decodePayload : string -> option (CloudflareAccessJWT.t num))
    (checkSignature : string -> JWTHeader.t -> SignatureCheck)
    (now : num) (notFinalizedMessage : string)
    (notFinalizedStack : option string)
    {A : Type} (app : App.t num) (method path : string)
    (handler : option AuthContext.t -> Database.t num
               -> ApiResponse.t A * Database.t num)
    (db : Database.t num) :
  String.eqb path "/api/health" = false ->
  startsWith "/api/debug" path = false ->
  protectedRoute decodeHeader decodePayload checkSignature now
    notFinalizedMessage notFinalizedStack app method path None handler db
  = (FromErrorHandler
       (createErrorHandler (App.config app) notFinalizedMessage
          notFinalizedStack path method), db).
Proof.
  intros Hp Hd. unfold protectedRoute, apiAuthentication.
  now rewrite Hp, Hd, andb_false_r.
Qed.

(** X24. The two clients as they are written send no [Authorization]
    header ([getAuthToken] returns null), so no request of theirs reaches
    a handler, in production and in development, whatever the file, the
    configuration and the table.  The authentication makes its response
    [Authorization header is required], which is not returned, and the
    routes of the upload and of the save are answered by the global error
    handler: status 500, in production with [Internal server error], and
    the table is left as it was.  The upload component therefore never
    reaches the state [success]; in production, when its own two checks
    pass and the response arrives, it ends with the error of type
    [processing], the message [Internal server error], and the offer to
    retry.  The panel ends in the state [error]. *)
Theorem clients_are_refused {num : Type} `{JSNumber num}
    (toFixed2 : num -> string) (parseFloat parseInt : string -> num)
    (decodeHeader : string -> option JWTHeader.t)
    (decodePayload : string -> option (CloudflareAccessJWT.t num))
    (checkSignature : string -> JWTHeader.t -> SignatureCheck)
    (now : num) (notFinalizedMessage : string)
    (notFinalizedStack : option string)
    (app : App.t num) (db : Database.t num) :
  let unhandled (A : Type) (method path : string) : Answer A :=
    FromErrorHandler
      (createErrorHandler (App.config app) notFinalizedMessage
         notFinalizedStack path method) in
  let upload auth form :=
    csvProcessRoute toFixed2 parseFloat parseInt decodeHeader decodePayload
      checkSignature now notFinalizedMessage notFinalizedStack app auth
      form db in
  let save auth body :=
    saveConfigRoute decodeHeader decodePayload checkSignature now
      notFinalizedMessage notFinalizedStack app auth body db in
  (forall form,
     upload FileUpload.authorization form
     = (unhandled _ "POST" "/api/csv/process", db)%string)
  /\ (forall body,
        save ConfigurationPanel.authorization body
        = (unhandled _ "PUT" "/api/config", db)%string)
  /\ (forall (A : Type) method path,
        ApiResponse.status (as_response (unhandled A method path)) = 500%Z
        /\ ApiResponse.success (as_response (unhandled A method path))
           = false
        /\ (AppConfig.isDevelopment (App.config app) = false ->
            as_response (unhandled A method path)
            = ApiResponse.mk false None
                (Some "Internal server error"%string) 500))
  /\ (forall formatFileSize statusText transport file maxFileSize,
        exists e,
          FileUpload.processFile formatFileSize statusText
            (fun auth form => as_response (fst (upload auth form)))
            transport file maxFileSize = FileUpload.Failed e
          /\ (AppConfig.isDevelopment (App.config app) = false ->
              FileValidationResult.isValid
                (FileUpload.validateFile formatFileSize (Some file)
                   maxFileSize) = true ->
              FileValidationResult.isValid
                (FileUpload.validateCSVStructure (BrowserFile.text file))
              = true ->
              transport = Loaded ->
              e = UploadError.mk "processing"
                    (Some "Internal server error"%string) true))
  /\ (forall localConfig,
        ConfigurationPanel.saveConfiguration
          (fun auth body => Some (as_response (fst (save auth body))))
          localConfig
        = (SaveState.error, None)).
Proof.
  cbv zeta.
  assert (Hup : forall form,
            csvProcessRoute toFixed2 parseFloat parseInt decodeHeader
              decodePayload checkSignature now notFinalizedMessage
              notFinalizedStack app None form db
            = (FromErrorHandler
                 (createErrorHandler (App.config app) notFinalizedMessage
                    notFinalizedStack "/api/csv/process" "POST"), db))
    by (intros form; apply protectedRoute_no_header; reflexivity).
  assert (Hsave : forall body,
            saveConfigRoute decodeHeader decodePayload checkSignature now
              notFinalizedMessage notFinalizedStack app None body db
            = (FromErrorHandler
                 (createErrorHandler (App.config app) notFinalizedMessage
                    notFinalizedStack "/api/config" "PUT"), db))
    by (intros body; apply protectedRoute_no_header; reflexivity).
  split; [exact Hup |]. split; [exact Hsave |]. split; [| split].
  - intros A method path. unfold createErrorHandler. cbn [as_response
      ApiResponse.status ApiResponse.success ApiResponse.error].
    repeat (split; [reflexivity |]). intros ->. reflexivity.
  - intros formatFileSize statusText transport file maxFileSize.
    unfold FileUpload.processFile. cbv zeta.
    destruct (FileValidationResult.isValid
                (FileUpload.validateFile formatFileSize (Some file)
                   maxFileSize)); cbn [negb];
      [| eexists; split; [reflexivity | discriminate]].
    destruct (FileValidationResult.isValid
                (FileUpload.validateCSVStructure (BrowserFile.text file)));
      cbn [negb]; [| eexists; split; [reflexivity | discriminate]].
    unfold FileUpload.uploadFile.
    destruct transport.
    + change FileUpload.authorization with (@None string). rewrite Hup.
      unfold createErrorHandler.
      cbn [fst as_response ApiResponse.status ApiResponse.error
           ApiResponse.success Z.leb Z.ltb Z.compare
           Pos.compare Pos.compare_cont andb or_default].
      eexists. split; [reflexivity |]. intros -> _ _ _. reflexivity.
    + eexists. split; [reflexivity |]. intros _ _ _ [=].
    + eexists. split; [reflexivity |]. intros _ _ _ [=].
  - intros localConfig. unfold ConfigurationPanel.saveConfiguration.
    destruct (negb _); [reflexivity |].
    change ConfigurationPanel.authorization with (@None string).
    rewrite Hsave. unfold createErrorHandler. reflexivity.
Qed.

(** X25. What the upload component checks of a file and what the server
    checks agree: for the same maximal size, [validateFile] of the
    component accepts a file exactly when [validateCSVFile] of the server
    accepts it as the form carries it. *)
Theorem client_file_check_agrees {num : Type} `{JSNumber num}
    (formatFileSize toFixed2 : num -> string)
    (file : BrowserFile.t num) (maxSize : num) :
  FileValidationResult.isValid
    (FileUpload.validateFile formatFileSize (Some file) maxSize)
  = FileValidation.valid
      (validateCSVFile toFixed2 (Some (FileUpload.form_file file)) maxSize).
Proof.
  unfold FileUpload.validateFile, validateCSVFile, FileUpload.form_file.
  cbn [File.size File.name].
  destruct (num_ltb maxSize (BrowserFile.size file)); [reflexivity |].
  cbv zeta.
  replace (if string_truthy (toLowerCase (BrowserFile.name file))
           then toLowerCase (BrowserFile.name file) else EmptyString)
    with (toLowerCase (BrowserFile.name file)).
  - change FileUpload.ALLOWED_EXTENSIONS with allowedTypes.
    destruct (existsb _ allowedTypes); reflexivity.
  - unfold string_truthy.
    destruct (String.eqb_spec (toLowerCase (BrowserFile.name file))
                EmptyString) as [-> | _]; reflexivity.
Qed.

Lemma requiredColumns_lower :
  Forall (fun c => toLowerCase c = c) requiredColumns.
Proof. repeat constructor. Qed.

(** X26. The header check of the upload component is weaker than that of
    the server: a text that the server does not reject as a whole (two
    lines that are not blank, no required column missing from the header)
    passes [validateCSVStructure].  (The converse fails: the component
    compares the headers in lower case, the server as they are.) *)
Theorem server_header_check_implies_client (content : string) :
  (2 <= List.length (lines_of content))%nat ->
  missingColumns (cells_of (hd EmptyString (lines_of content))) = [] ->
  FileValidationResult.isValid (FileUpload.validateCSVStructure content)
  = true.
Proof.
  intros Hl Hm. unfold FileUpload.validateCSVStructure. cbv zeta.
  apply Nat.ltb_ge in Hl. rewrite Hl.
  set (headers := map (fun h => toLowerCase (remove_quotes (trim h)))
                    (split "," (hd EmptyString (lines_of content)))).
  assert (E : filter (fun required =>
                negb (array_includes (toLowerCase required) headers))
                FileUpload.REQUIRED_CSV_HEADERS = []).
  { unfold FileUpload.REQUIRED_CSV_HEADERS. apply filter_nil_iff.
    intros col Hcol. apply negb_false_iff, array_includes_In.
    assert (Hin : In col (cells_of (hd EmptyString (lines_of content))))
      by (revert Hm Hcol; unfold missingColumns; apply missing_nil_In).
    rewrite (proj1 (Forall_forall _ _) requiredColumns_lower col Hcol).
    unfold cells_of in Hin. apply in_map_iff in Hin.
    destruct Hin as (v & <- & Hv).
    unfold headers. apply in_map_iff. exists v. split; [| exact Hv].
    change (toLowerCase (remove_quotes (trim v)) = remove_quotes (trim v)).
    rewrite <- (proj1 (Forall_forall _ _) requiredColumns_lower _ Hcol)
      at 2.
    reflexivity. }
  rewrite E. reflexivity.
Qed.

(** ** The panel and the server *)

Lemma string_truthy_app_char (a : string) (c : ascii) (b : string) :
  string_truthy (a ++ String c b) = true.
Proof. apply string_truthy_iff. destruct a; discriminate. Qed.

Section PanelFacts.

Context {num : Type} `{JSNumber num}.

Local Open Scope num_scope.

(** A field without an error of the panel: the value is a number within
    the limits of the field. *)
Lemma validateField_no_error (field : ConfigField.t num) (value : num) :
  match FieldValidation.error
          (ConfigurationPanel.validateField field value) with
  | Some m => if string_truthy m then [(ConfigField.key field, m)] else []
  | None => []
  end = [] ->
  isNaN value = false
  /\ (value <? num_of_Z (ConfigField.min field))
     || (value >? num_of_Z (ConfigField.max field)) = false.
Proof.
  unfold ConfigurationPanel.validateField. cbv zeta.
  destruct (isNaN value).
  - cbn [FieldValidation.error].
    change (ConfigField.label field ++ " is required")%string
      with (ConfigField.label field ++ String " " "is required")%string.
    now rewrite string_truthy_app_char.
  - destruct (_ || _); [| now split].
    cbn [FieldValidation.error].
    change (ConfigField.label field ++ " must be between "
            ++ string_of_Z (ConfigField.min field) ++ " and "
            ++ string_of_Z (ConfigField.max field) ++ " "
            ++ ConfigField.unit field)%string
      with (ConfigField.label field
            ++ String " " ("must be between "
                 ++ string_of_Z (ConfigField.min field) ++ " and "
                 ++ string_of_Z (ConfigField.max field) ++ " "
                 ++ ConfigField.unit field))%string.
    now rewrite string_truthy_app_char.
Qed.

Lemma fields_no_error (config : ConfigurationRow.t num)
    (fields : list (ConfigField.t num)) :
  flat_map
    (fun field =>
       match FieldValidation.error
               (ConfigurationPanel.validateField field
                  (ConfigField.read field config)) with
       | Some m => if string_truthy m then [(ConfigField.key field, m)] else []
       | None => []
       end) fields = [] ->
  Forall (fun field =>
            (ConfigField.read field config
               <? num_of_Z (ConfigField.min field))
            || (ConfigField.read field config
                  >? num_of_Z (ConfigField.max field)) = false)
    fields.
Proof.
  induction fields as [| f l IH]; cbn [flat_map]; [constructor |].
  intros [Hf Hl]%app_eq_nil. constructor; [| now apply IH].
  now apply validateField_no_error in Hf.
Qed.

(** What the panel accepts, the range checks of the server accept. *)
Lemma panel_valid_ranges (config : ConfigurationRow.t num) :
  ValidationState.isValid (ConfigurationPanel.validateConfiguration config)
  = true ->
  forall tail,
    DatabaseClient.validation_errors
      (ConfigurationPanel.request_of config) = tail ->
    tail
    = (let name :=
         or_default (Some (ConfigurationRow.config_name config)) "default" in
       if negb (string_truthy (trim name))
       then ["config_name cannot be empty"%string]
       else if Nat.ltb 50 (String.length name)
       then ["config_name must be 50 characters or less"%string]
       else []).
Proof.
  unfold ConfigurationPanel.validateConfiguration. cbv zeta.
  cbn [ValidationState.isValid]. intros Hv%Nat.eqb_eq%length_zero_iff_nil.
  apply fields_no_error in Hv.
  cbv [ConfigurationPanel.CONFIG_SECTIONS flat_map snd app] in Hv.
  repeat match type of Hv with
         | Forall _ (_ :: _) =>
             let Hx := fresh "Hx" in
             apply Forall_cons_iff in Hv; destruct Hv as [Hx Hv];
             cbn [ConfigField.read ConfigField.min ConfigField.max] in Hx
         end.
  intros tail <-.
  unfold DatabaseClient.validation_errors, ConfigurationPanel.request_of.
  cbv zeta.
  cbn [ConfigUpdateRequest.tech_base ConfigUpdateRequest.supervisor_base
       ConfigUpdateRequest.specialist_base
       ConfigUpdateRequest.project_management_base
       ConfigUpdateRequest.large_dehumidifier_daily
       ConfigUpdateRequest.standard_dehumidifier_daily
       ConfigUpdateRequest.air_mover_daily ConfigUpdateRequest.heater_daily
       ConfigUpdateRequest.air_scrubber_daily
       ConfigUpdateRequest.injection_system_daily
       ConfigUpdateRequest.generator_daily
       ConfigUpdateRequest.hardwood_target_mc
       ConfigUpdateRequest.paneling_target_mc
       ConfigUpdateRequest.vinyl_target_mc
       ConfigUpdateRequest.drywall_target_mc
       ConfigUpdateRequest.carpet_target_mc
       ConfigUpdateRequest.config_name].
  unfold DatabaseClient.check_provided, check_rate.
  repeat match goal with
         | Hx : _ || _ = false |- _ => rewrite Hx; clear Hx
         end.
  reflexivity.
Qed.

End PanelFacts.

(** X27. The panel is at least as strict as the server on the sixteen
    values: a configuration that [validateConfiguration] of the panel
    accepts, sent as the panel sends it, passes
    [validateConfigurationData] of the server as soon as the name sent is
    not blank and has at most 50 characters.  (The converse fails: the
    panel refuses NaN, which the comparisons of the server let through.) *)
Theorem panel_valid_passes_server {num : Type} `{JSNumber num}
    (localConfig : ConfigurationRow.t num) :
  let name :=
    or_default (Some (ConfigurationRow.config_name localConfig)) "default" in
  ValidationState.isValid
    (ConfigurationPanel.validateConfiguration localConfig) = true ->
  trim name <> EmptyString ->
  (String.length name <= 50)%nat ->
  DatabaseClient.validateConfigurationData
    (ConfigurationPanel.request_of localConfig)
  = DatabaseResult.mk true (Some true) None.
Proof.
  cbv zeta. intros Hv Hn Hl.
  unfold DatabaseClient.validateConfigurationData. cbv zeta.
  rewrite (panel_valid_ranges _ Hv eq_refl). cbv zeta.
  apply string_truthy_iff in Hn. rewrite Hn. cbn [negb].
  apply Nat.ltb_ge in Hl. rewrite Hl. reflexivity.
Qed.

(** X28. The panel cannot save a configuration that the table already
    has, even for a request that passes the authentication: the body it
    sends carries the name and never the identifier, so the server takes
    the save for a creation.  For a user with a row of the name in the
    table and a configuration of that name that the panel accepts, the
    handler answers 500 with [Configuration '<name>' already exists for
    user], the table is unchanged, and the panel ends in the state
    [error]. *)
Theorem panel_save_conflicts {num : Type} `{JSNumber num}
    (db : Database.t num) (user : AuthContext.t)
    (row localConfig : ConfigurationRow.t num) :
  let name := ConfigurationRow.config_name localConfig in
  trim (AuthContext.user_id user) <> EmptyString ->
  In row (Database.rows db) ->
  ConfigurationRow.user_id row = AuthContext.user_id user ->
  ConfigurationRow.config_name row = name ->
  trim name <> EmptyString ->
  (String.length name <= 50)%nat ->
  ValidationState.isValid
    (ConfigurationPanel.validateConfiguration localConfig) = true ->
  saveConfigHandler (Some user)
    (Some (ConfigurationPanel.request_of localConfig)) db
  = (ApiResponse.mk false None
       (Some ("Configuration '" ++ name ++ "' already exists for user")%string)
       500, db)
  /\ ConfigurationPanel.saveConfiguration
       (fun _ body => Some (fst (saveConfigHandler (Some user) body db)))
       localConfig
     = (SaveState.error, None).
Proof.
  cbv zeta. intros Hu Hr Eu En Hn Hl Hv.
  assert (Hu' : string_truthy (trim (AuthContext.user_id user)) = true)
    by now apply string_truthy_iff.
  assert (Hg : AuthService.getUserId (Some user)
               = Some (AuthContext.user_id user)).
  { unfold AuthService.getUserId.
    destruct (AuthContext.user_id user); [| reflexivity].
    exfalso. apply Hu. reflexivity. }
  assert (Hname : or_default
                    (Some (ConfigurationRow.config_name localConfig))
                    "default"
                  = ConfigurationRow.config_name localConfig).
  { unfold or_default.
    destruct (ConfigurationRow.config_name localConfig);
      [exfalso; apply Hn |]; reflexivity. }
  assert (Hdata : DatabaseClient.validateConfigurationData
                    (ConfigurationPanel.request_of localConfig)
                  = DatabaseResult.mk true (Some true) None).
  { unfold DatabaseClient.validateConfigurationData. cbv zeta.
    rewrite (panel_valid_ranges _ Hv eq_refl). cbv zeta.
    rewrite Hname. apply string_truthy_iff in Hn. rewrite Hn. cbn [negb].
    apply Nat.ltb_ge in Hl. rewrite Hl. reflexivity. }
  assert (Hsave : saveConfigHandler (Some user)
                    (Some (ConfigurationPanel.request_of localConfig)) db
                  = (ApiResponse.mk false None
                       (Some ("Configuration '"
                              ++ ConfigurationRow.config_name localConfig
                              ++ "' already exists for user")%string)
                       500, db)).
  { unfold saveConfigHandler. rewrite Hg.
    unfold DatabaseClient.saveConfiguration. rewrite Hu'. cbn [negb].
    rewrite Hdata. cbn [DatabaseResult.success negb].
    change (ConfigUpdateRequest.id
              (ConfigurationPanel.request_of localConfig))
      with (@None Z).
    unfold DatabaseClient.createConfiguration. cbv zeta.
    change (ConfigUpdateRequest.config_name
              (ConfigurationPanel.request_of localConfig))
      with (Some (or_default
                    (Some (ConfigurationRow.config_name localConfig))
                    "default")).
    rewrite !Hname.
    unfold DatabaseClient.insert_config.
    rewrite (@name_taken_In _ db (AuthContext.user_id user)
               (ConfigurationRow.config_name localConfig) row Hr Eu En).
    reflexivity. }
  split; [exact Hsave |].
  unfold ConfigurationPanel.saveConfiguration. rewrite Hv. cbn [negb].
  now rewrite Hsave.
Qed.

Lemma panel_save_conflicts_witness :
  let db := snd (getConfigHandler (Some sample_user)
                   (empty_database (num := Q))) in
  let row :=
    ConfigurationRow.mk 1 (AuthContext.user_id sample_user) "default"
      DEFAULT_CONFIGURATION DatabaseClient.DEFAULT_TARGETS in
  let localConfig :=
    ConfigurationRow.mk 1 (AuthContext.user_id sample_user) "default"
      (DatabaseClient.spread_rates DEFAULT_CONFIGURATION
         (sample_request (num_of_Z 60)))
      DatabaseClient.DEFAULT_TARGETS in
  (trim (AuthContext.user_id sample_user) <> EmptyString
   /\ In row (Database.rows db)
   /\ ConfigurationRow.user_id row = AuthContext.user_id sample_user
   /\ ConfigurationRow.config_name row
      = ConfigurationRow.config_name localConfig
   /\ trim (ConfigurationRow.config_name localConfig) <> EmptyString
   /\ (String.length (ConfigurationRow.config_name localConfig) <= 50)%nat
   /\ ValidationState.isValid
        (ConfigurationPanel.validateConfiguration localConfig) = true)
  /\ saveConfigHandler (Some sample_user)
       (Some (ConfigurationPanel.request_of localConfig)) db
     = (ApiResponse.mk false None
          (Some ("Configuration '"
                 ++ ConfigurationRow.config_name localConfig
                 ++ "' already exists for user")%string)
          500, db).
Proof.
  intros db row localConfig.
  assert (H1 : trim (AuthContext.user_id sample_user) <> EmptyString)
    by (vm_compute; discriminate).
  assert (H2 : In row (Database.rows db))
    by (vm_compute; left; reflexivity).
  assert (H5 : trim (ConfigurationRow.config_name localConfig)
               <> EmptyString) by (vm_compute; discriminate).
  assert (H6 : (String.length (ConfigurationRow.config_name localConfig)
                <= 50)%nat) by (vm_compute; lia).
  assert (H7 : ValidationState.isValid
                 (ConfigurationPanel.validateConfiguration localConfig)
               = true)
    by (vm_compute; reflexivity).
  split.
  - exact (conj H1 (conj H2 (conj eq_refl (conj eq_refl
             (conj H5 (conj H6 H7)))))).
  - exact (proj1 (panel_save_conflicts db sample_user row localConfig
                    H1 H2 eq_refl eq_refl H5 H6 H7)).
Defined.

Lemma panel_valid_passes_server_witness :
  let localConfig :=
    ConfigurationRow.mk (num := Q) 1 "user-1" "default"
      (DatabaseClient.spread_rates DEFAULT_CONFIGURATION
         (sample_request (num_of_Z 60)))
      DatabaseClient.DEFAULT_TARGETS in
  let name :=
    or_default (Some (ConfigurationRow.config_name localConfig)) "default" in
  (ValidationState.isValid
     (ConfigurationPanel.validateConfiguration localConfig) = true
   /\ trim name <> EmptyString
   /\ (String.length name <= 50)%nat)
  /\ DatabaseClient.validateConfigurationData
       (ConfigurationPanel.request_of localConfig)
     = DatabaseResult.mk true (Some true) None.
Proof.
  intros localConfig name.
  assert (H1 : ValidationState.isValid
                 (ConfigurationPanel.validateConfiguration localConfig)
               = true) by (vm_compute; reflexivity).
  assert (H2 : trim name <> EmptyString) by (vm_compute; discriminate).
  assert (H3 : (String.length name <= 50)%nat) by (vm_compute; lia).
  split.
  - exact (conj H1 (conj H2 H3)).
  - exact (panel_valid_passes_server localConfig H1 H2 H3).
Defined.

Lemma server_header_check_implies_client_witness :
  let content := sample_csv in
  ((2 <= List.length (lines_of content))%nat
   /\ missingColumns (cells_of (hd EmptyString (lines_of content))) = [])
  /\ FileValidationResult.isValid (FileUpload.validateCSVStructure content)
     = true.
Proof.
  intros content.
  assert (H1 : (2 <= List.length (lines_of content))%nat)
    by (vm_compute; lia).
  assert (H2 : missingColumns (cells_of (hd EmptyString (lines_of content)))
               = []) by (vm_compute; reflexivity).
  split.
  - exact (conj H1 H2).
  - exact (server_header_check_implies_client content H1 H2).
Defined.

(** The component compares the headers in lower case, the server as they
    are: a header in capitals passes the one and not the other. *)
Example capital_header_passes_client_only :
  let content :=
    (String "C" (substring 1 (String.length sample_header) sample_header)
     ++ String LF sample_line)%string in
  FileValidationResult.isValid (FileUpload.validateCSVStructure content)
  = true
  /\ missingColumns (cells_of (hd EmptyString (lines_of content))) <> [].
Proof. vm_compute. split; [reflexivity | discriminate]. Qed.

(** The panel refuses a value that is not a number; the comparisons of the
    server let it through. *)
Example nan_passes_server_only :
  let localConfig :=
    ConfigurationRow.mk (num := float) 1 "user-1" "default"
      (DatabaseClient.spread_rates DEFAULT_CONFIGURATION
         (sample_request PrimFloat.nan))
      DatabaseClient.DEFAULT_TARGETS in
  ValidationState.isValid
    (ConfigurationPanel.validateConfiguration localConfig) = false
  /\ DatabaseClient.validateConfigurationData
       (ConfigurationPanel.request_of localConfig)
     = DatabaseResult.mk true (Some true) None.
Proof. vm_compute. split; reflexivity. Qed.

(** ** Deleting a configuration *)

Section DeleteFacts.

Context {num : Type} `{JSNumber num}.

Local Abbreviation Row := (ConfigurationRow.t num).

Lemma filter_hit_le_1 (i : Z) (p : Row -> bool) (l : list Row) :
  NoDup (map (@ConfigurationRow.id num) l) ->
  (List.length
     (filter (fun r => Z.eqb (ConfigurationRow.id r) i && p r) l) <= 1)%nat.
Proof.
  induction l as [| a l IH]; cbn [map filter List.length]; [lia |].
  intros Hn. inversion Hn as [| ? ? Ha Hl]; subst.
  destruct (Z.eqb_spec (ConfigurationRow.id a) i) as [E |]; cbn [andb];
    [| now apply IH].
  assert (E0 : filter (fun r => Z.eqb (ConfigurationRow.id r) i && p r) l
               = []).
  { apply filter_nil_iff. intros r Hr.
    destruct (Z.eqb_spec (ConfigurationRow.id r) i) as [Er |];
      [| reflexivity].
    exfalso. apply Ha. rewrite E, <- Er. now apply in_map. }
  destruct (p a); cbn [List.length]; rewrite E0; cbn [List.length]; lia.
Qed.

Lemma filter_user_split (i : Z) (u : string) (l : list Row) :
  List.length
    (filter (fun r => String.eqb (ConfigurationRow.user_id r) u) l)
  = (List.length
       (filter (fun r => String.eqb (ConfigurationRow.user_id r) u)
          (filter (fun r => negb (Z.eqb (ConfigurationRow.id r) i
                                  && String.eqb (ConfigurationRow.user_id r)
                                       u)) l))
     + List.length
         (filter (fun r => Z.eqb (ConfigurationRow.id r) i
                           && String.eqb (ConfigurationRow.user_id r) u) l))%nat.
Proof.
  induction l as [| a l IH]; [reflexivity |]. cbn [filter].
  destruct (Z.eqb (ConfigurationRow.id a) i);
    destruct (String.eqb (ConfigurationRow.user_id a) u) eqn:Eu;
    cbn [andb negb filter List.length]; rewrite ?Eu; cbn [List.length];
    rewrite IH; lia.
Qed.

Lemma filter_none_same (p : Row -> bool) (l : list Row) :
  List.length (filter p l) = 0%nat -> filter (fun r => negb (p r)) l = l.
Proof.
  induction l as [| a l IH]; [reflexivity |]. cbn [filter].
  destruct (p a); cbn [List.length negb]; [discriminate |].
  intros Hl. now rewrite IH.
Qed.

Lemma find_filter_negb (p : Row -> bool) (l : list Row) :
  find p (filter (fun r => negb (p r)) l) = None.
Proof.
  induction l as [| a l IH]; [reflexivity |]. cbn [filter].
  destruct (p a) eqn:Ep; cbn [negb]; [exact IH |].
  cbn [find]. now rewrite Ep.
Qed.

Lemma filter_filter_negb (p : Row -> bool) (l : list Row) :
  filter p (filter (fun r => negb (p r)) l) = [].
Proof.
  apply filter_nil_iff. intros r [_ Hr]%filter_In.
  now apply negb_true_iff in Hr.
Qed.

Lemma find_none_filter (p : Row -> bool) (l : list Row) :
  find p l = None -> List.length (filter p l) = 0%nat.
Proof.
  induction l as [| a l IH]; [reflexivity |]. cbn [find filter].
  destruct (p a); [discriminate | exact IH].
Qed.

Lemma find_some_filter (p : Row -> bool) (l : list Row) (r : Row) :
  find p l = Some r -> List.length (filter p l) <> 0%nat.
Proof.
  induction l as [| a l IH]; [discriminate |]. cbn [find filter].
  destruct (p a); [discriminate | exact IH].
Qed.

End DeleteFacts.

(** X29. [deleteConfiguration] on a table with distinct identifiers.  For
    a user that is not blank and an identifier above zero it answers
    success, also when no row was removed: it tests [result.changes], which
    the result of the statement does not have, and so never answers
    CONFIG_NOT_FOUND.  After it the row is gone: [getConfigurationById] for
    the identifier fails with CONFIG_NOT_FOUND, the table is the one before
    without the row of the user with the identifier, the user has exactly
    one configuration less by [getConfigurationCount] when the row was
    there and the table is as it was when it was not, and deleting again
    answers success and changes nothing.  When it fails, the table is as it
    was. *)
Theorem deleted_configuration_is_gone {num : Type} `{JSNumber num}
    (db : Database.t num) (configId : Z) (userId : string) :
  table_ok db ->
  let res := fst (DatabaseClient.deleteConfiguration configId userId db) in
  let db' := snd (DatabaseClient.deleteConfiguration configId userId db) in
  let count d :=
    DatabaseResult.data (DatabaseClient.getConfigurationCount userId d) in
  let found d :=
    DatabaseResult.success
      (DatabaseClient.getConfigurationById configId userId d) in
  (trim userId <> EmptyString -> (0 < configId)%Z ->
   res = DatabaseResult.mk true (Some true) None)
  /\ (DatabaseResult.success res = true ->
      found db' = false
      /\ option_map DatabaseErrorInfo.code
           (DatabaseResult.error
              (DatabaseClient.getConfigurationById configId userId db'))
         = Some "CONFIG_NOT_FOUND"%string
      /\ Database.rows db'
         = filter (fun r => negb (Z.eqb (ConfigurationRow.id r) configId
                                  && String.eqb (ConfigurationRow.user_id r)
                                       userId))
             (Database.rows db)
      /\ (found db = true ->
          exists n, count db = Some (S n) /\ count db' = Some n)
      /\ (found db = false -> db' = db)
      /\ DatabaseClient.deleteConfiguration configId userId db'
         = (DatabaseResult.mk true (Some true) None, db'))
  /\ (DatabaseResult.success res = false -> db' = db)
  /\ (forall e, DatabaseResult.error res = Some e ->
      DatabaseErrorInfo.code e <> "CONFIG_NOT_FOUND"%string).
Proof.
  intros (_ & _ & Hnd & _). cbv zeta.
  unfold DatabaseClient.deleteConfiguration,
    DatabaseClient.getConfigurationCount,
    DatabaseClient.getConfigurationById, DatabaseClient.select_config_by_id.
  destruct (string_truthy (trim userId)) eqn:Hu; cbn [negb fst snd].
  2: { split; [intros Hne%string_truthy_iff; congruence |].
       split; [discriminate |]. split; [reflexivity |].
       intros e [= <-]. discriminate. }
  destruct (Z.eqb configId 0 || Z.leb configId 0) eqn:Hi; cbn [fst snd].
  { split.
    - intros _ Hpos. apply orb_true_iff in Hi.
      destruct Hi as [Hi%Z.eqb_eq | Hi%Z.leb_le]; lia.
    - split; [discriminate |]. split; [reflexivity |].
      intros e [= <-]. discriminate. }
  unfold DatabaseClient.delete_config. cbv zeta.
  cbn [strictly_zero D1Result.changes fst snd Database.rows
       Database.last_row_id DatabaseResult.success DatabaseResult.error].
  pose (hit := fun r : ConfigurationRow.t num =>
                 Z.eqb (ConfigurationRow.id r) configId
                 && String.eqb (ConfigurationRow.user_id r) userId).
  pose proof (@filter_hit_le_1 num configId
                (fun r => String.eqb (ConfigurationRow.user_id r) userId)
                (Database.rows db) Hnd) as Hle.
  pose proof (@filter_user_split num configId userId (Database.rows db))
    as Hsplit.
  pose proof (@filter_none_same num hit (Database.rows db)) as Hsame.
  pose proof (@find_filter_negb num hit (Database.rows db)) as Hfind.
  pose proof (@filter_filter_negb num hit (Database.rows db)) as Hfilter.
  pose proof (@find_none_filter num hit (Database.rows db)) as Hnone.
  pose proof (@find_some_filter num hit (Database.rows db)) as Hsome.
  pose proof (@filter_none_same num hit
                (filter (fun r => negb (hit r)) (Database.rows db)))
    as Hagain.
  rewrite Hfilter in Hagain. specialize (Hagain eq_refl).
  cbv beta delta [hit] in Hle, Hsplit, Hsame, Hfind, Hnone, Hsome, Hagain.
  clear hit Hfilter.
  split; [reflexivity |]. split; [| split; [discriminate | discriminate]].
  intros _. rewrite Hfind, Hagain.
  cbn [DatabaseResult.success DatabaseResult.error DatabaseClient.failure
       option_map DatabaseErrorInfo.code DatabaseResult.data].
  repeat (split; [reflexivity |]). split; [| split; [| reflexivity]].
  - destruct (find _ (Database.rows db)) as [r |] eqn:Ef; [| discriminate].
    intros _. specialize (Hsome r eq_refl).
    eexists. split; [| reflexivity]. f_equal. lia.
  - destruct (find _ (Database.rows db)) as [r |] eqn:Ef; [discriminate |].
    intros _. rewrite (Hsame (Hnone eq_refl)). now destruct db.
Qed.

Lemma deleted_configuration_is_gone_witness :
  let db := snd (getConfigHandler (Some sample_user)
                   (empty_database (num := Q))) in
  let userId := AuthContext.user_id sample_user in
  let db' := snd (DatabaseClient.deleteConfiguration 1 userId db) in
  table_ok db
  /\ DatabaseResult.success
       (fst (DatabaseClient.deleteConfiguration 1 userId db)) = true
  /\ DatabaseResult.success
       (DatabaseClient.getConfigurationById 1 userId db') = false
  /\ DatabaseClient.deleteConfiguration 1 userId db'
     = (DatabaseResult.mk true (Some true) None, db').
Proof.
  intros db userId db'.
  assert (Hok : table_ok db).
  { vm_compute. split; [discriminate |]. split.
    - constructor; [split; [reflexivity | discriminate] | constructor].
    - split; (constructor; [intros [] | constructor]). }
  assert (Hs : DatabaseResult.success
                 (fst (DatabaseClient.deleteConfiguration 1 userId db))
               = true) by (vm_compute; reflexivity).
  split; [exact Hok |]. split; [exact Hs |].
  destruct (proj1 (proj2 (@deleted_configuration_is_gone Q _ db 1 userId
                            Hok)) Hs)
    as (Hgone & _ & _ & _ & _ & Hagain).
  split; [exact Hgone | exact Hagain].
Defined.
